(** * Resumable export of spreadsheet rows to a remote task service

    Shallow embedding of the Apps Script sources of the repository:
    - the single-sheet batch pipeline with its execution report
      ([createTasksFromCurrentSheet], [continueProcess],
      [getTaskListIdByName], [createTrigger], [deleteExistingTriggers]);
    - the all-sheets batch pipeline ([createTasksFromAllSheets] and its
      [continueProcess]), in the module [AllSheets];
    - the import ([importJsonToSheet]), in the module [JsonImport];
    - the simple exporter ([createTasksFromSheet], [getTaskListByName]),
      in the modules [SimpleExporter] and [SimpleScript].
    Definitions come first, the properties proved of them follow.

    Conventions of the embedding
    - JS objects used as maps (the list-name cache, the report) are
      [gmap string _], the entries of the object itself; the names that
      every object inherits from [Object.prototype] are [inherited].
      The report update [countTask] follows the script through the
      inherited members.  The cache is described by its entries:
      [getTaskListIdByName] is the script for the names that the cache
      answers by an entry or does not answer at all ([answers]), and
      [cachePut] for the titles other than "__proto__"; the statements
      that rest on the test of the cache or on what a refresh stores
      carry these conditions.
    - Script properties are a record of typed optional fields: the
      decimal rendering of the cursor and the JSON rendering of the cache
      and the report are read back as the values that were written.
    - Strings are treated as ASCII text: [trim] strips the ASCII white
      space of ECMAScript, [toLowerCase] folds A-Z.
    - Calls to the task service may return or raise; what they answer is
      left to an arbitrary [Services] instance ([SimpleScript.Service]
      for the simple exporter, which keeps the list objects).
    - Parsed JSON is a [JValue]; an import is taken up to the call of
      [setValues], with the values it hands over.
    - Alerts and menus are recorded only in the simple exporter, where
      they are the messages the script has. *)

From Stdlib Require Import ZArith Lia Ascii String.
From stdpp Require Import gmap strings list pretty.

Local Open Scope string_scope.
Local Open Scope Z_scope.
Local Open Scope list_scope.

(** ** Strings *)

Module Str.

Definition isWhiteSpace (a : ascii) : bool :=
  let n := nat_of_ascii a in
  ((9 <=? n)%nat && (n <=? 13)%nat) || (n =? 32)%nat.

Fixpoint trimStart (s : string) : string :=
  match s with
  | EmptyString => EmptyString
  | String a r => if isWhiteSpace a then trimStart r else s
  end.

Fixpoint trimEnd (s : string) : string :=
  match s with
  | EmptyString => EmptyString
  | String a r =>
      match trimEnd r with
      | EmptyString => if isWhiteSpace a then EmptyString else String a EmptyString
      | r' => String a r'
      end
  end.

Definition trim (s : string) : string := trimEnd (trimStart s).

Definition lowerChar (a : ascii) : ascii :=
  let n := nat_of_ascii a in
  if ((65 <=? n)%nat && (n <=? 90)%nat) then ascii_of_nat (n + 32) else a.

Fixpoint toLowerCase (s : string) : string :=
  match s with
  | EmptyString => EmptyString
  | String a r => String (lowerChar a) (toLowerCase r)
  end.

Definition startsWith (s p : string) : bool := String.prefix p s.

Fixpoint includes_from (fuel : nat) (s p : string) : bool :=
  String.prefix p s ||
  match fuel, s with
  | S f, String _ r => includes_from f r p
  | _, _ => false
  end.

Definition includes (s p : string) : bool := includes_from (String.length s) s p.

(** JS truthiness of a string value. *)
Definition nonEmpty (s : string) : bool :=
  match s with EmptyString => false | _ => true end.

End Str.

(** ** Cell values

    [getValues()] yields strings, numbers, booleans and dates.  A date is
    kept as the two renderings the scripts observe. *)

Inductive Cell :=
  | CText (s : string)
  | CNumber (n : Z)
  | CBoolean (b : bool)
  | CDate (text iso : string).

Module CellOps.

(** [if (v)] *)
Definition truthy (c : Cell) : bool :=
  match c with
  | CText s => Str.nonEmpty s
  | CNumber n => negb (n =? 0)
  | CBoolean b => b
  | CDate _ _ => true
  end.

(** [v.toString()], also the conversion of a template literal. *)
Definition toString (c : Cell) : string :=
  match c with
  | CText s => s
  | CNumber n => pretty n
  | CBoolean b => if b then "true" else "false"
  | CDate text _ => text
  end.

(** [typeof v === 'string'] *)
Definition isString (c : Cell) : bool :=
  match c with CText _ => true | _ => false end.

End CellOps.

Definition Row := list Cell.

(** [row[i]] with [undefined] as [None]. *)
Definition cellAt (row : Row) (i : nat) : option Cell := row !! i.

(** [row[i] ? row[i].toString().trim() : null] *)
Definition trimmedOrNull (v : option Cell) : option string :=
  match v with
  | Some c => if CellOps.truthy c then Some (Str.trim (CellOps.toString c)) else None
  | None => None
  end.

(** Truthiness of a string-or-null value. *)
Definition truthyStr (v : option string) : bool :=
  match v with
  | Some s => Str.nonEmpty s
  | None => false
  end.

(** [a || b] on string-or-null values. *)
Definition orElse (a b : option string) : option string :=
  if truthyStr a then a else b.

(** ** Data model *)

(** The outbound task: [Tasks.newTask()] with the fields the scripts set. *)
Record Task := mkTask {
  title : string;
  status : option string;
  due : option string;
  notes : option string
}.

(** An entry of [Tasks.Tasklists.list().items]. *)
Record TaskList := mkTaskList {
  tl_title : string;
  tl_id : string
}.

(** Counters of one list in the report. *)
Record Stats := mkStats {
  completed : Z;
  needsAction : Z;
  total : Z
}.

Abbreviation Cache := (gmap string string).
Abbreviation Report := (gmap string Stats).

(** The script properties, one field per key. *)
Record Props := mkProps {
  prop_ROW : option Z;             (* lastProcessedRow *)
  prop_SHEET_NAME : option string; (* sourceSheetName *)
  prop_CACHE : option Cache;       (* taskListCache *)
  prop_LIST : option string;       (* lastKnownListTitle *)
  prop_REPORT : option Report      (* executionReport *)
}.

Record Trigger := mkTrigger {
  handlerFunction : string;
  delayMs : Z
}.

(** A sheet: its name and its rows, row 1 (the headers) first. *)
Record Sheet := mkSheet {
  sheetName : string;
  values : list Row
}.

(** The summary sheet written when the run ends: the source sheet and the
    table below the headers (its name carries a wall-clock stamp that is
    left out). *)
Record ReportSheet := mkReportSheet {
  rs_source : string;
  rs_table : list (list Cell)
}.

(** Messages of [Logger.log], by the fields they print. *)
Inductive LogMsg :=
  | LogNoSourceName
  | LogSheetNotFound (name : string)
  | LogAllDone
  | LogStarting (name : string) (startRow : Z)
  | LogCacheRefreshFailed
  | LogMissingHeaders (name : string)
  | LogRowNoList (rowNumber : Z)
  | LogRowEmpty (rowNumber : Z)
  | LogRowListDefinition (rowNumber : Z)
  | LogRowCreated (rowNumber : Z) (taskTitle listName : string)
  | LogRowFailed (rowNumber : Z) (taskTitle : string)
  | LogRowNoListId (rowNumber : Z) (listName : string)
  | LogBatchDone (nextStartRow : Z)
  | LogListCreated (name : string)
  | LogListNoId (name : string)
  | LogListCreateRaised (name : string)
  | LogListFound (name : string)
  | LogListStillMissing (name : string)
  | LogRefetchFailed.

(** What an invocation does to its environment, in order. *)
Inductive Event :=
  | EvLog (m : LogMsg)
  | EvSleep (ms : Z)
  | EvTasklistsList
  | EvTasklistsInsert (name : string)
  | EvTasksInsert (task : Task) (listId : string)
  | EvGetHeaders
  | EvGetValues (startRow numRows : Z).

(** ** The task service

    An answer of the service: a value, or an exception. *)
Inductive Reply (A : Type) :=
  | Returned (a : A)
  | Raised.
Arguments Returned {A} a.
Arguments Raised {A}.

(** The collaborators the scripts call: the task service over its state
    [R], and the date parser of the host.  [remote_list] answers the
    [items] of [Tasks.Tasklists.list()] ([None] when absent),
    [remote_insertList] the [id] of the created list ([None] when the
    answer carries none), [Date_parse v] the ISO rendering of
    [new Date(v)] unless its time is NaN. *)
Class Services (R : Type) := {
  Date_parse : Cell → option string;
  remote_list : R → Reply (option (list TaskList)) * R;
  remote_insertList : string → R → Reply (option string) * R;
  remote_insertTask : Task → string → R → Reply unit * R
}.

Record World (R : Type) := mkWorld {
  properties : Props;
  triggers : list Trigger;
  sheets : list Sheet;
  reportSheets : list ReportSheet;
  remote : R;
  trace : list Event
}.
Arguments mkWorld {R}.
Arguments properties {R}.
Arguments triggers {R}.
Arguments sheets {R}.
Arguments reportSheets {R}.
Arguments remote {R}.
Arguments trace {R}.

Definition with_properties {R} (p : Props) (w : World R) : World R :=
  mkWorld p (triggers w) (sheets w) (reportSheets w) (remote w) (trace w).
Definition with_triggers {R} (l : list Trigger) (w : World R) : World R :=
  mkWorld (properties w) l (sheets w) (reportSheets w) (remote w) (trace w).
Definition with_reportSheets {R} (l : list ReportSheet) (w : World R) : World R :=
  mkWorld (properties w) (triggers w) (sheets w) l (remote w) (trace w).
Definition with_remote {R} (r : R) (w : World R) : World R :=
  mkWorld (properties w) (triggers w) (sheets w) (reportSheets w) r (trace w).
Definition with_trace {R} (t : list Event) (w : World R) : World R :=
  mkWorld (properties w) (triggers w) (sheets w) (reportSheets w) (remote w) t.

(** ** Computations: state and exceptions *)

Inductive Res (A : Type) :=
  | Ok (a : A)
  | Exn.
Arguments Ok {A} a.
Arguments Exn {A}.

Definition M (R A : Type) : Type := World R → Res A * World R.

Definition ret {R A} (a : A) : M R A := fun w => (Ok a, w).

Definition bind {R A B} (c : M R A) (k : A → M R B) : M R B :=
  fun w =>
    match c w with
    | (Ok a, w') => k a w'
    | (Exn, w') => (Exn, w')
    end.

(** [try { c } catch (e) { h }] *)
Definition try_catch {R A} (c h : M R A) : M R A :=
  fun w =>
    match c w with
    | (Ok a, w') => (Ok a, w')
    | (Exn, w') => h w'
    end.

Definition throw {R A} : M R A := fun w => (Exn, w).

Declare Scope script_scope.
Delimit Scope script_scope with script.
Notation "'let!' x ':=' c 'in' k" := (bind c (fun x => k))
  (at level 10, x pattern, c at level 100, k at level 200) : script_scope.
Notation "c '>>' k" := (bind c (fun _ => k))
  (at level 100, k at level 200, right associativity) : script_scope.

(** ** Constants of the script *)

Definition SCRIPT_TRIGGER_HANDLER : string := "continueProcess".
Definition API_DELAY_MS : Z := 500.
Definition BATCH_SIZE : Z := 100.

(** ** Host services as computations *)

Section Host.
Context {R : Type} {Srv : Services R}.
Local Open Scope script_scope.

Definition emit (e : Event) : M R unit :=
  fun w => (Ok tt, with_trace (trace w ++ [e]) w).

Definition Logger_log (m : LogMsg) : M R unit := emit (EvLog m).
Definition Utilities_sleep (ms : Z) : M R unit := emit (EvSleep ms).

(** A call to the task service: the call is recorded, the service moves
    to its next state, and a raised answer becomes an exception. *)
Definition call {A} (e : Event) (f : R → Reply A * R) : M R A :=
  fun w =>
    let '(reply, r') := f (remote w) in
    let w' := with_remote r' (with_trace (trace w ++ [e]) w) in
    match reply with
    | Returned a => (Ok a, w')
    | Raised => (Exn, w')
    end.

Definition Tasks_Tasklists_list : M R (option (list TaskList)) :=
  call EvTasklistsList remote_list.

Definition Tasks_Tasklists_insert (name : string) : M R (option string) :=
  call (EvTasklistsInsert name) (remote_insertList name).

Definition Tasks_Tasks_insert (task : Task) (listId : string) : M R unit :=
  call (EvTasksInsert task listId) (remote_insertTask task listId).

Definition getProperties : M R Props := fun w => (Ok (properties w), w).

Definition setProperties (f : Props → Props) : M R unit :=
  fun w => (Ok tt, with_properties (f (properties w)) w).

Definition getProjectTriggers : M R (list Trigger) :=
  fun w => (Ok (triggers w), w).

Definition setTriggers (f : list Trigger → list Trigger) : M R unit :=
  fun w => (Ok tt, with_triggers (f (triggers w)) w).

Definition getSheetByName (name : string) : M R (option Sheet) :=
  fun w => (Ok (List.find (fun sh => String.eqb (sheetName sh) name) (sheets w)), w).

Definition insertReportSheet (r : ReportSheet) : M R unit :=
  fun w => (Ok tt, with_reportSheets (reportSheets w ++ [r]) w).

End Host.

(** ** Properties: [setProperty] and [deleteProperty], key by key *)

Definition with_ROW (v : option Z) (p : Props) : Props :=
  mkProps v (prop_SHEET_NAME p) (prop_CACHE p) (prop_LIST p) (prop_REPORT p).
Definition with_SHEET_NAME (v : option string) (p : Props) : Props :=
  mkProps (prop_ROW p) v (prop_CACHE p) (prop_LIST p) (prop_REPORT p).
Definition with_CACHE (v : option Cache) (p : Props) : Props :=
  mkProps (prop_ROW p) (prop_SHEET_NAME p) v (prop_LIST p) (prop_REPORT p).
Definition with_LIST (v : option string) (p : Props) : Props :=
  mkProps (prop_ROW p) (prop_SHEET_NAME p) (prop_CACHE p) v (prop_REPORT p).
Definition with_REPORT (v : option Report) (p : Props) : Props :=
  mkProps (prop_ROW p) (prop_SHEET_NAME p) (prop_CACHE p) (prop_LIST p) v.

Definition noProps : Props := mkProps None None None None None.

(** ** Header lookup *)

(** [headers.indexOf(name)], with [-1] as [None]. *)
Fixpoint indexOf (headers : list Cell) (name : string) : option nat :=
  match headers with
  | [] => None
  | CText s :: rest =>
      if String.eqb s name then Some 0%nat else S <$> indexOf rest name
  | _ :: rest => S <$> indexOf rest name
  end.

(** The column positions one batch works with, once the two required
    ones were found. *)
Record Columns := mkColumns {
  titleIndex : nat;
  idIndex : option nat;
  listTitleIndex : nat;
  statusIndex : option nat;
  dueIndex : option nat;
  linksIndex : option nat
}.

(** [index !== -1 && row[index]]: the cell when the condition holds. *)
Definition optionalCell (index : option nat) (row : Row) : option Cell :=
  match index with
  | Some i =>
      match row !! i with
      | Some c => if CellOps.truthy c then Some c else None
      | None => None
      end
  | None => None
  end.

(** The local variables of [continueProcess] that the row loop updates. *)
Record Locals := mkLocals {
  taskListCache : Cache;
  reportData : Report;
  lastKnownListTitle : option string
}.

(** [if (v) yes(v) else no] on a string-or-null value. *)
Definition ifTruthy {A} (v : option string) (no : A) (yes : string → A) : A :=
  match v with
  | Some s => if Str.nonEmpty s then yes s else no
  | None => no
  end.

(** ** Objects used as maps

    The cache and the report are object literals: a name that is no
    entry of the object itself is looked up in [Object.prototype].  The
    maps of the embedding hold the entries of the object itself. *)

(** The names of the members of [Object.prototype]. *)
Definition objectPrototypeNames : list string :=
  ["constructor"; "hasOwnProperty"; "isPrototypeOf"; "propertyIsEnumerable";
   "toLocaleString"; "toString"; "valueOf"; "__proto__";
   "__defineGetter__"; "__defineSetter__"; "__lookupGetter__"; "__lookupSetter__"].

(** [({})[name]] is there although the object has no entry: a function,
    or the prototype itself for [__proto__]. *)
Definition inherited (name : string) : bool :=
  existsb (String.eqb name) objectPrototypeNames.

(** [if (cache[name])]: an entry that is not empty or, where the cache
    has no entry for the name, an inherited member. *)
Definition answers (cache : Cache) (name : string) : bool :=
  match cache !! name with
  | Some id => Str.nonEmpty id
  | None => inherited name
  end.

(** A count for [name] shows in the report: the report has an entry for
    the name, or the name is not one that objects inherit and the entry
    is made. *)
Definition keepsCount (reportData : Report) (name : string) : bool :=
  match reportData !! name with
  | Some _ => true
  | None => negb (inherited name)
  end.

(** The two increments for a task on the counters of its list. *)
Definition countOn (task : Task) (stats : Stats) : Stats :=
  let stats :=
    if bool_decide (status task = Some "completed")
    then mkStats (completed stats + 1) (needsAction stats) (total stats)
    else mkStats (completed stats) (needsAction stats + 1) (total stats) in
  mkStats (completed stats) (needsAction stats) (total stats + 1).

(** The report update after a task was inserted: [if
    (!reportData[taskListName])] makes the entry, the increments count
    on [reportData[taskListName]].  Where the report has no entry and
    the name is one that objects inherit, the test finds the inherited
    member: no entry is made, the increments go to that member, and the
    report keeps the entries it had. *)
Definition countTask (taskListName : string) (task : Task) (reportData : Report) : Report :=
  match reportData !! taskListName with
  | Some stats => <[taskListName := countOn task stats]> reportData
  | None =>
      if inherited taskListName then reportData
      else <[taskListName := countOn task (mkStats 0 0 0)]> reportData
  end.

(** [taskListCache[list.title] = list.id], for a title other than
    "__proto__" (for which the assignment of the script makes no
    entry). *)
Definition cachePut (cache : Cache) (list : TaskList) : Cache :=
  <[tl_title list := tl_id list]> cache.

(** The cache refresh at the start of a batch: every listed title is set
    to its id, in order. *)
Definition refreshCache (cache : Cache) (taskLists : option (list TaskList)) : Cache :=
  match taskLists with
  | Some items => foldl cachePut cache items
  | None => cache
  end.

(** The table of the summary sheet, one row per key of the report (in
    the order of the map, which stands for the key order of the object). *)
Definition tableContent (reportData : Report) : list (list Cell) :=
  match map_to_list reportData with
  | [] => [[CText "No new tasks were imported."; CText ""; CText ""; CText ""]]
  | entries =>
      (fun '(listName, stats) =>
         [CText listName; CNumber (total stats); CNumber (completed stats);
          CNumber (needsAction stats)]) <$> entries
  end.

Global Instance Trigger_eq_dec : EqDecision Trigger.
Proof. solve_decision. Defined.

(** [ScriptApp.deleteTrigger(trigger)]: that one trigger goes. *)
Fixpoint removeTrigger (t : Trigger) (l : list Trigger) : list Trigger :=
  match l with
  | [] => []
  | t' :: rest => if decide (t' = t) then rest else t' :: removeTrigger t rest
  end.

(** ** The batch pipeline *)

Section Pipeline.
Context {R : Type} {Srv : Services R}.
Local Open Scope script_scope.

Definition getProperty {A} (key : Props → option A) : M R (option A) :=
  let! p := getProperties in ret (key p).

Definition getLastRow (sheet : Sheet) : Z := Z.of_nat (length (values sheet)).

Definition getLastColumn (sheet : Sheet) : Z :=
  Z.of_nat (max_list (length <$> values sheet)).

(** [sheet.getRange(1, 1, 1, lastColumn).getValues()[0]]; a range of no
    columns is refused. *)
Definition getHeaders (sheet : Sheet) : M R (list Cell) :=
  if getLastColumn sheet <? 1 then throw
  else
    emit EvGetHeaders >>
    ret (match values sheet with headers :: _ => headers | [] => [] end).

(** [sheet.getRange(startRow, 1, numRows, lastColumn).getValues()]; a
    range that starts before row 1 or has no rows is refused. *)
Definition getValues (sheet : Sheet) (startRow numRows : Z) : M R (list Row) :=
  if (startRow <? 1) || (numRows <? 1) then throw
  else
    emit (EvGetValues startRow numRows) >>
    ret (take (Z.to_nat numRows) (drop (Z.to_nat (startRow - 1)) (values sheet))).

Definition deleteExistingTriggers : M R unit :=
  let! allTriggers := getProjectTriggers in
  foldr (fun trigger rest =>
           (if String.eqb (handlerFunction trigger) SCRIPT_TRIGGER_HANDLER
            then setTriggers (removeTrigger trigger)
            else ret tt) >> rest)
        (ret tt) allTriggers.

Definition createTrigger : M R unit :=
  deleteExistingTriggers >>
  setTriggers (fun l => l ++ [mkTrigger SCRIPT_TRIGGER_HANDLER (60 * 1000)]).

(** The first listed entry with the title [name]. *)
Definition findByTitle (name : string) (taskLists : list TaskList) : option TaskList :=
  List.find (fun l => String.eqb (tl_title l) name) taskLists.

(** [getTaskListIdByName(name, cache)]: the id, or [None] for [null],
    together with the cache as the call leaves it.  The test
    [cache[name]] is taken on the entries of the cache: where the cache
    has no entry for a name that objects inherit, the script answers the
    inherited member at once, a case that is not described here
    ([answers] tells it apart). *)
Definition getTaskListIdByName (name : string) (cache : Cache)
  : M R (option string * Cache) :=
  if truthyStr (cache !! name) then ret (cache !! name, cache)
  else
    try_catch
      (let! createdId := Tasks_Tasklists_insert name in
       ifTruthy createdId
         (Logger_log (LogListNoId name) >> ret (None, cache))
         (fun id =>
            Logger_log (LogListCreated name) >>
            ret (Some id, <[name := id]> cache)))
      (Logger_log (LogListCreateRaised name) >>
       Utilities_sleep 2000 >>
       try_catch
         (let! taskLists := Tasks_Tasklists_list in
          match findByTitle name (default [] taskLists) with
          | Some list =>
              Logger_log (LogListFound name) >>
              ret (Some (tl_id list), <[name := tl_id list]> cache)
          | None =>
              Logger_log (LogListStillMissing name) >> ret (None, cache)
          end)
         (Logger_log LogRefetchFailed >> ret (None, cache))).

(** [new Date(v)] followed by the NaN test and [toISOString()]. *)
Definition newDateISO (v : Cell) : option string :=
  match v with
  | CDate _ iso => Some iso
  | _ => Date_parse v
  end.

(** The task built for a row once its list id is known (the status, due
    and notes assignments of the loop body). *)
Definition newTask (cols : Columns) (finalTaskTitle : string) (row : Row) : Task :=
  mkTask finalTaskTitle
    (match optionalCell (statusIndex cols) row with
     | Some c =>
         if String.eqb (Str.trim (Str.toLowerCase (CellOps.toString c))) "completed"
         then Some "completed" else None
     | None => None
     end)
    (match optionalCell (dueIndex cols) row with
     | Some c => newDateISO c
     | None => None
     end)
    (match optionalCell (linksIndex cols) row with
     | Some c => Some ("Link: " +:+ CellOps.toString c)
     | None => None
     end).

(** [row[listTitleIndex] ? row[listTitleIndex].toString().trim() : null] *)
Definition listTitleFromCell (cols : Columns) (row : Row) : option string :=
  trimmedOrNull (row !! listTitleIndex cols).

(** The list name a row works with: its own [list_title] when that is
    not empty, else the one remembered. *)
Definition nextListTitle (cols : Columns) (row : Row) (lastKnown : option string)
  : option string :=
  let listTitleFromCell := listTitleFromCell cols row in
  if truthyStr listTitleFromCell then listTitleFromCell else lastKnown.

(** [taskTitleFromCell || taskIdFromCell] *)
Definition finalTaskTitleOf (cols : Columns) (row : Row) : option string :=
  let taskTitleFromCell := trimmedOrNull (row !! titleIndex cols) in
  let taskIdFromCell := trimmedOrNull (optionalCell (idIndex cols) row) in
  orElse taskTitleFromCell taskIdFromCell.

(** One iteration of the row loop. *)
Definition processRow (cols : Columns) (currentRowNumber : Z) (row : Row)
    (st : Locals) : M R Locals :=
  let lastKnownListTitle := nextListTitle cols row (lastKnownListTitle st) in
  let taskListName := lastKnownListTitle in
  let finalTaskTitle := finalTaskTitleOf cols row in
  let skipped := mkLocals (taskListCache st) (reportData st) lastKnownListTitle in
  ifTruthy taskListName
    (Logger_log (LogRowNoList currentRowNumber) >> ret skipped)
    (fun taskListName =>
  ifTruthy finalTaskTitle
    (Logger_log (LogRowEmpty currentRowNumber) >> ret skipped)
    (fun finalTaskTitle =>
  if Str.startsWith (Str.toLowerCase finalTaskTitle) "list:"
  then Logger_log (LogRowListDefinition currentRowNumber) >> ret skipped
  else
    let! (currentTaskListId, cache) :=
      getTaskListIdByName taskListName (taskListCache st) in
    let unchanged := mkLocals cache (reportData st) lastKnownListTitle in
    ifTruthy currentTaskListId
      (Logger_log (LogRowNoListId currentRowNumber taskListName) >> ret unchanged)
      (fun currentTaskListId =>
         let task := newTask cols finalTaskTitle row in
         try_catch
           (Tasks_Tasks_insert task currentTaskListId >>
            Logger_log (LogRowCreated currentRowNumber finalTaskTitle taskListName) >>
            Utilities_sleep API_DELAY_MS >>
            ret (mkLocals cache (countTask taskListName task (reportData st))
                          lastKnownListTitle))
           (Logger_log (LogRowFailed currentRowNumber finalTaskTitle) >>
            ret unchanged)))).

(** [for (let j = 0; j < data.length; j++)], the row number running
    along. *)
Fixpoint forEachRow (cols : Columns) (currentRowNumber : Z) (data : list Row)
    (st : Locals) : M R Locals :=
  match data with
  | [] => ret st
  | row :: rest =>
      let! st' := processRow cols currentRowNumber row st in
      forEachRow cols (currentRowNumber + 1) rest st'
  end.

End Pipeline.

Section EntryPoints.
Context {R : Type} {Srv : Services R}.
Local Open Scope script_scope.

(** [parseInt(properties.getProperty(SCRIPT_PROPERTY_ROW), 10) || 2] *)
Definition startRowOf (stored : option Z) : Z :=
  match stored with
  | Some n => if n =? 0 then 2 else n
  | None => 2
  end.

(** The end of a run: the summary sheet, then the clean-up. *)
Definition finishRun (sourceSheetName : string) (reportData : Report) : M R unit :=
  Logger_log LogAllDone >>
  insertReportSheet (mkReportSheet sourceSheetName (tableContent reportData)) >>
  setProperties (with_ROW None) >>
  setProperties (with_SHEET_NAME None) >>
  setProperties (with_CACHE None) >>
  setProperties (with_LIST None) >>
  setProperties (with_REPORT None) >>
  deleteExistingTriggers.

(** The checkpoint written after the row loop, then the next trigger. *)
Definition persistBatch (nextStartRow : Z) (st : Locals) : M R unit :=
  setProperties (with_ROW (Some nextStartRow)) >>
  setProperties (with_CACHE (Some (taskListCache st))) >>
  setProperties (with_REPORT (Some (reportData st))) >>
  ifTruthy (lastKnownListTitle st) (ret tt)
    (fun title => setProperties (with_LIST (Some title))) >>
  createTrigger >>
  Logger_log (LogBatchDone nextStartRow).

(** The refresh of the cache from the remote lists before the rows are
    read; a listing that raises leaves the stored cache. *)
Definition refreshFromRemote (taskListCache : Cache) : M R Cache :=
  try_catch
    (let! taskLists := Tasks_Tasklists_list in
     ret (refreshCache taskListCache taskLists))
    (Logger_log LogCacheRefreshFailed >> ret taskListCache).

(** [continueProcess()], with the batch size as an argument. *)
Definition continueProcessWith (batchSize : Z) : M R unit :=
  let! sourceSheetName := getProperty prop_SHEET_NAME in
  ifTruthy sourceSheetName
    (Logger_log LogNoSourceName >> deleteExistingTriggers)
    (fun sourceSheetName =>
  let! sheet := getSheetByName sourceSheetName in
  match sheet with
  | None =>
      Logger_log (LogSheetNotFound sourceSheetName) >> deleteExistingTriggers
  | Some sheet =>
      let! storedRow := getProperty prop_ROW in
      let startRow := startRowOf storedRow in
      let lastRow := getLastRow sheet in
      let! reportDataString := getProperty prop_REPORT in
      let reportData := default ∅ reportDataString in
      if startRow >? lastRow then finishRun sourceSheetName reportData
      else
        Logger_log (LogStarting (sheetName sheet) startRow) >>
        let! cacheString := getProperty prop_CACHE in
        let taskListCache := default ∅ cacheString in
        let! storedTitle := getProperty prop_LIST in
        let lastKnownListTitle := ifTruthy storedTitle None Some in
        let! taskListCache := refreshFromRemote taskListCache in
        let! headers := getHeaders sheet in
        match indexOf headers "title", indexOf headers "list_title" with
        | Some titleIndex, Some listTitleIndex =>
            let cols :=
              mkColumns titleIndex (indexOf headers "id") listTitleIndex
                        (indexOf headers "status") (indexOf headers "due")
                        (indexOf headers "links") in
            let rowsToProcess := Z.min batchSize (lastRow - startRow + 1) in
            let! data := getValues sheet startRow rowsToProcess in
            let! st :=
              forEachRow cols startRow data
                (mkLocals taskListCache reportData lastKnownListTitle) in
            persistBatch (startRow + rowsToProcess) st
        | _, _ =>
            Logger_log (LogMissingHeaders (sheetName sheet)) >>
            deleteExistingTriggers
        end
  end).

Definition continueProcess : M R unit := continueProcessWith BATCH_SIZE.

(** [createTasksFromCurrentSheet()]; the name of the active sheet is the
    argument. *)
Definition createTasksFromCurrentSheetWith (batchSize : Z) (activeSheetName : string)
  : M R unit :=
  setProperties (with_ROW None) >>
  setProperties (with_SHEET_NAME None) >>
  setProperties (with_CACHE None) >>
  setProperties (with_LIST None) >>
  setProperties (with_REPORT None) >>
  deleteExistingTriggers >>
  setProperties (with_SHEET_NAME (Some activeSheetName)) >>
  continueProcessWith batchSize.

Definition createTasksFromCurrentSheet : string → M R unit :=
  createTasksFromCurrentSheetWith BATCH_SIZE.

(** Whether the host still holds a trigger for the handler. *)
Definition pending (w : World R) : bool :=
  existsb (fun t => String.eqb (handlerFunction t) SCRIPT_TRIGGER_HANDLER) (triggers w).

(** The host fires the pending trigger again and again: the [i]-th
    invocation works with batch size [sizes i]; an invocation that ends
    in an exception leaves its trigger behind and is not repeated. *)
Fixpoint fire (fuel : nat) (sizes : nat → Z) (i : nat) (w : World R) : World R :=
  match fuel with
  | O => w
  | S fuel' =>
      if pending w then
        match continueProcessWith (sizes i) w with
        | (Ok _, w') => fire fuel' sizes (S i) w'
        | (Exn, w') => w'
        end
      else w
  end.

(** A whole run: the menu entry, then the triggers. *)
Definition exportRun (fuel : nat) (sizes : nat → Z) (activeSheetName : string)
    (w : World R) : World R :=
  match createTasksFromCurrentSheetWith (sizes 0%nat) activeSheetName w with
  | (Ok _, w') => fire fuel sizes 1%nat w'
  | (Exn, w') => w'
  end.

End EntryPoints.

(** ** A reference task service *)

(** Modelled from the spec: the remote task/list service, which is not
    part of the repository (section 6: it lists all lists as title and
    id, creates a list and answers its id or fails, creates a task in a
    list or fails).  It keeps what it accepted: listing answers every
    list created so far, a created list is appended under a fresh id, an
    accepted task is appended.  Which calls it accepts is left to a
    policy that may look at the arguments and at the whole state. *)

Inductive Verdict := Accept | AnswerWithoutId | Reject.

(** Modelled from the spec: the state of the remote service, its lists
    and the tasks created in them. *)
Record Store := mkStore {
  st_lists : list TaskList;
  st_tasks : list (string * Task)
}.

Record Policy := mkPolicy {
  onCreateList : string → Store → Verdict;
  onCreateTask : Task → string → Store → bool;
  parseDate : Cell → option string
}.

Definition freshId (r : Store) : string :=
  "list-" +:+ pretty (length (st_lists r)).

(** Modelled from the spec: the three calls of the remote service over
    [Store], and the date parser of the host. *)
Definition storeServices (p : Policy) : Services Store := {|
  Date_parse := parseDate p;
  remote_list r := (Returned (Some (st_lists r)), r);
  remote_insertList name r :=
    match onCreateList p name r with
    | Accept =>
        (Returned (Some (freshId r)),
         mkStore (st_lists r ++ [mkTaskList name (freshId r)]) (st_tasks r))
    | AnswerWithoutId => (Returned None, r)
    | Reject => (Raised, r)
    end;
  remote_insertTask task listId r :=
    if onCreateTask p task listId r
    then (Returned tt, mkStore (st_lists r) (st_tasks r ++ [(listId, task)]))
    else (Raised, r)
|}.

(** The policy that accepts everything and parses no date. *)
Definition lenient : Policy :=
  mkPolicy (fun _ _ => Accept) (fun _ _ _ => true) (fun _ => None).

Definition emptyStore : Store := mkStore [] [].

Definition freshWorld {R} (sheets : list Sheet) (r : R) : World R :=
  mkWorld noProps [] sheets [] r [].


(** ** The simple exporter

    The task that the loop body of [createTasksFromSheet] builds for a
    row whose title cell [taskTitle] is not empty. *)

Module SimpleExporter.
Section Task.
Variable dateParse : Cell → option string.

(** [headerMap[header.toString().trim().toLowerCase()] = index + 1] *)
Fixpoint headerMapFrom (index : nat) (headers : list Cell) (m : gmap string nat)
  : gmap string nat :=
  match headers with
  | [] => m
  | header :: rest =>
      headerMapFrom (S index) rest
        (<[Str.toLowerCase (Str.trim (CellOps.toString header)) := S index]> m)
  end.

Definition headerMap (headers : list Cell) : gmap string nat :=
  headerMapFrom 0 headers ∅.

(** [getCol(headerName)], with [null] as [None]. *)
Definition getCol (m : gmap string nat) (headerName : string) : option nat :=
  match m !! Str.toLowerCase headerName with
  | Some (S col) => Some (S col)
  | _ => None
  end.

(** [row[getCol(headerName) - 1]] *)
Definition field (m : gmap string nat) (headerName : string) (row : Row) : option Cell :=
  match getCol m headerName with
  | Some col => row !! (col - 1)%nat
  | None => None
  end.

Definition isStarred (v : option Cell) : bool :=
  match v with
  | Some (CText s) => Str.nonEmpty s && Str.includes (Str.toLowerCase s) "starred"
  | _ => false
  end.

Definition dueOf (v : option Cell) : option string :=
  match v with
  | Some (CDate _ iso) => Some iso
  | Some c => dateParse c
  | None => None
  end.

Definition notesOf (v : option Cell) : option string :=
  match v with
  | Some (CText taskLink) =>
      if Str.nonEmpty (Str.trim taskLink)
         && negb (String.eqb (Str.toLowerCase taskLink) "starred")
      then Some ("Link: " +:+ Str.trim taskLink)
      else None
  | _ => None
  end.

Definition statusOf (v : option Cell) : option string :=
  match v with
  | Some c =>
      if CellOps.truthy c
         && String.eqb (Str.trim (Str.toLowerCase (CellOps.toString c))) "completed"
      then Some "completed" else None
  | None => None
  end.

Definition taskOfRow (m : gmap string nat) (row : Row) (taskTitle : Cell) : Task :=
  mkTask
    (if isStarred (field m "links" row)
     then "⭐ " +:+ CellOps.toString taskTitle
     else CellOps.toString taskTitle)
    (statusOf (field m "status" row))
    (dueOf (field m "due" row))
    (notesOf (field m "links" row)).

End Task.
End SimpleExporter.

(** ** Observations used in the statements *)

Definition isJob (t : Trigger) : bool :=
  String.eqb (handlerFunction t) SCRIPT_TRIGGER_HANDLER.

(** The number of pending invocations of the handler. *)
Definition pendingCount {R} (w : World R) : nat :=
  length (List.filter isJob (triggers w)).

(** The triggers of other handlers. *)
Definition foreignTriggers {R} (w : World R) : list Trigger :=
  List.filter (fun t => negb (isJob t)) (triggers w).

(** [n] calls of [createTrigger] in a row. *)
Fixpoint rescheduleTimes {R} {Srv : Services R} (n : nat) (w : World R) : World R :=
  match n with
  | O => w
  | S n' => rescheduleTimes n' (snd (createTrigger w))
  end.

(** The world after further events. *)
Definition logged {R} (evs : list Event) (w : World R) : World R :=
  with_trace (trace w ++ evs) w.

(** The row number a row-level log entry speaks of. *)
Definition rowOf (e : Event) : option Z :=
  match e with
  | EvLog (LogRowNoList n) | EvLog (LogRowEmpty n) | EvLog (LogRowListDefinition n)
  | EvLog (LogRowCreated n _ _) | EvLog (LogRowFailed n _)
  | EvLog (LogRowNoListId n _) => Some n
  | _ => None
  end.

(** The data ranges read: start row and number of rows. *)
Definition readsOf (evs : list Event) : list (Z * Z) :=
  omap (fun e => match e with EvGetValues s k => Some (s, k) | _ => None end) evs.

(** The row numbers [n, n+1, ...] of [len] rows. *)
Fixpoint rowNumbers (n : Z) (len : nat) : list Z :=
  match len with
  | O => []
  | S len' => n :: rowNumbers (n + 1) len'
  end.

(** Every entry of the report adds up. *)
Definition Balanced (report : Report) : Prop :=
  ∀ name stats, report !! name = Some stats →
    total stats = completed stats + needsAction stats.

(** [w'] differs from [w] in the state of the service and in the events
    [evs] that were added, and in nothing else. *)
Definition Touches {R} (w w' : World R) (evs : list Event) : Prop :=
  w' = with_remote (remote w') (logged evs w).

(** The sheet an invocation works on: the one named by the stored
    source name. *)
Definition sourceSheet {R} (w : World R) : option Sheet :=
  match prop_SHEET_NAME (properties w) with
  | Some name =>
      if Str.nonEmpty name
      then List.find (fun sh => String.eqb (sheetName sh) name) (sheets w)
      else None
  | None => None
  end.

(** The columns of a sheet whose header row names the two required
    ones. *)
Definition columnsOf (sheet : Sheet) : option Columns :=
  match values sheet with
  | headers :: _ =>
      match indexOf headers "title", indexOf headers "list_title" with
      | Some titleIndex, Some listTitleIndex =>
          Some (mkColumns titleIndex (indexOf headers "id") listTitleIndex
                          (indexOf headers "status") (indexOf headers "due")
                          (indexOf headers "links"))
      | _, _ => None
      end
  | [] => None
  end.

(** The row the next batch starts at. *)
Definition cursor {R} (w : World R) : Z := startRowOf (prop_ROW (properties w)).

(** The rows a batch of size [batchSize] takes from [startRow]. *)
Definition rowsToProcess (sheet : Sheet) (startRow batchSize : Z) : Z :=
  Z.min batchSize (getLastRow sheet - startRow + 1).

Definition batchData (sheet : Sheet) (startRow batchSize : Z) : list Row :=
  take (Z.to_nat (rowsToProcess sheet startRow batchSize))
       (drop (Z.to_nat (startRow - 1)) (values sheet)).

(** The local state a batch starts from, before the cache refresh. *)
Definition loadedReport {R} (w : World R) : Report :=
  default ∅ (prop_REPORT (properties w)).
Definition loadedCache {R} (w : World R) : Cache :=
  default ∅ (prop_CACHE (properties w)).
Definition loadedListTitle {R} (w : World R) : option string :=
  ifTruthy (prop_LIST (properties w)) None Some.

(** The properties after a batch that ended at [nextStartRow] with the
    locals [st]. *)
Definition checkpointAfter (nextStartRow : Z) (st : Locals) (p : Props) : Props :=
  mkProps (Some nextStartRow) (prop_SHEET_NAME p) (Some (taskListCache st))
          (if truthyStr (lastKnownListTitle st) then lastKnownListTitle st
           else prop_LIST p)
          (Some (reportData st)).

(** An invocation that will work through a batch: the source sheet is
    there, its headers name the required columns, the cursor is on a row
    of the sheet and the batch size is positive. *)
Definition BatchReady {R} (sheet : Sheet) (cols : Columns) (batchSize : Z)
    (w : World R) : Prop :=
  sourceSheet w = Some sheet ∧ columnsOf sheet = Some cols
  ∧ 1 ≤ cursor w ≤ getLastRow sheet ∧ 1 ≤ batchSize.

(** An invocation that gives up before any row: it leaves the
    properties, the sheets and the summaries as they were, and either
    ends in an exception or has deleted the triggers of the handler; it
    does so whatever the (positive) batch size. *)
Definition GivesUp {R} {Srv : Services R} (batchSize : Z) (w : World R) : Prop :=
  ∃ res w',
    continueProcessWith batchSize w = (res, w')
    ∧ properties w' = properties w ∧ sheets w' = sheets w
    ∧ reportSheets w' = reportSheets w
    ∧ (res = Exn ∧ triggers w' = triggers w
       ∨ res = Ok tt ∧ triggers w' = foreignTriggers w)
    ∧ ∀ b', 1 ≤ b' → continueProcessWith b' w = (res, w').

(** The data rows of a sheet: row [n] of the sheet is entry [n - 2]. *)
Definition dataRows (sheet : Sheet) : list Row := drop 1 (values sheet).

(** The list marker a row carries, if any: its trimmed [list_title] when
    that is not empty. *)
Definition markerOf (cols : Columns) (row : Row) : option string :=
  if truthyStr (listTitleFromCell cols row) then listTitleFromCell cols row else None.

(** The most recent marker among [rows], in document order. *)
Definition lastMarker (cols : Columns) (rows : list Row) : option string :=
  last (omap (markerOf cols) rows).

(** The most recent marker at or before sheet row [n] of the data. *)
Definition effectiveList (cols : Columns) (data : list Row) (n : Z) : option string :=
  lastMarker cols (take (S (Z.to_nat (n - 2))) data).

(** A row-level log entry agrees with the markers of the data: a row
    skipped for want of a list has no marker at or before it, and a list
    name that is logged for a row is the most recent marker at or before
    the row. *)
Definition AgreesWithMarkers (cols : Columns) (data : list Row) (e : Event) : Prop :=
  match e with
  | EvLog (LogRowNoList n) => effectiveList cols data n = None
  | EvLog (LogRowCreated n _ name) => effectiveList cols data n = Some name
  | EvLog (LogRowNoListId n name) => effectiveList cols data n = Some name
  | _ => True
  end.

(** The list name [lk] is the one a row-level log entry shows. *)
Definition UsesListName (lk : option string) (e : Event) : Prop :=
  match e with
  | EvLog (LogRowNoList _) => truthyStr lk = false
  | EvLog (LogRowCreated _ _ name) => lk = Some name
  | EvLog (LogRowNoListId _ name) => lk = Some name
  | _ => True
  end.

(** A world in which [k] data rows of the run over [sheet] are done. *)
Definition RunAt {R} (sheet : Sheet) (cols : Columns) (k : nat) (w : World R) : Prop :=
  sourceSheet w = Some sheet ∧ columnsOf sheet = Some cols
  ∧ cursor w = Z.of_nat k + 2.

Section Steps.
Context {R : Type} {Srv : Services R}.

(** The ways a call of the resolver ends, read off its branches. *)
Inductive ResolveStep (name : string) (cache : Cache) (w : World R)
  : option string → Cache → World R → Prop :=
  | ResolveHit id :
      cache !! name = Some id → id ≠ "" →
      ResolveStep name cache w (Some id) cache w
  | ResolveCreated id r1 :
      truthyStr (cache !! name) = false →
      remote_insertList name (remote w) = (Returned (Some id), r1) → id ≠ "" →
      ResolveStep name cache w (Some id) (<[name := id]> cache)
        (with_remote r1 (logged [EvTasklistsInsert name; EvLog (LogListCreated name)] w))
  | ResolveNoId v r1 :
      truthyStr (cache !! name) = false →
      remote_insertList name (remote w) = (Returned v, r1) → truthyStr v = false →
      ResolveStep name cache w None cache
        (with_remote r1 (logged [EvTasklistsInsert name; EvLog (LogListNoId name)] w))
  | ResolveFound r1 items r2 l :
      truthyStr (cache !! name) = false →
      remote_insertList name (remote w) = (Raised, r1) →
      remote_list r1 = (Returned items, r2) →
      findByTitle name (default [] items) = Some l →
      ResolveStep name cache w (Some (tl_id l)) (<[name := tl_id l]> cache)
        (with_remote r2 (logged [EvTasklistsInsert name; EvLog (LogListCreateRaised name);
                                 EvSleep 2000; EvTasklistsList;
                                 EvLog (LogListFound name)] w))
  | ResolveStillMissing r1 items r2 :
      truthyStr (cache !! name) = false →
      remote_insertList name (remote w) = (Raised, r1) →
      remote_list r1 = (Returned items, r2) →
      findByTitle name (default [] items) = None →
      ResolveStep name cache w None cache
        (with_remote r2 (logged [EvTasklistsInsert name; EvLog (LogListCreateRaised name);
                                 EvSleep 2000; EvTasklistsList;
                                 EvLog (LogListStillMissing name)] w))
  | ResolveRefetchFailed r1 r2 :
      truthyStr (cache !! name) = false →
      remote_insertList name (remote w) = (Raised, r1) →
      remote_list r1 = (Raised, r2) →
      ResolveStep name cache w None cache
        (with_remote r2 (logged [EvTasklistsInsert name; EvLog (LogListCreateRaised name);
                                 EvSleep 2000; EvTasklistsList;
                                 EvLog LogRefetchFailed] w)).

(** The ways an iteration of the row loop ends, read off its branches. *)
Inductive RowStep (cols : Columns) (n : Z) (row : Row) (st : Locals) (w : World R)
  : Locals → World R → Prop :=
  | RowNoList :
      truthyStr (nextListTitle cols row (lastKnownListTitle st)) = false →
      RowStep cols n row st w
        (mkLocals (taskListCache st) (reportData st)
                  (nextListTitle cols row (lastKnownListTitle st)))
        (logged [EvLog (LogRowNoList n)] w)
  | RowEmpty name :
      nextListTitle cols row (lastKnownListTitle st) = Some name → name ≠ "" →
      truthyStr (finalTaskTitleOf cols row) = false →
      RowStep cols n row st w
        (mkLocals (taskListCache st) (reportData st) (Some name))
        (logged [EvLog (LogRowEmpty n)] w)
  | RowListDefinition name ttl :
      nextListTitle cols row (lastKnownListTitle st) = Some name → name ≠ "" →
      finalTaskTitleOf cols row = Some ttl → ttl ≠ "" →
      Str.startsWith (Str.toLowerCase ttl) "list:" = true →
      RowStep cols n row st w
        (mkLocals (taskListCache st) (reportData st) (Some name))
        (logged [EvLog (LogRowListDefinition n)] w)
  | RowNoListId name ttl lid cache' w1 :
      nextListTitle cols row (lastKnownListTitle st) = Some name → name ≠ "" →
      finalTaskTitleOf cols row = Some ttl → ttl ≠ "" →
      Str.startsWith (Str.toLowerCase ttl) "list:" = false →
      ResolveStep name (taskListCache st) w lid cache' w1 →
      truthyStr lid = false →
      RowStep cols n row st w
        (mkLocals cache' (reportData st) (Some name))
        (logged [EvLog (LogRowNoListId n name)] w1)
  | RowCreated name ttl lid cache' w1 r2 :
      nextListTitle cols row (lastKnownListTitle st) = Some name → name ≠ "" →
      finalTaskTitleOf cols row = Some ttl → ttl ≠ "" →
      Str.startsWith (Str.toLowerCase ttl) "list:" = false →
      ResolveStep name (taskListCache st) w (Some lid) cache' w1 → lid ≠ "" →
      remote_insertTask (newTask cols ttl row) lid (remote w1) = (Returned tt, r2) →
      RowStep cols n row st w
        (mkLocals cache' (countTask name (newTask cols ttl row) (reportData st))
                  (Some name))
        (with_remote r2
           (logged [EvTasksInsert (newTask cols ttl row) lid;
                    EvLog (LogRowCreated n ttl name); EvSleep API_DELAY_MS] w1))
  | RowFailed name ttl lid cache' w1 r2 :
      nextListTitle cols row (lastKnownListTitle st) = Some name → name ≠ "" →
      finalTaskTitleOf cols row = Some ttl → ttl ≠ "" →
      Str.startsWith (Str.toLowerCase ttl) "list:" = false →
      ResolveStep name (taskListCache st) w (Some lid) cache' w1 → lid ≠ "" →
      remote_insertTask (newTask cols ttl row) lid (remote w1) = (Raised, r2) →
      RowStep cols n row st w
        (mkLocals cache' (reportData st) (Some name))
        (with_remote r2
           (logged [EvTasksInsert (newTask cols ttl row) lid;
                    EvLog (LogRowFailed n ttl)] w1)).

End Steps.

(** The world in which the first invocation of a run starts: the menu
    entry has cleared the properties and the triggers of the handler and
    stored the name of the active sheet. *)
Definition startedWorld {R} (activeSheetName : string) (w : World R) : World R :=
  with_properties (with_SHEET_NAME (Some activeSheetName) noProps)
    (with_triggers (foreignTriggers w) w).

(** The cache already says what a refresh from the lists of the
    reference service would write. *)
Definition Coherent (cache : Cache) (r : Store) : Prop :=
  refreshCache cache (Some (st_lists r)) = cache.

(** Every list of the reference service has a non-empty id. *)
Definition IdsPresent (r : Store) : Prop :=
  Forall (fun l => tl_id l ≠ "") (st_lists r).

(** The number of data rows of the sheet a run from the menu entry
    works on. *)
Definition rowsOfRun {R} (activeSheetName : string) (w : World R) : nat :=
  match sourceSheet (startedWorld activeSheetName w) with
  | Some sheet => length (dataRows sheet)
  | None => 0
  end.

(** The local state and the state of the reference service after the
    first [k] data rows went through the row loop in one piece, starting
    as a run from the menu entry does. *)
Definition rowsDone (p : Policy) (cols : Columns) (data : list Row) (k : nat)
    (r0 : Store) : Res Locals * Store :=
  let res :=
    forEachRow (Srv := storeServices p) cols 2 (take k data)
      (mkLocals (refreshCache ∅ (Some (st_lists r0))) ∅ None)
      (freshWorld [] r0) in
  (fst res, remote (snd res)).

(** What a run over the reference service keeps true from batch to
    batch, [k] data rows being done: the stored checkpoint, once loaded
    and refreshed, and the state of the service are those of the row loop
    run in one piece over the first [k] rows. *)
Definition InStep (p : Policy) (cols : Columns) (data : list Row) (w0 : World Store)
    (k : nat) (w : World Store) : Prop :=
  prop_SHEET_NAME (properties w) = prop_SHEET_NAME (properties w0)
  ∧ reportSheets w = reportSheets w0
  ∧ loadedListTitle w = lastMarker cols (take k data)
  ∧ ∃ st,
      rowsDone p cols data k (remote w0) = (Ok st, remote w)
      ∧ lastKnownListTitle st = lastMarker cols (take k data)
      ∧ loadedReport w = reportData st
      ∧ refreshCache (loadedCache w) (Some (st_lists (remote w))) = taskListCache st
      ∧ Coherent (taskListCache st) (remote w)
      ∧ IdsPresent (remote w).

(** ** A small sheet to run the scripts on *)

Module Demo.

Definition headers : Row :=
  [CText "list_title"; CText "id"; CText "title"; CText "status"; CText "due"; CText "links"].

Definition sheet : Sheet :=
  mkSheet "Tasks"
    [ headers;
      [CText "Work"; CText "a1"; CText "Buy milk"; CText "needsAction"; CText ""; CText "http://x"];
      [CText ""; CText "a2"; CText ""; CText "completed"; CText ""; CText "starred"];
      [CText "Home"; CText ""; CText ""; CText ""; CText ""; CText ""];
      [CText ""; CText "a4"; CText "Paint"; CText " Completed "; CText ""; CText ""] ].

Definition cols : Columns :=
  mkColumns 2 (Some 1%nat) 0 (Some 3%nat) (Some 4%nat) (Some 5%nat).

Definition fresh : World Store := freshWorld [sheet] emptyStore.

(** The world right after the menu entry stored the sheet name. *)
Definition started : World Store := startedWorld "Tasks" fresh.

Definition final (sizes : nat → Z) : World Store :=
  exportRun (Srv := storeServices lenient) 10 sizes "Tasks" fresh.

(** A service that answers every create without an id, and that already
    lists "Work". *)
Definition silent : Policy :=
  mkPolicy (fun _ _ => AnswerWithoutId) (fun _ _ _ => true) (fun _ => None).

Definition listed : World Store :=
  freshWorld [sheet] (mkStore [mkTaskList "Work" "list-7"] []).

(** A service that refuses every create. *)
Definition refusing : Policy :=
  mkPolicy (fun _ _ => Reject) (fun _ _ _ => true) (fun _ => None).

(** A row with no title, the id "a2" and the links cell "starred". *)
Definition starredRow : Row :=
  [CText ""; CText "a2"; CText ""; CText "completed"; CText ""; CText "starred"].

(** The header map of the simple exporter for the headers above. *)
Definition simpleMap : gmap string nat := SimpleExporter.headerMap headers.

End Demo.

Global Instance Task_eq_dec : EqDecision Task.
Proof. solve_decision. Defined.
Global Instance LogMsg_eq_dec : EqDecision LogMsg.
Proof. solve_decision. Defined.
Global Instance Event_eq_dec : EqDecision Event.
Proof. solve_decision. Defined.

(** Whether an event occurs among [evs]. *)
Definition occurs (e : Event) (evs : list Event) : bool :=
  existsb (fun e' => bool_decide (e' = e)) evs.

(** ** Further observations *)

(** A call to the task service. *)
Definition isRemoteCall (e : Event) : bool :=
  match e with
  | EvTasklistsList | EvTasklistsInsert _ | EvTasksInsert _ _ => true
  | _ => false
  end.

(** A call that creates a list. *)
Definition isListInsert (e : Event) : bool :=
  match e with EvTasklistsInsert _ => true | _ => false end.

(** A call that lists the lists. *)
Definition isListing (e : Event) : bool :=
  match e with EvTasklistsList => true | _ => false end.

(** A call that inserts a task. *)
Definition isTaskInsert (e : Event) : bool :=
  match e with EvTasksInsert _ _ => true | _ => false end.

(** The log entry of a created task. *)
Definition isCreatedLog (e : Event) : bool :=
  match e with EvLog (LogRowCreated _ _ _) => true | _ => false end.

(** The pause after a created task. *)
Definition isApiDelay (e : Event) : bool :=
  match e with EvSleep ms => ms =? API_DELAY_MS | _ => false end.

(** How many of [evs] satisfy [f]. *)
Definition countIf (f : Event → bool) (evs : list Event) : nat :=
  length (List.filter f evs).

(** The sum of the [total] counters of a report. *)
Definition reportTotal (report : Report) : Z :=
  map_fold (fun _ stats acc => total stats + acc) 0 report.

(** The row of the summary table for one list. *)
Definition tableRow (listName : string) (stats : Stats) : list Cell :=
  [CText listName; CNumber (total stats); CNumber (completed stats);
   CNumber (needsAction stats)].

(** What [rows] iterations of the row loop may call: at most one task
    insertion and one list creation for each row, a listing only after a
    list creation that did not go through, a created-task entry only for
    a task insertion, and the pause between calls once for each created
    task. *)
Definition CallBudget (rows : nat) (evs : list Event) : Prop :=
  (countIf isTaskInsert evs ≤ rows)%nat
  ∧ (countIf isListInsert evs ≤ rows)%nat
  ∧ (countIf isListing evs ≤ countIf isListInsert evs)%nat
  ∧ (countIf isCreatedLog evs ≤ countIf isTaskInsert evs)%nat
  ∧ countIf isApiDelay evs = countIf isCreatedLog evs.

Module Samples.

(** A sheet that has neither a [title] nor a [list_title] column. *)
Definition plain : Sheet :=
  mkSheet "Notes" [ [CText "name"; CText "id"]; [CText "milk"; CText "n1"] ].

(** The world right after the menu entry was used on [plain]. *)
Definition plainStarted : World Store :=
  startedWorld "Notes" (freshWorld [plain] emptyStore).

(** Batches of two rows. *)
Definition pairs : nat → Z := fun _ => 2.

End Samples.

(** The last listed entry with the title [name]. *)
Definition lastByTitle (name : string) (taskLists : list TaskList) : option TaskList :=
  last (List.filter (fun l => String.eqb (tl_title l) name) taskLists).

(** Every entry of the report counts at least one task. *)
Definition Populated (report : Report) : Prop :=
  map_Forall (fun _ stats => 1 ≤ total stats) report.

(** The line of the summary of a run that created nothing. *)
Definition noTasksLine : list Cell :=
  [CText "No new tasks were imported."; CText ""; CText ""; CText ""].

Module RowSamples.

(** A row that defines a list: its title starts with "list:" in capitals. *)
Definition listRow : Row :=
  [CText "Work"; CText "l1"; CText "LIST: Work"; CText ""; CText ""; CText ""].

(** The local state at the start of a run. *)
Definition noLocals : Locals := mkLocals ∅ ∅ None.

End RowSamples.

(** ** Scripts over any state

    The state-and-exception computations of the two further scripts,
    each of which has a world of its own. *)

Module Script.

Definition t (W A : Type) : Type := W → Res A * W.

Definition ret {W A} (a : A) : t W A := fun w => (Ok a, w).

Definition bind {W A B} (c : t W A) (k : A → t W B) : t W B :=
  fun w =>
    match c w with
    | (Ok a, w') => k a w'
    | (Exn, w') => (Exn, w')
    end.

(** [try { c } catch (e) { h }] *)
Definition try_catch {W A} (c h : t W A) : t W A :=
  fun w =>
    match c w with
    | (Ok a, w') => (Ok a, w')
    | (Exn, w') => h w'
    end.

Definition throw {W A} : t W A := fun w => (Exn, w).

End Script.

Declare Scope run_scope.
Delimit Scope run_scope with run.
Notation "'let!' x ':=' c 'in' k" := (Script.bind c (fun x => k))
  (at level 10, x pattern, c at level 100, k at level 200) : run_scope.
Notation "c '>>' k" := (Script.bind c (fun _ => k))
  (at level 100, k at level 200, right associativity) : run_scope.

(** ** The simple exporter: [createTasksFromSheet], [getTaskListByName] *)

Module SimpleScript.

(** A task list as the service hands it out: of its members the script
    reads [title] and [id]. *)
Record ListObject := mkListObject {
  lo_title : option string;
  lo_id : option string
}.

Inductive Alert :=
  | AlertStarting (sheetName : string)
  | AlertMissingHeader (headerName : string)
  | AlertAllCreated.

Inductive Log :=
  | LogMissingHeader (headerName : string)
  | LogCreateListFailed.

(** What a run does to its environment, in order. *)
Inductive Effect :=
  | EAlert (a : Alert)
  | ELog (m : Log)
  | ESleep (ms : Z)
  | ETasklistsList
  | ETasklistsInsert (name : string)
  | ETasksInsert (task : Task) (listId : option string).

(** The collaborators of the script: [list_items] answers the [items] of
    [Tasks.Tasklists.list()], [insert_list] the object that
    [Tasks.Tasklists.insert] returns ([None] for [null]), [insert_task]
    is [Tasks.Tasks.insert] with the [id] member of the list object, which
    may be [undefined]; [date_parse v] is the ISO rendering of
    [new Date(v)] unless its time is NaN. *)
Class Service (R : Type) := {
  date_parse : Cell → option string;
  list_items : R → Reply (option (list ListObject)) * R;
  insert_list : string → R → Reply (option ListObject) * R;
  insert_task : Task → option string → R → Reply unit * R
}.

Record World (R : Type) := mkWorld {
  remote : R;
  effects : list Effect
}.
Arguments mkWorld {R}.
Arguments remote {R}.
Arguments effects {R}.

Section Run.
Context {R : Type} {Srv : Service R}.
Local Open Scope run_scope.

Definition emit (e : Effect) : Script.t (World R) unit :=
  fun w => (Ok tt, mkWorld (remote w) (effects w ++ [e])).

(** A call to the task service: the call is recorded, the service moves
    to its next state, and a raised answer becomes an exception. *)
Definition call {A} (e : Effect) (f : R → Reply A * R) : Script.t (World R) A :=
  fun w =>
    let '(reply, r') := f (remote w) in
    let w' := mkWorld r' (effects w ++ [e]) in
    match reply with
    | Returned a => (Ok a, w')
    | Raised => (Exn, w')
    end.

(** The first listed object whose title is [name]. *)
Definition findFirst (name : string) (taskLists : list ListObject) : option ListObject :=
  List.find (fun l => bool_decide (lo_title l = Some name)) taskLists.

(** [getTaskListByName(name)]: the list object, or [None] for [null]. *)
Definition getTaskListByName (name : string) : Script.t (World R) (option ListObject) :=
  let! taskLists := call ETasklistsList list_items in
  match findFirst name (default [] taskLists) with
  | Some taskList => Script.ret (Some taskList)
  | None =>
      Script.try_catch
        (call (ETasklistsInsert name) (insert_list name))
        (emit (ELog LogCreateListFailed) >> Script.ret None)
  end.

(** [getCol(headerName)] with its log line and its alert. *)
Definition getCol (headerMap : gmap string nat) (headerName : string)
  : Script.t (World R) (option nat) :=
  match SimpleExporter.getCol headerMap headerName with
  | Some col => Script.ret (Some col)
  | None =>
      emit (ELog (LogMissingHeader headerName)) >>
      emit (EAlert (AlertMissingHeader headerName)) >>
      Script.ret None
  end.

(** [typeof rowTitle === 'string' &&
     rowTitle.trim().toLowerCase().startsWith("list")] *)
Definition isListRow (rowTitle : option Cell) : bool :=
  match rowTitle with
  | Some (CText s) => Str.startsWith (Str.toLowerCase (Str.trim s)) "list"
  | _ => false
  end.

(** One iteration of the loop over the data rows; [currentTaskList] is
    threaded through. The four column lookups of a task row come in the
    order of the source, each with its alert when the header is missing;
    the task they lead to is [SimpleExporter.taskOfRow]. *)
Definition processRow (headerMap : gmap string nat) (taskTitleColumn taskListNameColumn : nat)
    (row : Row) (currentTaskList : option ListObject)
  : Script.t (World R) (option ListObject) :=
  let rowTitle := row !! (taskTitleColumn - 1)%nat in
  if isListRow rowTitle then
    match row !! (taskListNameColumn - 1)%nat with
    | Some listName =>
        if CellOps.truthy listName
        then getTaskListByName (Str.trim (CellOps.toString listName))
        else Script.ret currentTaskList
    | None => Script.ret currentTaskList
    end
  else
    match rowTitle, currentTaskList with
    | Some taskTitle, Some taskList =>
        if CellOps.truthy taskTitle then
          getCol headerMap "links" >>
          getCol headerMap "due" >>
          getCol headerMap "links" >>
          getCol headerMap "status" >>
          call (ETasksInsert (SimpleExporter.taskOfRow date_parse headerMap row taskTitle)
                             (lo_id taskList))
               (insert_task (SimpleExporter.taskOfRow date_parse headerMap row taskTitle)
                            (lo_id taskList)) >>
          emit (ESleep 500) >>
          Script.ret currentTaskList
        else Script.ret currentTaskList
    | _, _ => Script.ret currentTaskList
    end.

Fixpoint forEachRow (headerMap : gmap string nat) (taskTitleColumn taskListNameColumn : nat)
    (data : list Row) (currentTaskList : option ListObject)
  : Script.t (World R) (option ListObject) :=
  match data with
  | [] => Script.ret currentTaskList
  | row :: rest =>
      let! currentTaskList :=
        processRow headerMap taskTitleColumn taskListNameColumn row currentTaskList in
      forEachRow headerMap taskTitleColumn taskListNameColumn rest currentTaskList
  end.

(** [createTasksFromSheet()] on the active sheet. The two ranges are
    refused when they have no column or no row. *)
Definition createTasksFromSheet (activeSheet : Sheet) : Script.t (World R) unit :=
  emit (EAlert (AlertStarting (sheetName activeSheet))) >>
  if getLastColumn activeSheet <? 1 then Script.throw
  else
    let headers := match values activeSheet with headers :: _ => headers | [] => [] end in
    let headerMap := SimpleExporter.headerMap headers in
    let! taskTitleColumn := getCol headerMap "title" in
    let! taskDueDateColumn := getCol headerMap "due" in
    let! taskStatusColumn := getCol headerMap "status" in
    let! taskStarredColumn := getCol headerMap "links" in
    let! taskLinkColumn := getCol headerMap "links" in
    let! taskListNameColumn := getCol headerMap "list_title" in
    match taskTitleColumn, taskListNameColumn with
    | Some taskTitleColumn, Some taskListNameColumn =>
        let lastRow := getLastRow activeSheet in
        if lastRow - 1 <? 1 then Script.throw
        else
          let data := take (Z.to_nat (lastRow - 1)) (drop 1 (values activeSheet)) in
          forEachRow headerMap taskTitleColumn taskListNameColumn data None >>
          emit (EAlert AlertAllCreated)
    | _, _ => Script.ret tt
    end.

End Run.

(** ** Observations *)

Definition isRemote (e : Effect) : bool :=
  match e with
  | ETasklistsList | ETasklistsInsert _ | ETasksInsert _ _ => true
  | _ => false
  end.

Definition isListing (e : Effect) : bool :=
  match e with ETasklistsList => true | _ => false end.

Definition isListInsert (e : Effect) : bool :=
  match e with ETasklistsInsert _ => true | _ => false end.

Definition isTaskInsert (e : Effect) : bool :=
  match e with ETasksInsert _ _ => true | _ => false end.

Definition isPause (e : Effect) : bool :=
  match e with ESleep ms => ms =? 500 | _ => false end.

Definition isFinalAlert (e : Effect) : bool :=
  match e with EAlert AlertAllCreated => true | _ => false end.

Definition count (f : Effect → bool) (evs : list Effect) : nat :=
  length (List.filter f evs).

(** What a column lookup shows: nothing when the header is there, the log
    line and the alert when it is missing. *)
Definition lookupEffects (headerMap : gmap string nat) (headerName : string) : list Effect :=
  match SimpleExporter.getCol headerMap headerName with
  | Some _ => []
  | None => [ELog (LogMissingHeader headerName); EAlert (AlertMissingHeader headerName)]
  end.

(** The four lookups of a task row. *)
Definition rowLookups (headerMap : gmap string nat) : list Effect :=
  lookupEffects headerMap "links" ++ lookupEffects headerMap "due"
  ++ lookupEffects headerMap "links" ++ lookupEffects headerMap "status".

(** The six lookups at the start of a run. *)
Definition startLookups (headerMap : gmap string nat) : list Effect :=
  lookupEffects headerMap "title" ++ lookupEffects headerMap "due"
  ++ lookupEffects headerMap "status" ++ lookupEffects headerMap "links"
  ++ lookupEffects headerMap "links" ++ lookupEffects headerMap "list_title".

(** The rows that set the list in effect. *)
Definition listRows (taskTitleColumn : nat) (data : list Row) : list Row :=
  List.filter (fun row => isListRow (row !! (taskTitleColumn - 1)%nat)) data.

End SimpleScript.

Module SimpleSamples.

(** A service that accepts everything and lists nothing. *)
Definition accepting : SimpleScript.Service unit :=
  {| SimpleScript.date_parse := fun _ => None;
     SimpleScript.list_items := fun r => (Returned (Some []), r);
     SimpleScript.insert_list := fun name r =>
       (Returned (Some (SimpleScript.mkListObject (Some name) (Some "list-1"))), r);
     SimpleScript.insert_task := fun _ _ r => (Returned tt, r) |}.

Definition start : SimpleScript.World unit := SimpleScript.mkWorld tt [].

(** A sheet with its header row and nothing else. *)
Definition headerOnly : Sheet := mkSheet "Empty" [Demo.headers].

(** A task whose title starts with the letters of "list". *)
Definition listenRow : Row :=
  [CText ""; CText "a7"; CText "Listen to the radio"; CText ""; CText ""; CText ""].

(** A task row, and the list it would go to. *)
Definition taskRow : Row :=
  [CText "Work"; CText "a1"; CText "Buy milk"; CText "needsAction"; CText ""; CText "http://x"].

Definition work : SimpleScript.ListObject :=
  SimpleScript.mkListObject (Some "Work") (Some "list-1").

End SimpleSamples.

(** The name under which the simple exporter files a header cell. *)
Definition headerKey (header : Cell) : string :=
  Str.toLowerCase (Str.trim (CellOps.toString header)).

(** ** The import: [importJsonToSheet] *)

(** What [JSON.parse] answers. A number is carried by its literal; the
    members of an object come in the order of [Object.keys]. *)
#[warnings="-register-all"] Inductive JValue :=
  | JNull
  | JBool (b : bool)
  | JNumber (literal : string)
  | JString (s : string)
  | JArray (items : list JValue)
  | JObject (members : list (string * JValue)).

Module JsonImport.

(** A value handed to [setValues]: [None] stands for [undefined]. *)
Definition JCell := option JValue.

(** The keys ["0"], ["1"], ... of an array or of a string. *)
Definition indexKeys (n : nat) : list string := pretty <$> seq 0 n.

(** [Object.keys(v)]; [None] when it throws, as it does for [null]. *)
Definition objectKeys (v : JValue) : option (list string) :=
  match v with
  | JNull => None
  | JObject members => Some (fst <$> members)
  | JArray items => Some (indexKeys (length items))
  | JString s => Some (indexKeys (String.length s))
  | JBool _ | JNumber _ => Some []
  end.

(** [v.key] and [v[key]] for the names the script reads ([items],
    [title], [id] and the header names), none of which an array, a
    string, a number or a boolean has; [None] when the access throws, as
    it does on [null]. *)
Definition getMember (v : JValue) (key : string) : option JCell :=
  match v with
  | JNull => None
  | JObject members =>
      Some (snd <$> List.find (fun member => String.eqb (fst member) key) members)
  | _ => Some None
  end.

(** [Object.keys(v).forEach(key => allHeaders.add(key))] *)
Definition addKeys (allHeaders : gset string) (v : JValue) : option (gset string) :=
  keys ← objectKeys v;
  Some (foldl (fun acc key => acc ∪ {[key]}) allHeaders keys).

(** A loop whose body may throw. *)
Fixpoint foldThrowing {A B} (f : A → B → option A) (a : A) (l : list B) : option A :=
  match l with
  | [] => Some a
  | b :: rest => a' ← f a b; foldThrowing f a' rest
  end.

(** The body of the first loop over [data]. *)
Definition collectItem (allHeaders : gset string) (item : JValue) : option (gset string) :=
  allHeaders ← addKeys allHeaders item;
  items ← getMember item "items";
  match items with
  | Some (JArray tasks) => foldThrowing addKeys allHeaders tasks
  | _ => Some allHeaders
  end.

Definition orderedHeaders : list string :=
  ["list_title"; "list_id"; "id"; "title"; "status"; "created"; "updated"; "due";
   "links"; "task_type"; "kind"; "selfLink"].

Definition finalHeadersOf (allHeaders : gset string) : list string :=
  List.filter (fun header => bool_decide (header ∈ allHeaders)) orderedHeaders.

(** The cell of one header in the row of [task], or in the row of a list
    with no task when [task] is [None]. *)
Definition cellFor (listTitle listId : JCell) (task : option JValue) (header : string)
  : option JCell :=
  if String.eqb header "list_title" then Some listTitle
  else if String.eqb header "list_id" then Some listId
  else
    match task with
    | Some task =>
        value ← getMember task header;
        Some (match value with
              | Some v => Some v
              | None => Some (JString "")
              end)
    | None => Some (Some (JString ""))
    end.

(** The body of the second loop over [data]: the rows of one list. *)
Definition rowsOfList (finalHeaders : list string) (taskList : JValue)
  : option (list (list JCell)) :=
  listTitle ← getMember taskList "title";
  listId ← getMember taskList "id";
  items ← getMember taskList "items";
  match items with
  | Some (JArray (task :: tasks)) =>
      mapM (fun task => mapM (cellFor listTitle listId (Some task)) finalHeaders)
           (task :: tasks)
  | _ =>
      emptyRow ← mapM (cellFor listTitle listId None) finalHeaders;
      Some [emptyRow]
  end.

(** How a call ends: with the alert for data that is no non-empty array
    and the sheet untouched; in the [catch] block, with the sheet
    cleared before or not; or by handing [outputData] to [setValues] on
    the cleared sheet, after which the alert counts
    [outputData.length - 1] records (what the host makes of the values
    is not part of the model). *)
Inductive Outcome :=
  | Invalid
  | Caught (cleared : bool)
  | Written (outputData : list (list JCell)).

(** What is computed between [sheet.clear()] and [setValues]; the range
    of the output is refused when it has no column. *)
Definition buildOutput (data : list JValue) : option (list (list JCell)) :=
  allHeaders ← foldThrowing collectItem ∅ data;
  let finalHeaders := finalHeadersOf allHeaders in
  rows ← mapM (rowsOfList finalHeaders) data;
  let outputData := ((fun header => Some (JString header)) <$> finalHeaders) :: mjoin rows in
  if bool_decide (finalHeaders = []) then None else Some outputData.

(** [importJsonToSheet(rawJson)], from what [JSON.parse(rawJson)]
    answers ([None] when it throws). *)
Definition importJsonToSheet (parsed : option JValue) : Outcome :=
  match parsed with
  | None => Caught false
  | Some (JArray (item :: items)) =>
      match buildOutput (item :: items) with
      | Some outputData => Written outputData
      | None => Caught true
      end
  | Some _ => Invalid
  end.

(** ** Observations *)

(** The tasks of a list: the elements of its [items] when that is an
    array. *)
Definition tasksOf (taskList : JValue) : list JValue :=
  match getMember taskList "items" with
  | Some (Some (JArray tasks)) => tasks
  | _ => []
  end.

(** The lists and their tasks. *)
Definition objectsOf (data : list JValue) : list JValue :=
  data ++ mjoin (tasksOf <$> data).

(** The member names of the lists and of their tasks. *)
Definition hasKey (key : string) (v : JValue) : Prop :=
  ∃ keys, objectKeys v = Some keys ∧ key ∈ keys.

(** What the rows made for one list hold: one row for each task, or one
    row when the list has no task; under [list_title] and [list_id] the
    [title] and the [id] of the list, under any other header the member
    of that name of the task of the row, or the empty string. *)
Definition RowsOf (finalHeaders : list string) (taskList : JValue)
    (rows : list (list JCell)) : Prop :=
  ∃ listTitle listId,
    getMember taskList "title" = Some listTitle
    ∧ getMember taskList "id" = Some listId
    ∧ length rows = Nat.max 1 (length (tasksOf taskList))
    ∧ ∀ k row, rows !! k = Some row →
        length row = length finalHeaders
        ∧ ∀ i header, finalHeaders !! i = Some header →
            row !! i
            = Some (if String.eqb header "list_title" then listTitle
                    else if String.eqb header "list_id" then listId
                    else match tasksOf taskList !! k with
                         | Some task =>
                             Some (default (JString "") (mjoin (getMember task header)))
                         | None => Some (JString "")
                         end).

(** The number of records: one for each task, and one for each list
    that has none. *)
Definition recordCount (data : list JValue) : nat :=
  sum_list ((fun taskList => Nat.max 1 (length (tasksOf taskList))) <$> data).

End JsonImport.

Module ImportSamples.

(** One list with one task, as an export of the task service has them:
    the lists and the tasks have a [title], none has a [list_title]. *)
Definition takeout : list JValue :=
  [ JObject [ ("kind", JString "tasks#taskList"); ("id", JString "L1");
              ("title", JString "Work");
              ("items", JArray [ JObject [ ("id", JString "t1");
                                           ("title", JString "Buy milk");
                                           ("status", JString "needsAction") ] ]) ] ].

(** The same with an entry that is [null]. *)
Definition broken : list JValue := takeout ++ [JNull].

(** The header row and a sheet that holds it. *)
Definition written : list string := ["id"; "title"; "status"; "kind"].

(** The rows made for the one list of [takeout]. *)
Definition workRows : list (list JsonImport.JCell) :=
  [ [Some (JString "t1"); Some (JString "Buy milk"); Some (JString "needsAction");
     Some (JString "")] ].

(** What the import of [takeout] hands to [setValues]. *)
Definition output : list (list JsonImport.JCell) :=
  ((fun header => Some (JString header)) <$> written) :: workRows.

Definition sheet : Sheet :=
  mkSheet "Import"
    [ CText <$> written;
      [CText "t1"; CText "Buy milk"; CText "needsAction"; CText ""] ].

End ImportSamples.

(** ** The all-sheets pipeline: [createTasksFromAllSheets], [continueProcess]

    The first script of the repository walks through every sheet of the
    spreadsheet. It keeps the index of the sheet it works on in a
    property of its own and writes no report. *)

Module AllSheets.

(** The script properties, read back as they were written. *)
Record Props := mkProps {
  prop_ROW : option Z;
  prop_SHEET : option Z;
  prop_CACHE : option Cache;
  prop_LIST : option string
}.

Definition noProps : Props := mkProps None None None None.

Definition with_ROW (v : option Z) (p : Props) : Props :=
  mkProps v (prop_SHEET p) (prop_CACHE p) (prop_LIST p).
Definition with_SHEET (v : option Z) (p : Props) : Props :=
  mkProps (prop_ROW p) v (prop_CACHE p) (prop_LIST p).
Definition with_CACHE (v : option Cache) (p : Props) : Props :=
  mkProps (prop_ROW p) (prop_SHEET p) v (prop_LIST p).
Definition with_LIST (v : option string) (p : Props) : Props :=
  mkProps (prop_ROW p) (prop_SHEET p) (prop_CACHE p) v.

(** Messages of [Logger.log], by the fields they print. *)
Inductive Log :=
  | LogAllDone
  | LogSheetDone (name : string)
  | LogStarting (name : string) (startRow : Z)
  | LogCacheRefreshFailed
  | LogMissingHeaders (name : string)
  | LogRowNoList (rowNumber : Z)
  | LogRowEmpty (rowNumber : Z)
  | LogRowListDefinition (rowNumber : Z)
  | LogRowCreated (rowNumber : Z) (taskTitle listName : string)
  | LogRowFailed (rowNumber : Z) (taskTitle : string)
  | LogRowNoListId (rowNumber : Z) (listName : string)
  | LogBatchDone (nextStartRow : Z)
  | LogListCreated (name : string)
  | LogListNoId (name : string)
  | LogListCreateRaised (name : string)
  | LogListFound (name : string)
  | LogListStillMissing (name : string)
  | LogRefetchFailed.

Inductive Event :=
  | ELog (m : Log)
  | ESleep (ms : Z)
  | ETasklistsList
  | ETasklistsInsert (name : string)
  | ETasksInsert (task : Task) (listId : string).

Record World (R : Type) := mkWorld {
  properties : Props;
  triggers : list Trigger;
  sheets : list Sheet;
  remote : R;
  trace : list Event
}.
Arguments mkWorld {R}.
Arguments properties {R}.
Arguments triggers {R}.
Arguments sheets {R}.
Arguments remote {R}.
Arguments trace {R}.

(** The local variables the row loop updates. *)
Record Locals := mkLocals {
  taskListCache : Cache;
  lastKnownListTitle : option string
}.

Section Run.
Context {R : Type} {Srv : Services R}.
Local Open Scope run_scope.

Definition emit (e : Event) : Script.t (World R) unit :=
  fun w => (Ok tt, mkWorld (properties w) (triggers w) (sheets w) (remote w) (trace w ++ [e])).

Definition Logger_log (m : Log) : Script.t (World R) unit := emit (ELog m).

(** A call to the task service: the call is recorded, the service moves
    to its next state, and a raised answer becomes an exception. *)
Definition call {A} (e : Event) (f : R → Reply A * R) : Script.t (World R) A :=
  fun w =>
    let '(reply, r') := f (remote w) in
    let w' := mkWorld (properties w) (triggers w) (sheets w) r' (trace w ++ [e]) in
    match reply with
    | Returned a => (Ok a, w')
    | Raised => (Exn, w')
    end.

Definition getProperty {A} (key : Props → option A) : Script.t (World R) (option A) :=
  fun w => (Ok (key (properties w)), w).

Definition setProperties (f : Props → Props) : Script.t (World R) unit :=
  fun w => (Ok tt, mkWorld (f (properties w)) (triggers w) (sheets w) (remote w) (trace w)).

Definition getProjectTriggers : Script.t (World R) (list Trigger) :=
  fun w => (Ok (triggers w), w).

Definition setTriggers (f : list Trigger → list Trigger) : Script.t (World R) unit :=
  fun w => (Ok tt, mkWorld (properties w) (f (triggers w)) (sheets w) (remote w) (trace w)).

Definition getSheets : Script.t (World R) (list Sheet) :=
  fun w => (Ok (sheets w), w).

Definition deleteExistingTriggers : Script.t (World R) unit :=
  let! allTriggers := getProjectTriggers in
  foldr (fun trigger rest =>
           (if String.eqb (handlerFunction trigger) SCRIPT_TRIGGER_HANDLER
            then setTriggers (removeTrigger trigger)
            else Script.ret tt) >> rest)
        (Script.ret tt) allTriggers.

Definition createTrigger : Script.t (World R) unit :=
  deleteExistingTriggers >>
  setTriggers (fun l => l ++ [mkTrigger SCRIPT_TRIGGER_HANDLER (60 * 1000)]).

(** [getTaskListIdByName(name, cache)]: the id, or [None] for [null],
    together with the cache as the call leaves it; the test
    [cache[name]] is taken on the entries of the cache, as in the
    single-sheet script. *)
Definition getTaskListIdByName (name : string) (cache : Cache)
  : Script.t (World R) (option string * Cache) :=
  if truthyStr (cache !! name) then Script.ret (cache !! name, cache)
  else
    Script.try_catch
      (let! createdId := call (ETasklistsInsert name) (remote_insertList name) in
       ifTruthy createdId
         (Logger_log (LogListNoId name) >> Script.ret (None, cache))
         (fun id =>
            Logger_log (LogListCreated name) >>
            Script.ret (Some id, <[name := id]> cache)))
      (Logger_log (LogListCreateRaised name) >>
       emit (ESleep 2000) >>
       Script.try_catch
         (let! taskLists := call ETasklistsList remote_list in
          match findByTitle name (default [] taskLists) with
          | Some list =>
              Logger_log (LogListFound name) >>
              Script.ret (Some (tl_id list), <[name := tl_id list]> cache)
          | None =>
              Logger_log (LogListStillMissing name) >> Script.ret (None, cache)
          end)
         (Logger_log LogRefetchFailed >> Script.ret (None, cache))).

(** One iteration of the row loop. *)
Definition processRow (cols : Columns) (currentRowNumber : Z) (row : Row)
    (st : Locals) : Script.t (World R) Locals :=
  let lastKnownListTitle := nextListTitle cols row (lastKnownListTitle st) in
  let taskListName := lastKnownListTitle in
  let finalTaskTitle := finalTaskTitleOf cols row in
  let skipped := mkLocals (taskListCache st) lastKnownListTitle in
  ifTruthy taskListName
    (Logger_log (LogRowNoList currentRowNumber) >> Script.ret skipped)
    (fun taskListName =>
  ifTruthy finalTaskTitle
    (Logger_log (LogRowEmpty currentRowNumber) >> Script.ret skipped)
    (fun finalTaskTitle =>
  if Str.startsWith (Str.toLowerCase finalTaskTitle) "list:"
  then Logger_log (LogRowListDefinition currentRowNumber) >> Script.ret skipped
  else
    let! (currentTaskListId, cache) :=
      getTaskListIdByName taskListName (taskListCache st) in
    let unchanged := mkLocals cache lastKnownListTitle in
    ifTruthy currentTaskListId
      (Logger_log (LogRowNoListId currentRowNumber taskListName) >> Script.ret unchanged)
      (fun currentTaskListId =>
         let task := newTask cols finalTaskTitle row in
         Script.try_catch
           (call (ETasksInsert task currentTaskListId)
                 (remote_insertTask task currentTaskListId) >>
            Logger_log (LogRowCreated currentRowNumber finalTaskTitle taskListName) >>
            emit (ESleep API_DELAY_MS) >>
            Script.ret unchanged)
           (Logger_log (LogRowFailed currentRowNumber finalTaskTitle) >>
            Script.ret unchanged)))).

Fixpoint forEachRow (cols : Columns) (currentRowNumber : Z) (data : list Row)
    (st : Locals) : Script.t (World R) Locals :=
  match data with
  | [] => Script.ret st
  | row :: rest =>
      let! st' := processRow cols currentRowNumber row st in
      forEachRow cols (currentRowNumber + 1) rest st'
  end.

(** [parseInt(properties.getProperty(SCRIPT_PROPERTY_SHEET), 10) || 0] *)
Definition sheetIndexOf (stored : option Z) : Z := default 0 stored.

(** [allSheets[currentSheetIndex]], with [undefined] as [None]. *)
Definition sheetAt (allSheets : list Sheet) (currentSheetIndex : Z) : option Sheet :=
  if currentSheetIndex <? 0 then None else allSheets !! Z.to_nat currentSheetIndex.

(** The refresh of the cache from the remote lists; a listing that
    raises leaves the stored cache. *)
Definition refreshFromRemote (taskListCache : Cache) : Script.t (World R) Cache :=
  Script.try_catch
    (let! taskLists := call ETasklistsList remote_list in
     Script.ret (refreshCache taskListCache taskLists))
    (Logger_log LogCacheRefreshFailed >> Script.ret taskListCache).

(** The checkpoint written after the row loop, then the next trigger. *)
Definition persistBatch (nextStartRow currentSheetIndex : Z) (st : Locals)
  : Script.t (World R) unit :=
  setProperties (with_ROW (Some nextStartRow)) >>
  setProperties (with_SHEET (Some currentSheetIndex)) >>
  setProperties (with_CACHE (Some (taskListCache st))) >>
  ifTruthy (lastKnownListTitle st) (Script.ret tt)
    (fun title => setProperties (with_LIST (Some title))) >>
  createTrigger >>
  Logger_log (LogBatchDone nextStartRow).

(** [continueProcess()], with the batch size as an argument. The ranges
    are refused as in the single-sheet script; a sheet index that is
    negative finds no sheet, and the call on it throws. *)
Definition continueProcessWith (batchSize : Z) : Script.t (World R) unit :=
  let! allSheets := getSheets in
  let! storedSheet := getProperty prop_SHEET in
  let currentSheetIndex := sheetIndexOf storedSheet in
  let! storedRow := getProperty prop_ROW in
  let startRow := startRowOf storedRow in
  if Z.of_nat (length allSheets) <=? currentSheetIndex then
    Logger_log LogAllDone >>
    setProperties (with_ROW None) >>
    setProperties (with_SHEET None) >>
    setProperties (with_CACHE None) >>
    setProperties (with_LIST None) >>
    deleteExistingTriggers
  else
    match sheetAt allSheets currentSheetIndex with
    | None => Script.throw
    | Some sheet =>
        let lastRow := getLastRow sheet in
        if startRow >? lastRow then
          Logger_log (LogSheetDone (sheetName sheet)) >>
          setProperties (with_SHEET (Some (currentSheetIndex + 1))) >>
          setProperties (with_ROW None) >>
          setProperties (with_LIST None) >>
          createTrigger
        else
          Logger_log (LogStarting (sheetName sheet) startRow) >>
          let! cacheString := getProperty prop_CACHE in
          let taskListCache := default ∅ cacheString in
          let! storedTitle := getProperty prop_LIST in
          let lastKnownListTitle := ifTruthy storedTitle None Some in
          let! taskListCache := refreshFromRemote taskListCache in
          if getLastColumn sheet <? 1 then Script.throw
          else
            let headers := match values sheet with headers :: _ => headers | [] => [] end in
            match indexOf headers "title", indexOf headers "list_title" with
            | Some titleIndex, Some listTitleIndex =>
                let cols :=
                  mkColumns titleIndex (indexOf headers "id") listTitleIndex
                            (indexOf headers "status") (indexOf headers "due")
                            (indexOf headers "links") in
                let rowsToProcess := Z.min batchSize (lastRow - startRow + 1) in
                if (startRow <? 1) || (rowsToProcess <? 1) then Script.throw
                else
                  let data :=
                    take (Z.to_nat rowsToProcess)
                         (drop (Z.to_nat (startRow - 1)) (values sheet)) in
                  let! st :=
                    forEachRow cols startRow data
                      (mkLocals taskListCache lastKnownListTitle) in
                  persistBatch (startRow + rowsToProcess) currentSheetIndex st
            | _, _ =>
                Logger_log (LogMissingHeaders (sheetName sheet)) >>
                setProperties (with_SHEET (Some (currentSheetIndex + 1))) >>
                setProperties (with_ROW None) >>
                createTrigger
            end
    end.

Definition continueProcess : Script.t (World R) unit := continueProcessWith BATCH_SIZE.

(** [createTasksFromAllSheets()]; its alert is not recorded. *)
Definition createTasksFromAllSheetsWith (batchSize : Z) : Script.t (World R) unit :=
  setProperties (with_ROW None) >>
  setProperties (with_SHEET None) >>
  setProperties (with_CACHE None) >>
  setProperties (with_LIST None) >>
  deleteExistingTriggers >>
  continueProcessWith batchSize.

Definition createTasksFromAllSheets : Script.t (World R) unit :=
  createTasksFromAllSheetsWith BATCH_SIZE.

(** The host fires the pending trigger again and again: the [i]-th
    invocation works with batch size [sizes i]; an invocation that ends
    in an exception leaves its trigger behind and is not repeated. *)
Fixpoint fire (fuel : nat) (sizes : nat → Z) (i : nat) (w : World R) : World R :=
  match fuel with
  | O => w
  | S fuel' =>
      if existsb isJob (triggers w) then
        match continueProcessWith (sizes i) w with
        | (Ok _, w') => fire fuel' sizes (S i) w'
        | (Exn, w') => w'
        end
      else w
  end.

(** A whole run: the menu entry, then the triggers. *)
Definition exportRun (fuel : nat) (sizes : nat → Z) (w : World R) : World R :=
  match createTasksFromAllSheetsWith (sizes 0%nat) w with
  | (Ok _, w') => fire fuel sizes 1%nat w'
  | (Exn, w') => w'
  end.

End Run.

(** ** Observations *)

(** The sheet and the row the next invocation starts at. *)
Definition sheetIndex {R} (w : World R) : Z := sheetIndexOf (prop_SHEET (properties w)).
Definition cursor {R} (w : World R) : Z := startRowOf (prop_ROW (properties w)).

Definition currentSheet {R} (w : World R) : option Sheet :=
  sheetAt (sheets w) (sheetIndex w).

(** The triggers of other handlers, and the one of the handler. *)
Definition foreignTriggers {R} (w : World R) : list Trigger :=
  List.filter (fun t => negb (isJob t)) (triggers w).

Definition job : Trigger := mkTrigger SCRIPT_TRIGGER_HANDLER 60000.

Definition isRemote (e : Event) : bool :=
  match e with
  | ETasklistsList | ETasklistsInsert _ | ETasksInsert _ _ => true
  | _ => false
  end.

(** The list name the next invocation starts with. *)
Definition loadedListTitle {R} (w : World R) : option string :=
  ifTruthy (prop_LIST (properties w)) None Some.

(** The world after further events. *)
Definition logged {R} (evs : list Event) (w : World R) : World R :=
  mkWorld (properties w) (triggers w) (sheets w) (remote w) (trace w ++ evs).

(** The properties as a batch leaves them. *)
Definition checkpointAfter (nextStartRow currentSheetIndex : Z) (st : Locals) (p : Props)
  : Props :=
  mkProps (Some nextStartRow) (Some currentSheetIndex) (Some (taskListCache st))
          (ifTruthy (lastKnownListTitle st) (prop_LIST p) Some).

(** The world an invocation ends in when it returns: new properties,
    the trigger of the handler kept or not, a last log line. *)
Definition leave {R} (p : Props) (again : bool) (m : Log) (w : World R) : World R :=
  mkWorld p (foreignTriggers w ++ (if again then [job] else []))
          (sheets w) (remote w) (trace w ++ [ELog m]).

(** [w'] has the properties, the triggers and the sheets of [w], and the
    trace of [w] with further events. *)
Definition Kept {R} (w w' : World R) : Prop :=
  properties w' = properties w ∧ triggers w' = triggers w ∧ sheets w' = sheets w
  ∧ ∃ evs, trace w' = trace w ++ evs.

(** No list name is carried into a sheet: whenever the cursor is at the
    top of a sheet, no list title is stored. *)
Definition FreshAtTop {R} (w : World R) : Prop :=
  prop_ROW (properties w) = None → prop_LIST (properties w) = None.

(** A stored cursor is one a batch has written, in a sheet that has its
    two required headers. *)
Definition Checkpointed {R} (w : World R) : Prop :=
  ∀ row, prop_ROW (properties w) = Some row →
    3 ≤ row ∧ ∃ sheet cols, currentSheet w = Some sheet ∧ columnsOf sheet = Some cols.

(** The state in which the first invocation of a run starts. *)
Definition startedWorld {R} (w : World R) : World R :=
  mkWorld noProps (foreignTriggers w) (sheets w) (remote w) (trace w).

(** The invocations a sheet takes at most: one for each data row and
    one to leave it. *)
Definition sheetCost (sheet : Sheet) : Z := Z.max 0 (getLastRow sheet - 1) + 1.

Definition costFrom (allSheets : list Sheet) (index : Z) : Z :=
  foldr Z.add 0 (sheetCost <$> drop (Z.to_nat index) allSheets).

(** The invocations a run still takes at most: those of the sheets from
    the one at hand on, less the rows of it that are done, and the one
    that cleans up. *)
Definition remaining {R} (w : World R) : Z :=
  costFrom (sheets w) (sheetIndex w) - (cursor w - 2) + 1.

(** A sheet with data rows has a column. *)
Definition WellFormed (sheet : Sheet) : Prop :=
  2 ≤ getLastRow sheet → 1 ≤ getLastColumn sheet.

(** Where a run started in [w0] can be between two invocations. *)
Definition OnTrack {R} (w0 w : World R) : Prop :=
  sheets w = sheets w0
  ∧ foreignTriggers w = foreignTriggers w0
  ∧ 0 ≤ sheetIndex w
  ∧ 2 ≤ cursor w
  ∧ (∀ sheet, currentSheet w = Some sheet → cursor w ≤ Z.max 2 (getLastRow sheet + 1))
  ∧ (Z.of_nat (length (sheets w)) ≤ sheetIndex w → cursor w = 2).

(** The state a run ends in. *)
Definition Finished {R} (w0 w : World R) : Prop :=
  properties w = noProps
  ∧ triggers w = foreignTriggers w0
  ∧ sheets w = sheets w0
  ∧ last (trace w) = Some (ELog LogAllDone).

(** [n] invocations in a row, whatever their outcome. *)
Fixpoint invocations {R} {Srv : Services R} (sizes : nat → Z) (n : nat) (w : World R)
  : World R :=
  match n with
  | O => w
  | S n' => snd (continueProcessWith (sizes n') (invocations sizes n' w))
  end.

End AllSheets.

Module AllSamples.

(** A second sheet, whose first rows name no list. *)
Definition second : Sheet :=
  mkSheet "More"
    [ Demo.headers;
      [CText ""; CText "b1"; CText "Water plants"; CText ""; CText ""; CText ""] ].

(** A spreadsheet of three sheets, the one in the middle without the
    required headers. *)
Definition book : list Sheet := [Demo.sheet; Samples.plain; second].

Definition fresh : AllSheets.World Store :=
  AllSheets.mkWorld AllSheets.noProps [] book emptyStore [].

(** The first sheet is done: the cursor is past its last row, and a list
    title is stored. *)
Definition firstDone : AllSheets.World Store :=
  AllSheets.mkWorld (AllSheets.mkProps (Some 6) (Some 0) (Some ∅) (Some "Home"))
    [AllSheets.job] book emptyStore [].

(** At the top of the sheet in the middle. *)
Definition atPlain : AllSheets.World Store :=
  AllSheets.mkWorld (AllSheets.mkProps None (Some 1) (Some ∅) None)
    [AllSheets.job] book emptyStore [].

End AllSamples.

(** The log entry of a created task whose list is not under one of the
    names that objects inherit. *)
Definition isCountedLog (e : Event) : bool :=
  match e with
  | EvLog (LogRowCreated _ _ listName) => negb (inherited listName)
  | _ => false
  end.

(** No entry of the report is under a name that objects inherit. *)
Definition OwnNames (report : Report) : Prop :=
  ∀ name, inherited name = true → report !! name = None.

Module NameSamples.

(** One completed task for a list called "constructor". *)
Definition sheet : Sheet :=
  mkSheet "Tasks"
    [ Demo.headers;
      [CText "constructor"; CText "a1"; CText "Buy milk"; CText "completed"; CText "";
       CText ""] ].

(** The account has a list of that name. *)
Definition fresh : World Store :=
  freshWorld [sheet] (mkStore [mkTaskList "constructor" "list-0"] []).

Definition final : World Store :=
  exportRun (Srv := storeServices lenient) 10 (fun _ => 100) "Tasks" fresh.

End NameSamples.

(** ** The row loop with the list names read off the sheet

    What the carried list name stands for: every row works with the
    most recent list marker at or before it.  The definitions below say
    so without a variable that is carried from row to row, and from
    batch to batch; the run of the script is compared with them. *)

Section ByMarkers.
Context {R : Type} {Srv : Services R}.
Local Open Scope script_scope.

(** The iteration for sheet row [currentRowNumber] when the row works
    with the list name [listName]: without a list name the row is
    skipped, and so is a row without title and a row whose title starts
    with "list:"; otherwise the id of the list of that name is resolved,
    the task is inserted into the list of that id and, when the call
    returned, counted under that name. *)
Definition processRowFor (cols : Columns) (currentRowNumber : Z) (row : Row)
    (listName : option string) (cache : Cache) (report : Report)
  : M R (Cache * Report) :=
  ifTruthy listName
    (Logger_log (LogRowNoList currentRowNumber) >> ret (cache, report))
    (fun listName =>
  ifTruthy (finalTaskTitleOf cols row)
    (Logger_log (LogRowEmpty currentRowNumber) >> ret (cache, report))
    (fun taskTitle =>
  if Str.startsWith (Str.toLowerCase taskTitle) "list:"
  then Logger_log (LogRowListDefinition currentRowNumber) >> ret (cache, report)
  else
    let! (listId, cache) := getTaskListIdByName listName cache in
    ifTruthy listId
      (Logger_log (LogRowNoListId currentRowNumber listName) >> ret (cache, report))
      (fun listId =>
         let task := newTask cols taskTitle row in
         try_catch
           (Tasks_Tasks_insert task listId >>
            Logger_log (LogRowCreated currentRowNumber taskTitle listName) >>
            Utilities_sleep API_DELAY_MS >>
            ret (cache, countTask listName task report))
           (Logger_log (LogRowFailed currentRowNumber taskTitle) >>
            ret (cache, report))))).

(** The rows [data], from sheet row [currentRowNumber] on, each with the
    most recent marker at or before it among the data rows [all] of the
    sheet. *)
Fixpoint forEachRowByMarker (cols : Columns) (all : list Row) (currentRowNumber : Z)
    (data : list Row) (cache : Cache) (report : Report) : M R (Cache * Report) :=
  match data with
  | [] => ret (cache, report)
  | row :: rest =>
      let! (cache, report) :=
        processRowFor cols currentRowNumber row
          (effectiveList cols all currentRowNumber) cache report in
      forEachRowByMarker cols all (currentRowNumber + 1) rest cache report
  end.

(** An invocation in the world [w], [k] data rows being done, that
    leaves the world [w']: the cache is refreshed, the rows of the batch
    go through [forEachRowByMarker], and the checkpoint holds the cursor
    past the batch, the cache, the report and the most recent marker
    among the rows then done; one trigger is pending. *)
Definition BatchByMarkers (sheet : Sheet) (cols : Columns) (b : Z) (k : nat)
    (w w' : World R) : Prop :=
  ∃ cache0 w1 cache' report' w2,
    refreshFromRemote (loadedCache w)
      (logged [EvLog (LogStarting (sheetName sheet) (cursor w))] w) = (Ok cache0, w1)
    ∧ forEachRowByMarker cols (dataRows sheet) (cursor w)
        (batchData sheet (cursor w) b) cache0 (loadedReport w)
        (logged [EvGetHeaders;
                 EvGetValues (cursor w) (rowsToProcess sheet (cursor w) b)] w1)
      = (Ok (cache', report'), w2)
    ∧ w' = logged [EvLog (LogBatchDone (cursor w + rowsToProcess sheet (cursor w) b))]
             (with_triggers
                (foreignTriggers w ++ [mkTrigger SCRIPT_TRIGGER_HANDLER 60000])
                (with_properties
                   (checkpointAfter (cursor w + rowsToProcess sheet (cursor w) b)
                      (mkLocals cache' report'
                         (lastMarker cols
                            (take (k + length (batchData sheet (cursor w) b))
                                  (dataRows sheet))))
                      (properties w))
                   w2)).

(** A run from the world [w] of invocation [i], [k] data rows being
    done, to the world in which it ends: invocation after invocation
    ([continueProcessWith] with the batch size of its turn), each of
    which finds the most recent marker among the rows done as the stored
    list name and is a batch by the markers, up to the invocation that
    finds no row left and leaves no trigger. *)
Inductive RunByMarkers (sheet : Sheet) (cols : Columns) (sizes : nat → Z)
  : nat → nat → World R → World R → Prop :=
  | RunFinishes i w w' :
      RunAt sheet cols (length (dataRows sheet)) w →
      continueProcessWith (sizes i) w = (Ok tt, w') →
      pending w' = false →
      RunByMarkers sheet cols sizes i (length (dataRows sheet)) w w'
  | RunBatch i k w w' wN :
      (k < length (dataRows sheet))%nat →
      RunAt sheet cols k w →
      loadedListTitle w = lastMarker cols (take k (dataRows sheet)) →
      continueProcessWith (sizes i) w = (Ok tt, w') →
      BatchByMarkers sheet cols (sizes i) k w w' →
      RunByMarkers sheet cols sizes (S i)
        (k + length (batchData sheet (cursor w) (sizes i))) w' wN →
      RunByMarkers sheet cols sizes i k w wN.

End ByMarkers.


(** * Properties *)

(** ** Strings and cells *)

Lemma nonEmpty_true s : Str.nonEmpty s = true ↔ s ≠ "".
Proof. destruct s; simpl; split; congruence. Qed.

Lemma nonEmpty_false s : Str.nonEmpty s = false ↔ s = "".
Proof. destruct s; simpl; split; congruence. Qed.

Example trim_ex : Str.trim "  Buy milk " = "Buy milk".
Proof. reflexivity. Qed.

Example lower_ex : Str.toLowerCase "List: Work" = "list: work".
Proof. reflexivity. Qed.

Example includes_ex : Str.includes "is starred." "starred" = true.
Proof. reflexivity. Qed.

Example toString_ex : CellOps.toString (CNumber (-42)) = "-42".
Proof. reflexivity. Qed.

Lemma ifTruthy_yes {A} (v : option string) (no : A) yes s :
  v = Some s → s ≠ "" → ifTruthy v no yes = yes s.
Proof. intros -> Hs. simpl. apply nonEmpty_true in Hs. by rewrite Hs. Qed.

Lemma ifTruthy_no {A} (v : option string) (no : A) yes :
  truthyStr v = false → ifTruthy v no yes = no.
Proof. destruct v as [s|]; simpl; [intros ->|]; done. Qed.

Lemma truthyStr_Some v : truthyStr v = true → ∃ s, v = Some s ∧ s ≠ "".
Proof.
  destruct v as [s|]; simpl; [|done].
  intros Hs. exists s. split; [done|]. by apply nonEmpty_true.
Qed.

(** ** Computations *)

Section MonadFacts.
Context {R : Type}.

Lemma bind_ok {A B} (c : M R A) (k : A → M R B) w a w' :
  c w = (Ok a, w') → bind c k w = k a w'.
Proof. unfold bind. by intros ->. Qed.

Lemma bind_exn {A B} (c : M R A) (k : A → M R B) w w' :
  c w = (Exn, w') → bind c k w = (Exn, w').
Proof. unfold bind. by intros ->. Qed.

Lemma try_ok {A} (c h : M R A) w a w' :
  c w = (Ok a, w') → try_catch c h w = (Ok a, w').
Proof. unfold try_catch. by intros ->. Qed.

Lemma try_exn {A} (c h : M R A) w w' :
  c w = (Exn, w') → try_catch c h w = h w'.
Proof. unfold try_catch. by intros ->. Qed.

End MonadFacts.

(** ** The scheduler bridge *)

Section Triggers.
Context {R : Type} {Srv : Services R}.

Lemma removeTrigger_skip t pre l :
  Forall (fun t' => isJob t' = false) pre → isJob t = true →
  removeTrigger t (pre ++ t :: l) = pre ++ l.
Proof.
  intros Hpre Ht. induction Hpre as [|t' pre Ht' _ IH]; simpl.
  - by rewrite decide_True.
  - rewrite decide_False; [by rewrite IH|]. intros ->. congruence.
Qed.

Lemma deleteLoop_spec l : ∀ pre (w : World R),
  triggers w = pre ++ l →
  Forall (fun t => isJob t = false) pre →
  foldr (fun trigger rest =>
           bind (if String.eqb (handlerFunction trigger) SCRIPT_TRIGGER_HANDLER
                 then setTriggers (removeTrigger trigger)
                 else ret tt) (fun _ => rest))
        (ret tt) l w
  = (Ok tt, with_triggers (pre ++ List.filter (fun t => negb (isJob t)) l) w).
Proof.
  induction l as [|t l IH]; intros pre w Hw Hpre; simpl.
  - unfold ret. rewrite <- Hw. by destruct w.
  - fold (isJob t). destruct (isJob t) eqn:Ht; simpl.
    + erewrite bind_ok; [|reflexivity].
      rewrite (IH pre); [done| |done].
      simpl. rewrite Hw. by apply removeTrigger_skip.
    + erewrite bind_ok; [|reflexivity].
      rewrite (IH (pre ++ [t])).
      * by rewrite <- app_assoc.
      * by rewrite <- app_assoc.
      * apply Forall_app. split; [done|]. by constructor.
Qed.

Lemma deleteExistingTriggers_spec (w : World R) :
  deleteExistingTriggers w = (Ok tt, with_triggers (foreignTriggers w) w).
Proof.
  unfold deleteExistingTriggers. erewrite bind_ok; [|reflexivity].
  by rewrite (deleteLoop_spec (triggers w) [] w).
Qed.

Lemma createTrigger_spec (w : World R) :
  createTrigger w
  = (Ok tt, with_triggers (foreignTriggers w ++ [mkTrigger SCRIPT_TRIGGER_HANDLER 60000]) w).
Proof.
  unfold createTrigger. erewrite bind_ok; [|apply deleteExistingTriggers_spec].
  reflexivity.
Qed.

Lemma filter_foreign_job (l : list Trigger) :
  List.filter isJob (List.filter (fun t => negb (isJob t)) l) = [].
Proof.
  induction l as [|t l IH]; simpl; [done|].
  destruct (isJob t) eqn:Ht; simpl; [done|]. by rewrite Ht.
Qed.

Lemma filter_foreign_idem (l : list Trigger) :
  List.filter (fun t => negb (isJob t)) (List.filter (fun t => negb (isJob t)) l)
  = List.filter (fun t => negb (isJob t)) l.
Proof.
  induction l as [|t l IH]; simpl; [done|].
  destruct (isJob t) eqn:Ht; simpl; [done|]. by rewrite Ht, IH.
Qed.

Lemma createTrigger_count (w : World R) :
  pendingCount (snd (createTrigger w)) = 1%nat
  ∧ foreignTriggers (snd (createTrigger w)) = foreignTriggers w.
Proof.
  rewrite createTrigger_spec. unfold pendingCount, foreignTriggers. simpl.
  rewrite !List.filter_app, filter_foreign_job, filter_foreign_idem. simpl.
  split; [done|]. by rewrite app_nil_r.
Qed.

(** C9. After any call of the reschedule operation [createTrigger],
    whatever triggers existed before, exactly one pending invocation of
    the handler exists (and it fires 60 s later), the call does not fail,
    the triggers of other handlers are kept; after any number [n >= 1] of
    calls in a row there is still exactly one. *)
Theorem C9_reschedule_exactly_one (w : World R) :
  fst (createTrigger w) = Ok tt
  ∧ List.filter isJob (triggers (snd (createTrigger w)))
    = [mkTrigger SCRIPT_TRIGGER_HANDLER 60000]
  ∧ foreignTriggers (snd (createTrigger w)) = foreignTriggers w
  ∧ ∀ n, pendingCount (rescheduleTimes (S n) w) = 1%nat.
Proof.
  split; [by rewrite createTrigger_spec|].
  split.
  { rewrite createTrigger_spec. unfold foreignTriggers. simpl.
    by rewrite List.filter_app, filter_foreign_job. }
  split; [apply createTrigger_count|].
  intros n. revert w. induction n as [|n IH]; intros w.
  - simpl. apply createTrigger_count.
  - change (rescheduleTimes (S (S n)) w)
      with (rescheduleTimes (S n) (snd (createTrigger w))).
    apply IH.
Qed.

End Triggers.

(** ** The task list resolver *)

Ltac run_script :=
  unfold Logger_log, Utilities_sleep, Tasks_Tasklists_list, Tasks_Tasklists_insert,
    Tasks_Tasks_insert, call, emit, bind, try_catch, ret, throw; simpl.

Section Resolver.
Context {R : Type} {Srv : Services R}.

Lemma resolver_hit name (cache : Cache) id (w : World R) :
  cache !! name = Some id → id ≠ "" →
  getTaskListIdByName name cache w = (Ok (Some id, cache), w).
Proof.
  intros Hc Hid. unfold getTaskListIdByName. rewrite Hc. simpl.
  apply nonEmpty_true in Hid. by rewrite Hid.
Qed.

Lemma resolver_result_cached name (cache cache' : Cache) id (w w' : World R) :
  getTaskListIdByName name cache w = (Ok (Some id, cache'), w') →
  cache' !! name = Some id.
Proof.
  unfold getTaskListIdByName.
  destruct (truthyStr (cache !! name)) eqn:Hhit.
  { unfold ret. intros [= <- <- <-]. done. }
  run_script.
  destruct (remote_insertList name (remote w)) as [[[createdId|]|] r1]; simpl.
  - destruct (Str.nonEmpty createdId); simpl; [|done].
    intros [= <- <- <-]. apply lookup_insert_eq.
  - done.
  - destruct (remote_list r1) as [[items|] r2]; simpl; [|done].
    destruct (findByTitle name (default [] items)) as [l|]; simpl; [|done].
    intros [= <- <- <-]. apply lookup_insert_eq.
Qed.

(** C4. A name that the cache maps to a (non-empty) id is resolved to
    that id at once: the cache and the environment, with its record of
    remote calls, are left as they were.  Hence once a call for [name]
    has answered an id, calling again with the cache it left issues no
    remote call, no second create in particular. *)
Theorem C4_cache_hit_no_remote_call name (cache : Cache) id (w : World R) :
  id ≠ "" →
  (cache !! name = Some id →
   getTaskListIdByName name cache w = (Ok (Some id, cache), w))
  ∧ (∀ cache' w',
       getTaskListIdByName name cache w = (Ok (Some id, cache'), w') →
       ∀ w'', getTaskListIdByName name cache' w'' = (Ok (Some id, cache'), w'')).
Proof.
  intros Hid. split.
  - intros Hc. by apply resolver_hit.
  - intros cache' w' Hfirst w''. apply resolver_hit; [|done].
    by eapply resolver_result_cached.
Qed.

(** C5, as amended. For a name that the cache object does not answer
    (the test [cache[name]] fails: the cache has no entry for the name,
    or an empty one, and the name is not one that objects inherit):
    when the remote create raises, the resolver waits 2000 ms, lists the
    remote lists and takes the first entry whose title is exactly the
    name; on a match the id is written to the cache and returned, on no
    match, or when the listing raises, the answer is failure.  When the
    create call returns without an id the answer is failure at once,
    with no wait and no listing. *)
Theorem C5_fallback_only_when_create_raises name (cache : Cache) (w : World R) :
  answers cache name = false →
  (∀ r1, remote_insertList name (remote w) = (Raised, r1) →
     (∀ items r2, remote_list r1 = (Returned items, r2) →
        getTaskListIdByName name cache w =
          match findByTitle name (default [] items) with
          | Some l =>
              (Ok (Some (tl_id l), <[name := tl_id l]> cache),
               with_remote r2 (with_trace
                 (trace w ++ [EvTasklistsInsert name; EvLog (LogListCreateRaised name);
                              EvSleep 2000; EvTasklistsList; EvLog (LogListFound name)]) w))
          | None =>
              (Ok (None, cache),
               with_remote r2 (with_trace
                 (trace w ++ [EvTasklistsInsert name; EvLog (LogListCreateRaised name);
                              EvSleep 2000; EvTasklistsList;
                              EvLog (LogListStillMissing name)]) w))
          end)
     ∧ (∀ r2, remote_list r1 = (Raised, r2) →
        getTaskListIdByName name cache w =
          (Ok (None, cache),
           with_remote r2 (with_trace
             (trace w ++ [EvTasklistsInsert name; EvLog (LogListCreateRaised name);
                          EvSleep 2000; EvTasklistsList; EvLog LogRefetchFailed]) w))))
  ∧ (∀ v r1, remote_insertList name (remote w) = (Returned v, r1) →
       truthyStr v = false →
       getTaskListIdByName name cache w =
         (Ok (None, cache),
          with_remote r1 (with_trace
            (trace w ++ [EvTasklistsInsert name; EvLog (LogListNoId name)]) w))).
Proof.
  intros Hanswers.
  assert (truthyStr (cache !! name) = false) as Hmiss.
  { unfold answers in Hanswers. by destruct (cache !! name). }
  unfold getTaskListIdByName. rewrite Hmiss. split.
  - intros r1 Hins. split.
    + intros items r2 Hlist. run_script. rewrite Hins. simpl. rewrite Hlist. simpl.
      destruct (findByTitle name (default [] items)); simpl;
        by rewrite <- !app_assoc.
    + intros r2 Hlist. run_script. rewrite Hins. simpl. rewrite Hlist. simpl.
      by rewrite <- !app_assoc.
  - intros v r1 Hins Hv. run_script. rewrite Hins. simpl.
    rewrite (ifTruthy_no v); [|done]. simpl. by rewrite <- !app_assoc.
Qed.

End Resolver.

(** ** The row loop, step by step *)

Section RowLoop.
Context {R : Type} {Srv : Services R}.

Lemma resolver_step name (cache : Cache) (w : World R) :
  ∃ lid cache' w',
    getTaskListIdByName name cache w = (Ok (lid, cache'), w')
    ∧ ResolveStep name cache w lid cache' w'.
Proof.
  unfold getTaskListIdByName.
  destruct (truthyStr (cache !! name)) eqn:Hhit.
  { destruct (truthyStr_Some _ Hhit) as (id & Hid & Hne).
    exists (Some id), cache, w. rewrite Hid. split; [done|]. by constructor. }
  destruct (remote_insertList name (remote w)) as [[v|] r1] eqn:Hins.
  - destruct (truthyStr v) eqn:Hv.
    + destruct (truthyStr_Some _ Hv) as (id & -> & Hne).
      eexists _, _, _. split; cycle 1.
      { eapply ResolveCreated; eauto. }
      run_script. rewrite Hins. simpl.
      apply nonEmpty_true in Hne. rewrite Hne. unfold logged. simpl.
      by rewrite <- !app_assoc.
    + eexists _, _, _. split; cycle 1.
      { eapply ResolveNoId; eauto. }
      run_script. rewrite Hins. simpl. rewrite (ifTruthy_no v); [|done].
      unfold logged. simpl. by rewrite <- !app_assoc.
  - destruct (remote_list r1) as [[items|] r2] eqn:Hlist.
    + destruct (findByTitle name (default [] items)) as [l|] eqn:Hfind.
      * eexists _, _, _. split; cycle 1.
        { eapply ResolveFound; eauto. }
        run_script. rewrite Hins. simpl. rewrite Hlist. simpl. rewrite Hfind.
        unfold logged. simpl. by rewrite <- !app_assoc.
      * eexists _, _, _. split; cycle 1.
        { eapply ResolveStillMissing; eauto. }
        run_script. rewrite Hins. simpl. rewrite Hlist. simpl. rewrite Hfind.
        unfold logged. simpl. by rewrite <- !app_assoc.
    + eexists _, _, _. split; cycle 1.
      { eapply ResolveRefetchFailed; eauto. }
      run_script. rewrite Hins. simpl. rewrite Hlist. simpl.
      unfold logged. simpl. by rewrite <- !app_assoc.
Qed.

Lemma processRow_step cols n row st (w : World R) :
  ∃ st' w',
    processRow cols n row st w = (Ok st', w')
    ∧ RowStep cols n row st w st' w'.
Proof.
  unfold processRow.
  destruct (truthyStr (nextListTitle cols row (lastKnownListTitle st))) eqn:Hlk.
  2:{ rewrite ifTruthy_no; [|done]. eexists _, _. split; [|by apply RowNoList].
      reflexivity. }
  destruct (truthyStr_Some _ Hlk) as (name & Hname & Hne).
  rewrite (ifTruthy_yes _ _ _ name); [|done..].
  destruct (truthyStr (finalTaskTitleOf cols row)) eqn:Httl.
  2:{ rewrite ifTruthy_no; [|done]. rewrite Hname.
      eexists _, _. split; [|by eapply RowEmpty]. reflexivity. }
  destruct (truthyStr_Some _ Httl) as (ttl & Hfinal & Hte).
  rewrite (ifTruthy_yes _ _ _ ttl); [|done..].
  destruct (Str.startsWith (Str.toLowerCase ttl) "list:") eqn:Hdef.
  { rewrite Hname. eexists _, _. split; [|by eapply RowListDefinition]. reflexivity. }
  destruct (resolver_step name (taskListCache st) w)
    as (lid & cache' & w1 & Hres & Hstep).
  erewrite bind_ok; [|exact Hres].
  rewrite Hname.
  destruct (truthyStr lid) eqn:Hlid.
  2:{ rewrite ifTruthy_no; [|done].
      eexists _, _. split; [|by eapply RowNoListId]. reflexivity. }
  destruct (truthyStr_Some _ Hlid) as (id & -> & Hide).
  rewrite (ifTruthy_yes _ _ _ id); [|done..].
  destruct (remote_insertTask (newTask cols ttl row) id (remote w1))
    as [[[]|] r2] eqn:Hins.
  - eexists _, _. split; cycle 1.
    { eapply RowCreated; eauto. }
    run_script. rewrite Hins. simpl. unfold logged. simpl.
    by rewrite <- !app_assoc.
  - eexists _, _. split; cycle 1.
    { eapply RowFailed; eauto. }
    run_script. rewrite Hins. simpl. unfold logged. simpl.
    by rewrite <- !app_assoc.
Qed.

End RowLoop.

(** ** What the row loop touches *)

Section Effects.
Context {R : Type} {Srv : Services R}.

Lemma Touches_refl (w : World R) : Touches w w [].
Proof. unfold Touches, logged. destruct w; simpl. by rewrite app_nil_r. Qed.

Lemma Touches_trans (w1 w2 w3 : World R) evs1 evs2 :
  Touches w1 w2 evs1 → Touches w2 w3 evs2 → Touches w1 w3 (evs1 ++ evs2).
Proof.
  unfold Touches, logged. destruct w1, w2, w3; simpl.
  intros [= -> -> -> -> ->] [= -> -> -> -> ->]. by rewrite app_assoc.
Qed.

Lemma Touches_step (w : World R) r evs :
  Touches w (with_remote r (logged evs w)) evs.
Proof. reflexivity. Qed.

Lemma Touches_logged (w : World R) evs : Touches w (logged evs w) evs.
Proof. unfold Touches, logged. by destruct w. Qed.

Lemma Touches_frame (w w' : World R) evs :
  Touches w w' evs →
  properties w' = properties w ∧ triggers w' = triggers w
  ∧ sheets w' = sheets w ∧ reportSheets w' = reportSheets w
  ∧ trace w' = trace w ++ evs.
Proof. intros ->. done. Qed.

Lemma resolve_touches name (cache : Cache) (w : World R) lid cache' w' :
  ResolveStep name cache w lid cache' w' →
  ∃ evs, Touches w w' evs ∧ omap rowOf evs = [] ∧ readsOf evs = [].
Proof.
  destruct 1; eexists; (split; [first [apply Touches_refl | apply Touches_step]|done]).
Qed.

Lemma row_touches cols n row st (w : World R) st' w' :
  RowStep cols n row st w st' w' →
  ∃ evs, Touches w w' evs ∧ omap rowOf evs = [n] ∧ readsOf evs = [].
Proof.
  destruct 1;
    try (eexists; split; [apply Touches_logged|done]);
    match goal with H : ResolveStep _ _ _ _ _ _ |- _ =>
      destruct (resolve_touches _ _ _ _ _ _ H) as (evs & Ht & Hrows & Hreads) end.
  - eexists. split; [eapply Touches_trans; [exact Ht|apply Touches_logged]|].
    unfold readsOf in *. rewrite !omap_app, Hrows, Hreads. done.
  - eexists. split; [eapply Touches_trans; [exact Ht|apply Touches_step]|].
    unfold readsOf in *. rewrite !omap_app, Hrows, Hreads. done.
  - eexists. split; [eapply Touches_trans; [exact Ht|apply Touches_step]|].
    unfold readsOf in *. rewrite !omap_app, Hrows, Hreads. done.
Qed.

Lemma forEachRow_touches cols data : ∀ n st (w : World R),
  ∃ st' w' evs,
    forEachRow cols n data st w = (Ok st', w')
    ∧ Touches w w' evs
    ∧ omap rowOf evs = rowNumbers n (length data)
    ∧ readsOf evs = [].
Proof.
  induction data as [|row data IH]; intros n st w; simpl.
  - exists st, w, []. split; [done|]. split; [apply Touches_refl|done].
  - destruct (processRow_step cols n row st w) as (st1 & w1 & Hrow & Hstep).
    destruct (row_touches _ _ _ _ _ _ _ Hstep) as (evs1 & Ht1 & Hrows1 & Hreads1).
    destruct (IH (n + 1) st1 w1) as (st' & w' & evs & Hloop & Ht & Hrows & Hreads).
    exists st', w', (evs1 ++ evs). split; [by erewrite bind_ok|].
    split; [by eapply Touches_trans|].
    unfold readsOf in *. by rewrite !omap_app, Hrows1, Hrows, Hreads1, Hreads.
Qed.

Lemma forEachRow_app cols data1 data2 n st (w : World R) :
  forEachRow cols n (data1 ++ data2) st w
  = bind (forEachRow cols n data1 st)
         (forEachRow cols (n + Z.of_nat (length data1)) data2) w.
Proof.
  revert n st w. induction data1 as [|row data1 IH]; intros n st w.
  - simpl. unfold bind, ret. by rewrite Z.add_0_r.
  - cbn [forEachRow app length]. unfold bind.
    destruct (processRow cols n row st w) as [[st1|] w1]; [|done].
    rewrite IH. unfold bind.
    by replace (n + 1 + Z.of_nat (length data1))
      with (n + Z.of_nat (S (length data1))) by lia.
Qed.

End Effects.

(** ** One invocation *)

Section Invocation.
Context {R : Type} {Srv : Services R}.

Lemma persistBatch_spec nextStartRow st (w : World R) :
  persistBatch nextStartRow st w
  = (Ok tt,
     logged [EvLog (LogBatchDone nextStartRow)]
       (with_triggers
          (foreignTriggers w ++ [mkTrigger SCRIPT_TRIGGER_HANDLER 60000])
          (with_properties (checkpointAfter nextStartRow st (properties w)) w))).
Proof.
  unfold persistBatch.
  do 3 (erewrite bind_ok; [|reflexivity]).
  destruct (truthyStr (lastKnownListTitle st)) eqn:Hlk.
  - destruct (truthyStr_Some _ Hlk) as (title & Htitle & Hne).
    rewrite (ifTruthy_yes _ _ _ title); [|done..].
    erewrite bind_ok; [|reflexivity].
    erewrite bind_ok; [|apply createTrigger_spec].
    unfold checkpointAfter. rewrite Hlk, Htitle. reflexivity.
  - rewrite ifTruthy_no; [|done].
    erewrite bind_ok; [|reflexivity].
    erewrite bind_ok; [|apply createTrigger_spec].
    unfold checkpointAfter. rewrite Hlk. by destruct w as [[]].
Qed.

Lemma finishRun_spec name report (w : World R) :
  finishRun name report w
  = (Ok tt,
     with_triggers (foreignTriggers w)
       (with_properties noProps
          (with_reportSheets
             (reportSheets w ++ [mkReportSheet name (tableContent report)])
             (logged [EvLog LogAllDone] w)))).
Proof.
  unfold finishRun.
  do 7 (erewrite bind_ok; [|reflexivity]).
  by rewrite deleteExistingTriggers_spec.
Qed.

Lemma refreshFromRemote_spec (cache : Cache) (w : World R) :
  refreshFromRemote cache w =
    match remote_list (remote w) with
    | (Returned items, r0) =>
        (Ok (refreshCache cache items), with_remote r0 (logged [EvTasklistsList] w))
    | (Raised, r0) =>
        (Ok cache, with_remote r0 (logged [EvTasklistsList; EvLog LogCacheRefreshFailed] w))
    end.
Proof.
  unfold refreshFromRemote. run_script.
  destruct (remote_list (remote w)) as [[items|] r0]; simpl; [done|].
  unfold logged. simpl. by rewrite <- app_assoc.
Qed.

Lemma refreshFromRemote_touches (cache : Cache) (w : World R) :
  ∃ cache0 w1 evs,
    refreshFromRemote cache w = (Ok cache0, w1)
    ∧ Touches w w1 evs ∧ omap rowOf evs = [] ∧ readsOf evs = [].
Proof.
  rewrite refreshFromRemote_spec.
  destruct (remote_list (remote w)) as [[items|] r0];
    eexists _, _, _; (split; [reflexivity|]); (split; [apply Touches_step|]); done.
Qed.

Lemma sourceSheet_Some (w : World R) sheet :
  sourceSheet w = Some sheet →
  ∃ name, prop_SHEET_NAME (properties w) = Some name ∧ name ≠ ""
    ∧ List.find (fun sh => String.eqb (sheetName sh) name) (sheets w) = Some sheet.
Proof.
  unfold sourceSheet. destruct (prop_SHEET_NAME (properties w)) as [name|]; [|done].
  destruct (Str.nonEmpty name) eqn:Hne; [|done].
  intros Hfind. exists name. split; [done|]. split; [|done]. by apply nonEmpty_true.
Qed.

Lemma columnsOf_headers sheet cols :
  columnsOf sheet = Some cols →
  ∃ headers rest, values sheet = headers :: rest
    ∧ indexOf headers "title" = Some (titleIndex cols)
    ∧ indexOf headers "list_title" = Some (listTitleIndex cols)
    ∧ cols = mkColumns (titleIndex cols) (indexOf headers "id") (listTitleIndex cols)
               (indexOf headers "status") (indexOf headers "due")
               (indexOf headers "links")
    ∧ (getLastColumn sheet <? 1) = false.
Proof.
  unfold columnsOf. destruct (values sheet) as [|headers rest] eqn:Hv; [done|].
  destruct (indexOf headers "title") as [t|] eqn:Ht; [|done].
  destruct (indexOf headers "list_title") as [l|] eqn:Hl; [|done].
  intros [= <-]. exists headers, rest. simpl. repeat (split; [done|]).
  unfold getLastColumn. rewrite Hv. apply Z.ltb_ge.
  destruct headers as [|h headers]; [done|]. simpl. lia.
Qed.

Lemma continueProcess_finish b sheet (w : World R) name :
  sourceSheet w = Some sheet →
  prop_SHEET_NAME (properties w) = Some name →
  getLastRow sheet < cursor w →
  continueProcessWith b w
  = (Ok tt,
     with_triggers (foreignTriggers w)
       (with_properties noProps
          (with_reportSheets
             (reportSheets w ++ [mkReportSheet name (tableContent (loadedReport w))])
             (logged [EvLog LogAllDone] w)))).
Proof.
  intros Hsheet Hname Hlast.
  destruct (sourceSheet_Some _ _ Hsheet) as (name' & Hname' & Hne & Hfind).
  assert (name' = name) as -> by congruence.
  unfold continueProcessWith.
  erewrite bind_ok; [|reflexivity]. rewrite Hname.
  rewrite (ifTruthy_yes _ _ _ name); [|done..].
  erewrite bind_ok; [|reflexivity]. rewrite Hfind.
  erewrite bind_ok; [|reflexivity].
  erewrite bind_ok; [|reflexivity].
  fold (cursor w).
  destruct (Z.gtb_spec (cursor w) (getLastRow sheet)); [|lia].
  apply finishRun_spec.
Qed.

Lemma continueProcess_batch sheet cols b (w : World R) :
  BatchReady sheet cols b w →
  ∃ cache0 w1 st' w2,
    refreshFromRemote (loadedCache w)
      (logged [EvLog (LogStarting (sheetName sheet) (cursor w))] w) = (Ok cache0, w1)
    ∧ forEachRow cols (cursor w) (batchData sheet (cursor w) b)
        (mkLocals cache0 (loadedReport w) (loadedListTitle w))
        (logged [EvGetHeaders;
                 EvGetValues (cursor w) (rowsToProcess sheet (cursor w) b)] w1)
      = (Ok st', w2)
    ∧ continueProcessWith b w
      = (Ok tt,
         logged [EvLog (LogBatchDone (cursor w + rowsToProcess sheet (cursor w) b))]
           (with_triggers
              (foreignTriggers w ++ [mkTrigger SCRIPT_TRIGGER_HANDLER 60000])
              (with_properties
                 (checkpointAfter (cursor w + rowsToProcess sheet (cursor w) b) st'
                                  (properties w))
                 w2))).
Proof.
  intros (Hsheet & Hcols & [Hlo Hhi] & Hb).
  destruct (sourceSheet_Some _ _ Hsheet) as (name & Hname & Hne & Hfind).
  destruct (columnsOf_headers _ _ Hcols)
    as (headers & rest & Hvalues & Htitle & Hlist & Hc & Hwidth).
  destruct (refreshFromRemote_touches (loadedCache w)
              (logged [EvLog (LogStarting (sheetName sheet) (cursor w))] w))
    as (cache0 & w1 & evs0 & Hrefresh & Ht0 & _).
  destruct (forEachRow_touches cols (batchData sheet (cursor w) b) (cursor w)
              (mkLocals cache0 (loadedReport w) (loadedListTitle w))
              (logged [EvGetHeaders;
                       EvGetValues (cursor w) (rowsToProcess sheet (cursor w) b)] w1))
    as (st' & w2 & evs & Hloop & Ht & _).
  exists cache0, w1, st', w2. split; [done|]. split; [done|].
  unfold continueProcessWith.
  erewrite bind_ok; [|reflexivity]. rewrite Hname.
  rewrite (ifTruthy_yes _ _ _ name); [|done..].
  erewrite bind_ok; [|reflexivity]. rewrite Hfind.
  erewrite bind_ok; [|reflexivity].
  erewrite bind_ok; [|reflexivity].
  fold (cursor w).
  destruct (Z.gtb_spec (cursor w) (getLastRow sheet)); [lia|].
  erewrite bind_ok; [|reflexivity].
  erewrite bind_ok; [|reflexivity].
  erewrite bind_ok; [|reflexivity].
  erewrite bind_ok; [|exact Hrefresh].
  unfold getHeaders. rewrite Hwidth, Hvalues.
  erewrite bind_ok; [|reflexivity].
  rewrite Htitle, Hlist. rewrite <- Hc.
  fold (rowsToProcess sheet (cursor w) b).
  assert (1 ≤ rowsToProcess sheet (cursor w) b) as Hrows.
  { unfold rowsToProcess. lia. }
  unfold getValues.
  destruct (Z.ltb_spec (cursor w) 1); [lia|].
  destruct (Z.ltb_spec (rowsToProcess sheet (cursor w) b) 1); [lia|].
  simpl orb. cbv iota.
  erewrite bind_ok; [|reflexivity].
  fold (batchData sheet (cursor w) b).
  assert (Hw1 : properties w1 = properties w ∧ triggers w1 = triggers w).
  { apply Touches_frame in Ht0. simpl in Ht0. by destruct Ht0 as (-> & -> & _). }
  destruct Hw1 as [Hp1 Htr1].
  assert (with_trace
            (trace (with_trace (trace w1 ++ [EvGetHeaders]) w1) ++
             [EvGetValues (cursor w) (rowsToProcess sheet (cursor w) b)])
            (with_trace (trace w1 ++ [EvGetHeaders]) w1)
          = logged [EvGetHeaders;
                    EvGetValues (cursor w) (rowsToProcess sheet (cursor w) b)] w1)
    as ->.
  { unfold logged. destruct w1. simpl. by rewrite <- app_assoc. }
  unfold loadedCache, loadedReport, loadedListTitle in Hloop.
  cbn [properties with_trace].
  erewrite bind_ok; [|exact Hloop].
  rewrite persistBatch_spec.
  apply Touches_frame in Ht. simpl in Ht. destruct Ht as (Hp2 & Htr2 & _).
  unfold foreignTriggers. by rewrite Hp2, Htr2, Hp1, Htr1.
Qed.

Lemma batchData_length sheet s b :
  1 ≤ s → 1 ≤ b →
  s ≤ getLastRow sheet →
  length (batchData sheet s b) = Z.to_nat (rowsToProcess sheet s b).
Proof.
  intros Hs Hb Hlast. unfold batchData, rowsToProcess, getLastRow in *.
  rewrite length_take, length_drop. lia.
Qed.

Lemma continueProcess_batch_summary sheet cols b (w : World R) :
  BatchReady sheet cols b w →
  ∃ st' w' evs,
    continueProcessWith b w = (Ok tt, w')
    ∧ trace w' = trace w ++ evs
    ∧ omap rowOf evs
      = rowNumbers (cursor w) (Z.to_nat (rowsToProcess sheet (cursor w) b))
    ∧ readsOf evs = [(cursor w, rowsToProcess sheet (cursor w) b)]
    ∧ properties w'
      = checkpointAfter (cursor w + rowsToProcess sheet (cursor w) b) st' (properties w)
    ∧ List.filter isJob (triggers w') = [mkTrigger SCRIPT_TRIGGER_HANDLER 60000]
    ∧ sheets w' = sheets w ∧ reportSheets w' = reportSheets w.
Proof.
  intros Hready.
  destruct (continueProcess_batch _ _ _ _ Hready)
    as (cache0 & w1 & st' & w2 & Hrefresh & Hloop & Hrun).
  destruct Hready as (Hsheet & Hcols & [Hlo Hhi] & Hb).
  destruct (refreshFromRemote_touches (loadedCache w)
              (logged [EvLog (LogStarting (sheetName sheet) (cursor w))] w))
    as (cache0' & w1' & evs0 & Hrefresh' & Ht0 & Hrows0 & Hreads0).
  rewrite Hrefresh in Hrefresh'. injection Hrefresh' as <- <-.
  destruct (forEachRow_touches cols (batchData sheet (cursor w) b) (cursor w)
              (mkLocals cache0 (loadedReport w) (loadedListTitle w))
              (logged [EvGetHeaders;
                       EvGetValues (cursor w) (rowsToProcess sheet (cursor w) b)] w1))
    as (st'' & w2' & evs & Hloop' & Ht & Hrows & Hreads).
  rewrite Hloop in Hloop'. injection Hloop' as <- <-.
  rewrite batchData_length in Hrows; [|done..].
  apply Touches_frame in Ht0. simpl in Ht0.
  destruct Ht0 as (Hp1 & Htr1 & Hsh1 & Hrs1 & Htrace1).
  apply Touches_frame in Ht. simpl in Ht.
  destruct Ht as (Hp2 & Htr2 & Hsh2 & Hrs2 & Htrace2).
  eexists st', _,
    ([EvLog (LogStarting (sheetName sheet) (cursor w))] ++ evs0
     ++ [EvGetHeaders; EvGetValues (cursor w) (rowsToProcess sheet (cursor w) b)]
     ++ evs
     ++ [EvLog (LogBatchDone (cursor w + rowsToProcess sheet (cursor w) b))]).
  split; [exact Hrun|]. simpl.
  split. { rewrite Htrace2, Htrace1. by rewrite <- !app_assoc. }
  split. { rewrite !omap_app, Hrows0. simpl. rewrite !omap_app, Hrows. simpl.
           by rewrite app_nil_r. }
  split. { unfold readsOf in *. rewrite !omap_app, Hreads0. simpl.
           rewrite !omap_app, Hreads. done. }
  split; [done|].
  split. { unfold foreignTriggers. by rewrite List.filter_app, filter_foreign_job. }
  split; congruence.
Qed.

Lemma abort_tail m (w : World R) :
  bind (Logger_log m) (fun _ => deleteExistingTriggers) w
  = (Ok tt, with_triggers (foreignTriggers w) (logged [EvLog m] w)).
Proof. erewrite bind_ok; [|reflexivity]. by rewrite deleteExistingTriggers_spec. Qed.

(** Every invocation is of one of three kinds. *)
Lemma continueProcess_cases b (w : World R) :
  1 ≤ b →
  (∃ sheet cols, BatchReady sheet cols b w)
  ∨ (∃ sheet name, sourceSheet w = Some sheet
       ∧ prop_SHEET_NAME (properties w) = Some name
       ∧ getLastRow sheet < cursor w)
  ∨ GivesUp b w.
Proof.
  intros Hb.
  destruct (sourceSheet w) as [sheet|] eqn:Hsheet.
  2:{ right. right. unfold GivesUp, continueProcessWith, sourceSheet in *.
      destruct (prop_SHEET_NAME (properties w)) as [name|] eqn:Hname.
      2:{ eexists _, _. split; [|split; [|split; [|split; [|split]]]]; cycle 5.
          { intros b' _. erewrite bind_ok; [|reflexivity]. rewrite Hname.
            simpl. apply abort_tail. }
          { erewrite bind_ok; [|reflexivity]. rewrite Hname. simpl. apply abort_tail. }
          all: try done. by right. }
      destruct (Str.nonEmpty name) eqn:Hne.
      2:{ eexists _, _. split; [|split; [|split; [|split; [|split]]]]; cycle 5.
          { intros b' _. erewrite bind_ok; [|reflexivity]. rewrite Hname.
            simpl. rewrite Hne. apply abort_tail. }
          { erewrite bind_ok; [|reflexivity]. rewrite Hname. simpl. rewrite Hne.
            apply abort_tail. }
          all: try done. by right. }
      eexists _, _. split; [|split; [|split; [|split; [|split]]]]; cycle 5.
      { intros b' _. erewrite bind_ok; [|reflexivity]. rewrite Hname.
        simpl. rewrite Hne. erewrite bind_ok; [|reflexivity]. rewrite Hsheet.
        apply abort_tail. }
      { erewrite bind_ok; [|reflexivity]. rewrite Hname. simpl. rewrite Hne.
        erewrite bind_ok; [|reflexivity]. rewrite Hsheet. apply abort_tail. }
      all: try done. by right. }
  destruct (sourceSheet_Some _ _ Hsheet) as (name & Hname & Hne & Hfind).
  destruct (Z.gtb_spec (cursor w) (getLastRow sheet)) as [Hdone|Hmore].
  { right. left. by exists sheet, name. }
  destruct (refreshFromRemote_touches (loadedCache w)
              (logged [EvLog (LogStarting (sheetName sheet) (cursor w))] w))
    as (cache0 & w1 & evs0 & Hrefresh & Ht0 & _).
  apply Touches_frame in Ht0. simpl in Ht0.
  destruct Ht0 as (Hp1 & Htr1 & Hsh1 & Hrs1 & _).
  assert (Hprefix : ∀ b',
    continueProcessWith b' w =
      bind (getHeaders sheet) (fun headers =>
        match indexOf headers "title", indexOf headers "list_title" with
        | Some titleIndex, Some listTitleIndex =>
            let cols :=
              mkColumns titleIndex (indexOf headers "id") listTitleIndex
                        (indexOf headers "status") (indexOf headers "due")
                        (indexOf headers "links") in
            bind (getValues sheet (cursor w) (rowsToProcess sheet (cursor w) b'))
              (fun data =>
                 bind (forEachRow cols (cursor w) data
                         (mkLocals cache0 (loadedReport w) (loadedListTitle w)))
                      (fun st =>
                         persistBatch (cursor w + rowsToProcess sheet (cursor w) b') st))
        | _, _ =>
            bind (Logger_log (LogMissingHeaders (sheetName sheet)))
                 (fun _ => deleteExistingTriggers)
        end) w1).
  { intros b'. unfold continueProcessWith.
    erewrite bind_ok; [|reflexivity]. rewrite Hname.
    rewrite (ifTruthy_yes _ _ _ name); [|done..].
    erewrite bind_ok; [|reflexivity]. rewrite Hfind.
    erewrite bind_ok; [|reflexivity].
    erewrite bind_ok; [|reflexivity].
    fold (cursor w).
    destruct (Z.gtb_spec (cursor w) (getLastRow sheet)); [lia|].
    erewrite bind_ok; [|reflexivity].
    erewrite bind_ok; [|reflexivity].
    erewrite bind_ok; [|reflexivity].
    erewrite bind_ok; [|exact Hrefresh].
    reflexivity. }
  unfold getHeaders in Hprefix.
  destruct (getLastColumn sheet <? 1) eqn:Hwidth.
  { right. right. exists Exn, w1. rewrite Hprefix.
    split; [done|]. split; [done|]. split; [done|]. split; [done|].
    split; [by left|]. intros b' _. by rewrite Hprefix. }
  set (headers := match values sheet with h :: _ => h | [] => [] end) in *.
  assert (Hget : ∀ b', continueProcessWith b' w = _ (logged [EvGetHeaders] w1))
    by (intros b'; rewrite Hprefix; erewrite bind_ok; [|reflexivity]; reflexivity).
  clear Hprefix. cbv beta in Hget.
  destruct (indexOf headers "title") as [t|] eqn:Ht.
  2:{ right. right. eexists _, _. rewrite Hget, abort_tail.
      split; [reflexivity|]. simpl.
      split; [done|]. split; [done|]. split; [done|].
      split; [right; split; [done|]; unfold foreignTriggers; simpl; by rewrite Htr1|].
      intros b' _. by rewrite Hget, abort_tail. }
  destruct (indexOf headers "list_title") as [l|] eqn:Hl.
  2:{ right. right. eexists _, _. rewrite Hget, abort_tail.
      split; [reflexivity|]. simpl.
      split; [done|]. split; [done|]. split; [done|].
      split; [right; split; [done|]; unfold foreignTriggers; simpl; by rewrite Htr1|].
      intros b' _. by rewrite Hget, abort_tail. }
  destruct (Z.ltb_spec (cursor w) 1) as [Hneg|Hpos].
  { right. right. exists Exn, (logged [EvGetHeaders] w1).
    assert (∀ b', continueProcessWith b' w = (Exn, logged [EvGetHeaders] w1)) as Hexn.
    { intros b'. rewrite Hget. unfold getValues.
      destruct (Z.ltb_spec (cursor w) 1); [|lia]. reflexivity. }
    split; [apply Hexn|]. simpl.
    split; [done|]. split; [done|]. split; [done|].
    split; [by left|]. intros b' _. apply Hexn. }
  left. exists sheet, (mkColumns t (indexOf headers "id") l (indexOf headers "status")
                          (indexOf headers "due") (indexOf headers "links")).
  split; [done|]. split; [|split; [lia|done]].
  unfold columnsOf. subst headers.
  destruct (values sheet) as [|h rest]; [done|]. by rewrite Ht, Hl.
Qed.

End Invocation.

(** ** Rows: classification and the task built *)

Section Rows.
Context {R : Type} {Srv : Services R}.

Lemma processRow_candidate cols n row st (w : World R) name ttl lid cache' w1 :
  nextListTitle cols row (lastKnownListTitle st) = Some name → name ≠ "" →
  finalTaskTitleOf cols row = Some ttl → ttl ≠ "" →
  Str.startsWith (Str.toLowerCase ttl) "list:" = false →
  getTaskListIdByName name (taskListCache st) w = (Ok (lid, cache'), w1) →
  processRow cols n row st w =
    ifTruthy lid
      (Ok (mkLocals cache' (reportData st) (Some name)),
       logged [EvLog (LogRowNoListId n name)] w1)
      (fun id =>
         match remote_insertTask (newTask cols ttl row) id (remote w1) with
         | (Returned _, r2) =>
             (Ok (mkLocals cache' (countTask name (newTask cols ttl row) (reportData st))
                           (Some name)),
              with_remote r2
                (logged [EvTasksInsert (newTask cols ttl row) id;
                         EvLog (LogRowCreated n ttl name); EvSleep API_DELAY_MS] w1))
         | (Raised, r2) =>
             (Ok (mkLocals cache' (reportData st) (Some name)),
              with_remote r2
                (logged [EvTasksInsert (newTask cols ttl row) id;
                         EvLog (LogRowFailed n ttl)] w1))
         end).
Proof.
  intros Hname Hne Httl Hte Hdef Hres. unfold processRow.
  rewrite (ifTruthy_yes _ _ _ name); [|done..].
  rewrite (ifTruthy_yes _ _ _ ttl); [|done..].
  rewrite Hdef. erewrite bind_ok; [|exact Hres]. rewrite Hname.
  destruct lid as [id|]; simpl; [|done].
  destruct (Str.nonEmpty id); [|done].
  run_script.
  destruct (remote_insertTask (newTask cols ttl row) id (remote w1)) as [[[]|] r2];
    simpl; unfold logged; simpl; by rewrite <- !app_assoc.
Qed.

Lemma processRow_no_title cols n row st (w : World R) :
  truthyStr (finalTaskTitleOf cols row) = false →
  ∃ e, (e = EvLog (LogRowNoList n) ∨ e = EvLog (LogRowEmpty n))
    ∧ processRow cols n row st w
      = (Ok (mkLocals (taskListCache st) (reportData st)
                      (nextListTitle cols row (lastKnownListTitle st))),
         logged [e] w).
Proof.
  intros Hempty. unfold processRow.
  destruct (truthyStr (nextListTitle cols row (lastKnownListTitle st))) eqn:Hlk.
  - destruct (truthyStr_Some _ Hlk) as (name & Hname & Hne).
    rewrite (ifTruthy_yes _ _ _ name); [|done..].
    rewrite (ifTruthy_no (finalTaskTitleOf cols row)); [|done].
    eexists. split; [by right|]. reflexivity.
  - rewrite ifTruthy_no; [|done]. eexists. split; [by left|]. reflexivity.
Qed.

(** C7. In every iteration of the row loop: a row whose title is empty
    (no cell, an empty cell, or only white space) and whose id cell holds
    a value with non-empty trimmed text gets that trimmed text as its
    title, and when the row has a list, is not a list definition and its
    list is resolved, the task sent to the service carries it as its
    title; a row whose title and id are both empty is skipped with one
    log entry, no call to the service and no task. *)
Theorem C7_title_falls_back_to_id cols n row st (w : World R) :
  truthyStr (trimmedOrNull (row !! titleIndex cols)) = false →
  (∀ c, optionalCell (idIndex cols) row = Some c →
        Str.trim (CellOps.toString c) ≠ "" →
        finalTaskTitleOf cols row = Some (Str.trim (CellOps.toString c))
        ∧ ∀ name lid cache' w1,
            nextListTitle cols row (lastKnownListTitle st) = Some name → name ≠ "" →
            Str.startsWith (Str.toLowerCase (Str.trim (CellOps.toString c))) "list:" = false →
            getTaskListIdByName name (taskListCache st) w = (Ok (Some lid, cache'), w1) →
            lid ≠ "" →
            ∃ st' w' task rest,
              processRow cols n row st w = (Ok st', w')
              ∧ trace w' = trace w1 ++ EvTasksInsert task lid :: rest
              ∧ title task = Str.trim (CellOps.toString c))
  ∧ (truthyStr (trimmedOrNull (optionalCell (idIndex cols) row)) = false →
     ∃ e, (e = EvLog (LogRowNoList n) ∨ e = EvLog (LogRowEmpty n))
       ∧ processRow cols n row st w
         = (Ok (mkLocals (taskListCache st) (reportData st)
                         (nextListTitle cols row (lastKnownListTitle st))),
            logged [e] w)).
Proof.
  intros Htitle. split.
  - intros c Hc Hid.
    assert (finalTaskTitleOf cols row = Some (Str.trim (CellOps.toString c))) as Hfinal.
    { unfold finalTaskTitleOf, orElse. rewrite Htitle, Hc. simpl.
      unfold optionalCell in Hc. destruct (idIndex cols) as [i|]; [|done].
      destruct (row !! i) as [c'|]; [|done].
      destruct (CellOps.truthy c') eqn:Hc'; [|done].
      injection Hc as ->. by rewrite Hc'. }
    split; [done|].
    intros name lid cache' w1 Hname Hne Hdef Hres Hlid.
    rewrite (processRow_candidate _ _ _ _ _ name _ _ _ _ Hname Hne Hfinal Hid Hdef Hres).
    rewrite (ifTruthy_yes _ _ _ lid); [|done..].
    destruct (remote_insertTask _ lid (remote w1)) as [[[]|] r2];
      eexists _, _, _, _; (split; [reflexivity|]); simpl; done.
  - intros Hid. apply processRow_no_title.
    unfold finalTaskTitleOf, orElse. by rewrite Htitle.
Qed.

(** C6, as amended. In the batch pipeline the notes of a task are
    ["Link: "] followed by the text of the links cell whenever that cell
    is present and not empty, the text "starred" included, and there are
    no notes otherwise; in the simple exporter the notes are ["Link: "]
    followed by the trimmed text when the links cell is a string that is
    not blank, except that a cell reading "starred" in any letter case
    sets no notes. *)
Theorem C6_notes_from_links :
  (∀ cols ttl row c,
     optionalCell (linksIndex cols) row = Some c →
     notes (newTask cols ttl row) = Some ("Link: " +:+ CellOps.toString c))
  ∧ (∀ cols ttl row,
     optionalCell (linksIndex cols) row = None →
     notes (newTask cols ttl row) = None)
  ∧ (∀ dateParse m row taskTitle s,
     SimpleExporter.field m "links" row = Some (CText s) →
     Str.trim s ≠ "" →
     notes (SimpleExporter.taskOfRow dateParse m row taskTitle)
     = if String.eqb (Str.toLowerCase s) "starred" then None
       else Some ("Link: " +:+ Str.trim s)).
Proof.
  split; [|split].
  - intros cols ttl row c Hc. simpl. by rewrite Hc.
  - intros cols ttl row Hc. simpl. by rewrite Hc.
  - intros dateParse m row taskTitle s Hs Hne. simpl. rewrite Hs. simpl.
    apply nonEmpty_true in Hne. rewrite Hne. simpl.
    by destruct (String.eqb (Str.toLowerCase s) "starred").
Qed.

End Rows.

(** ** The report *)

Section ReportFacts.
Context {R : Type} {Srv : Services R}.

Lemma countTask_entry name task (report : Report) stats :
  report !! name = Some stats →
  countTask name task report = <[name := countOn task stats]> report.
Proof. intros Hs. unfold countTask. by rewrite Hs. Qed.

Lemma countTask_fresh name task (report : Report) :
  report !! name = None → inherited name = false →
  countTask name task report = <[name := countOn task (mkStats 0 0 0)]> report.
Proof. intros Hs Hin. unfold countTask. by rewrite Hs, Hin. Qed.

Lemma countTask_inherited name task (report : Report) :
  report !! name = None → inherited name = true →
  countTask name task report = report.
Proof. intros Hs Hin. unfold countTask. by rewrite Hs, Hin. Qed.

Lemma countOn_fields task stats :
  countOn task stats
  = if bool_decide (status task = Some "completed")
    then mkStats (completed stats + 1) (needsAction stats) (total stats + 1)
    else mkStats (completed stats) (needsAction stats + 1) (total stats + 1).
Proof. unfold countOn. by destruct (bool_decide (status task = Some "completed")). Qed.

Lemma countTask_cases name task (report : Report) :
  countTask name task report = report
  ∨ countTask name task report
    = <[name := countOn task (default (mkStats 0 0 0) (report !! name))]> report.
Proof.
  unfold countTask. destruct (report !! name) as [s|]; simpl; [by right|].
  destruct (inherited name); [by left|by right].
Qed.

Lemma countTask_lookup name task (report : Report) :
  keepsCount report name = true →
  countTask name task report !! name
  = Some (countOn task (default (mkStats 0 0 0) (report !! name))).
Proof.
  unfold keepsCount, countTask.
  destruct (report !! name) as [s|]; simpl.
  - intros _. apply lookup_insert_eq.
  - intros ->%negb_true_iff. apply lookup_insert_eq.
Qed.

Lemma countTask_other name other task (report : Report) :
  other ≠ name → countTask name task report !! other = report !! other.
Proof.
  intros Hne. destruct (countTask_cases name task report) as [->| ->]; [done|].
  by rewrite lookup_insert_ne.
Qed.

Lemma countTask_balanced name task (report : Report) :
  Balanced report → Balanced (countTask name task report).
Proof.
  intros Hbal. destruct (countTask_cases name task report) as [->|Heq]; [done|].
  rewrite Heq. intros other stats. destruct (decide (other = name)) as [->|Hne].
  - rewrite lookup_insert_eq. intros [= <-]. rewrite countOn_fields.
    destruct (report !! name) as [s|] eqn:Hs; simpl.
    + specialize (Hbal _ _ Hs).
      destruct (bool_decide (status task = Some "completed")); simpl; lia.
    + destruct (bool_decide (status task = Some "completed")); simpl; lia.
  - rewrite lookup_insert_ne; [|done]. apply Hbal.
Qed.

Lemma Balanced_empty : Balanced ∅.
Proof. intros name stats. by rewrite lookup_empty. Qed.

Lemma row_report cols n row st (w : World R) st' w' :
  RowStep cols n row st w st' w' →
  reportData st' = reportData st
  ∨ ∃ name ttl lid w1,
      nextListTitle cols row (lastKnownListTitle st) = Some name
      ∧ remote_insertTask (newTask cols ttl row) lid (remote w1) = (Returned tt, remote w')
      ∧ reportData st' = countTask name (newTask cols ttl row) (reportData st).
Proof.
  destruct 1; try (by left).
  right. by exists name, ttl, lid, w1.
Qed.

Lemma row_balanced cols n row st (w : World R) st' w' :
  RowStep cols n row st w st' w' →
  Balanced (reportData st) → Balanced (reportData st').
Proof.
  intros Hstep Hbal. destruct (row_report _ _ _ _ _ _ _ Hstep) as [->|Hc]; [done|].
  destruct Hc as (name & ttl & lid & w1 & _ & _ & ->). by apply countTask_balanced.
Qed.

Lemma forEachRow_balanced cols data : ∀ n st (w : World R) st' w',
  forEachRow cols n data st w = (Ok st', w') →
  Balanced (reportData st) → Balanced (reportData st').
Proof.
  induction data as [|row data IH]; intros n st w st' w'; simpl.
  - by intros [= <- <-].
  - destruct (processRow_step cols n row st w) as (st1 & w1 & Hrow & Hstep).
    erewrite bind_ok; [|exact Hrow]. intros Hloop Hbal.
    eapply IH; [exact Hloop|]. by eapply row_balanced.
Qed.

Lemma createTasksFromCurrentSheet_spec b name (w : World R) :
  createTasksFromCurrentSheetWith b name w
  = continueProcessWith b (startedWorld name w).
Proof.
  unfold createTasksFromCurrentSheetWith.
  do 5 (erewrite bind_ok; [|reflexivity]).
  erewrite bind_ok; [|apply deleteExistingTriggers_spec].
  erewrite bind_ok; [|reflexivity].
  reflexivity.
Qed.

Lemma continueProcess_balanced b (w : World R) :
  1 ≤ b → Balanced (loadedReport w) →
  Balanced (loadedReport (snd (continueProcessWith b w))).
Proof.
  intros Hb Hbal.
  destruct (continueProcess_cases b w Hb)
    as [(sheet & cols & Hready)|[(sheet & name & Hsheet & Hname & Hdone)|Hgive]].
  - destruct (continueProcess_batch _ _ _ _ Hready)
      as (cache0 & w1 & st' & w2 & _ & Hloop & ->).
    unfold loadedReport. simpl.
    eapply forEachRow_balanced; [exact Hloop|done].
  - rewrite (continueProcess_finish _ _ _ _ Hsheet Hname Hdone).
    unfold loadedReport. simpl. apply Balanced_empty.
  - destruct Hgive as (res & w' & -> & Hp & _). unfold loadedReport in *. simpl.
    by rewrite Hp.
Qed.

Lemma fire_balanced sizes fuel : ∀ i (w : World R),
  (∀ j, 1 ≤ sizes j) → Balanced (loadedReport w) →
  Balanced (loadedReport (fire fuel sizes i w)).
Proof.
  induction fuel as [|fuel IH]; intros i w Hsizes Hbal; simpl; [done|].
  destruct (pending w); [|done].
  pose proof (continueProcess_balanced (sizes i) w (Hsizes i) Hbal) as Hnext.
  destruct (continueProcessWith (sizes i) w) as [[[]|] w']; simpl in Hnext; [|done].
  by apply IH.
Qed.

Lemma exportRun_balanced sizes fuel name (w : World R) :
  (∀ j, 1 ≤ sizes j) →
  Balanced (loadedReport (exportRun fuel sizes name w)).
Proof.
  intros Hsizes. unfold exportRun. rewrite createTasksFromCurrentSheet_spec.
  pose proof (continueProcess_balanced (sizes 0%nat) (startedWorld name w)
                (Hsizes 0%nat) Balanced_empty) as Hnext.
  destruct (continueProcessWith (sizes 0%nat) (startedWorld name w)) as [[[]|] w'];
    simpl in Hnext; [|done].
  by apply fire_balanced.
Qed.

End ReportFacts.

(** ** Batches *)

Section Batches.
Context {R : Type} {Srv : Services R}.

Lemma cursor_checkpoint next st p (w : World R) :
  properties w = checkpointAfter next st p → next ≠ 0 → cursor w = next.
Proof.
  intros Hp Hnext. unfold cursor. rewrite Hp. simpl.
  destruct (Z.eqb_spec next 0); [done|done].
Qed.

(** C3. An invocation that works through a batch (the source sheet and
    its required headers are there, the cursor is on a row of the sheet)
    stores a next-row value strictly greater than the row it started at;
    the one range of data rows it reads starts at that row, which is not
    below the value stored before, and the next start row is the row
    after the last one read. *)
Theorem C3_cursor_strictly_monotonic sheet cols batchSize (w : World R) :
  BatchReady sheet cols batchSize w →
  ∃ w' evs k,
    continueProcessWith batchSize w = (Ok tt, w')
    ∧ trace w' = trace w ++ evs
    ∧ 1 ≤ k
    ∧ readsOf evs = [(cursor w, k)]
    ∧ prop_ROW (properties w') = Some (cursor w + k)
    ∧ cursor w' = cursor w + k
    ∧ cursor w < cursor w'
    ∧ ∀ stored, prop_ROW (properties w) = Some stored → stored ≤ cursor w.
Proof.
  intros Hready.
  destruct (continueProcess_batch_summary _ _ _ _ Hready)
    as (st' & w' & evs & Hrun & Htrace & _ & Hreads & Hprops & _).
  destruct Hready as (_ & _ & [Hlo Hhi] & Hb).
  assert (1 ≤ rowsToProcess sheet (cursor w) batchSize) as Hk.
  { unfold rowsToProcess. lia. }
  exists w', evs, (rowsToProcess sheet (cursor w) batchSize).
  split; [done|]. split; [done|]. split; [done|]. split; [done|].
  split; [by rewrite Hprops|].
  assert (cursor w' = cursor w + rowsToProcess sheet (cursor w) batchSize) as Hnext.
  { eapply cursor_checkpoint; [exact Hprops|lia]. }
  split; [done|]. split; [lia|].
  intros stored Hstored. unfold cursor in *. rewrite Hstored in *. simpl in *.
  destruct (Z.eqb_spec stored 0); lia.
Qed.

(** C8. Whatever the task service answers, the row loop ends normally
    and has logged every row of its data once, in ascending order; an
    iteration whose list could not be resolved, or whose task insertion
    raised, ends normally with the skip logged, the report untouched and
    the loop going on; and an invocation that works through a batch
    ends normally with the cursor moved past the whole batch and exactly
    one trigger pending. *)
Theorem C8_remote_failures_never_abort cols :
  (∀ n data st (w : World R),
     ∃ st' w' evs,
       forEachRow cols n data st w = (Ok st', w')
       ∧ trace w' = trace w ++ evs
       ∧ omap rowOf evs = rowNumbers n (length data))
  ∧ (∀ n row st (w : World R) name ttl lid cache' w1,
       nextListTitle cols row (lastKnownListTitle st) = Some name → name ≠ "" →
       finalTaskTitleOf cols row = Some ttl → ttl ≠ "" →
       Str.startsWith (Str.toLowerCase ttl) "list:" = false →
       getTaskListIdByName name (taskListCache st) w = (Ok (lid, cache'), w1) →
       (truthyStr lid = false →
        processRow cols n row st w
        = (Ok (mkLocals cache' (reportData st) (Some name)),
           logged [EvLog (LogRowNoListId n name)] w1))
       ∧ (∀ id r2, lid = Some id → id ≠ "" →
          remote_insertTask (newTask cols ttl row) id (remote w1) = (Raised, r2) →
          processRow cols n row st w
          = (Ok (mkLocals cache' (reportData st) (Some name)),
             with_remote r2
               (logged [EvTasksInsert (newTask cols ttl row) id;
                        EvLog (LogRowFailed n ttl)] w1))))
  ∧ (∀ sheet batchSize (w : World R),
       BatchReady sheet cols batchSize w →
       ∃ w' evs,
         continueProcessWith batchSize w = (Ok tt, w')
         ∧ trace w' = trace w ++ evs
         ∧ omap rowOf evs
           = rowNumbers (cursor w)
                        (Z.to_nat (rowsToProcess sheet (cursor w) batchSize))
         ∧ cursor w' = cursor w + rowsToProcess sheet (cursor w) batchSize
         ∧ pendingCount w' = 1%nat).
Proof.
  split; [|split].
  - intros n data st w.
    destruct (forEachRow_touches cols data n st w) as (st' & w' & evs & Hrun & Ht & Hrows & _).
    exists st', w', evs. split; [done|]. split; [|done].
    by apply Touches_frame in Ht as (_ & _ & _ & _ & ->).
  - intros n row st w name ttl lid cache' w1 Hname Hne Httl Hte Hdef Hres.
    rewrite (processRow_candidate _ _ _ _ _ name ttl lid cache' w1); [|done..].
    split.
    + intros Hlid. by rewrite ifTruthy_no.
    + intros id r2 -> Hid Hins. rewrite (ifTruthy_yes _ _ _ id); [|done..].
      by rewrite Hins.
  - intros sheet batchSize w Hready.
    destruct (continueProcess_batch_summary _ _ _ _ Hready)
      as (st' & w' & evs & Hrun & Htrace & Hrows & _ & Hprops & Hjob & _).
    destruct Hready as (_ & _ & [Hlo Hhi] & Hb).
    exists w', evs. split; [done|]. split; [done|]. split; [done|].
    split.
    + eapply cursor_checkpoint; [exact Hprops|]. unfold rowsToProcess. lia.
    + unfold pendingCount. by rewrite Hjob.
Qed.

End Batches.

(** ** Whole runs *)

Section Runs.
Context {R : Type} {Srv : Services R}.
Variables (sheet : Sheet) (cols : Columns).

Lemma dataRows_length :
  columnsOf sheet = Some cols →
  getLastRow sheet = Z.of_nat (length (dataRows sheet)) + 1.
Proof.
  intros Hcols. destruct (columnsOf_headers _ _ Hcols) as (h & rest & Hv & _).
  unfold getLastRow, dataRows. rewrite Hv. simpl. rewrite drop_0. lia.
Qed.

Lemma batchData_rows k b (w : World R) :
  RunAt sheet cols k w →
  (k < length (dataRows sheet))%nat → 1 ≤ b →
  let m := Z.to_nat (Z.min b (Z.of_nat (length (dataRows sheet)) - Z.of_nat k)) in
  rowsToProcess sheet (cursor w) b = Z.of_nat m
  ∧ (1 ≤ m)%nat ∧ (k + m ≤ length (dataRows sheet))%nat
  ∧ batchData sheet (cursor w) b = take m (drop k (dataRows sheet)).
Proof.
  intros (Hsheet & Hcols & Hcur) Hk Hb m.
  pose proof (dataRows_length Hcols) as Hlast.
  assert (rowsToProcess sheet (cursor w) b = Z.of_nat m) as Hrows.
  { unfold rowsToProcess. subst m. rewrite Hcur, Hlast. lia. }
  split; [done|]. split; [subst m; lia|]. split; [subst m; lia|].
  unfold batchData. rewrite Hrows, Nat2Z.id. unfold dataRows.
  rewrite drop_drop. f_equal. f_equal. lia.
Qed.

Lemma RunAt_ready k b (w : World R) :
  RunAt sheet cols k w →
  (k < length (dataRows sheet))%nat → 1 ≤ b →
  BatchReady sheet cols b w.
Proof.
  intros (Hsheet & Hcols & Hcur) Hk Hb.
  pose proof (dataRows_length Hcols) as Hlast.
  split; [done|]. split; [done|]. split; [lia|done].
Qed.

Lemma RunAt_next k b (w w' : World R) st' :
  RunAt sheet cols k w →
  (k < length (dataRows sheet))%nat → 1 ≤ b →
  properties w'
  = checkpointAfter (cursor w + rowsToProcess sheet (cursor w) b) st' (properties w) →
  sheets w' = sheets w →
  RunAt sheet cols
    (k + Z.to_nat (Z.min b (Z.of_nat (length (dataRows sheet)) - Z.of_nat k))) w'.
Proof.
  intros Hat Hk Hb Hprops Hsheets.
  destruct (batchData_rows k b w Hat Hk Hb) as (Hrows & Hm & _).
  destruct Hat as (Hsheet & Hcols & Hcur).
  split; [|split; [done|]].
  - unfold sourceSheet in *. rewrite Hprops, Hsheets. done.
  - erewrite cursor_checkpoint; [|exact Hprops|lia]. lia.
Qed.

(** The triggers fire until the rows are used up: from a world in which
    [k] rows are done and a trigger is pending, with fuel for the rows
    that remain, the run reaches a world [wN] in which all rows are done
    and ends with the invocation that finds nothing left; a property [P]
    that every batch carries forward holds of [wN]. *)
Lemma run_induction (P : nat → World R → Prop) sizes :
  (∀ j, 1 ≤ sizes j) →
  (∀ k b (w w' : World R),
     (k < length (dataRows sheet))%nat → 1 ≤ b →
     RunAt sheet cols k w → P k w →
     continueProcessWith b w = (Ok tt, w') →
     P (k + Z.to_nat (Z.min b (Z.of_nat (length (dataRows sheet)) - Z.of_nat k)))%nat w') →
  ∀ fuel i k (w : World R),
    (length (dataRows sheet) - k < fuel)%nat →
    (k ≤ length (dataRows sheet))%nat →
    RunAt sheet cols k w → P k w → pending w = true →
    ∃ wN j,
      RunAt sheet cols (length (dataRows sheet)) wN
      ∧ P (length (dataRows sheet)) wN
      ∧ continueProcessWith (sizes j) wN = (Ok tt, fire fuel sizes i w).
Proof.
  intros Hsizes Hstep.
  induction fuel as [|fuel IH]; intros i k w Hfuel Hk Hat HP Hpend; [lia|].
  simpl. rewrite Hpend.
  destruct (decide (k = length (dataRows sheet))) as [->|Hlt].
  - exists w, i. split; [done|]. split; [done|].
    destruct Hat as (Hsheet & Hcols & Hcur).
    destruct (sourceSheet_Some _ _ Hsheet) as (name & Hname & _).
    pose proof (dataRows_length Hcols) as Hlast.
    assert (getLastRow sheet < cursor w) as Hdone by lia.
    rewrite (continueProcess_finish (sizes i) _ _ _ Hsheet Hname Hdone).
    f_equal. destruct fuel; simpl; [done|].
    unfold pending, foreignTriggers. simpl.
    replace (existsb _ _) with false; [done|].
    symmetry. apply not_true_is_false. intros Hex.
    apply existsb_exists in Hex as (t & Hin & Ht).
    apply filter_In in Hin as (_ & Hneg). fold (isJob t) in Ht.
    by rewrite Ht in Hneg.
  - assert (k < length (dataRows sheet))%nat as Hk' by lia.
    pose proof (RunAt_ready k (sizes i) w Hat Hk' (Hsizes i)) as Hready.
    destruct (continueProcess_batch_summary _ _ _ _ Hready)
      as (st' & w' & evs & Hrun & _ & _ & _ & Hprops & Hjob & Hsheets & _).
    rewrite Hrun.
    destruct (batchData_rows k (sizes i) w Hat Hk' (Hsizes i)) as (_ & Hm & Hle & _).
    apply (IH (S i)
             (k + Z.to_nat (Z.min (sizes i)
                              (Z.of_nat (length (dataRows sheet)) - Z.of_nat k)))%nat
             w').
    + lia.
    + lia.
    + by eapply RunAt_next.
    + by eapply Hstep.
    + unfold pending. apply existsb_exists.
      exists (mkTrigger SCRIPT_TRIGGER_HANDLER 60000). split; [|done].
      assert (In (mkTrigger SCRIPT_TRIGGER_HANDLER 60000)
                 (List.filter isJob (triggers w'))) as Hin
        by (rewrite Hjob; by left).
      by apply filter_In in Hin as [Hin _].
Qed.

End Runs.

(** ** The list name carried along the rows *)

Section Markers.
Context {R : Type} {Srv : Services R}.

Lemma lastMarker_snoc cols pre row :
  lastMarker cols (pre ++ [row]) = nextListTitle cols row (lastMarker cols pre).
Proof.
  unfold lastMarker, nextListTitle. rewrite omap_app. simpl. unfold markerOf at 2.
  destruct (truthyStr (listTitleFromCell cols row)) eqn:Hm.
  - destruct (truthyStr_Some _ Hm) as (s & -> & _). simpl. apply last_snoc.
  - simpl. by rewrite app_nil_r.
Qed.

Lemma lastMarker_truthy cols rows name :
  lastMarker cols rows = Some name → name ≠ "".
Proof.
  unfold lastMarker. intros Hlast. apply last_Some_elem_of in Hlast.
  apply list_elem_of_omap in Hlast as (row & _ & Hrow).
  unfold markerOf in Hrow.
  destruct (truthyStr (listTitleFromCell cols row)) eqn:Hm; [|done].
  rewrite Hrow in Hm. simpl in Hm. by apply nonEmpty_true.
Qed.

Lemma lastMarker_falsy cols rows :
  truthyStr (lastMarker cols rows) = false → lastMarker cols rows = None.
Proof.
  destruct (lastMarker cols rows) as [name|] eqn:Hlast; [|done].
  apply lastMarker_truthy, nonEmpty_true in Hlast. simpl. congruence.
Qed.

Lemma lastMarker_prefix_None cols (rows : list Row) k m :
  lastMarker cols (take (k + m) rows) = None → lastMarker cols (take k rows) = None.
Proof.
  rewrite <- (take_take_drop rows k m). unfold lastMarker. rewrite omap_app.
  rewrite !last_None. by intros [-> _]%app_eq_nil.
Qed.

Lemma resolve_names lk name (cache : Cache) (w : World R) lid cache' w' evs :
  ResolveStep name cache w lid cache' w' → Touches w w' evs →
  Forall (UsesListName lk) evs.
Proof.
  intros Hstep Ht. apply Touches_frame in Ht as (_ & _ & _ & _ & Htrace).
  destruct Hstep; simpl in Htrace.
  1: { assert (evs = []) as -> by (apply (app_inv_head (trace w)); by rewrite app_nil_r).
       constructor. }
  all: apply app_inv_head in Htrace as <-; repeat constructor.
Qed.

Lemma row_names cols n row st (w : World R) st' w' :
  RowStep cols n row st w st' w' →
  lastKnownListTitle st' = nextListTitle cols row (lastKnownListTitle st)
  ∧ ∃ evs, Touches w w' evs ∧ omap rowOf evs = [n] ∧ readsOf evs = []
      ∧ Forall (UsesListName (nextListTitle cols row (lastKnownListTitle st))) evs.
Proof.
  intros Hstep. split; [by destruct Hstep|].
  destruct Hstep;
    try (eexists; split; [apply Touches_logged|];
         split; [done|]; split; [done|]; repeat constructor; done);
    match goal with H : ResolveStep _ _ _ _ _ _ |- _ =>
      destruct (resolve_touches _ _ _ _ _ _ H) as (evs & Ht & Hrows & Hreads);
      pose proof (resolve_names (nextListTitle cols row (lastKnownListTitle st))
                    _ _ _ _ _ _ _ H Ht) as Hnames
    end.
  - eexists. split; [eapply Touches_trans; [exact Ht|apply Touches_logged]|].
    unfold readsOf in *. rewrite !omap_app, Hrows, Hreads.
    split; [done|]. split; [done|].
    apply Forall_app. split; [done|]. repeat constructor. done.
  - eexists. split; [eapply Touches_trans; [exact Ht|apply Touches_step]|].
    unfold readsOf in *. rewrite !omap_app, Hrows, Hreads.
    split; [done|]. split; [done|].
    apply Forall_app. split; [done|]. repeat constructor. done.
  - eexists. split; [eapply Touches_trans; [exact Ht|apply Touches_step]|].
    unfold readsOf in *. rewrite !omap_app, Hrows, Hreads.
    split; [done|]. split; [done|].
    apply Forall_app. split; [done|]. repeat constructor.
Qed.

Lemma uses_agrees cols (all : list Row) k row evs :
  all !! k = Some row →
  omap rowOf evs = [Z.of_nat k + 2] →
  Forall (UsesListName (nextListTitle cols row (lastMarker cols (take k all)))) evs →
  Forall (AgreesWithMarkers cols all) evs.
Proof.
  intros Hrow Hrows Hnames.
  assert (effectiveList cols all (Z.of_nat k + 2)
          = nextListTitle cols row (lastMarker cols (take k all))) as Heff.
  { unfold effectiveList.
    replace (Z.to_nat (Z.of_nat k + 2 - 2)) with k by lia.
    rewrite (take_S_r _ _ _ Hrow). apply lastMarker_snoc. }
  apply Forall_forall. intros e He.
  assert (∀ n, rowOf e = Some n → n = Z.of_nat k + 2) as Hn.
  { intros n Hn. assert (n ∈ omap rowOf evs) as Hin
      by (apply list_elem_of_omap; eauto).
    rewrite Hrows in Hin. by apply list_elem_of_singleton in Hin. }
  rewrite Forall_forall in Hnames. specialize (Hnames e He).
  destruct e as [[]| | | | | |]; simpl in *; try done.
  - rewrite (Hn _ eq_refl), Heff. rewrite <- lastMarker_snoc in *.
    by apply lastMarker_falsy.
  - by rewrite (Hn _ eq_refl), Heff.
  - by rewrite (Hn _ eq_refl), Heff.
Qed.

Lemma forEachRow_markers cols (all : list Row) m : ∀ k st (w : World R),
  lastKnownListTitle st = lastMarker cols (take k all) →
  (k + m ≤ length all)%nat →
  ∃ st' w' evs,
    forEachRow cols (Z.of_nat k + 2) (take m (drop k all)) st w = (Ok st', w')
    ∧ Touches w w' evs
    ∧ Forall (AgreesWithMarkers cols all) evs
    ∧ omap rowOf evs = rowNumbers (Z.of_nat k + 2) m
    ∧ readsOf evs = []
    ∧ lastKnownListTitle st' = lastMarker cols (take (k + m) all).
Proof.
  induction m as [|m IH]; intros k st w Hlk Hlen.
  - exists st, w, []. simpl. split; [done|]. split; [apply Touches_refl|].
    split; [constructor|]. split; [done|]. split; [done|].
    by rewrite Nat.add_0_r.
  - destruct (lookup_lt_is_Some_2 all k) as [row Hrow]; [lia|].
    rewrite (drop_S _ _ _ Hrow). cbn [take forEachRow].
    destruct (processRow_step cols (Z.of_nat k + 2) row st w)
      as (st1 & w1 & Hrun1 & Hstep).
    destruct (row_names _ _ _ _ _ _ _ Hstep)
      as (Hlk1 & evs1 & Ht1 & Hrows1 & Hreads1 & Hnames1).
    rewrite Hlk in Hlk1, Hnames1.
    destruct (IH (S k) st1 w1) as (st' & w' & evs & Hrun & Ht & Hagree & Hrows & Hreads & Hlk');
      [|lia|].
    { rewrite Hlk1, (take_S_r _ _ _ Hrow). symmetry. apply lastMarker_snoc. }
    exists st', w', (evs1 ++ evs).
    split.
    { erewrite bind_ok; [|exact Hrun1].
      by replace (Z.of_nat k + 2 + 1) with (Z.of_nat (S k) + 2) by lia. }
    split; [by eapply Touches_trans|].
    split. { apply Forall_app. split; [|done]. by eapply uses_agrees. }
    split. { rewrite omap_app, Hrows1, Hrows. simpl.
             by replace (Z.of_nat k + 2 + 1) with (Z.of_nat (S k) + 2) by lia. }
    split. { unfold readsOf in *. by rewrite omap_app, Hreads1, Hreads. }
    rewrite Hlk'. f_equal. f_equal. lia.
Qed.

End Markers.

(** ** The carried list name against the markers of the sheet *)

Section ByMarkerFacts.
Context {R : Type} {Srv : Services R}.

Lemma processRow_for cols n row st (w : World R) :
  processRow cols n row st w
  = match processRowFor cols n row (nextListTitle cols row (lastKnownListTitle st))
            (taskListCache st) (reportData st) w with
    | (Ok (cache, report), w') =>
        (Ok (mkLocals cache report (nextListTitle cols row (lastKnownListTitle st))), w')
    | (Exn, w') => (Exn, w')
    end.
Proof.
  unfold processRow, processRowFor.
  destruct (truthyStr (nextListTitle cols row (lastKnownListTitle st))) eqn:Hlk.
  2:{ rewrite !(ifTruthy_no (nextListTitle cols row (lastKnownListTitle st)));
        [|done..]. reflexivity. }
  destruct (truthyStr_Some _ Hlk) as (name & Hname & Hne).
  rewrite !(ifTruthy_yes (nextListTitle cols row (lastKnownListTitle st)) _ _ name);
    [|done..].
  destruct (truthyStr (finalTaskTitleOf cols row)) eqn:Httl.
  2:{ rewrite !(ifTruthy_no (finalTaskTitleOf cols row)); [|done..]. reflexivity. }
  destruct (truthyStr_Some _ Httl) as (ttl & Hfinal & Hte).
  rewrite !(ifTruthy_yes (finalTaskTitleOf cols row) _ _ ttl); [|done..].
  destruct (Str.startsWith (Str.toLowerCase ttl) "list:") eqn:Hdef; [reflexivity|].
  destruct (resolver_step name (taskListCache st) w) as (lid & cache' & w1 & Hres & _).
  erewrite !bind_ok; [|exact Hres..].
  destruct (truthyStr lid) eqn:Hlid.
  2:{ rewrite !(ifTruthy_no lid); [|done..]. reflexivity. }
  destruct (truthyStr_Some _ Hlid) as (id & -> & Hide).
  rewrite !(ifTruthy_yes (Some id) _ _ id); [|done..].
  run_script.
  by destruct (remote_insertTask (newTask cols ttl row) id (remote w1)) as [[[]|] r2].
Qed.

Lemma forEachRow_by_marker cols (all : list Row) m : ∀ k st (w : World R),
  lastKnownListTitle st = lastMarker cols (take k all) →
  (k + m ≤ length all)%nat →
  forEachRow cols (Z.of_nat k + 2) (take m (drop k all)) st w
  = match forEachRowByMarker cols all (Z.of_nat k + 2) (take m (drop k all))
            (taskListCache st) (reportData st) w with
    | (Ok (cache, report), w') =>
        (Ok (mkLocals cache report (lastMarker cols (take (k + m) all))), w')
    | (Exn, w') => (Exn, w')
    end.
Proof.
  induction m as [|m IH]; intros k st w Hlk Hlen.
  - simpl. unfold ret. rewrite Nat.add_0_r, <- Hlk. by destruct st.
  - destruct (lookup_lt_is_Some_2 all k) as [row Hrow]; [lia|].
    rewrite (drop_S _ _ _ Hrow). cbn [take forEachRow forEachRowByMarker].
    assert (effectiveList cols all (Z.of_nat k + 2)
            = nextListTitle cols row (lastKnownListTitle st)) as Heff.
    { unfold effectiveList. replace (Z.to_nat (Z.of_nat k + 2 - 2)) with k by lia.
      rewrite (take_S_r _ _ _ Hrow), Hlk. apply lastMarker_snoc. }
    rewrite Heff. unfold bind. rewrite processRow_for.
    destruct (processRowFor cols (Z.of_nat k + 2) row
                (nextListTitle cols row (lastKnownListTitle st))
                (taskListCache st) (reportData st) w) as [[[cache report]|] w1]; [|done].
    replace (Z.of_nat k + 2 + 1) with (Z.of_nat (S k) + 2) by lia.
    rewrite (IH (S k)); [|simpl|lia].
    + simpl. by replace (k + S m)%nat with (S (k + m)) by lia.
    + rewrite (take_S_r _ _ _ Hrow), Hlk. symmetry. apply lastMarker_snoc.
Qed.

Lemma checkpoint_listTitle cols (all : list Row) k m next st' (w w' : World R) :
  loadedListTitle w = lastMarker cols (take k all) →
  lastKnownListTitle st' = lastMarker cols (take (k + m) all) →
  properties w' = checkpointAfter next st' (properties w) →
  loadedListTitle w' = lastMarker cols (take (k + m) all).
Proof.
  intros Hlk Hlk' Hprops. unfold loadedListTitle. rewrite Hprops. simpl.
  destruct (truthyStr (lastKnownListTitle st')) eqn:Htruthy.
  - destruct (truthyStr_Some _ Htruthy) as (s & Hs & Hne).
    rewrite <- Hlk', Hs. simpl. apply nonEmpty_true in Hne. by rewrite Hne.
  - rewrite Hlk' in Htruthy. apply lastMarker_falsy in Htruthy.
    rewrite Htruthy. fold (loadedListTitle w). rewrite Hlk.
    by eapply lastMarker_prefix_None.
Qed.

End ByMarkerFacts.

Section RunsFromMenu.
Context {R : Type} {Srv : Services R}.

Lemma startedWorld_RunAt sheet cols b name (w : World R) :
  BatchReady sheet cols b (startedWorld name w) →
  RunAt sheet cols 0 (startedWorld name w)
  ∧ (0 < length (dataRows sheet))%nat.
Proof.
  intros (Hsheet & Hcols & [Hlo Hhi] & Hb).
  pose proof (dataRows_length sheet cols Hcols) as Hlast.
  change (cursor (startedWorld name w)) with 2 in *.
  split; [done|]. lia.
Qed.

(** A run from the menu entry over a sheet that has its headers and at
    least one data row works through all rows and ends with the
    invocation that finds nothing left. *)
Lemma exportRun_batches sheet cols (P : nat → World R → Prop) sizes fuel name
    (w : World R) :
  (∀ j, 1 ≤ sizes j) →
  (∀ k b (w w' : World R),
     (k < length (dataRows sheet))%nat → 1 ≤ b →
     RunAt sheet cols k w → P k w →
     continueProcessWith b w = (Ok tt, w') →
     P (k + Z.to_nat (Z.min b (Z.of_nat (length (dataRows sheet)) - Z.of_nat k)))%nat w') →
  BatchReady sheet cols (sizes 0%nat) (startedWorld name w) →
  P 0%nat (startedWorld name w) →
  (length (dataRows sheet) ≤ fuel)%nat →
  ∃ wN j,
    RunAt sheet cols (length (dataRows sheet)) wN
    ∧ P (length (dataRows sheet)) wN
    ∧ continueProcessWith (sizes j) wN = (Ok tt, exportRun fuel sizes name w).
Proof.
  intros Hsizes Hstep Hready HP Hfuel.
  destruct (startedWorld_RunAt _ _ _ _ _ Hready) as [Hat Hpos].
  destruct (continueProcess_batch_summary _ _ _ _ Hready)
    as (st' & w' & evs & Hrun & _ & _ & _ & Hprops & Hjob & Hsheets & _).
  unfold exportRun. rewrite createTasksFromCurrentSheet_spec, Hrun.
  destruct (batchData_rows sheet cols 0 (sizes 0%nat) _ Hat Hpos (Hsizes 0%nat))
    as (_ & Hm & Hle & _).
  eapply (run_induction sheet cols P sizes Hsizes Hstep fuel 1%nat
            (0 + Z.to_nat (Z.min (sizes 0%nat)
                             (Z.of_nat (length (dataRows sheet)) - Z.of_nat 0)))%nat w').
  - lia.
  - lia.
  - by eapply RunAt_next.
  - by eapply Hstep.
  - unfold pending. apply existsb_exists.
    exists (mkTrigger SCRIPT_TRIGGER_HANDLER 60000). split; [|done].
    assert (In (mkTrigger SCRIPT_TRIGGER_HANDLER 60000)
               (List.filter isJob (triggers w'))) as Hin
      by (rewrite Hjob; by left).
    by apply filter_In in Hin as [Hin _].
Qed.

Lemma rowNumbers_app n k m :
  rowNumbers n (k + m) = rowNumbers n k ++ rowNumbers (n + Z.of_nat k) m.
Proof.
  revert n. induction k as [|k IH]; intros n; simpl.
  - by rewrite Z.add_0_r.
  - rewrite IH. do 3 f_equal. lia.
Qed.

Lemma RunAt_finish sheet cols b (wN : World R) :
  RunAt sheet cols (length (dataRows sheet)) wN →
  ∃ name,
    prop_SHEET_NAME (properties wN) = Some name
    ∧ continueProcessWith b wN
      = (Ok tt,
         with_triggers (foreignTriggers wN)
           (with_properties noProps
              (with_reportSheets
                 (reportSheets wN
                  ++ [mkReportSheet name (tableContent (loadedReport wN))])
                 (logged [EvLog LogAllDone] wN)))).
Proof.
  intros (Hsheet & Hcols & Hcur).
  destruct (sourceSheet_Some _ _ Hsheet) as (name & Hname & _).
  exists name. split; [done|].
  apply (continueProcess_finish b sheet); [done|done|].
  rewrite (dataRows_length sheet cols Hcols). lia.
Qed.

Lemma exportRun_markers sheet cols sizes fuel name (w : World R) :
  (∀ j, 1 ≤ sizes j) →
  BatchReady sheet cols (sizes 0%nat) (startedWorld name w) →
  (length (dataRows sheet) ≤ fuel)%nat →
  ∃ evs,
    trace (exportRun fuel sizes name w) = trace w ++ evs
    ∧ omap rowOf evs = rowNumbers 2 (length (dataRows sheet))
    ∧ Forall (AgreesWithMarkers cols (dataRows sheet)) evs.
Proof.
  intros Hsizes Hready Hfuel.
  set (P := fun (k : nat) (w' : World R) =>
    loadedListTitle w' = lastMarker cols (take k (dataRows sheet))
    ∧ ∃ evs, trace w' = trace w ++ evs
        ∧ omap rowOf evs = rowNumbers 2 k
        ∧ Forall (AgreesWithMarkers cols (dataRows sheet)) evs).
  destruct (exportRun_batches sheet cols P sizes fuel name w Hsizes)
    as (wN & j & Hat & HP & Hend); [|done| |done|].
  - (* a batch carries the invariant forward *)
    intros k b w1 w2 Hk Hb Hat1 (Hlk & evs1 & Htr1 & Hrows1 & Hag1) Hrun.
    pose proof (RunAt_ready sheet cols k b w1 Hat1 Hk Hb) as Hready1.
    destruct (batchData_rows sheet cols k b w1 Hat1 Hk Hb) as (Hrows & Hm & Hle & Hdata).
    destruct (continueProcess_batch _ _ _ _ Hready1)
      as (cache0 & wa & st' & wb & Hrefresh & Hloop & Hrun').
    rewrite Hrun in Hrun'. injection Hrun' as ->.
    destruct (refreshFromRemote_touches (loadedCache w1)
                (logged [EvLog (LogStarting (sheetName sheet) (cursor w1))] w1))
      as (cache0' & wa' & evs0 & Hrefresh' & Ht0 & Hrows0 & _).
    rewrite Hrefresh in Hrefresh'. injection Hrefresh' as <- <-.
    destruct Hat1 as (_ & _ & Hcur). rewrite Hdata, Hcur in Hloop.
    set (m := Z.to_nat (Z.min b (Z.of_nat (length (dataRows sheet)) - Z.of_nat k))) in *.
    destruct (forEachRow_markers cols (dataRows sheet) m k
                (mkLocals cache0 (loadedReport w1) (loadedListTitle w1))
                (logged [EvGetHeaders; EvGetValues (Z.of_nat k + 2)
                                         (rowsToProcess sheet (cursor w1) b)] wa))
      as (st'' & wb' & evs & Hloop' & Ht & Hag & HrowsL & _ & Hlk'); [done|done|].
    rewrite Hcur in Hloop' at 1. rewrite Hloop in Hloop'. injection Hloop' as <- <-.
    apply Touches_frame in Ht0. simpl in Ht0. destruct Ht0 as (_ & _ & _ & _ & Htra).
    apply Touches_frame in Ht. simpl in Ht. destruct Ht as (Hpb & _ & _ & _ & Htrb).
    split.
    + unfold loadedListTitle. simpl.
      destruct (truthyStr (lastKnownListTitle st')) eqn:Htruthy.
      * destruct (truthyStr_Some _ Htruthy) as (s & Hs & Hne).
        rewrite Hs, <- Hlk', Hs. simpl. apply nonEmpty_true in Hne. by rewrite Hne.
      * rewrite Hlk' in Htruthy. apply lastMarker_falsy in Htruthy.
        rewrite Htruthy. fold (loadedListTitle w1). rewrite Hlk.
        by eapply lastMarker_prefix_None.
    + exists (evs1 ++ [EvLog (LogStarting (sheetName sheet) (cursor w1))] ++ evs0
              ++ [EvGetHeaders;
                  EvGetValues (Z.of_nat k + 2) (rowsToProcess sheet (cursor w1) b)]
              ++ evs
              ++ [EvLog (LogBatchDone (cursor w1 + rowsToProcess sheet (cursor w1) b))]).
      split. { simpl. rewrite Htrb, Htra, Htr1. by rewrite <- !app_assoc. }
      split.
      { rewrite !omap_app, Hrows1, Hrows0. simpl. rewrite HrowsL.
        rewrite app_nil_r, rowNumbers_app. do 2 f_equal. lia. }
      rewrite !Forall_app. split; [done|]. split; [by repeat constructor|].
      split; [|split; [by repeat constructor|]].
      * apply Forall_forall. intros e He.
        assert (rowOf e = None) as Hnone.
        { destruct (rowOf e) as [n|] eqn:Hn; [|done].
          assert (n ∈ omap rowOf evs0) as Hin by (apply list_elem_of_omap; eauto).
          rewrite Hrows0 in Hin. by apply elem_of_nil in Hin. }
        by destruct e as [[]| | | | | |].
      * split; [done|]. by repeat constructor.
  - (* the start *)
    split; [done|]. exists []. split; [by rewrite app_nil_r|]. by split.
  - (* the end *)
    destruct HP as (_ & evs & Htr & Hrows & Hag).
    destruct (RunAt_finish _ _ (sizes j) _ Hat) as (nm & _ & Hfin).
    rewrite Hfin in Hend. injection Hend as <-.
    exists (evs ++ [EvLog LogAllDone]).
    split; [simpl; by rewrite Htr, <- app_assoc|].
    split; [rewrite omap_app, Hrows; simpl; by rewrite app_nil_r|].
    apply Forall_app. split; [done|]. by repeat constructor.
Qed.


Lemma pending_cancelled (w w0 : World R) :
  triggers w = foreignTriggers w0 → pending w = false.
Proof.
  intros Htr. unfold pending. rewrite Htr. apply not_true_is_false. intros Hex.
  apply existsb_exists in Hex as (t & Hin & Ht).
  apply filter_In in Hin as (_ & Hneg). fold (isJob t) in Ht. by rewrite Ht in Hneg.
Qed.

Lemma fire_idle fuel sizes i (w : World R) :
  pending w = false → fire fuel sizes i w = w.
Proof. intros Hp. destruct fuel; simpl; [done|]. by rewrite Hp. Qed.

Lemma batch_by_markers sheet cols k b (w : World R) :
  RunAt sheet cols k w → (k < length (dataRows sheet))%nat → 1 ≤ b →
  loadedListTitle w = lastMarker cols (take k (dataRows sheet)) →
  ∃ w',
    continueProcessWith b w = (Ok tt, w')
    ∧ BatchByMarkers sheet cols b k w w'
    ∧ (k + length (batchData sheet (cursor w) b) ≤ length (dataRows sheet))%nat
    ∧ (1 ≤ length (batchData sheet (cursor w) b))%nat
    ∧ RunAt sheet cols (k + length (batchData sheet (cursor w) b)) w'
    ∧ loadedListTitle w'
      = lastMarker cols (take (k + length (batchData sheet (cursor w) b)) (dataRows sheet))
    ∧ pending w' = true.
Proof.
  intros Hat Hk Hb Hlk.
  pose proof (RunAt_ready sheet cols k b w Hat Hk Hb) as Hready.
  destruct (batchData_rows sheet cols k b w Hat Hk Hb) as (Hrows & Hm & Hle & Hdata).
  set (m := Z.to_nat (Z.min b (Z.of_nat (length (dataRows sheet)) - Z.of_nat k))) in *.
  assert (length (batchData sheet (cursor w) b) = m) as Hlen.
  { rewrite Hdata, length_take_le; [done|]. rewrite length_drop. lia. }
  destruct (continueProcess_batch _ _ _ _ Hready)
    as (cache0 & w1 & st' & w2 & Hrefresh & Hloop & Hrun).
  destruct (continueProcess_batch_summary _ _ _ _ Hready)
    as (st'' & w'' & evs & Hrun' & _ & _ & _ & Hprops & Hjob & Hsheets & _).
  pose proof Hat as (_ & _ & Hcur).
  assert (forEachRow cols (cursor w) (batchData sheet (cursor w) b)
            (mkLocals cache0 (loadedReport w) (loadedListTitle w))
            (logged [EvGetHeaders;
                     EvGetValues (cursor w) (rowsToProcess sheet (cursor w) b)] w1)
          = match forEachRowByMarker cols (dataRows sheet) (cursor w)
                    (batchData sheet (cursor w) b) cache0 (loadedReport w)
                    (logged [EvGetHeaders;
                             EvGetValues (cursor w) (rowsToProcess sheet (cursor w) b)] w1)
            with
            | (Ok (cache, report), wb) =>
                (Ok (mkLocals cache report
                       (lastMarker cols (take (k + m) (dataRows sheet)))), wb)
            | (Exn, wb) => (Exn, wb)
            end) as Hmark.
  { rewrite Hdata, Hcur.
    by rewrite (forEachRow_by_marker cols (dataRows sheet) m k). }
  rewrite Hloop in Hmark.
  destruct (forEachRowByMarker cols (dataRows sheet) (cursor w)
              (batchData sheet (cursor w) b) cache0 (loadedReport w)
              (logged [EvGetHeaders;
                       EvGetValues (cursor w) (rowsToProcess sheet (cursor w) b)] w1))
    as [[[cache' report']|] wb] eqn:Hby; [|done].
  injection Hmark as -> ->.
  rewrite Hrun in Hrun'. injection Hrun' as <-.
  eexists. split; [exact Hrun|]. rewrite Hlen.
  split. { exists cache0, w1, cache', report', wb. rewrite Hlen. done. }
  split; [done|]. split; [done|].
  split; [by eapply RunAt_next|].
  split.
  - eapply (checkpoint_listTitle cols (dataRows sheet) k m); [exact Hlk| |reflexivity].
    reflexivity.
  - unfold pending. apply existsb_exists.
    exists (mkTrigger SCRIPT_TRIGGER_HANDLER 60000). split; [|done].
    assert (In (mkTrigger SCRIPT_TRIGGER_HANDLER 60000)
               (List.filter isJob
                  (triggers
                     (logged [EvLog (LogBatchDone
                                       (cursor w + rowsToProcess sheet (cursor w) b))]
                        (with_triggers
                           (foreignTriggers w ++ [mkTrigger SCRIPT_TRIGGER_HANDLER 60000])
                           (with_properties
                              (checkpointAfter
                                 (cursor w + rowsToProcess sheet (cursor w) b)
                                 (mkLocals cache' report'
                                    (lastMarker cols (take (k + m) (dataRows sheet))))
                                 (properties w))
                              wb)))))) as Hin
      by (rewrite Hjob; by left).
    by apply filter_In in Hin as [Hin _].
Qed.

Lemma run_by_markers sheet cols sizes :
  (∀ j, 1 ≤ sizes j) →
  ∀ fuel i k (w w' : World R),
    (length (dataRows sheet) - k ≤ fuel)%nat →
    (k < length (dataRows sheet))%nat →
    RunAt sheet cols k w →
    loadedListTitle w = lastMarker cols (take k (dataRows sheet)) →
    continueProcessWith (sizes i) w = (Ok tt, w') →
    RunByMarkers sheet cols sizes i k w (fire fuel sizes (S i) w').
Proof.
  intros Hsizes.
  induction fuel as [|fuel IH]; intros i k w w' Hfuel Hk Hat Hlk Hrun; [lia|].
  destruct (batch_by_markers sheet cols k (sizes i) w Hat Hk (Hsizes i) Hlk)
    as (w'' & Hrun' & Hbatch & Hle & Hm & Hat' & Hlk' & Hpend).
  rewrite Hrun in Hrun'. injection Hrun' as <-.
  eapply RunBatch; [done..|].
  simpl. rewrite Hpend.
  destruct (decide ((k + length (batchData sheet (cursor w) (sizes i)))%nat
                    = length (dataRows sheet))) as [Heq|Hlt].
  - rewrite Heq in *.
    destruct (RunAt_finish _ _ (sizes (S i)) _ Hat') as (nm & _ & Hfin).
    rewrite Hfin.
    assert (pending
              (with_triggers (foreignTriggers w')
                 (with_properties noProps
                    (with_reportSheets
                       (reportSheets w'
                        ++ [mkReportSheet nm (tableContent (loadedReport w'))])
                       (logged [EvLog LogAllDone] w')))) = false) as Hidle
      by (by eapply pending_cancelled).
    rewrite (fire_idle _ _ _ _ Hidle). by apply RunFinishes.
  - assert (k + length (batchData sheet (cursor w) (sizes i))
            < length (dataRows sheet))%nat as Hk' by lia.
    pose proof (RunAt_ready sheet cols _ (sizes (S i)) w' Hat' Hk' (Hsizes (S i)))
      as Hready.
    destruct (continueProcess_batch_summary _ _ _ _ Hready)
      as (st2 & w2 & evs2 & Hrun2 & _).
    rewrite Hrun2. apply IH; [lia|done..].
Qed.

(** C2. In a run started from the menu entry over a sheet with its
    headers and at least one data row, cut into batches of any positive
    sizes and whatever the task service answers: every data row is
    logged once, in document order, and the list name a row is logged
    with is the most recent list marker at or before the row in the
    whole sheet; a row is skipped for want of a list exactly in the case
    that no marker occurs at or before it.  And the run is a run by the
    markers: each invocation finds the most recent marker among the rows
    done before it as the stored list name, across the batch
    boundaries, and processes each of its rows with the most recent
    marker at or before the row: that is the name handed to the
    resolver, the list whose id the task is inserted with, and the name
    the task is counted under. *)
Theorem C2_list_name_carried_forward sheet cols sizes fuel name (w : World R) :
  (∀ j, 1 ≤ sizes j) →
  BatchReady sheet cols (sizes 0%nat) (startedWorld name w) →
  (length (dataRows sheet) ≤ fuel)%nat →
  (∃ evs,
     trace (exportRun fuel sizes name w) = trace w ++ evs
     ∧ omap rowOf evs = rowNumbers 2 (length (dataRows sheet))
     ∧ Forall (AgreesWithMarkers cols (dataRows sheet)) evs)
  ∧ RunByMarkers sheet cols sizes 0 0 (startedWorld name w)
      (exportRun fuel sizes name w).
Proof.
  intros Hsizes Hready Hfuel.
  split; [by apply exportRun_markers|].
  destruct (startedWorld_RunAt _ _ _ _ _ Hready) as [Hat Hpos].
  destruct (continueProcess_batch_summary _ _ _ _ Hready)
    as (st' & w' & evs & Hrun & _).
  unfold exportRun. rewrite createTasksFromCurrentSheet_spec, Hrun.
  apply (run_by_markers sheet cols sizes Hsizes fuel 0%nat 0%nat); [lia|done..].
Qed.

End RunsFromMenu.

(** ** The row loop sees the environment only through the service *)

Section Uniform.
Context {R : Type} {Srv : Services R}.

Lemma with_remote_logged_nil (w : World R) : with_remote (remote w) (logged [] w) = w.
Proof. unfold logged. destruct w. simpl. by rewrite app_nil_r. Qed.

Lemma resolver_uniform name (cache : Cache) (r : R) :
  ∃ lid cache' r' evs,
    ∀ w, remote w = r →
      getTaskListIdByName name cache w
      = (Ok (lid, cache'), with_remote r' (logged evs w)).
Proof.
  unfold getTaskListIdByName.
  destruct (truthyStr (cache !! name)) eqn:Hhit.
  { exists (cache !! name), cache, r, []. intros w <-.
    by rewrite with_remote_logged_nil. }
  destruct (remote_insertList name r) as [[v|] r1] eqn:Hins.
  - destruct (truthyStr v) eqn:Hv.
    + destruct (truthyStr_Some _ Hv) as (id & -> & Hne).
      eexists _, _, r1, [_; _]. intros w <-.
      run_script. rewrite Hins. simpl.
      apply nonEmpty_true in Hne. rewrite Hne. unfold logged. simpl.
      by rewrite <- !app_assoc.
    + eexists _, _, r1, [_; _]. intros w <-.
      run_script. rewrite Hins. simpl. rewrite (ifTruthy_no v); [|done].
      unfold logged. simpl. by rewrite <- !app_assoc.
  - destruct (remote_list r1) as [[items|] r2] eqn:Hlist.
    + destruct (findByTitle name (default [] items)) as [l|] eqn:Hfind.
      * eexists _, _, r2, [_; _; _; _; _]. intros w <-.
        run_script. rewrite Hins. simpl. rewrite Hlist. simpl. rewrite Hfind.
        unfold logged. simpl. by rewrite <- !app_assoc.
      * eexists _, _, r2, [_; _; _; _; _]. intros w <-.
        run_script. rewrite Hins. simpl. rewrite Hlist. simpl. rewrite Hfind.
        unfold logged. simpl. by rewrite <- !app_assoc.
    + eexists _, _, r2, [_; _; _; _; _]. intros w <-.
      run_script. rewrite Hins. simpl. rewrite Hlist. simpl.
      unfold logged. simpl. by rewrite <- !app_assoc.
Qed.

Lemma processRow_uniform cols n row st (r : R) :
  ∃ st' r' evs,
    ∀ w, remote w = r →
      processRow cols n row st w = (Ok st', with_remote r' (logged evs w)).
Proof.
  unfold processRow.
  destruct (truthyStr (nextListTitle cols row (lastKnownListTitle st))) eqn:Hlk.
  2:{ rewrite ifTruthy_no; [|done]. eexists _, r, [_]. intros w <-.
      unfold Logger_log, emit, bind, ret, logged. by destruct w. }
  destruct (truthyStr_Some _ Hlk) as (name & Hname & Hne).
  rewrite (ifTruthy_yes _ _ _ name); [|done..].
  destruct (truthyStr (finalTaskTitleOf cols row)) eqn:Httl.
  2:{ rewrite ifTruthy_no; [|done]. eexists _, r, [_]. intros w <-.
      unfold Logger_log, emit, bind, ret, logged. by destruct w. }
  destruct (truthyStr_Some _ Httl) as (ttl & Hfinal & Hte).
  rewrite (ifTruthy_yes _ _ _ ttl); [|done..].
  destruct (Str.startsWith (Str.toLowerCase ttl) "list:") eqn:Hdef.
  { eexists _, r, [_]. intros w <-.
    unfold Logger_log, emit, bind, ret, logged. by destruct w. }
  destruct (resolver_uniform name (taskListCache st) r)
    as (lid & cache' & r1 & evs1 & Hres).
  destruct (truthyStr lid) eqn:Hlid.
  2:{ eexists _, r1, (evs1 ++ [_]). intros w Hw.
      erewrite bind_ok; [|by apply Hres]. cbv beta iota.
      rewrite ifTruthy_no; [|done].
      unfold Logger_log, emit, bind, ret. simpl.
      unfold logged. simpl. by rewrite app_assoc. }
  destruct (truthyStr_Some _ Hlid) as (id & -> & Hide).
  destruct (remote_insertTask (newTask cols ttl row) id r1) as [[[]|] r2] eqn:Hins.
  - eexists _, r2, (evs1 ++ [_; _; _]). intros w Hw.
    erewrite bind_ok; [|by apply Hres]. cbv beta iota.
    rewrite (ifTruthy_yes _ _ _ id); [|done..].
    run_script. rewrite Hins. simpl. unfold logged. simpl.
    by rewrite <- !app_assoc.
  - eexists _, r2, (evs1 ++ [_; _]). intros w Hw.
    erewrite bind_ok; [|by apply Hres]. cbv beta iota.
    rewrite (ifTruthy_yes _ _ _ id); [|done..].
    run_script. rewrite Hins. simpl. unfold logged. simpl.
    by rewrite <- !app_assoc.
Qed.

Lemma forEachRow_uniform cols data : ∀ n st (r : R),
  ∃ st' r' evs,
    ∀ w, remote w = r →
      forEachRow cols n data st w = (Ok st', with_remote r' (logged evs w)).
Proof.
  induction data as [|row data IH]; intros n st r; simpl.
  - exists st, r, []. intros w <-. by rewrite with_remote_logged_nil.
  - destruct (processRow_uniform cols n row st r) as (st1 & r1 & evs1 & Hrow).
    destruct (IH (n + 1) st1 r1) as (st' & r' & evs & Hloop).
    exists st', r', (evs1 ++ evs). intros w Hw.
    erewrite bind_ok; [|by apply Hrow].
    rewrite Hloop; [|done]. unfold logged. simpl. by rewrite app_assoc.
Qed.

End Uniform.

(** ** The reference service keeps the cache coherent *)

Section StoreFacts.
Variable p : Policy.

Lemma cachePut_eq (c : Cache) x : cachePut c x = <[tl_title x := tl_id x]> c.
Proof. reflexivity. Qed.

Lemma put_insert_last name id (l : list TaskList) : ∀ c : Cache,
  <[name := id]> (foldl cachePut (<[name := id]> c) l)
  = <[name := id]> (foldl cachePut c l).
Proof.
  induction l as [|x l IH]; intros c; simpl.
  - by rewrite insert_insert_eq.
  - rewrite !cachePut_eq. destruct (decide (tl_title x = name)) as [<-|Hne].
    + by rewrite insert_insert_eq.
    + rewrite insert_insert_ne; [|done]. apply IH.
Qed.

Lemma refresh_idem (c : Cache) l :
  refreshCache (refreshCache c (Some l)) (Some l) = refreshCache c (Some l).
Proof.
  simpl. induction l as [|x l IH] using rev_ind; [done|].
  rewrite !foldl_app. simpl. rewrite !cachePut_eq.
  rewrite put_insert_last. by rewrite IH.
Qed.

Lemma refresh_lookup_listed (c : Cache) l name x :
  x ∈ l → tl_title x = name →
  ∃ y, y ∈ l ∧ tl_title y = name ∧ foldl cachePut c l !! name = Some (tl_id y).
Proof.
  induction l as [|z l IH] using rev_ind; intros Hin Hx.
  - by apply elem_of_nil in Hin.
  - rewrite foldl_app. simpl. rewrite cachePut_eq.
    destruct (decide (tl_title z = name)) as [Hz|Hz].
    + exists z. split; [apply elem_of_app; right; by apply list_elem_of_singleton|].
      split; [done|]. rewrite Hz. apply lookup_insert_eq.
    + rewrite lookup_insert_ne; [|done].
      apply elem_of_app in Hin as [Hin|Hin].
      * destruct (IH Hin Hx) as (y & Hy & Hty & Hlook).
        exists y. split; [apply elem_of_app; by left|]. done.
      * apply list_elem_of_singleton in Hin. congruence.
Qed.

Lemma findByTitle_Some name l x :
  findByTitle name l = Some x → x ∈ l ∧ tl_title x = name.
Proof.
  unfold findByTitle. intros Hfind. apply find_some in Hfind as [Hin Heq].
  split; [by apply list_elem_of_In|]. by apply String.eqb_eq.
Qed.

Lemma coherent_listed_hit (c : Cache) r name x :
  Coherent c r → IdsPresent r →
  findByTitle name (st_lists r) = Some x →
  truthyStr (c !! name) = true.
Proof.
  intros Hcoh Hids Hfind. apply findByTitle_Some in Hfind as [Hin Hx].
  destruct (refresh_lookup_listed c _ _ _ Hin Hx) as (y & Hy & _ & Hlook).
  unfold Coherent in Hcoh. simpl in Hcoh. rewrite Hcoh in Hlook. rewrite Hlook.
  simpl. apply nonEmpty_true.
  unfold IdsPresent in Hids. rewrite Forall_forall in Hids. by apply Hids.
Qed.

Lemma resolve_coherent name (c : Cache) (w : World Store) lid c' w' :
  ResolveStep (Srv := storeServices p) name c w lid c' w' →
  Coherent c (remote w) → IdsPresent (remote w) →
  Coherent c' (remote w') ∧ IdsPresent (remote w').
Proof.
  intros Hstep Hcoh Hids. destruct Hstep as
    [id Hc Hid|id r1 Hmiss Hins Hid|v r1 Hmiss Hins Hv
    |r1 items r2 l Hmiss Hins Hlist Hfind|r1 items r2 Hmiss Hins Hlist Hfind
    |r1 r2 Hmiss Hins Hlist]; simpl in *.
  - done.
  - destruct (onCreateList p name (remote w)); [|done..].
    injection Hins as <- <-. split.
    + unfold Coherent in *. simpl in *. rewrite foldl_app. simpl.
      rewrite cachePut_eq. simpl.
      rewrite put_insert_last. by rewrite Hcoh.
    + unfold IdsPresent in *. simpl. apply Forall_app. split; [done|].
      by repeat constructor.
  - destruct (onCreateList p name (remote w)).
    + injection Hins as <- <-. done.
    + by injection Hins as <- <-.
    + done.
  - destruct (onCreateList p name (remote w)); [done|done|].
    injection Hins as <-. injection Hlist as <- <-. simpl in Hfind.
    rewrite (coherent_listed_hit _ _ _ _ Hcoh Hids Hfind) in Hmiss. done.
  - destruct (onCreateList p name (remote w)); [done|done|].
    injection Hins as <-. by injection Hlist as <- <-.
  - done.
Qed.

Lemma row_coherent cols n row st (w : World Store) st' w' :
  RowStep (Srv := storeServices p) cols n row st w st' w' →
  Coherent (taskListCache st) (remote w) → IdsPresent (remote w) →
  Coherent (taskListCache st') (remote w') ∧ IdsPresent (remote w').
Proof.
  intros Hstep Hcoh Hids.
  destruct Hstep as
    [ | | |name ttl lid c' w1 _ _ _ _ _ Hres _
    |name ttl lid c' w1 r2 _ _ _ _ _ Hres _ Hins
    |name ttl lid c' w1 r2 _ _ _ _ _ Hres _ Hins]; simpl; try done.
  - by eapply resolve_coherent.
  - destruct (resolve_coherent _ _ _ _ _ _ Hres Hcoh Hids) as [Hcoh1 Hids1].
    simpl in Hins. destruct (onCreateTask p _ lid (remote w1)); [|done].
    by injection Hins as <-.
  - destruct (resolve_coherent _ _ _ _ _ _ Hres Hcoh Hids) as [Hcoh1 Hids1].
    simpl in Hins. destruct (onCreateTask p _ lid (remote w1)); [done|].
    by injection Hins as <-.
Qed.

Lemma forEachRow_coherent cols data : ∀ n st (w : World Store) st' w',
  forEachRow (Srv := storeServices p) cols n data st w = (Ok st', w') →
  Coherent (taskListCache st) (remote w) → IdsPresent (remote w) →
  Coherent (taskListCache st') (remote w') ∧ IdsPresent (remote w').
Proof.
  induction data as [|row data IH]; intros n st w st' w'; simpl.
  - by intros [= <- <-].
  - destruct (processRow_step (Srv := storeServices p) cols n row st w)
      as (st1 & w1 & Hrow & Hstep).
    erewrite bind_ok; [|exact Hrow]. intros Hloop Hcoh Hids.
    destruct (row_coherent _ _ _ _ _ _ _ Hstep Hcoh Hids) as [Hcoh1 Hids1].
    eapply IH; eauto.
Qed.

End StoreFacts.

(** ** Resuming gives the report of a single pass *)

Section Resume.
Variable p : Policy.

Lemma Locals_eta st :
  mkLocals (taskListCache st) (reportData st) (lastKnownListTitle st) = st.
Proof. by destruct st. Qed.

Lemma resume_step sheet cols (w0 : World Store) k b (w1 w2 : World Store) :
  (k < length (dataRows sheet))%nat → 1 ≤ b →
  RunAt sheet cols k w1 →
  InStep p cols (dataRows sheet) w0 k w1 →
  continueProcessWith (Srv := storeServices p) b w1 = (Ok tt, w2) →
  InStep p cols (dataRows sheet) w0
    (k + Z.to_nat (Z.min b (Z.of_nat (length (dataRows sheet)) - Z.of_nat k)))%nat w2.
Proof.
  intros Hk Hb Hat (Hname & Hrs & Hlk & st & Hdone & Hlkst & Hrep & Hcache & Hcoh & Hids) Hrun.
  pose proof (RunAt_ready sheet cols k b w1 Hat Hk Hb) as Hready.
  destruct (batchData_rows sheet cols k b w1 Hat Hk Hb) as (Hrows & Hm & Hle & Hdata).
  destruct (continueProcess_batch (Srv := storeServices p) _ _ _ _ Hready)
    as (cache0 & wa & st' & wb & Hrefresh & Hloop & Hrun').
  rewrite Hrun in Hrun'. injection Hrun' as ->.
  rewrite refreshFromRemote_spec in Hrefresh. simpl in Hrefresh.
  injection Hrefresh as <- <-.
  destruct Hat as (_ & _ & Hcur).
  set (m := Z.to_nat (Z.min b (Z.of_nat (length (dataRows sheet)) - Z.of_nat k))) in *.
  rewrite Hdata, Hcur in Hloop. fold (loadedCache w1) in Hloop.
  change (foldl _ (loadedCache w1) (st_lists (remote w1)))
    with (refreshCache (loadedCache w1) (Some (st_lists (remote w1)))) in Hloop.
  rewrite Hcache, Hrep, Hlk, <- Hlkst, Locals_eta in Hloop.
  set (wl := logged _ (with_remote _ _)) in Hloop.
  assert (remote wl = remote w1) as Hwl by done.
  destruct (forEachRow_uniform (Srv := storeServices p) cols
              (take m (drop k (dataRows sheet))) (Z.of_nat k + 2) st (remote w1))
    as (st'' & r'' & evs'' & Huni).
  rewrite (Huni wl Hwl) in Hloop. injection Hloop as Hst Hwb. subst st'' wb.
  destruct (forEachRow_markers (Srv := storeServices p) cols (dataRows sheet) m k st wl)
    as (st3 & w3 & evs3 & Hloop3 & _ & _ & _ & _ & Hlk'); [done|done|].
  rewrite (Huni wl Hwl) in Hloop3. injection Hloop3 as <- <-.
  destruct (forEachRow_coherent p cols _ _ _ _ _ _ (Huni wl Hwl)) as [Hcoh' Hids'];
    [by rewrite Hwl|by rewrite Hwl|].
  simpl in Hcoh', Hids'.
  split; [done|]. split; [done|]. split.
  { unfold loadedListTitle. simpl.
    destruct (truthyStr (lastKnownListTitle st')) eqn:Htruthy.
    - destruct (truthyStr_Some _ Htruthy) as (s & Hs & Hne).
      rewrite <- Hlk', Hs. simpl. apply nonEmpty_true in Hne. by rewrite Hne.
    - rewrite Hlk' in Htruthy. apply lastMarker_falsy in Htruthy.
      rewrite Htruthy. fold (loadedListTitle w1). rewrite Hlk.
      by eapply lastMarker_prefix_None. }
  exists st'. split; [|done].
  unfold rowsDone in *.
  rewrite <- (take_take_drop (dataRows sheet) k m), forEachRow_app.
  destruct (forEachRow cols 2 (take k (dataRows sheet)) _ (freshWorld [] (remote w0)))
    as [res wk] eqn:Hfirst.
  simpl in Hdone. injection Hdone as -> Hwk.
  erewrite bind_ok; [|exact Hfirst].
  rewrite length_take_le; [|lia].
  replace (2 + Z.of_nat k) with (Z.of_nat k + 2) by lia.
  by rewrite (Huni wk Hwk).
Qed.

Lemma pending_foreign (w w0 : World Store) :
  triggers w = foreignTriggers w0 → pending w = false.
Proof.
  intros Htr. unfold pending. rewrite Htr. apply not_true_is_false. intros Hex.
  apply existsb_exists in Hex as (t & Hin & Ht).
  apply filter_In in Hin as (_ & Hneg). fold (isJob t) in Ht. by rewrite Ht in Hneg.
Qed.

Lemma fire_not_pending (Srv : Services Store) fuel sizes i (w : World Store) :
  pending w = false → fire fuel sizes i w = w.
Proof. intros Hp. destruct fuel; simpl; [done|]. by rewrite Hp. Qed.

Lemma InStep_start cols data name (w : World Store) :
  IdsPresent (remote w) →
  InStep p cols data (startedWorld name w) 0 (startedWorld name w).
Proof.
  intros Hids. split; [done|]. split; [done|]. split; [done|].
  eexists. split; [reflexivity|]. simpl.
  split; [done|]. split; [done|]. split; [done|]. split; [|done].
  apply refresh_idem.
Qed.

(** A run from the menu entry over a sheet with its headers and some
    data rows ends with the summary of the report that the row loop
    computes over all the rows in one piece. *)
Lemma run_outcome sheet cols sizes fuel name (w : World Store) :
  IdsPresent (remote w) →
  (∀ j, 1 ≤ sizes j) →
  BatchReady sheet cols (sizes 0%nat) (startedWorld name w) →
  (length (dataRows sheet) ≤ fuel)%nat →
  ∃ st,
    rowsDone p cols (dataRows sheet) (length (dataRows sheet)) (remote w)
    = (Ok st, remote (exportRun (Srv := storeServices p) fuel sizes name w))
    ∧ reportSheets (exportRun (Srv := storeServices p) fuel sizes name w)
      = reportSheets w ++ [mkReportSheet name (tableContent (reportData st))]
    ∧ pending (exportRun (Srv := storeServices p) fuel sizes name w) = false.
Proof.
  intros Hids Hsizes Hready Hfuel.
  destruct (exportRun_batches (Srv := storeServices p) sheet cols
              (InStep p cols (dataRows sheet) (startedWorld name w))
              sizes fuel name w Hsizes)
    as (wN & j & Hat & HP & Hend); [|done| |done|].
  - intros k b w1 w2 Hk Hb Hat1 HP1 Hrun. by eapply resume_step.
  - by apply InStep_start.
  - destruct HP as (Hname & Hrs & _ & st & Hdone & _ & Hrep & _).
    destruct (RunAt_finish (Srv := storeServices p) _ _ (sizes j) _ Hat)
      as (nm & Hnm & Hfin).
    rewrite Hfin in Hend. injection Hend as <-.
    rewrite Hname in Hnm. injection Hnm as <-.
    exists st. simpl. split; [done|].
    split; [by rewrite Hrs, Hrep|]. by eapply pending_foreign.
Qed.

(** C1. Over the reference task service, whatever its policy, with
    non-empty list ids to begin with: a run from the menu entry cut into
    batches of any positive sizes ends with the same summaries, and
    leaves the service in the same state, as a run cut in any other way,
    a run in one pass included; both runs end with no trigger pending;
    and when the sheet has its headers and some data rows, the summary is
    the report that the row loop computes over all rows in one piece. *)
Theorem C1_resume_correctness name (w : World Store) sizes1 sizes2 fuel1 fuel2 :
  IdsPresent (remote w) →
  (∀ j, 1 ≤ sizes1 j) → (∀ j, 1 ≤ sizes2 j) →
  (rowsOfRun name w ≤ fuel1)%nat → (rowsOfRun name w ≤ fuel2)%nat →
  reportSheets (exportRun (Srv := storeServices p) fuel1 sizes1 name w)
  = reportSheets (exportRun (Srv := storeServices p) fuel2 sizes2 name w)
  ∧ remote (exportRun (Srv := storeServices p) fuel1 sizes1 name w)
    = remote (exportRun (Srv := storeServices p) fuel2 sizes2 name w)
  ∧ pending (exportRun (Srv := storeServices p) fuel1 sizes1 name w) = false
  ∧ pending (exportRun (Srv := storeServices p) fuel2 sizes2 name w) = false
  ∧ ∀ sheet cols,
      BatchReady sheet cols (sizes1 0%nat) (startedWorld name w) →
      ∃ st r,
        rowsDone p cols (dataRows sheet) (length (dataRows sheet)) (remote w) = (Ok st, r)
        ∧ reportSheets (exportRun (Srv := storeServices p) fuel1 sizes1 name w)
          = reportSheets w ++ [mkReportSheet name (tableContent (reportData st))].
Proof.
  intros Hids Hs1 Hs2 Hf1 Hf2.
  assert (∀ sheet cols,
    BatchReady sheet cols (sizes1 0%nat) (startedWorld name w) →
    (length (dataRows sheet) ≤ fuel1)%nat ∧ (length (dataRows sheet) ≤ fuel2)%nat
    ∧ BatchReady sheet cols (sizes2 0%nat) (startedWorld name w)) as Hboth.
  { intros sheet cols (Hsheet & Hcols & Hcur & _). unfold rowsOfRun in *.
    rewrite Hsheet in *. split; [done|]. split; [done|].
    split; [done|]. split; [done|]. split; [done|]. apply Hs2. }
  destruct (continueProcess_cases (Srv := storeServices p) (sizes1 0%nat)
              (startedWorld name w) (Hs1 0%nat))
    as [(sheet & cols & Hready)|[(sheet & nm & Hsheet & Hnm & Hdone)|Hgive]].
  - destruct (Hboth _ _ Hready) as (Hl1 & Hl2 & Hready2).
    destruct (run_outcome sheet cols sizes1 fuel1 name w Hids Hs1 Hready Hl1)
      as (st1 & Hdone1 & Hrep1 & Hpend1).
    destruct (run_outcome sheet cols sizes2 fuel2 name w Hids Hs2 Hready2 Hl2)
      as (st2 & Hdone2 & Hrep2 & Hpend2).
    rewrite Hdone1 in Hdone2. injection Hdone2 as <- Hremote.
    split; [by rewrite Hrep1, Hrep2|]. split; [done|]. split; [done|]. split; [done|].
    intros sheet' cols' Hready'.
    destruct (Hboth _ _ Hready') as (Hl1' & _ & _).
    destruct (run_outcome sheet' cols' sizes1 fuel1 name w Hids Hs1 Hready' Hl1')
      as (st' & Hdone' & Hrep' & _).
    by exists st', (remote (exportRun (Srv := storeServices p) fuel1 sizes1 name w)).
  - assert (∀ fuel sizes,
      exportRun (Srv := storeServices p) fuel sizes name w
      = with_triggers (foreignTriggers (startedWorld name w))
          (with_properties noProps
             (with_reportSheets
                (reportSheets (startedWorld name w)
                 ++ [mkReportSheet nm (tableContent (loadedReport (startedWorld name w)))])
                (logged [EvLog LogAllDone] (startedWorld name w))))) as Hrun.
    { intros fuel sizes. unfold exportRun.
      rewrite createTasksFromCurrentSheet_spec.
      rewrite (continueProcess_finish (Srv := storeServices p) _ _ _ _ Hsheet Hnm Hdone).
      apply fire_not_pending. by eapply pending_foreign. }
    rewrite !Hrun. split; [done|]. split; [done|].
    split; [by eapply pending_foreign|]. split; [by eapply pending_foreign|].
    intros sheet' cols' (Hsheet' & _ & [_ Hhi] & _).
    rewrite Hsheet in Hsheet'. injection Hsheet' as <-. lia.
  - destruct Hgive as (res & w' & Hrun & Hp & Hsh & Hrs & Htr & Hany).
    assert (∀ fuel sizes, (∀ j, 1 ≤ sizes j) →
      exportRun (Srv := storeServices p) fuel sizes name w = w'
      ∧ pending w' = false) as Hsame.
    { intros fuel sizes Hs. unfold exportRun.
      rewrite createTasksFromCurrentSheet_spec, (Hany _ (Hs 0%nat)).
      destruct Htr as [[-> Htr]|[-> Htr]].
      - split; [done|]. eapply pending_foreign. rewrite Htr. reflexivity.
      - assert (pending w' = false) as Hpend by (by eapply pending_foreign).
        split; [|done]. by apply fire_not_pending. }
    destruct (Hsame fuel1 sizes1 Hs1) as [-> Hp1].
    destruct (Hsame fuel2 sizes2 Hs2) as [-> _].
    split; [done|]. split; [done|]. split; [done|]. split; [done|].
    intros sheet' cols' Hready'.
    destruct (continueProcess_batch_summary (Srv := storeServices p) _ _ _ _ Hready')
      as (st' & w'' & evs & Hrun' & _ & _ & _ & Hprops & _).
    rewrite Hrun in Hrun'. injection Hrun' as _ <-.
    rewrite Hp in Hprops. unfold checkpointAfter in Hprops. simpl in Hprops. done.
Qed.

End Resume.

(** ** The properties at work on the small sheet *)

(** C1 on the small sheet: one pass of 100 rows against four batches of
    one row. *)
Lemma C1_witness :
  IdsPresent (remote Demo.fresh)
  ∧ reportSheets (exportRun (Srv := storeServices lenient) 10 (fun _ => 100) "Tasks" Demo.fresh)
    = reportSheets (exportRun (Srv := storeServices lenient) 10 (fun _ => 1) "Tasks" Demo.fresh).
Proof.
  split; [constructor|].
  refine (proj1 (C1_resume_correctness lenient "Tasks" Demo.fresh
                   (fun _ => 100) (fun _ => 1) 10 10 _ _ _ _ _)).
  - constructor.
  - intros j. lia.
  - intros j. lia.
  - vm_compute. lia.
  - vm_compute. lia.
Defined.

(** C2 on the small sheet, in batches of two rows: row 3 has no list
    marker and is the last row of the first batch, row 5 is in the
    second. *)
Lemma C2_witness :
  (∃ evs,
     trace (exportRun (Srv := storeServices lenient) 10 (fun _ => 2) "Tasks" Demo.fresh)
     = trace Demo.fresh ++ evs
     ∧ omap rowOf evs = rowNumbers 2 (length (dataRows Demo.sheet))
     ∧ Forall (AgreesWithMarkers Demo.cols (dataRows Demo.sheet)) evs)
  ∧ RunByMarkers (Srv := storeServices lenient) Demo.sheet Demo.cols (fun _ => 2) 0 0
      (startedWorld "Tasks" Demo.fresh)
      (exportRun (Srv := storeServices lenient) 10 (fun _ => 2) "Tasks" Demo.fresh).
Proof.
  apply (C2_list_name_carried_forward (Srv := storeServices lenient)
           Demo.sheet Demo.cols (fun _ => 2) 10 "Tasks" Demo.fresh).
  - intros j. lia.
  - split; [reflexivity|]. split; [reflexivity|].
    split; [split; apply Z.leb_le; reflexivity|lia].
  - simpl. lia.
Defined.

(** Batches of one row: row 3, which carries no list title, is the first
    row of the second batch and goes to the list "Work" that the first
    batch saw last: the task is inserted with the id that the create
    call for "Work" answered. *)
Example carry_forward_across_batches :
  occurs (EvLog (LogRowCreated 3 "a2" "Work")) (trace (Demo.final (fun _ => 1))) = true
  ∧ occurs (EvLog (LogBatchDone 3)) (trace (Demo.final (fun _ => 1))) = true
  ∧ List.filter isListInsert (trace (Demo.final (fun _ => 1)))
    = [EvTasklistsInsert "Work"; EvTasklistsInsert "Home"]
  ∧ fst <$> st_tasks (remote (Demo.final (fun _ => 1))) = ["list-0"; "list-0"; "list-1"]
  ∧ st_lists (remote (Demo.final (fun _ => 1)))
    = [mkTaskList "Work" "list-0"; mkTaskList "Home" "list-1"].
Proof. repeat split; vm_compute; reflexivity. Qed.

Lemma C3_witness :
  ∃ w' evs k,
    continueProcessWith (Srv := storeServices lenient) BATCH_SIZE Demo.started = (Ok tt, w')
    ∧ trace w' = trace Demo.started ++ evs
    ∧ 1 ≤ k
    ∧ readsOf evs = [(cursor Demo.started, k)]
    ∧ prop_ROW (properties w') = Some (cursor Demo.started + k)
    ∧ cursor w' = cursor Demo.started + k
    ∧ cursor Demo.started < cursor w'
    ∧ ∀ stored, prop_ROW (properties Demo.started) = Some stored →
        stored ≤ cursor Demo.started.
Proof.
  apply (C3_cursor_strictly_monotonic (Srv := storeServices lenient)
           Demo.sheet Demo.cols BATCH_SIZE Demo.started).
  split; [reflexivity|]. split; [reflexivity|].
  split; [split|]; apply Z.leb_le; reflexivity.
Defined.

Lemma C4_witness :
  "list-0" ≠ ""
  ∧ getTaskListIdByName (Srv := storeServices lenient) "Work"
      ({["Work" := "list-0"]} : Cache) Demo.fresh
    = (Ok (Some "list-0", {["Work" := "list-0"]}), Demo.fresh).
Proof.
  split; [discriminate|].
  refine (proj1 (C4_cache_hit_no_remote_call (Srv := storeServices lenient) "Work"
                   ({["Work" := "list-0"]} : Cache) "list-0" Demo.fresh _) _).
  - discriminate.
  - reflexivity.
Defined.

(** C5 as stated fails: the create call comes back without an id, the
    service lists a list called "Work", and the resolver answers failure
    at once: it neither waits nor lists. *)
Lemma C5_counterexample :
  truthyStr ((∅ : Cache) !! "Work") = false
  ∧ fst (remote_insertList (Services := storeServices Demo.silent) "Work"
           (remote Demo.listed)) = Returned None
  ∧ findByTitle "Work" (st_lists (remote Demo.listed)) = Some (mkTaskList "Work" "list-7")
  ∧ getTaskListIdByName (Srv := storeServices Demo.silent) "Work" ∅ Demo.listed
    = (Ok (None, ∅),
       logged [EvTasklistsInsert "Work"; EvLog (LogListNoId "Work")] Demo.listed)
  ∧ occurs (EvSleep 2000)
      (trace (snd (getTaskListIdByName (Srv := storeServices Demo.silent) "Work" ∅
                     Demo.listed))) = false
  ∧ occurs EvTasklistsList
      (trace (snd (getTaskListIdByName (Srv := storeServices Demo.silent) "Work" ∅
                     Demo.listed))) = false.
Proof. repeat split; vm_compute; reflexivity. Qed.

(** The names that the cache answers without an entry are outside C5 as
    amended: an empty cache answers "constructor", and every cache
    answers a name it has a non-empty entry for. *)
Example names_the_cache_answers :
  answers (∅ : Cache) "constructor" = true
  ∧ answers (∅ : Cache) "__proto__" = true
  ∧ answers (∅ : Cache) "Work" = false
  ∧ answers ({["Work" := "list-0"]} : Cache) "Work" = true
  ∧ answers ({["Work" := ""]} : Cache) "Work" = false.
Proof. repeat split; vm_compute; reflexivity. Qed.

(** C5 as amended, when the create call raises and the list is there. *)
Lemma C5_witness :
  answers (∅ : Cache) "Work" = false
  ∧ getTaskListIdByName (Srv := storeServices Demo.refusing) "Work" ∅ Demo.listed
    = (Ok (Some "list-7", <["Work" := "list-7"]> ∅),
       with_remote (remote Demo.listed)
         (with_trace
            (trace Demo.listed
             ++ [EvTasklistsInsert "Work"; EvLog (LogListCreateRaised "Work");
                 EvSleep 2000; EvTasklistsList; EvLog (LogListFound "Work")])
            Demo.listed)).
Proof.
  split; [reflexivity|].
  refine (proj1 (proj1 (C5_fallback_only_when_create_raises
                          (Srv := storeServices Demo.refusing) "Work" ∅ Demo.listed _)
                       (remote Demo.listed) _)
                (Some (st_lists (remote Demo.listed))) (remote Demo.listed) _).
  - reflexivity.
  - reflexivity.
  - reflexivity.
Defined.

(** C6 as stated fails in the batch pipeline: the row whose links cell
    reads "starred" is submitted with the notes "Link: starred". *)
Lemma C6_counterexample :
  optionalCell (linksIndex Demo.cols) Demo.starredRow = Some (CText "starred")
  ∧ notes (newTask (Srv := storeServices lenient) Demo.cols "a2" Demo.starredRow)
    = Some "Link: starred"
  ∧ st_tasks (remote (Demo.final (fun _ => 100))) !! 1%nat
    = Some ("list-0", mkTask "a2" (Some "completed") None (Some "Link: starred")).
Proof. repeat split; vm_compute; reflexivity. Qed.

Lemma C6_witness :
  notes (newTask (Srv := storeServices lenient) Demo.cols "a2" Demo.starredRow)
  = Some "Link: starred"
  ∧ notes (SimpleExporter.taskOfRow (fun _ => None) Demo.simpleMap Demo.starredRow
             (CText "a2")) = None
  ∧ notes (SimpleExporter.taskOfRow (fun _ => None) Demo.simpleMap
             [CText "Work"; CText "a1"; CText "Buy milk"; CText ""; CText "";
              CText " http://x "]
             (CText "Buy milk")) = Some "Link: http://x".
Proof.
  split; [|split].
  - refine (proj1 (C6_notes_from_links (Srv := storeServices lenient))
              Demo.cols "a2" Demo.starredRow (CText "starred") _).
    reflexivity.
  - refine (proj2 (proj2 (C6_notes_from_links (Srv := storeServices lenient)))
              (fun _ => None) Demo.simpleMap Demo.starredRow (CText "a2") "starred" _ _).
    + reflexivity.
    + discriminate.
  - refine (proj2 (proj2 (C6_notes_from_links (Srv := storeServices lenient)))
              (fun _ => None) Demo.simpleMap _ (CText "Buy milk") " http://x " _ _).
    + reflexivity.
    + discriminate.
Defined.

Lemma C7_witness :
  truthyStr (trimmedOrNull (Demo.starredRow !! titleIndex Demo.cols)) = false
  ∧ finalTaskTitleOf Demo.cols Demo.starredRow = Some "a2".
Proof.
  split; [reflexivity|].
  refine (proj1 (proj1 (C7_title_falls_back_to_id (Srv := storeServices lenient)
                          Demo.cols 3 Demo.starredRow (mkLocals ∅ ∅ (Some "Work"))
                          Demo.started _)
                       (CText "a2") _ _)).
  - reflexivity.
  - reflexivity.
  - discriminate.
Defined.

(** The row with no title and the id "a2" is sent with the title "a2";
    the row with neither is logged as empty and nothing is sent for it. *)
Example title_fallback_in_a_run :
  occurs (EvTasksInsert (mkTask "a2" (Some "completed") None (Some "Link: starred"))
                        "list-0")
         (trace (Demo.final (fun _ => 100))) = true
  ∧ occurs (EvLog (LogRowEmpty 4)) (trace (Demo.final (fun _ => 100))) = true
  ∧ length (st_tasks (remote (Demo.final (fun _ => 100)))) = 3%nat.
Proof. repeat split; vm_compute; reflexivity. Qed.

(** C8 on the small sheet with a service that refuses every list: the
    batch still runs to its end. *)
Lemma C8_witness :
  ∃ w' evs,
    continueProcessWith (Srv := storeServices Demo.refusing) BATCH_SIZE Demo.started
    = (Ok tt, w')
    ∧ trace w' = trace Demo.started ++ evs
    ∧ omap rowOf evs
      = rowNumbers (cursor Demo.started)
          (Z.to_nat (rowsToProcess Demo.sheet (cursor Demo.started) BATCH_SIZE))
    ∧ cursor w' = cursor Demo.started
                  + rowsToProcess Demo.sheet (cursor Demo.started) BATCH_SIZE
    ∧ pendingCount w' = 1%nat.
Proof.
  refine (proj2 (proj2 (C8_remote_failures_never_abort
                          (Srv := storeServices Demo.refusing) Demo.cols))
            Demo.sheet BATCH_SIZE Demo.started _).
  split; [reflexivity|]. split; [reflexivity|].
  split; [split|]; apply Z.leb_le; reflexivity.
Defined.

Example refused_lists_are_skipped_and_logged :
  omap rowOf (trace (snd (continueProcessWith (Srv := storeServices Demo.refusing)
                            BATCH_SIZE Demo.started)))
  = [2; 3; 4; 5]
  ∧ occurs (EvLog (LogRowNoListId 2 "Work"))
      (trace (snd (continueProcessWith (Srv := storeServices Demo.refusing)
                     BATCH_SIZE Demo.started))) = true
  ∧ occurs (EvLog (LogRowNoListId 5 "Home"))
      (trace (snd (continueProcessWith (Srv := storeServices Demo.refusing)
                     BATCH_SIZE Demo.started))) = true.
Proof. repeat split; vm_compute; reflexivity. Qed.

(** C10 fails for a list whose name objects inherit. The sheet has one
    completed task for the list "constructor", which the account has:
    the run inserts the task, the call returns and the row is logged as
    created; yet the report gets no entry and no counter for it, and the
    summary says that nothing was imported.  For a name that objects do
    not inherit the same update makes the entry and counts. *)
Theorem C10_inherited_list_name_is_not_counted :
  st_tasks (remote NameSamples.final)
  = [("list-0", mkTask "Buy milk" (Some "completed") None None)]
  ∧ omap rowOf (trace NameSamples.final) = [2]
  ∧ occurs (EvLog (LogRowCreated 2 "Buy milk" "constructor")) (trace NameSamples.final)
    = true
  ∧ countTask "constructor" (mkTask "Buy milk" (Some "completed") None None) ∅ = ∅
  ∧ reportSheets NameSamples.final = [mkReportSheet "Tasks" [noTasksLine]]
  ∧ countTask "Work" (mkTask "Buy milk" (Some "completed") None None) ∅
    = {["Work" := mkStats 1 0 1]}.
Proof. repeat split; vm_compute; reflexivity. Qed.

Example report_of_the_small_sheet :
  reportSheets (Demo.final (fun _ => 2))
  = [mkReportSheet "Tasks"
       [[CText "Work"; CNumber 2; CNumber 1; CNumber 1];
        [CText "Home"; CNumber 1; CNumber 1; CNumber 0]]].
Proof. vm_compute. reflexivity. Qed.

(** * Further properties of the batch pipeline *)

Section Cancelling.
Context {R : Type} {Srv : Services R}.

(** X1. [deleteExistingTriggers] removes every trigger of the handler
    and nothing else: the triggers of other handlers stay, in their
    order; it touches no other part of the world, and calling it again
    changes nothing. *)
Theorem X1_deleteExistingTriggers_cancels_all (w : World R) :
  deleteExistingTriggers w
  = (Ok tt, with_triggers (List.filter (fun t => negb (isJob t)) (triggers w)) w)
  ∧ pendingCount (snd (deleteExistingTriggers w)) = 0%nat
  ∧ pending (snd (deleteExistingTriggers w)) = false
  ∧ deleteExistingTriggers (snd (deleteExistingTriggers w))
    = (Ok tt, snd (deleteExistingTriggers w)).
Proof.
  rewrite deleteExistingTriggers_spec. simpl. split; [done|].
  split. { unfold pendingCount, foreignTriggers. simpl. by rewrite filter_foreign_job. }
  split.
  { unfold pending, foreignTriggers. simpl. apply not_true_is_false. intros Hex.
    apply existsb_exists in Hex as (t & Hin & Ht).
    apply filter_In in Hin as (_ & Hneg). fold (isJob t) in Ht. by rewrite Ht in Hneg. }
  rewrite deleteExistingTriggers_spec. unfold foreignTriggers. simpl.
  by rewrite filter_foreign_idem.
Qed.

Lemma foreign_app_jobs (l ts : list Trigger) :
  Forall (fun t => isJob t = true) ts →
  List.filter (fun t => negb (isJob t)) (l ++ ts)
  = List.filter (fun t => negb (isJob t)) l.
Proof.
  intros Hts. rewrite List.filter_app.
  replace (List.filter _ ts) with (@nil Trigger); [by rewrite app_nil_r|].
  induction Hts as [|t ts Ht _ IH]; simpl; [done|]. by rewrite Ht.
Qed.

(** X2. Starting a run from the menu entry does not depend on what an
    earlier run left behind: whatever the stored properties and whatever
    triggers of the handler are still registered, the run behaves as
    from a clean state. *)
Theorem X2_fresh_run_ignores_stale_state b fuel sizes name (w : World R) stale ts :
  Forall (fun t => isJob t = true) ts →
  createTasksFromCurrentSheetWith b name
    (with_triggers (triggers w ++ ts) (with_properties stale w))
  = createTasksFromCurrentSheetWith b name w
  ∧ exportRun fuel sizes name (with_triggers (triggers w ++ ts) (with_properties stale w))
    = exportRun fuel sizes name w.
Proof.
  intros Hts.
  assert (startedWorld name (with_triggers (triggers w ++ ts) (with_properties stale w))
          = startedWorld name w) as Hstart.
  { unfold startedWorld, foreignTriggers. simpl. by rewrite foreign_app_jobs. }
  split.
  - by rewrite !createTasksFromCurrentSheet_spec, Hstart.
  - unfold exportRun. by rewrite !createTasksFromCurrentSheet_spec, Hstart.
Qed.

(** X3. An invocation that finds no usable source sheet (no stored
    name, an empty name, or a name that no sheet bears) gives up: it
    logs the error and deletes the triggers of the handler, calls the
    task service not at all and leaves the properties, the sheets and
    the summaries as they were. *)
Theorem X3_no_source_sheet_gives_up b (w : World R) :
  sourceSheet w = None →
  ∃ m,
    (m = LogNoSourceName ∨ ∃ name, m = LogSheetNotFound name)
    ∧ continueProcessWith b w
      = (Ok tt, with_triggers (foreignTriggers w) (logged [EvLog m] w)).
Proof.
  intros Hsheet. unfold continueProcessWith, sourceSheet in *.
  destruct (prop_SHEET_NAME (properties w)) as [name|] eqn:Hname.
  2:{ exists LogNoSourceName. split; [by left|].
      erewrite bind_ok; [|reflexivity]. rewrite Hname. simpl. apply abort_tail. }
  destruct (Str.nonEmpty name) eqn:Hne.
  2:{ exists LogNoSourceName. split; [by left|].
      erewrite bind_ok; [|reflexivity]. rewrite Hname. simpl. rewrite Hne.
      apply abort_tail. }
  exists (LogSheetNotFound name). split; [right; by exists name|].
  erewrite bind_ok; [|reflexivity]. rewrite Hname. simpl. rewrite Hne.
  erewrite bind_ok; [|reflexivity]. rewrite Hsheet. apply abort_tail.
Qed.

End Cancelling.

Lemma X2_witness :
  Forall (fun t => isJob t = true) [mkTrigger SCRIPT_TRIGGER_HANDLER 60000]
  ∧ exportRun (Srv := storeServices lenient) 10 (fun _ => 2) "Tasks"
      (with_triggers (triggers Demo.fresh ++ [mkTrigger SCRIPT_TRIGGER_HANDLER 60000])
         (with_properties (mkProps (Some 4) (Some "Gone") None (Some "Old") None)
                          Demo.fresh))
    = exportRun (Srv := storeServices lenient) 10 (fun _ => 2) "Tasks" Demo.fresh.
Proof.
  split; [repeat constructor|].
  refine (proj2 (X2_fresh_run_ignores_stale_state (Srv := storeServices lenient)
                   2 10 (fun _ => 2) "Tasks" Demo.fresh
                   (mkProps (Some 4) (Some "Gone") None (Some "Old") None)
                   [mkTrigger SCRIPT_TRIGGER_HANDLER 60000] _)).
  repeat constructor.
Defined.

Lemma X3_witness :
  sourceSheet Demo.fresh = None
  ∧ ∃ m,
      (m = LogNoSourceName ∨ ∃ name, m = LogSheetNotFound name)
      ∧ continueProcessWith (Srv := storeServices lenient) BATCH_SIZE Demo.fresh
        = (Ok tt, with_triggers (foreignTriggers Demo.fresh) (logged [EvLog m] Demo.fresh)).
Proof.
  split; [reflexivity|].
  apply (X3_no_source_sheet_gives_up (Srv := storeServices lenient) BATCH_SIZE Demo.fresh).
  reflexivity.
Defined.

Section GivingUpAndFinishing.
Context {R : Type} {Srv : Services R}.

Lemma refresh_events (cache : Cache) (w : World R) :
  ∃ cache0 w1 evs,
    refreshFromRemote cache w = (Ok cache0, w1)
    ∧ Touches w w1 evs
    ∧ (evs = [EvTasklistsList] ∨ evs = [EvTasklistsList; EvLog LogCacheRefreshFailed]).
Proof.
  rewrite refreshFromRemote_spec.
  destruct (remote_list (remote w)) as [[items|] r0];
    eexists _, _, _; (split; [reflexivity|]); (split; [apply Touches_step|]);
    [by left|by right].
Qed.

Lemma pending_of_foreign (w : World R) l :
  triggers w = List.filter (fun t => negb (isJob t)) l → pending w = false.
Proof.
  intros Htr. unfold pending. rewrite Htr. apply not_true_is_false. intros Hex.
  apply existsb_exists in Hex as (t & Hin & Ht).
  apply filter_In in Hin as (_ & Hneg). fold (isJob t) in Ht. by rewrite Ht in Hneg.
Qed.

(** X4. An invocation whose sheet lacks the [title] or the [list_title]
    header gives up after refreshing the cache: it lists the remote
    lists once, reads no data row, creates no list and no task, and
    leaves the checkpoint as it was; when the sheet has a header row it
    logs the missing headers and deletes the triggers of the handler,
    and when the sheet has no column at all it ends in an exception. *)
Theorem X4_missing_headers_give_up b sheet (w : World R) :
  sourceSheet w = Some sheet →
  cursor w ≤ getLastRow sheet →
  columnsOf sheet = None →
  ∃ res w' evs,
    continueProcessWith b w = (res, w')
    ∧ trace w' = trace w ++ evs
    ∧ properties w' = properties w
    ∧ reportSheets w' = reportSheets w
    ∧ readsOf evs = []
    ∧ countIf isListing evs = 1%nat
    ∧ countIf isListInsert evs = 0%nat
    ∧ countIf isTaskInsert evs = 0%nat
    ∧ (if getLastColumn sheet <? 1
       then res = Exn ∧ triggers w' = triggers w
       else res = Ok tt ∧ triggers w' = foreignTriggers w
            ∧ last evs = Some (EvLog (LogMissingHeaders (sheetName sheet)))).
Proof.
  intros Hsheet Hmore Hcols.
  destruct (sourceSheet_Some _ _ Hsheet) as (name & Hname & Hne & Hfind).
  destruct (refresh_events (loadedCache w)
              (logged [EvLog (LogStarting (sheetName sheet) (cursor w))] w))
    as (cache0 & w1 & evs0 & Hrefresh & Ht0 & Hevs0).
  apply Touches_frame in Ht0. simpl in Ht0.
  destruct Ht0 as (Hp1 & Htr1 & Hsh1 & Hrs1 & Htrace1).
  assert (continueProcessWith b w =
    bind (getHeaders sheet) (fun headers =>
      match indexOf headers "title", indexOf headers "list_title" with
      | Some titleIndex, Some listTitleIndex =>
          let cols :=
            mkColumns titleIndex (indexOf headers "id") listTitleIndex
                      (indexOf headers "status") (indexOf headers "due")
                      (indexOf headers "links") in
          bind (getValues sheet (cursor w) (rowsToProcess sheet (cursor w) b))
            (fun data =>
               bind (forEachRow cols (cursor w) data
                       (mkLocals cache0 (loadedReport w) (loadedListTitle w)))
                    (fun st =>
                       persistBatch (cursor w + rowsToProcess sheet (cursor w) b) st))
      | _, _ =>
          bind (Logger_log (LogMissingHeaders (sheetName sheet)))
               (fun _ => deleteExistingTriggers)
      end) w1) as Hprefix.
  { unfold continueProcessWith.
    erewrite bind_ok; [|reflexivity]. rewrite Hname.
    rewrite (ifTruthy_yes _ _ _ name); [|done..].
    erewrite bind_ok; [|reflexivity]. rewrite Hfind.
    erewrite bind_ok; [|reflexivity].
    erewrite bind_ok; [|reflexivity].
    fold (cursor w).
    destruct (Z.gtb_spec (cursor w) (getLastRow sheet)); [lia|].
    erewrite bind_ok; [|reflexivity].
    erewrite bind_ok; [|reflexivity].
    erewrite bind_ok; [|reflexivity].
    erewrite bind_ok; [|exact Hrefresh].
    reflexivity. }
  rewrite Hprefix. unfold getHeaders.
  destruct (getLastColumn sheet <? 1) eqn:Hwidth.
  { exists Exn, w1, ([EvLog (LogStarting (sheetName sheet) (cursor w))] ++ evs0).
    split; [done|]. split; [by rewrite Htrace1, <- app_assoc|].
    split; [done|]. split; [done|].
    destruct Hevs0 as [-> | ->]; repeat (split; [done|]); done. }
  erewrite bind_ok; [|reflexivity].
  assert (match indexOf (match values sheet with h :: _ => h | [] => [] end) "title",
                indexOf (match values sheet with h :: _ => h | [] => [] end) "list_title"
          with Some _, Some _ => False | _, _ => True end) as Hmiss.
  { unfold columnsOf in Hcols. destruct (values sheet) as [|h rest]; [done|].
    destruct (indexOf h "title"); [|done]. by destruct (indexOf h "list_title"). }
  destruct (indexOf _ "title") as [t|]; [destruct (indexOf _ "list_title") as [l|]|];
    try done;
    rewrite abort_tail;
    (eexists (Ok tt), _,
       ([EvLog (LogStarting (sheetName sheet) (cursor w))] ++ evs0
        ++ [EvGetHeaders; EvLog (LogMissingHeaders (sheetName sheet))]));
    (split; [reflexivity|]); simpl;
    (split; [rewrite Htrace1; by rewrite <- !app_assoc|]);
    (split; [done|]); (split; [done|]);
    (destruct Hevs0 as [-> | ->]; simpl; repeat (split; [done|]);
     (split; [|done]);
     unfold foreignTriggers; simpl; by rewrite Htr1).
Qed.

(** The parts of an invocation that works through a batch. *)
Lemma continueProcess_batch_anatomy sheet cols b (w : World R) :
  BatchReady sheet cols b w →
  ∃ cache0 wa st' wb evs0 evsL,
    refreshFromRemote (loadedCache w)
      (logged [EvLog (LogStarting (sheetName sheet) (cursor w))] w) = (Ok cache0, wa)
    ∧ (evs0 = [EvTasklistsList] ∨ evs0 = [EvTasklistsList; EvLog LogCacheRefreshFailed])
    ∧ forEachRow cols (cursor w) (batchData sheet (cursor w) b)
        (mkLocals cache0 (loadedReport w) (loadedListTitle w))
        (logged [EvGetHeaders;
                 EvGetValues (cursor w) (rowsToProcess sheet (cursor w) b)] wa)
      = (Ok st', wb)
    ∧ Touches (logged [EvGetHeaders;
                       EvGetValues (cursor w) (rowsToProcess sheet (cursor w) b)] wa)
              wb evsL
    ∧ continueProcessWith b w
      = (Ok tt,
         logged [EvLog (LogBatchDone (cursor w + rowsToProcess sheet (cursor w) b))]
           (with_triggers
              (foreignTriggers w ++ [mkTrigger SCRIPT_TRIGGER_HANDLER 60000])
              (with_properties
                 (checkpointAfter (cursor w + rowsToProcess sheet (cursor w) b) st'
                                  (properties w))
                 wb)))
    ∧ trace wb
      = trace w ++ [EvLog (LogStarting (sheetName sheet) (cursor w))] ++ evs0
        ++ [EvGetHeaders; EvGetValues (cursor w) (rowsToProcess sheet (cursor w) b)]
        ++ evsL
    ∧ sheets wb = sheets w ∧ reportSheets wb = reportSheets w.
Proof.
  intros Hready.
  destruct (continueProcess_batch _ _ _ _ Hready)
    as (cache0 & wa & st' & wb & Hrefresh & Hloop & Hrun).
  destruct (refresh_events (loadedCache w)
              (logged [EvLog (LogStarting (sheetName sheet) (cursor w))] w))
    as (cache0' & wa' & evs0 & Hrefresh' & Ht0 & Hevs0).
  rewrite Hrefresh in Hrefresh'. injection Hrefresh' as <- <-.
  destruct (forEachRow_touches cols (batchData sheet (cursor w) b) (cursor w)
              (mkLocals cache0 (loadedReport w) (loadedListTitle w))
              (logged [EvGetHeaders;
                       EvGetValues (cursor w) (rowsToProcess sheet (cursor w) b)] wa))
    as (st'' & wb' & evsL & Hloop' & Ht & _).
  rewrite Hloop in Hloop'. injection Hloop' as <- <-.
  exists cache0, wa, st', wb, evs0, evsL.
  split; [done|]. split; [done|]. split; [done|]. split; [done|]. split; [done|].
  apply Touches_frame in Ht0. simpl in Ht0.
  destruct Ht0 as (_ & _ & Hsh1 & Hrs1 & Htrace1).
  apply Touches_frame in Ht. simpl in Ht.
  destruct Ht as (_ & _ & Hsh2 & Hrs2 & Htrace2).
  split; [rewrite Htrace2, Htrace1; by rewrite <- !app_assoc|].
  split; congruence.
Qed.

(** X5. A run from the menu entry over a sheet with its headers and
    some data rows, in batches of any positive sizes and whatever the
    task service answers, reaches the terminal state: the five
    properties are deleted, no trigger of the handler is left while the
    triggers of other handlers are kept, the sheets are as they were,
    and exactly one summary, built from a report whose entries add up,
    has been added. *)
Theorem X5_run_ends_in_terminal_state sheet cols sizes fuel name (w : World R) :
  (∀ j, 1 ≤ sizes j) →
  BatchReady sheet cols (sizes 0%nat) (startedWorld name w) →
  (length (dataRows sheet) ≤ fuel)%nat →
  properties (exportRun fuel sizes name w) = noProps
  ∧ pending (exportRun fuel sizes name w) = false
  ∧ triggers (exportRun fuel sizes name w) = foreignTriggers w
  ∧ sheets (exportRun fuel sizes name w) = sheets w
  ∧ ∃ report,
      Balanced report
      ∧ reportSheets (exportRun fuel sizes name w)
        = reportSheets w ++ [mkReportSheet name (tableContent report)].
Proof.
  intros Hsizes Hready Hfuel.
  set (P := fun (k : nat) (w' : World R) =>
    reportSheets w' = reportSheets w
    ∧ prop_SHEET_NAME (properties w') = Some name
    ∧ sheets w' = sheets w
    ∧ foreignTriggers w' = foreignTriggers w
    ∧ Balanced (loadedReport w')).
  destruct (exportRun_batches sheet cols P sizes fuel name w Hsizes)
    as (wN & j & Hat & HP & Hend); [|done| |done|].
  - intros k b w1 w2 Hk Hb Hat1 (Hrs & Hnm & Hsh & Hft & Hbal) Hrun.
    pose proof (RunAt_ready sheet cols k b w1 Hat1 Hk Hb) as Hready1.
    destruct (continueProcess_batch_anatomy _ _ _ _ Hready1)
      as (cache0 & wa & st' & wb & evs0 & evsL & _ & _ & _ & _ & Hrun' & _ & Hshb & Hrsb).
    pose proof (continueProcess_balanced b w1 Hb Hbal) as Hbal'.
    rewrite Hrun in Hrun', Hbal'. injection Hrun' as ->.
    split; [simpl; congruence|]. split; [done|]. split; [simpl; congruence|].
    split; [|done].
    unfold foreignTriggers in *. simpl.
    rewrite List.filter_app, filter_foreign_idem. simpl. by rewrite app_nil_r.
  - split; [done|]. split; [done|]. split; [done|].
    split; [|apply Balanced_empty].
    unfold foreignTriggers. simpl. apply filter_foreign_idem.
  - destruct HP as (Hrs & Hnm & Hsh & Hft & Hbal).
    destruct (RunAt_finish _ _ (sizes j) _ Hat) as (nm & Hnm' & Hfin).
    rewrite Hfin in Hend. injection Hend as <-.
    rewrite Hnm in Hnm'. injection Hnm' as <-. simpl.
    split; [done|]. split; [by eapply pending_of_foreign|].
    split; [done|]. split; [done|].
    exists (loadedReport wN). split; [done|]. by rewrite Hrs.
Qed.

End GivingUpAndFinishing.

Lemma X4_witness :
  sourceSheet Samples.plainStarted = Some Samples.plain
  ∧ cursor Samples.plainStarted ≤ getLastRow Samples.plain
  ∧ columnsOf Samples.plain = None
  ∧ ∃ res w' evs,
      continueProcessWith (Srv := storeServices lenient) BATCH_SIZE Samples.plainStarted
        = (res, w')
      ∧ trace w' = trace Samples.plainStarted ++ evs
      ∧ properties w' = properties Samples.plainStarted
      ∧ reportSheets w' = reportSheets Samples.plainStarted
      ∧ readsOf evs = []
      ∧ countIf isListing evs = 1%nat
      ∧ countIf isListInsert evs = 0%nat
      ∧ countIf isTaskInsert evs = 0%nat
      ∧ (if getLastColumn Samples.plain <? 1
         then res = Exn ∧ triggers w' = triggers Samples.plainStarted
         else res = Ok tt ∧ triggers w' = foreignTriggers Samples.plainStarted
              ∧ last evs = Some (EvLog (LogMissingHeaders (sheetName Samples.plain)))).
Proof.
  split; [reflexivity|]. split; [apply Z.leb_le; reflexivity|]. split; [reflexivity|].
  apply (X4_missing_headers_give_up (Srv := storeServices lenient)
           BATCH_SIZE Samples.plain Samples.plainStarted).
  - reflexivity.
  - apply Z.leb_le; reflexivity.
  - reflexivity.
Defined.

Lemma X5_witness :
  properties (exportRun (Srv := storeServices lenient) 10 Samples.pairs "Tasks" Demo.fresh)
    = noProps
  ∧ pending (exportRun (Srv := storeServices lenient) 10 Samples.pairs "Tasks" Demo.fresh)
    = false
  ∧ triggers (exportRun (Srv := storeServices lenient) 10 Samples.pairs "Tasks" Demo.fresh)
    = foreignTriggers Demo.fresh
  ∧ sheets (exportRun (Srv := storeServices lenient) 10 Samples.pairs "Tasks" Demo.fresh)
    = sheets Demo.fresh
  ∧ ∃ report, Balanced report
      ∧ reportSheets
          (exportRun (Srv := storeServices lenient) 10 Samples.pairs "Tasks" Demo.fresh)
        = reportSheets Demo.fresh ++ [mkReportSheet "Tasks" (tableContent report)].
Proof.
  apply (X5_run_ends_in_terminal_state (Srv := storeServices lenient)
           Demo.sheet Demo.cols Samples.pairs 10 "Tasks" Demo.fresh).
  - intros j. unfold Samples.pairs. lia.
  - split; [reflexivity|]. split; [reflexivity|].
    split; [split|]; apply Z.leb_le; reflexivity.
  - simpl. lia.
Defined.


Section Counting.
Context {R : Type} {Srv : Services R}.

Lemma countIf_app f evs1 evs2 :
  countIf f (evs1 ++ evs2) = (countIf f evs1 + countIf f evs2)%nat.
Proof. unfold countIf. by rewrite List.filter_app, length_app. Qed.

Lemma CallBudget_app a b evs1 evs2 :
  CallBudget a evs1 → CallBudget b evs2 → CallBudget (a + b) (evs1 ++ evs2).
Proof.
  unfold CallBudget. rewrite !countIf_app. lia.
Qed.

Lemma reportTotal_countTask name task (report : Report) :
  keepsCount report name = true →
  reportTotal (countTask name task report) = reportTotal report + 1.
Proof.
  unfold reportTotal, keepsCount, countTask.
  set (f := fun (_ : string) (stats : Stats) (acc : Z) => total stats + acc).
  assert (∀ (m : Report) j1 j2 z1 z2 y,
    j1 ≠ j2 → m !! j1 = Some z1 → m !! j2 = Some z2 →
    f j1 z1 (f j2 z2 y) = f j2 z2 (f j1 z1 y)) as Hcomm
    by (intros; unfold f; lia).
  destruct (report !! name) as [s|] eqn:Hs; simpl.
  - intros _. rewrite <- insert_delete_eq.
    rewrite map_fold_insert_L; [|by apply Hcomm|by apply lookup_delete_eq].
    rewrite (map_fold_delete_L f 0 name s report); [|by apply Hcomm|done].
    unfold f. rewrite countOn_fields.
    destruct (bool_decide (status task = Some "completed")); simpl; lia.
  - intros ->%negb_true_iff. rewrite map_fold_insert_L; [|by apply Hcomm|done].
    unfold f. rewrite countOn_fields.
    destruct (bool_decide (status task = Some "completed")); simpl; lia.
Qed.

Lemma OwnNames_keepsCount (report : Report) name :
  OwnNames report → keepsCount report name = negb (inherited name).
Proof.
  intros Hown. unfold keepsCount.
  destruct (report !! name) as [s|] eqn:Hs; [|done].
  destruct (inherited name) eqn:Hin; [|done].
  rewrite (Hown _ Hin) in Hs. done.
Qed.

Lemma countTask_own name task (report : Report) :
  OwnNames report → OwnNames (countTask name task report).
Proof.
  intros Hown other Hin.
  destruct (decide (other = name)) as [->|Hne].
  - rewrite countTask_inherited; auto.
  - rewrite countTask_other; auto.
Qed.

Lemma countTask_total name task (report : Report) :
  OwnNames report →
  reportTotal (countTask name task report)
  = reportTotal report + (if inherited name then 0 else 1).
Proof.
  intros Hown. destruct (inherited name) eqn:Hin.
  - rewrite countTask_inherited; auto. lia.
  - apply reportTotal_countTask. by rewrite OwnNames_keepsCount, Hin.
Qed.

Lemma resolve_counts name (cache : Cache) (w : World R) lid cache' w' :
  ResolveStep name cache w lid cache' w' →
  ∃ evs, Touches w w' evs
    ∧ countIf isCreatedLog evs = 0%nat ∧ countIf isTaskInsert evs = 0%nat
    ∧ countIf isApiDelay evs = 0%nat
    ∧ (countIf isListInsert evs ≤ 1)%nat
    ∧ (countIf isListing evs ≤ countIf isListInsert evs)%nat.
Proof.
  destruct 1; eexists;
    (split; [first [apply Touches_refl | apply Touches_step]|]);
    vm_compute; repeat split; lia.
Qed.

Lemma counted_le_created evs :
  (countIf isCountedLog evs ≤ countIf isCreatedLog evs)%nat.
Proof.
  unfold countIf. induction evs as [|e evs IH]; [done|].
  cbn [List.filter].
  destruct e as [[]| | | | | |]; cbn [isCountedLog isCreatedLog]; try exact IH.
  destruct (negb (inherited listName)); simpl; lia.
Qed.

Lemma counted_created_log n ttl name pre post :
  isCountedLog pre = false → Forall (fun e => isCountedLog e = false) post →
  countIf isCountedLog (pre :: EvLog (LogRowCreated n ttl name) :: post)
  = if inherited name then 0%nat else 1%nat.
Proof.
  intros Hpre Hpost. unfold countIf. cbn [List.filter isCountedLog]. rewrite Hpre.
  assert (List.filter isCountedLog post = []) as ->.
  { induction Hpost as [|e post He _ IH]; [done|]. cbn [List.filter]. by rewrite He. }
  by destruct (inherited name).
Qed.

Lemma row_counts cols n row st (w : World R) st' w' :
  RowStep cols n row st w st' w' →
  ∃ evs, Touches w w' evs
    ∧ CallBudget 1 evs
    ∧ (OwnNames (reportData st) →
       OwnNames (reportData st')
       ∧ reportTotal (reportData st')
         = reportTotal (reportData st) + Z.of_nat (countIf isCountedLog evs)).
Proof.
  destruct 1;
    try match goal with H : ResolveStep _ _ _ _ _ _ |- _ =>
      destruct (resolve_counts _ _ _ _ _ _ H)
        as (evs & Ht & Hc1 & Hc2 & Hc3 & Hc4 & Hc5);
      pose proof (counted_le_created evs) as Hc0
    end.
  1-3: eexists; (split; [apply Touches_logged|]);
       (split; [vm_compute; repeat split; lia|]);
       intros Hown; cbn [reportData]; (split; [done|]);
       change (countIf isCountedLog [_]) with 0%nat; lia.
  - eexists. split; [eapply Touches_trans; [exact Ht|apply Touches_logged]|].
    unfold CallBudget. rewrite !countIf_app, Hc1, Hc2, Hc3.
    split.
    + change (countIf isTaskInsert [_]) with 0%nat.
      change (countIf isListInsert [_]) with 0%nat.
      change (countIf isListing [_]) with 0%nat.
      change (countIf isCreatedLog [_]) with 0%nat.
      change (countIf isApiDelay [_]) with 0%nat. lia.
    + intros Hown. cbn [reportData]. split; [done|].
      change (countIf isCountedLog [_]) with 0%nat. lia.
  - eexists. split; [eapply Touches_trans; [exact Ht|apply Touches_step]|].
    unfold CallBudget. rewrite !countIf_app, Hc1, Hc2, Hc3.
    split.
    + change (countIf isTaskInsert _) with 1%nat.
      change (countIf isListInsert [_; _; _]) with 0%nat.
      change (countIf isListing [_; _; _]) with 0%nat.
      change (countIf isCreatedLog [_; _; _]) with 1%nat.
      change (countIf isApiDelay [_; _; _]) with 1%nat. lia.
    + intros Hown. cbn [reportData]. split; [by apply countTask_own|].
      rewrite countTask_total; [|done].
      rewrite counted_created_log; [|done|by repeat constructor].
      destruct (inherited name); lia.
  - eexists. split; [eapply Touches_trans; [exact Ht|apply Touches_step]|].
    unfold CallBudget. rewrite !countIf_app, Hc1, Hc2, Hc3.
    split.
    + change (countIf isTaskInsert _) with 1%nat.
      change (countIf isListInsert [_; _]) with 0%nat.
      change (countIf isListing [_; _]) with 0%nat.
      change (countIf isCreatedLog [_; _]) with 0%nat.
      change (countIf isApiDelay [_; _]) with 0%nat. lia.
    + intros Hown. cbn [reportData]. split; [done|].
      change (countIf isCountedLog [_; _]) with 0%nat. lia.
Qed.

(** What an iteration does to the report: when it logs no task as
    created, nothing; when it logs one, which it does after the call
    that inserts the task has returned, the report update for the list
    name of the row, which counts the task (one more [total], and one
    more [completed] for a task with the status "completed", one more
    [needsAction] otherwise) when the report has an entry for the name
    or the name is not one that objects inherit. *)
Lemma row_report_exact cols n row st (w : World R) st' w' :
  RowStep cols n row st w st' w' →
  ∃ evs, Touches w w' evs
    ∧ (countIf isCreatedLog evs = 0%nat ∧ reportData st' = reportData st
       ∨ ∃ name ttl lid w1,
           nextListTitle cols row (lastKnownListTitle st) = Some name
           ∧ remote_insertTask (newTask cols ttl row) lid (remote w1)
             = (Returned tt, remote w')
           ∧ countIf isCreatedLog evs = 1%nat
           ∧ EvLog (LogRowCreated n ttl name) ∈ evs
           ∧ reportData st' = countTask name (newTask cols ttl row) (reportData st)
           ∧ (keepsCount (reportData st) name = true →
              reportData st' !! name
              = Some (countOn (newTask cols ttl row)
                        (default (mkStats 0 0 0) (reportData st !! name))))
           ∧ (keepsCount (reportData st) name = false →
              reportData st' = reportData st)).
Proof.
  destruct 1;
    try match goal with H : ResolveStep _ _ _ _ _ _ |- _ =>
      destruct (resolve_counts _ _ _ _ _ _ H)
        as (evs & Ht & Hc1 & Hc2 & Hc3 & Hc4 & Hc5) end.
  1-3: eexists; (split; [apply Touches_logged|]); left; done.
  - eexists. split; [eapply Touches_trans; [exact Ht|apply Touches_logged]|].
    left. rewrite countIf_app, Hc1. done.
  - eexists. split; [eapply Touches_trans; [exact Ht|apply Touches_step]|].
    right. exists name, ttl, lid, w1. split; [done|]. split; [done|].
    split; [rewrite countIf_app, Hc1; done|].
    split. { apply elem_of_app. right. apply list_elem_of_In. simpl. auto. }
    split; [done|]. cbn [reportData]. split.
    + intros Hkeep. by apply countTask_lookup.
    + unfold keepsCount. destruct (reportData st !! name) as [s|] eqn:Hs; [done|].
      intros Hin%negb_false_iff. by apply countTask_inherited.
  - eexists. split; [eapply Touches_trans; [exact Ht|apply Touches_step]|].
    left. rewrite countIf_app, Hc1. done.
Qed.

Lemma forEachRow_counts cols data : ∀ n st (w : World R),
  ∃ st' w' evs,
    forEachRow cols n data st w = (Ok st', w')
    ∧ Touches w w' evs
    ∧ CallBudget (length data) evs
    ∧ (OwnNames (reportData st) →
       OwnNames (reportData st')
       ∧ reportTotal (reportData st')
         = reportTotal (reportData st) + Z.of_nat (countIf isCountedLog evs)).
Proof.
  induction data as [|row data IH]; intros n st w; simpl.
  - exists st, w, []. split; [done|]. split; [apply Touches_refl|].
    split; [vm_compute; repeat split; lia|]. intros Hown. split; [done|].
    change (countIf isCountedLog []) with 0%nat. lia.
  - destruct (processRow_step cols n row st w) as (st1 & w1 & Hrow & Hstep).
    destruct (row_counts _ _ _ _ _ _ _ Hstep) as (evs1 & Ht1 & Hb1 & Htot1).
    destruct (IH (n + 1) st1 w1) as (st' & w' & evs & Hloop & Ht & Hb & Htot).
    exists st', w', (evs1 ++ evs). split; [by erewrite bind_ok|].
    split; [by eapply Touches_trans|].
    split; [by apply (CallBudget_app 1 (length data))|].
    intros Hown. destruct (Htot1 Hown) as [Hown1 Heq1].
    destruct (Htot Hown1) as [Hown' Heq]. split; [done|].
    rewrite countIf_app. lia.
Qed.

(** X6. Whatever the task service answers, the row loop over [data]
    calls it sparingly: at most one task insertion and at most one list
    creation for each row, a listing only in the wake of a list creation,
    and it pauses for [API_DELAY_MS] exactly once for each task it logs
    as created, which it does only after a task insertion. *)
Theorem X6_row_loop_call_budget cols n data st (w : World R) :
  ∃ st' w' evs,
    forEachRow cols n data st w = (Ok st', w')
    ∧ trace w' = trace w ++ evs
    ∧ (countIf isTaskInsert evs ≤ length data)%nat
    ∧ (countIf isListInsert evs ≤ length data)%nat
    ∧ (countIf isListing evs ≤ countIf isListInsert evs)%nat
    ∧ (countIf isCreatedLog evs ≤ countIf isTaskInsert evs)%nat
    ∧ countIf isApiDelay evs = countIf isCreatedLog evs.
Proof.
  destruct (forEachRow_counts cols data n st w) as (st' & w' & evs & Hrun & Ht & Hb & _).
  exists st', w', evs. split; [done|].
  split; [by apply Touches_frame in Ht as (_ & _ & _ & _ & ->)|]. exact Hb.
Qed.

Lemma countTask_populated name task (report : Report) :
  Populated report → Populated (countTask name task report).
Proof.
  intros Hpop. destruct (countTask_cases name task report) as [->|Heq]; [done|].
  rewrite Heq. apply map_Forall_insert_2; [|done]. rewrite countOn_fields.
  destruct (report !! name) as [s|] eqn:Hs; simpl.
  - specialize (Hpop name s Hs). simpl in Hpop.
    destruct (bool_decide (status task = Some "completed")); simpl; lia.
  - destruct (bool_decide (status task = Some "completed")); simpl; lia.
Qed.

Lemma forEachRow_populated cols data : ∀ n st (w : World R) st' w',
  forEachRow cols n data st w = (Ok st', w') →
  Populated (reportData st) → Populated (reportData st').
Proof.
  induction data as [|row data IH]; intros n st w st' w'; simpl.
  - by intros [= <- <-].
  - destruct (processRow_step cols n row st w) as (st1 & w1 & Hrow & Hstep).
    erewrite bind_ok; [|exact Hrow]. intros Hloop Hpop.
    eapply IH; [exact Hloop|].
    destruct (row_report _ _ _ _ _ _ _ Hstep) as [->|(nm & ttl & lid & w2 & _ & _ & ->)];
      [done|by apply countTask_populated].
Qed.

Lemma exportRun_totals sheet cols sizes fuel name (w : World R) :
  (∀ j, 1 ≤ sizes j) →
  BatchReady sheet cols (sizes 0%nat) (startedWorld name w) →
  (length (dataRows sheet) ≤ fuel)%nat →
  ∃ report evs,
    Populated report
    ∧ trace (exportRun fuel sizes name w) = trace w ++ evs
    ∧ reportSheets (exportRun fuel sizes name w)
      = reportSheets w ++ [mkReportSheet name (tableContent report)]
    ∧ reportTotal report = Z.of_nat (countIf isCountedLog evs)
    ∧ (countIf isCreatedLog evs ≤ countIf isTaskInsert evs)%nat
    ∧ (countIf isTaskInsert evs ≤ length (dataRows sheet))%nat.
Proof.
  intros Hsizes Hready Hfuel.
  set (P := fun (k : nat) (w' : World R) =>
    Populated (loadedReport w') ∧ OwnNames (loadedReport w')
    ∧ reportSheets w' = reportSheets w
    ∧ prop_SHEET_NAME (properties w') = Some name
    ∧ ∃ evs, trace w' = trace w ++ evs
        ∧ reportTotal (loadedReport w') = Z.of_nat (countIf isCountedLog evs)
        ∧ (countIf isCreatedLog evs ≤ countIf isTaskInsert evs)%nat
        ∧ (countIf isTaskInsert evs ≤ k)%nat).
  destruct (exportRun_batches sheet cols P sizes fuel name w Hsizes)
    as (wN & j & Hat & HP & Hend); [|done| |done|].
  - intros k b w1 w2 Hk Hb Hat1
      (Hpop & Hown & Hrs & Hnm & evs1 & Htr1 & Htot1 & Hle1 & Hk1) Hrun.
    pose proof (RunAt_ready sheet cols k b w1 Hat1 Hk Hb) as Hready1.
    destruct (batchData_rows sheet cols k b w1 Hat1 Hk Hb) as (Hrows & Hm & Hle & Hdata).
    destruct (continueProcess_batch_anatomy _ _ _ _ Hready1)
      as (cache0 & wa & st' & wb & evs0 & evsL
          & _ & Hevs0 & Hloop & HtL & Hrun' & Htrb & Hshb & Hrsb).
    rewrite Hrun in Hrun'. injection Hrun' as ->.
    destruct (forEachRow_counts cols (batchData sheet (cursor w1) b) (cursor w1)
                (mkLocals cache0 (loadedReport w1) (loadedListTitle w1))
                (logged [EvGetHeaders;
                         EvGetValues (cursor w1) (rowsToProcess sheet (cursor w1) b)] wa))
      as (st'' & wb' & evs & Hloop' & Ht & (Hb1 & _ & _ & Hb4 & _) & Htot).
    rewrite Hloop in Hloop'. injection Hloop' as <- <-.
    destruct (Htot Hown) as [Hown' Htot']. clear Htot. rename Htot' into Htot.
    assert (evs = evsL) as ->.
    { apply Touches_frame in Ht as (_ & _ & _ & _ & Ha).
      apply Touches_frame in HtL as (_ & _ & _ & _ & Hb').
      rewrite Ha in Hb'. by apply app_inv_head in Hb'. }
    rewrite Hdata, length_take_le in Hb1; [|rewrite length_drop; lia].
    split; [exact (forEachRow_populated _ _ _ _ _ _ _ Hloop Hpop)|].
    split; [exact Hown'|].
    split; [simpl; congruence|]. split; [done|].
    exists (evs1 ++ [EvLog (LogStarting (sheetName sheet) (cursor w1))] ++ evs0
            ++ [EvGetHeaders;
                EvGetValues (cursor w1) (rowsToProcess sheet (cursor w1) b)]
            ++ evsL
            ++ [EvLog (LogBatchDone (cursor w1 + rowsToProcess sheet (cursor w1) b))]).
    split; [simpl; rewrite Htrb, Htr1; by rewrite <- !app_assoc|].
    match goal with |- reportTotal (loadedReport ?x) = _ ∧ _ =>
      change (loadedReport x) with (reportData st') end.
    cbn [reportData] in Htot. rewrite Htot, Htot1.
    rewrite !countIf_app.
    assert (countIf isCreatedLog evs0 = 0%nat ∧ countIf isTaskInsert evs0 = 0%nat
            ∧ countIf isCountedLog evs0 = 0%nat)
      as (-> & -> & ->) by (destruct Hevs0 as [-> | ->]; done).
    change (countIf isCreatedLog [EvLog _]) with 0%nat.
    change (countIf isTaskInsert [EvLog _]) with 0%nat.
    change (countIf isCountedLog [EvLog _]) with 0%nat.
    change (countIf isCreatedLog [EvGetHeaders; _]) with 0%nat.
    change (countIf isTaskInsert [EvGetHeaders; _]) with 0%nat.
    change (countIf isCountedLog [EvGetHeaders; _]) with 0%nat.
    lia.
  - split; [apply map_Forall_empty|]. split; [by intros nm _|].
    split; [done|]. split; [done|]. exists []. rewrite app_nil_r.
    split; [done|]. split; [done|]. split; done.
  - destruct HP as (Hpop & _ & Hrs & Hnm & evs & Htr & Htot & Hle & Hk).
    destruct (RunAt_finish _ _ (sizes j) _ Hat) as (nm & Hnm' & Hfin).
    rewrite Hfin in Hend. injection Hend as <-.
    rewrite Hnm in Hnm'. injection Hnm' as <-.
    exists (loadedReport wN), (evs ++ [EvLog LogAllDone]). simpl.
    split; [done|]. split; [by rewrite Htr, <- app_assoc|]. split; [by rewrite Hrs|].
    rewrite !countIf_app.
    change (countIf isCreatedLog [EvLog LogAllDone]) with 0%nat.
    change (countIf isTaskInsert [EvLog LogAllDone]) with 0%nat.
    change (countIf isCountedLog [EvLog LogAllDone]) with 0%nat.
    rewrite !Nat.add_0_r. done.
Qed.


(** X7. In a run from the menu entry over a sheet with its headers and
    some data rows, in batches of any positive sizes and whatever the
    task service answers, the [total] counters of the summary add up to
    the number of tasks that the run logged as created in lists whose
    name is not one of those that objects inherit; tasks created in a
    list of such a name are logged and not counted.  The run logged a
    task as created only after inserting it, and inserted at most one
    task for each data row. *)
Theorem X7_summary_totals_count_created_tasks sheet cols sizes fuel name (w : World R) :
  (∀ j, 1 ≤ sizes j) →
  BatchReady sheet cols (sizes 0%nat) (startedWorld name w) →
  (length (dataRows sheet) ≤ fuel)%nat →
  ∃ report evs,
    trace (exportRun fuel sizes name w) = trace w ++ evs
    ∧ reportSheets (exportRun fuel sizes name w)
      = reportSheets w ++ [mkReportSheet name (tableContent report)]
    ∧ reportTotal report = Z.of_nat (countIf isCountedLog evs)
    ∧ (countIf isCountedLog evs ≤ countIf isCreatedLog evs)%nat
    ∧ (countIf isCreatedLog evs ≤ countIf isTaskInsert evs)%nat
    ∧ (countIf isTaskInsert evs ≤ length (dataRows sheet))%nat.
Proof.
  intros Hsizes Hready Hfuel.
  destruct (exportRun_totals sheet cols sizes fuel name w Hsizes Hready Hfuel)
    as (report & evs & _ & Htr & Hrs & Htot & Hrest).
  exists report, evs. split; [done|]. split; [done|]. split; [done|].
  split; [apply counted_le_created|done].
Qed.

End Counting.

Lemma X7_witness :
  ∃ report evs,
    trace (exportRun (Srv := storeServices lenient) 10 Samples.pairs "Tasks" Demo.fresh)
      = trace Demo.fresh ++ evs
    ∧ reportSheets
        (exportRun (Srv := storeServices lenient) 10 Samples.pairs "Tasks" Demo.fresh)
      = reportSheets Demo.fresh ++ [mkReportSheet "Tasks" (tableContent report)]
    ∧ reportTotal report = Z.of_nat (countIf isCountedLog evs)
    ∧ (countIf isCountedLog evs ≤ countIf isCreatedLog evs)%nat
    ∧ (countIf isCreatedLog evs ≤ countIf isTaskInsert evs)%nat
    ∧ (countIf isTaskInsert evs ≤ length (dataRows Demo.sheet))%nat.
Proof.
  apply (X7_summary_totals_count_created_tasks (Srv := storeServices lenient)
           Demo.sheet Demo.cols Samples.pairs 10 "Tasks" Demo.fresh).
  - intros j. unfold Samples.pairs. lia.
  - split; [reflexivity|]. split; [reflexivity|].
    split; [split|]; apply Z.leb_le; reflexivity.
  - simpl. lia.
Defined.

(** The run over the list called "constructor": one task logged as
    created, none counted. *)
Example created_and_not_counted :
  countIf isCreatedLog (trace NameSamples.final) = 1%nat
  ∧ countIf isCountedLog (trace NameSamples.final) = 0%nat.
Proof. split; vm_compute; reflexivity. Qed.


(** * Further properties of the cache, the resolver and the summary *)

Section CacheAndSummary.
Context {R : Type} {Srv : Services R}.

Lemma filter_title_snoc name (items : list TaskList) x :
  List.filter (fun l => String.eqb (tl_title l) name) (items ++ [x])
  = List.filter (fun l => String.eqb (tl_title l) name) items
    ++ (if String.eqb (tl_title x) name then [x] else []).
Proof. by rewrite List.filter_app. Qed.

(** X8. For every title other than "__proto__" (the assignment
    [taskListCache["__proto__"] = id] makes no entry): where the remote
    listing has several lists of the title, the cache refresh at the
    start of a batch leaves the id of the last of them as the entry of
    the cache, while the search of the fallback returns the first; a
    title that is not listed keeps the entry the cache had. *)
Theorem X8_refresh_keeps_last_listed (cache : Cache) items name :
  name ≠ "__proto__" →
  refreshCache cache (Some items) !! name
  = match lastByTitle name items with
    | Some l => Some (tl_id l)
    | None => cache !! name
    end
  ∧ findByTitle name items
    = head (List.filter (fun l => String.eqb (tl_title l) name) items).
Proof.
  intros _. split.
  - unfold lastByTitle. simpl.
    induction items as [|x items IH] using rev_ind; [done|].
    rewrite foldl_app, filter_title_snoc. simpl. rewrite cachePut_eq.
    destruct (String.eqb (tl_title x) name) eqn:Hx.
    + apply String.eqb_eq in Hx. rewrite last_snoc, Hx. apply lookup_insert_eq.
    + apply String.eqb_neq in Hx. rewrite app_nil_r, lookup_insert_ne; done.
  - unfold findByTitle. induction items as [|x items IH]; [done|]. simpl.
    by destruct (String.eqb (tl_title x) name).
Qed.

(** X9. A call of the resolver for [name] leaves every other entry of
    the cache as it was; when it answers [null] the whole cache is as it
    was, and an id it answers is the one the cache then holds for
    [name]. It touches neither the properties nor the triggers nor the
    sheets. *)
Theorem X9_resolver_writes_only_its_name name (cache : Cache) (w : World R) :
  ∃ lid cache' w',
    getTaskListIdByName name cache w = (Ok (lid, cache'), w')
    ∧ (∀ other, other ≠ name → cache' !! other = cache !! other)
    ∧ (lid = None → cache' = cache)
    ∧ (∀ id, lid = Some id → cache' !! name = Some id)
    ∧ properties w' = properties w ∧ triggers w' = triggers w
    ∧ sheets w' = sheets w ∧ reportSheets w' = reportSheets w.
Proof.
  destruct (resolver_step name cache w) as (lid & cache' & w' & Hrun & Hstep).
  exists lid, cache', w'. split; [done|].
  destruct (resolve_touches _ _ _ _ _ _ Hstep) as (evs & Ht & _).
  apply Touches_frame in Ht as (Hp & Htr & Hsh & Hrs & _).
  split; [|split; [|split; [|done]]].
  - intros other Hne. destruct Hstep; try done; by rewrite lookup_insert_ne.
  - intros Hno. by destruct Hstep.
  - intros id Hid. destruct Hstep; try done;
      injection Hid as <-; try done; apply lookup_insert_eq.
Qed.

(** X10. A row whose title starts with "list:", in any letter case, is
    never sent to the task service, whatever the list in effect: the
    iteration logs one line, leaves cache and report as they were, and
    still carries the list name of the row forward. *)
Theorem X10_list_rows_are_not_sent cols n row st (w : World R) ttl :
  finalTaskTitleOf cols row = Some ttl →
  Str.startsWith (Str.toLowerCase ttl) "list:" = true →
  ∃ e, (e = EvLog (LogRowNoList n) ∨ e = EvLog (LogRowListDefinition n))
    ∧ processRow cols n row st w
      = (Ok (mkLocals (taskListCache st) (reportData st)
                      (nextListTitle cols row (lastKnownListTitle st))),
         logged [e] w).
Proof.
  intros Hfinal Hlist.
  destruct (processRow_step cols n row st w) as (st' & w' & -> & Hstep).
  destruct Hstep as [Hno|name Hname Hne Hempty|name ttl' Hname Hne Httl
                     |name ttl' lid cache' w1 Hname Hne Httl Hte Hnl
                     |name ttl' lid cache' w1 r2 Hname Hne Httl Hte Hnl
                     |name ttl' lid cache' w1 r2 Hname Hne Httl Hte Hnl].
  - eexists. split; [by left|done].
  - rewrite Hfinal in Hempty. simpl in Hempty. apply nonEmpty_false in Hempty.
    subst ttl. done.
  - eexists. split; [by right|]. by rewrite Hname.
  - congruence.
  - congruence.
  - congruence.
Qed.

Lemma tableContent_nonempty (report : Report) :
  report ≠ ∅ → tableContent report = (fun '(listName, stats) => tableRow listName stats)
                                       <$> map_to_list report.
Proof.
  intros Hne. unfold tableContent.
  destruct (map_to_list report) as [|e l] eqn:Hl; [|done].
  by apply map_to_list_empty_iff in Hl.
Qed.

(** X11. The table of the summary is never empty and every line of it
    has four cells; for a report with no entry it is the one line "No new
    tasks were imported.", and otherwise it has one line for each list of
    the report, made of the name and the three counters of that list. *)
Theorem X11_summary_table_lists_each_entry (report : Report) :
  tableContent report ≠ []
  ∧ Forall (fun line => length line = 4%nat) (tableContent report)
  ∧ (report = ∅ → tableContent report = [noTasksLine])
  ∧ (report ≠ ∅ →
       length (tableContent report) = size report
       ∧ ∀ line, line ∈ tableContent report
           ↔ ∃ listName stats, report !! listName = Some stats
               ∧ line = tableRow listName stats).
Proof.
  destruct (decide (report = ∅)) as [->|Hne].
  - unfold tableContent. rewrite map_to_list_empty.
    split; [done|]. split; [by repeat constructor|]. split; done.
  - rewrite (tableContent_nonempty _ Hne).
    split.
    { intros Hnil. apply fmap_nil_inv in Hnil.
      by apply map_to_list_empty_iff in Hnil. }
    split.
    { apply Forall_fmap, Forall_forall. by intros [listName stats] _. }
    split; [done|]. intros _.
    split; [by rewrite length_fmap, length_map_to_list|].
    intros line. rewrite list_elem_of_fmap. split.
    + intros ([listName stats] & -> & Hin). apply elem_of_map_to_list in Hin.
      by exists listName, stats.
    + intros (listName & stats & Hlook & ->). exists (listName, stats).
      split; [done|]. by apply elem_of_map_to_list.
Qed.

Lemma tableContent_noTasks (report : Report) :
  tableContent report = [noTasksLine] ↔ report = ∅.
Proof.
  split.
  - intros Htable. destruct (decide (report = ∅)) as [|Hne]; [done|].
    rewrite (tableContent_nonempty _ Hne) in Htable.
    destruct (map_to_list report) as [|[listName stats] l]; [done|].
    discriminate Htable.
  - intros ->. unfold tableContent. by rewrite map_to_list_empty.
Qed.

Lemma populated_total (report : Report) :
  Populated report → 0 ≤ reportTotal report ∧ (report ≠ ∅ → 1 ≤ reportTotal report).
Proof.
  unfold Populated, reportTotal.
  induction report as [|name stats report Hfresh IH] using map_ind.
  - intros _. rewrite map_fold_empty. split; [lia|done].
  - intros Hpop. apply map_Forall_insert in Hpop as [Hstats Hrest]; [|done].
    destruct (IH Hrest) as [Hnn _].
    rewrite map_fold_insert_L; [|intros; lia|done]. split; [lia|]. intros _. lia.
Qed.

(** X12. In a run from the menu entry over a sheet with its headers and
    some data rows, the summary is the one line "No new tasks were
    imported." exactly when the run logged no task as created in a list
    whose name is not one of those that objects inherit: tasks created
    in lists of such names alone leave the summary at that line. *)
Theorem X12_empty_summary_iff_nothing_created sheet cols sizes fuel name (w : World R) :
  (∀ j, 1 ≤ sizes j) →
  BatchReady sheet cols (sizes 0%nat) (startedWorld name w) →
  (length (dataRows sheet) ≤ fuel)%nat →
  ∃ table evs,
    trace (exportRun fuel sizes name w) = trace w ++ evs
    ∧ reportSheets (exportRun fuel sizes name w)
      = reportSheets w ++ [mkReportSheet name table]
    ∧ (table = [noTasksLine] ↔ countIf isCountedLog evs = 0%nat).
Proof.
  intros Hsizes Hready Hfuel.
  destruct (exportRun_totals sheet cols sizes fuel name w Hsizes Hready Hfuel)
    as (report & evs & Hpop & Htr & Hrs & Htot & _).
  exists (tableContent report), evs. split; [done|]. split; [done|].
  rewrite tableContent_noTasks. destruct (populated_total _ Hpop) as [_ Hpos]. split.
  - intros ->. unfold reportTotal in Htot. rewrite map_fold_empty in Htot. lia.
  - intros Hzero. destruct (decide (report = ∅)) as [|Hne]; [done|].
    specialize (Hpos Hne). lia.
Qed.

End CacheAndSummary.

Lemma X8_witness :
  "Work" ≠ "__proto__"
  ∧ refreshCache ({["Work" := "old"]} : Cache)
      (Some [mkTaskList "Work" "first"; mkTaskList "Home" "h"; mkTaskList "Work" "last"])
    !! "Work" = Some "last"
  ∧ findByTitle "Work"
      [mkTaskList "Work" "first"; mkTaskList "Home" "h"; mkTaskList "Work" "last"]
    = Some (mkTaskList "Work" "first").
Proof.
  split; [discriminate|].
  apply (X8_refresh_keeps_last_listed ({["Work" := "old"]} : Cache)
           [mkTaskList "Work" "first"; mkTaskList "Home" "h"; mkTaskList "Work" "last"]
           "Work").
  discriminate.
Defined.

Lemma X10_witness :
  finalTaskTitleOf Demo.cols RowSamples.listRow = Some "LIST: Work"
  ∧ Str.startsWith (Str.toLowerCase "LIST: Work") "list:" = true
  ∧ ∃ e, (e = EvLog (LogRowNoList 2) ∨ e = EvLog (LogRowListDefinition 2))
      ∧ processRow (Srv := storeServices lenient) Demo.cols 2 RowSamples.listRow
          RowSamples.noLocals Demo.fresh
        = (Ok (mkLocals (taskListCache RowSamples.noLocals) (reportData RowSamples.noLocals)
                        (nextListTitle Demo.cols RowSamples.listRow
                           (lastKnownListTitle RowSamples.noLocals))),
           logged [e] Demo.fresh).
Proof.
  split; [reflexivity|]. split; [reflexivity|].
  apply (X10_list_rows_are_not_sent (Srv := storeServices lenient) Demo.cols 2
           RowSamples.listRow RowSamples.noLocals Demo.fresh "LIST: Work");
    reflexivity.
Defined.

Lemma X12_witness :
  ∃ table evs,
    trace (exportRun (Srv := storeServices lenient) 10 Samples.pairs "Tasks" Demo.fresh)
      = trace Demo.fresh ++ evs
    ∧ reportSheets
        (exportRun (Srv := storeServices lenient) 10 Samples.pairs "Tasks" Demo.fresh)
      = reportSheets Demo.fresh ++ [mkReportSheet "Tasks" table]
    ∧ (table = [noTasksLine] ↔ countIf isCountedLog evs = 0%nat).
Proof.
  apply (X12_empty_summary_iff_nothing_created (Srv := storeServices lenient)
           Demo.sheet Demo.cols Samples.pairs 10 "Tasks" Demo.fresh).
  - intros j. unfold Samples.pairs. lia.
  - split; [reflexivity|]. split; [reflexivity|].
    split; [split|]; apply Z.leb_le; reflexivity.
  - simpl. lia.
Defined.

(** * Further properties of the header lookup *)

Lemma indexOf_spec headers name : ∀ i,
  indexOf headers name = Some i
  ↔ headers !! i = Some (CText name)
    ∧ ∀ j, (j < i)%nat → headers !! j ≠ Some (CText name).
Proof.
  induction headers as [|c headers IH]; intros i.
  - simpl. split; [done|]. by intros [? _].
  - assert (∀ k, (S <$> indexOf headers name) = Some k ↔
              ∃ k', k = S k' ∧ indexOf headers name = Some k') as Hfmap.
    { intros k. destruct (indexOf headers name) as [k0|]; simpl; split.
      - intros [= <-]. by exists k0.
      - by intros (k' & -> & [= ->]).
      - done.
      - by intros (k' & _ & ?). }
    assert (c ≠ CText name →
            (S <$> indexOf headers name) = Some i
            ↔ (c :: headers) !! i = Some (CText name)
              ∧ ∀ j, (j < i)%nat → (c :: headers) !! j ≠ Some (CText name)) as Hskip.
    { intros Hc. rewrite Hfmap. split.
      - intros (k' & -> & Hk'). apply IH in Hk' as [Hat Hbefore]. split; [done|].
        intros [|j] Hj; simpl; [congruence|]. apply Hbefore. lia.
      - intros [Hat Hbefore]. destruct i as [|k']; simpl in Hat; [congruence|].
        exists k'. split; [done|]. apply IH. split; [done|].
        intros j Hj. apply (Hbefore (S j)). lia. }
    destruct c as [s| | |]; simpl; try (apply Hskip; discriminate).
    destruct (String.eqb s name) eqn:Hs.
    + apply String.eqb_eq in Hs as ->. split.
      * intros [= <-]. split; [done|]. intros j Hj. lia.
      * intros [Hat Hbefore]. destruct i as [|k']; [done|].
        exfalso. apply (Hbefore 0%nat); [lia|done].
    + apply String.eqb_neq in Hs. apply Hskip. congruence.
Qed.

Lemma indexOf_None headers name :
  indexOf headers name = None ↔ CText name ∉ headers.
Proof.
  induction headers as [|c headers IH]; simpl.
  - split; [intros _; apply not_elem_of_nil|done].
  - rewrite not_elem_of_cons, <- IH.
    assert ((S <$> indexOf headers name) = None ↔ indexOf headers name = None) as Hfmap
      by (by destruct (indexOf headers name)).
    destruct c as [s| | |]; try (rewrite Hfmap; split; [by split|by intros [_ ?]]).
    destruct (String.eqb s name) eqn:Hs.
    + apply String.eqb_eq in Hs as ->. split; [done|]. by intros [? _].
    + apply String.eqb_neq in Hs. rewrite Hfmap.
      split; [intros ?; split; [congruence|done]|by intros [_ ?]].
Qed.

(** X13. The batch pipeline looks its columns up by exact text: for a
    sheet with a header row, the columns are found exactly when a cell of
    that row is the text "title" and a cell is the text "list_title", as
    they stand, with no trimming and in that letter case; the column
    taken is then the first such cell, and an optional column that is
    found holds its name. *)
Theorem X13_headers_match_exactly_and_first sheet headers rest :
  values sheet = headers :: rest →
  (columnsOf sheet = None
   ↔ CText "title" ∉ headers ∨ CText "list_title" ∉ headers)
  ∧ ∀ cols, columnsOf sheet = Some cols →
      headers !! titleIndex cols = Some (CText "title")
      ∧ (∀ j, (j < titleIndex cols)%nat → headers !! j ≠ Some (CText "title"))
      ∧ headers !! listTitleIndex cols = Some (CText "list_title")
      ∧ (∀ j, (j < listTitleIndex cols)%nat → headers !! j ≠ Some (CText "list_title"))
      ∧ (∀ i, idIndex cols = Some i → headers !! i = Some (CText "id"))
      ∧ (∀ i, statusIndex cols = Some i → headers !! i = Some (CText "status"))
      ∧ (∀ i, dueIndex cols = Some i → headers !! i = Some (CText "due"))
      ∧ (∀ i, linksIndex cols = Some i → headers !! i = Some (CText "links")).
Proof.
  intros Hvalues. unfold columnsOf. rewrite Hvalues. split.
  - rewrite <- !indexOf_None.
    destruct (indexOf headers "title"), (indexOf headers "list_title");
      split; try done; try (by left); try (by right); by intros [?|?].
  - intros cols.
    destruct (indexOf headers "title") as [t|] eqn:Ht; [|done].
    destruct (indexOf headers "list_title") as [l|] eqn:Hl; [|done].
    intros [= <-]. simpl.
    apply indexOf_spec in Ht as [Ht1 Ht2]. apply indexOf_spec in Hl as [Hl1 Hl2].
    repeat split; try done; intros i Hi; by apply indexOf_spec in Hi as [? _].
Qed.

Lemma X13_witness :
  values Demo.sheet = Demo.headers :: List.tl (values Demo.sheet)
  ∧ (columnsOf Demo.sheet = None
     ↔ CText "title" ∉ Demo.headers ∨ CText "list_title" ∉ Demo.headers)
  ∧ ∀ cols, columnsOf Demo.sheet = Some cols →
      Demo.headers !! titleIndex cols = Some (CText "title")
      ∧ (∀ j, (j < titleIndex cols)%nat → Demo.headers !! j ≠ Some (CText "title"))
      ∧ Demo.headers !! listTitleIndex cols = Some (CText "list_title")
      ∧ (∀ j, (j < listTitleIndex cols)%nat
           → Demo.headers !! j ≠ Some (CText "list_title"))
      ∧ (∀ i, idIndex cols = Some i → Demo.headers !! i = Some (CText "id"))
      ∧ (∀ i, statusIndex cols = Some i → Demo.headers !! i = Some (CText "status"))
      ∧ (∀ i, dueIndex cols = Some i → Demo.headers !! i = Some (CText "due"))
      ∧ (∀ i, linksIndex cols = Some i → Demo.headers !! i = Some (CText "links")).
Proof.
  split; [reflexivity|].
  apply (X13_headers_match_exactly_and_first Demo.sheet Demo.headers
           (List.tl (values Demo.sheet))).
  reflexivity.
Defined.

(** * Properties of the simple exporter *)

Section SimpleRun.
Context {R : Type} {Srv : SimpleScript.Service R}.

Lemma script_bind_ok {W A B} (c : Script.t W A) (k : A → Script.t W B) w a w' :
  c w = (Ok a, w') → Script.bind c k w = k a w'.
Proof. unfold Script.bind. by intros ->. Qed.

Lemma script_bind_exn {W A B} (c : Script.t W A) (k : A → Script.t W B) w w' :
  c w = (Exn, w') → Script.bind c k w = (Exn, w').
Proof. unfold Script.bind. by intros ->. Qed.

Lemma count_app f evs1 evs2 :
  SimpleScript.count f (evs1 ++ evs2)
  = (SimpleScript.count f evs1 + SimpleScript.count f evs2)%nat.
Proof. unfold SimpleScript.count. by rewrite List.filter_app, length_app. Qed.

Lemma simple_getCol_spec m headerName (w : SimpleScript.World R) :
  SimpleScript.getCol m headerName w
  = (Ok (SimpleExporter.getCol m headerName),
     SimpleScript.mkWorld (SimpleScript.remote w)
       (SimpleScript.effects w ++ SimpleScript.lookupEffects m headerName)).
Proof.
  unfold SimpleScript.getCol, SimpleScript.lookupEffects.
  destruct (SimpleExporter.getCol m headerName) as [col|].
  - rewrite app_nil_r. by destruct w.
  - unfold Script.bind, SimpleScript.emit, Script.ret. simpl. by rewrite <- app_assoc.
Qed.

Lemma simple_getCol_then {A} m headerName (k : Script.t (SimpleScript.World R) A) w :
  Script.bind (SimpleScript.getCol m headerName) (fun _ => k) w
  = k (SimpleScript.mkWorld (SimpleScript.remote w)
         (SimpleScript.effects w ++ SimpleScript.lookupEffects m headerName)).
Proof. by erewrite script_bind_ok; [|apply simple_getCol_spec]. Qed.

Lemma lookupEffects_quiet m headerName f :
  (∀ a, f (SimpleScript.EAlert (SimpleScript.AlertMissingHeader a)) = false) →
  (∀ l, f (SimpleScript.ELog l) = false) →
  SimpleScript.count f (SimpleScript.lookupEffects m headerName) = 0%nat.
Proof.
  intros Ha Hl. unfold SimpleScript.lookupEffects, SimpleScript.count.
  destruct (SimpleExporter.getCol m headerName); [done|]. simpl. by rewrite Hl, Ha.
Qed.

Lemma rowLookups_quiet m f :
  (∀ a, f (SimpleScript.EAlert (SimpleScript.AlertMissingHeader a)) = false) →
  (∀ l, f (SimpleScript.ELog l) = false) →
  SimpleScript.count f (SimpleScript.rowLookups m) = 0%nat.
Proof.
  intros Ha Hl. unfold SimpleScript.rowLookups.
  by rewrite !count_app, !lookupEffects_quiet.
Qed.

Lemma startLookups_quiet m f :
  (∀ a, f (SimpleScript.EAlert (SimpleScript.AlertMissingHeader a)) = false) →
  (∀ l, f (SimpleScript.ELog l) = false) →
  SimpleScript.count f (SimpleScript.startLookups m) = 0%nat.
Proof.
  intros Ha Hl. unfold SimpleScript.startLookups.
  by rewrite !count_app, !lookupEffects_quiet.
Qed.

Lemma simple_resolver_cases name (w : SimpleScript.World R) :
  ∃ res w' evs,
    SimpleScript.getTaskListByName name w = (res, w')
    ∧ SimpleScript.effects w' = SimpleScript.effects w ++ SimpleScript.ETasklistsList :: evs
    ∧ SimpleScript.count SimpleScript.isFinalAlert evs = 0%nat
    ∧ SimpleScript.count SimpleScript.isListing evs = 0%nat
    ∧ SimpleScript.count SimpleScript.isTaskInsert evs = 0%nat
    ∧ SimpleScript.count SimpleScript.isPause evs = 0%nat
    ∧ (SimpleScript.count SimpleScript.isListInsert evs ≤ 1)%nat
    ∧ (∀ items r1 l,
         SimpleScript.list_items (SimpleScript.remote w) = (Returned items, r1) →
         SimpleScript.findFirst name (default [] items) = Some l →
         res = Ok (Some l) ∧ evs = [])
    ∧ (res = Exn ↔ ∃ r1, SimpleScript.list_items (SimpleScript.remote w) = (Raised, r1))
    ∧ (res = Exn → evs = []).
Proof.
  unfold SimpleScript.getTaskListByName, Script.bind, SimpleScript.call.
  destruct (SimpleScript.list_items (SimpleScript.remote w)) as [[items|] r1] eqn:Hlist.
  - destruct (SimpleScript.findFirst name (default [] items)) as [l|] eqn:Hfind.
    + eexists _, _, []. unfold Script.ret. simpl.
      split; [reflexivity|]. do 5 (split; [done|]). split; [vm_compute; lia|].
      split; [intros items' r1' l' [= <- <-] Hfind'; split; congruence|].
      split; [|done]. split; [done|]. by intros [r1' ?].
    + unfold Script.try_catch, SimpleScript.call. simpl.
      destruct (SimpleScript.insert_list name r1) as [[created|] r2] eqn:Hins; simpl.
      * eexists _, _, [_]. simpl. rewrite <- app_assoc.
        split; [reflexivity|]. do 5 (split; [done|]). split; [vm_compute; lia|].
        split; [intros items' r1' l' [= <- <-] Hfind'; congruence|].
        split; [|done]. split; [done|]. by intros [r1' ?].
      * eexists _, _, [_; _]. simpl. rewrite <- !app_assoc.
        split; [reflexivity|]. do 5 (split; [done|]). split; [vm_compute; lia|].
        split; [intros items' r1' l' [= <- <-] Hfind'; congruence|].
        split; [|done]. split; [done|]. by intros [r1' ?].
  - eexists _, _, []. simpl.
    split; [reflexivity|]. do 5 (split; [done|]). split; [vm_compute; lia|].
    split; [intros items' r1' l' [=]|].
    split; [|done]. split; [|done]. intros _. by exists r1.
Qed.


(** X14. The simple exporter resolves a list name by listing first: the
    one listing is the first thing it does, a name that is listed is
    answered with the first list of that title and nothing is created,
    at most one list is created otherwise, and the call raises exactly
    when the listing raises, a failed creation being caught. *)
Theorem X14_simple_resolver_lists_first name (w : SimpleScript.World R) :
  ∃ res w' evs,
    SimpleScript.getTaskListByName name w = (res, w')
    ∧ SimpleScript.effects w' = SimpleScript.effects w ++ SimpleScript.ETasklistsList :: evs
    ∧ SimpleScript.count SimpleScript.isListing evs = 0%nat
    ∧ SimpleScript.count SimpleScript.isTaskInsert evs = 0%nat
    ∧ SimpleScript.count SimpleScript.isPause evs = 0%nat
    ∧ (SimpleScript.count SimpleScript.isListInsert evs ≤ 1)%nat
    ∧ (∀ items r1 l,
         SimpleScript.list_items (SimpleScript.remote w) = (Returned items, r1) →
         SimpleScript.findFirst name (default [] items) = Some l →
         res = Ok (Some l) ∧ evs = [])
    ∧ (res = Exn ↔ ∃ r1, SimpleScript.list_items (SimpleScript.remote w) = (Raised, r1))
    ∧ (res = Exn → evs = []).
Proof.
  destruct (simple_resolver_cases name w)
    as (res & w' & evs & Hrun & Heff & _ & Hrest).
  by exists res, w', evs.
Qed.

Lemma simple_task_row m tc lc row taskTitle taskList (w : SimpleScript.World R) :
  SimpleScript.isListRow (row !! (tc - 1)%nat) = false →
  row !! (tc - 1)%nat = Some taskTitle → CellOps.truthy taskTitle = true →
  SimpleScript.processRow m tc lc row (Some taskList) w
  = match SimpleScript.insert_task
            (SimpleExporter.taskOfRow SimpleScript.date_parse m row taskTitle)
            (SimpleScript.lo_id taskList) (SimpleScript.remote w) with
    | (Returned _, r') =>
        (Ok (Some taskList),
         SimpleScript.mkWorld r'
           (SimpleScript.effects w ++ SimpleScript.rowLookups m
            ++ [SimpleScript.ETasksInsert
                  (SimpleExporter.taskOfRow SimpleScript.date_parse m row taskTitle)
                  (SimpleScript.lo_id taskList);
                SimpleScript.ESleep 500]))
    | (Raised, r') =>
        (Exn,
         SimpleScript.mkWorld r'
           (SimpleScript.effects w ++ SimpleScript.rowLookups m
            ++ [SimpleScript.ETasksInsert
                  (SimpleExporter.taskOfRow SimpleScript.date_parse m row taskTitle)
                  (SimpleScript.lo_id taskList)]))
    end.
Proof.
  intros Hlist Htitle Htruthy. unfold SimpleScript.processRow.
  rewrite Hlist, Htitle, Htruthy. rewrite !simple_getCol_then.
  unfold SimpleScript.rowLookups, Script.bind, SimpleScript.call, SimpleScript.emit,
    Script.ret. simpl.
  destruct (SimpleScript.insert_task _ _ _) as [[[]|] r']; simpl;
    by rewrite <- !app_assoc.
Qed.

Lemma simple_idle_row m tc lc row cur (w : SimpleScript.World R) :
  SimpleScript.isListRow (row !! (tc - 1)%nat) = false →
  (cur = None ∨ row !! (tc - 1)%nat = None
   ∨ ∃ c, row !! (tc - 1)%nat = Some c ∧ CellOps.truthy c = false) →
  SimpleScript.processRow m tc lc row cur w = (Ok cur, w).
Proof.
  intros Hlist Hidle. unfold SimpleScript.processRow. rewrite Hlist.
  destruct (row !! (tc - 1)%nat) as [c|]; [|done].
  destruct cur as [l|]; [|done].
  destruct Hidle as [?|[?|(c' & [= <-] & ->)]]; done.
Qed.

Lemma simple_list_row m tc lc row cur (w : SimpleScript.World R) :
  SimpleScript.isListRow (row !! (tc - 1)%nat) = true →
  SimpleScript.processRow m tc lc row cur w
  = match row !! (lc - 1)%nat with
    | Some listName =>
        if CellOps.truthy listName
        then SimpleScript.getTaskListByName (Str.trim (CellOps.toString listName)) w
        else (Ok cur, w)
    | None => (Ok cur, w)
    end.
Proof.
  intros Hlist. unfold SimpleScript.processRow. rewrite Hlist.
  destruct (row !! (lc - 1)%nat) as [listName|]; [|done].
  by destruct (CellOps.truthy listName).
Qed.

(** What one iteration does, by the kind of its row. *)
Lemma simple_row_summary m tc lc row cur (w : SimpleScript.World R) :
  ∃ res w' evs,
    SimpleScript.processRow m tc lc row cur w = (res, w')
    ∧ SimpleScript.effects w' = SimpleScript.effects w ++ evs
    ∧ SimpleScript.count SimpleScript.isFinalAlert evs = 0%nat
    ∧ (if SimpleScript.isListRow (row !! (tc - 1)%nat)
       then SimpleScript.count SimpleScript.isTaskInsert evs = 0%nat
            ∧ SimpleScript.count SimpleScript.isPause evs = 0%nat
            ∧ (SimpleScript.count SimpleScript.isListing evs ≤ 1)%nat
            ∧ (SimpleScript.count SimpleScript.isListInsert evs
               ≤ SimpleScript.count SimpleScript.isListing evs)%nat
       else SimpleScript.count SimpleScript.isListing evs = 0%nat
            ∧ SimpleScript.count SimpleScript.isListInsert evs = 0%nat
            ∧ (SimpleScript.count SimpleScript.isTaskInsert evs ≤ 1)%nat
            ∧ (SimpleScript.count SimpleScript.isPause evs
               ≤ SimpleScript.count SimpleScript.isTaskInsert evs)%nat
            ∧ (cur = None → evs = [])
            ∧ (∀ cur', res = Ok cur' → cur' = cur))
    ∧ match res with
      | Ok _ =>
          SimpleScript.count SimpleScript.isPause evs
          = SimpleScript.count SimpleScript.isTaskInsert evs
      | Exn =>
          ∃ e, last evs = Some e
            ∧ (SimpleScript.isListing e || SimpleScript.isTaskInsert e) = true
      end.
Proof.
  destruct (SimpleScript.isListRow (row !! (tc - 1)%nat)) eqn:Hlist.
  - rewrite simple_list_row; [|done].
    assert (∃ res w' evs, (Ok cur, w) = (res, w')
      ∧ SimpleScript.effects w' = SimpleScript.effects w ++ evs
      ∧ SimpleScript.count SimpleScript.isFinalAlert evs = 0%nat
      ∧ (SimpleScript.count SimpleScript.isTaskInsert evs = 0%nat
         ∧ SimpleScript.count SimpleScript.isPause evs = 0%nat
         ∧ (SimpleScript.count SimpleScript.isListing evs ≤ 1)%nat
         ∧ (SimpleScript.count SimpleScript.isListInsert evs
            ≤ SimpleScript.count SimpleScript.isListing evs)%nat)
      ∧ match res with
        | Ok _ => SimpleScript.count SimpleScript.isPause evs
                  = SimpleScript.count SimpleScript.isTaskInsert evs
        | Exn => ∃ e, last evs = Some e
                   ∧ (SimpleScript.isListing e || SimpleScript.isTaskInsert e) = true
        end) as Hidle.
    { exists (Ok cur), w, []. rewrite app_nil_r.
      split; [done|]. split; [done|]. split; [done|].
      split; [|done]. split; [done|]. split; [done|]. split; vm_compute; lia. }
    destruct (row !! (lc - 1)%nat) as [listName|]; [|exact Hidle].
    destruct (CellOps.truthy listName); [|exact Hidle].
    destruct (simple_resolver_cases (Str.trim (CellOps.toString listName)) w)
      as (res & w' & evs & Hrun & Heff & Hf & Hl & Hc2 & Hc3 & Hc4 & _ & _ & Hexn).
    exists res, w', (SimpleScript.ETasklistsList :: evs).
    split; [done|]. split; [done|].
    change (SimpleScript.ETasklistsList :: evs) with ([SimpleScript.ETasklistsList] ++ evs).
    rewrite !count_app.
    change (SimpleScript.count SimpleScript.isFinalAlert [_]) with 0%nat.
    change (SimpleScript.count SimpleScript.isTaskInsert [_]) with 0%nat.
    change (SimpleScript.count SimpleScript.isPause [_]) with 0%nat.
    change (SimpleScript.count SimpleScript.isListing [_]) with 1%nat.
    change (SimpleScript.count SimpleScript.isListInsert [_]) with 0%nat.
    rewrite Hf, Hl, Hc2, Hc3.
    split; [done|]. split; [repeat split; lia|].
    destruct res as [cur'|]; [done|].
    rewrite (Hexn eq_refl). exists SimpleScript.ETasklistsList. split; reflexivity.
  - destruct (row !! (tc - 1)%nat) as [taskTitle|] eqn:Htitle.
    2:{ rewrite simple_idle_row; [|by rewrite Htitle|by right; left].
        exists (Ok cur), w, []. rewrite app_nil_r.
        split; [done|]. split; [done|]. split; [done|].
        split; [|done]. repeat split; try done; try (vm_compute; lia).
        by intros cur' [= <-]. }
    destruct (CellOps.truthy taskTitle) eqn:Htruthy.
    2:{ rewrite simple_idle_row; [|by rewrite Htitle|right; right; by exists taskTitle].
        exists (Ok cur), w, []. rewrite app_nil_r.
        split; [done|]. split; [done|]. split; [done|].
        split; [|done]. repeat split; try done; try (vm_compute; lia).
        by intros cur' [= <-]. }
    destruct cur as [taskList|].
    2:{ rewrite simple_idle_row; [|by rewrite Htitle|by left].
        exists (Ok None), w, []. rewrite app_nil_r.
        split; [done|]. split; [done|]. split; [done|].
        split; [|done]. repeat split; try done; try (vm_compute; lia).
        by intros cur' [= <-]. }
    rewrite (simple_task_row m tc lc row taskTitle taskList w); [|by rewrite Htitle|done..].
    destruct (SimpleScript.insert_task _ _ _) as [[[]|] r'].
    + eexists _, _, _. split; [reflexivity|]. split; [reflexivity|].
      rewrite !count_app, !rowLookups_quiet; try done.
      split; [done|]. split; [|done].
      repeat split; try done; try (vm_compute; lia). by intros cur' [= <-].
    + eexists _, _, _. split; [reflexivity|]. split; [reflexivity|].
      rewrite !count_app, !rowLookups_quiet; try done.
      split; [done|]. split.
      * repeat split; try done; vm_compute; lia.
      * eexists. rewrite last_snoc. done.
Qed.

Lemma listRows_cons tc row data :
  SimpleScript.listRows tc (row :: data)
  = if SimpleScript.isListRow (row !! (tc - 1)%nat)
    then row :: SimpleScript.listRows tc data
    else SimpleScript.listRows tc data.
Proof. reflexivity. Qed.

Lemma simple_loop_summary m tc lc data : ∀ cur (w : SimpleScript.World R),
  ∃ res w' evs,
    SimpleScript.forEachRow m tc lc data cur w = (res, w')
    ∧ SimpleScript.effects w' = SimpleScript.effects w ++ evs
    ∧ SimpleScript.count SimpleScript.isFinalAlert evs = 0%nat
    ∧ (SimpleScript.count SimpleScript.isListing evs
       ≤ length (SimpleScript.listRows tc data))%nat
    ∧ (SimpleScript.count SimpleScript.isListInsert evs
       ≤ SimpleScript.count SimpleScript.isListing evs)%nat
    ∧ (SimpleScript.count SimpleScript.isTaskInsert evs
       + length (SimpleScript.listRows tc data) ≤ length data)%nat
    ∧ (SimpleScript.count SimpleScript.isPause evs
       ≤ SimpleScript.count SimpleScript.isTaskInsert evs)%nat
    ∧ match res with
      | Ok _ =>
          SimpleScript.count SimpleScript.isPause evs
          = SimpleScript.count SimpleScript.isTaskInsert evs
      | Exn =>
          ∃ e, last evs = Some e
            ∧ (SimpleScript.isListing e || SimpleScript.isTaskInsert e) = true
      end.
Proof.
  induction data as [|row data IH]; intros cur w.
  - exists (Ok cur), w, []. rewrite app_nil_r. simpl.
    split; [done|]. split; [done|]. repeat split; vm_compute; lia.
  - destruct (simple_row_summary m tc lc row cur w)
      as (res1 & w1 & evs1 & Hrow & Heff1 & Hf1 & Hkind & Hres1).
    rewrite listRows_cons. simpl SimpleScript.forEachRow.
    destruct res1 as [cur1|].
    + destruct (IH cur1 w1)
        as (res & w' & evs & Hloop & Heff & Hf & Hl & Hli & Hti & Hp & Hres).
      exists res, w', (evs1 ++ evs).
      split; [by erewrite script_bind_ok|].
      split; [by rewrite Heff, Heff1, <- app_assoc|].
      rewrite !count_app.
      destruct (SimpleScript.isListRow (row !! (tc - 1)%nat)).
      * destruct Hkind as (Ht1 & Hp1 & Hl1 & Hli1). simpl length.
        split; [lia|]. split; [lia|]. split; [lia|]. split; [lia|]. split; [lia|].
        destruct res as [cur'|]; [lia|].
        destruct Hres as (e & Hlast & He). exists e. split; [|done].
        rewrite last_app, Hlast. done.
      * destruct Hkind as (Hl1 & Hli1 & Ht1 & Hp1 & _). simpl length.
        split; [lia|]. split; [lia|]. split; [lia|]. split; [lia|]. split; [lia|].
        destruct res as [cur'|]; [lia|].
        destruct Hres as (e & Hlast & He). exists e. split; [|done].
        rewrite last_app, Hlast. done.
    + exists Exn, w1, evs1.
      split; [by erewrite script_bind_exn|]. split; [done|]. split; [done|].
      pose proof (List.filter_length_le
                    (fun row => SimpleScript.isListRow (row !! (tc - 1)%nat)) data) as Hle.
      fold (SimpleScript.listRows tc data) in Hle.
      destruct (SimpleScript.isListRow (row !! (tc - 1)%nat)).
      * destruct Hkind as (Ht1 & Hp1 & Hl1 & Hli1). simpl length.
        split; [lia|]. split; [lia|]. split; [lia|]. split; [lia|]. done.
      * destruct Hkind as (Hl1 & Hli1 & Ht1 & Hp1 & _). simpl length.
        split; [lia|]. split; [lia|]. split; [lia|]. split; [lia|]. done.
Qed.

(** X15. For any task service, the row loop of the simple exporter
    lists the remote lists at most once for each row whose title starts
    with "list", creates a list only after such a listing, inserts at
    most one task for each other row, and pauses only after an
    insertion. When it returns there was a pause after every insertion;
    when it raises, the last thing it did is the listing or the task
    insertion that raised: nothing is caught and no later row is
    looked at. *)
Theorem X15_simple_loop_budget_and_abort m tc lc data cur (w : SimpleScript.World R) :
  ∃ res w' evs,
    SimpleScript.forEachRow m tc lc data cur w = (res, w')
    ∧ SimpleScript.effects w' = SimpleScript.effects w ++ evs
    ∧ (SimpleScript.count SimpleScript.isListing evs
       ≤ length (SimpleScript.listRows tc data))%nat
    ∧ (SimpleScript.count SimpleScript.isListInsert evs
       ≤ SimpleScript.count SimpleScript.isListing evs)%nat
    ∧ (SimpleScript.count SimpleScript.isTaskInsert evs
       + length (SimpleScript.listRows tc data) ≤ length data)%nat
    ∧ (SimpleScript.count SimpleScript.isPause evs
       ≤ SimpleScript.count SimpleScript.isTaskInsert evs)%nat
    ∧ match res with
      | Ok _ =>
          SimpleScript.count SimpleScript.isPause evs
          = SimpleScript.count SimpleScript.isTaskInsert evs
      | Exn =>
          ∃ e, last evs = Some e
            ∧ (SimpleScript.isListing e || SimpleScript.isTaskInsert e) = true
      end.
Proof.
  destruct (simple_loop_summary m tc lc data cur w)
    as (res & w' & evs & Hrun & Heff & _ & Hrest).
  by exists res, w', evs.
Qed.

Lemma simple_run_spec sheet (w : SimpleScript.World R) :
  SimpleScript.createTasksFromSheet sheet w
  = let headers := match values sheet with headers :: _ => headers | [] => [] end in
    let m := SimpleExporter.headerMap headers in
    let w0 := SimpleScript.mkWorld (SimpleScript.remote w)
                (SimpleScript.effects w
                 ++ [SimpleScript.EAlert (SimpleScript.AlertStarting (sheetName sheet))]) in
    let w1 := SimpleScript.mkWorld (SimpleScript.remote w)
                (SimpleScript.effects w
                 ++ SimpleScript.EAlert (SimpleScript.AlertStarting (sheetName sheet))
                    :: SimpleScript.startLookups m) in
    if getLastColumn sheet <? 1 then (Exn, w0)
    else
      match SimpleExporter.getCol m "title", SimpleExporter.getCol m "list_title" with
      | Some tc, Some lc =>
          if getLastRow sheet - 1 <? 1 then (Exn, w1)
          else
            match SimpleScript.forEachRow m tc lc
                    (take (Z.to_nat (getLastRow sheet - 1)) (drop 1 (values sheet)))
                    None w1 with
            | (Ok _, w2) =>
                (Ok tt,
                 SimpleScript.mkWorld (SimpleScript.remote w2)
                   (SimpleScript.effects w2
                    ++ [SimpleScript.EAlert SimpleScript.AlertAllCreated]))
            | (Exn, w2) => (Exn, w2)
            end
      | _, _ => (Ok tt, w1)
      end.
Proof.
  unfold SimpleScript.createTasksFromSheet.
  unfold Script.bind at 1. unfold SimpleScript.emit at 1. cbv beta iota zeta.
  destruct (getLastColumn sheet <? 1); [done|].
  do 6 (erewrite script_bind_ok; [|apply simple_getCol_spec]).
  cbn [SimpleScript.remote SimpleScript.effects].
  assert (∀ (a b c d e f g h : list SimpleScript.Effect),
            ((((((a ++ b) ++ c) ++ d) ++ e) ++ f) ++ g) ++ h
            = a ++ (b ++ c ++ d ++ e ++ f ++ g ++ h)) as Hassoc
    by (intros; by rewrite <- !app_assoc).
  rewrite Hassoc. clear Hassoc. simpl app.
  fold (SimpleScript.startLookups
          (SimpleExporter.headerMap
             match values sheet with headers :: _ => headers | [] => [] end)).
  destruct (SimpleExporter.getCol _ "title") as [tc|]; [|done].
  destruct (SimpleExporter.getCol _ "list_title") as [lc|]; [|done].
  destruct (getLastRow sheet - 1 <? 1); [done|].
  unfold Script.bind, SimpleScript.emit.
  by destruct (SimpleScript.forEachRow _ _ _ _ _ _) as [[cur|] w2].
Qed.

(** X16. For any sheet and any task service, the simple exporter shows
    "All tasks have been successfully created!" at most once, as the
    last thing of a run that returned, and then every task insertion of
    the run had returned and was followed by its pause. A run that
    raised never shows it, and a run that returned without showing it
    (a required header is missing) has called the task service not once
    and left it as it was. *)
Theorem X16_final_alert_only_after_success sheet (w : SimpleScript.World R) :
  ∃ res w' evs,
    SimpleScript.createTasksFromSheet sheet w = (res, w')
    ∧ SimpleScript.effects w'
      = SimpleScript.effects w
        ++ SimpleScript.EAlert (SimpleScript.AlertStarting (sheetName sheet)) :: evs
    ∧ (SimpleScript.count SimpleScript.isFinalAlert evs ≤ 1)%nat
    ∧ (res = Exn → SimpleScript.count SimpleScript.isFinalAlert evs = 0%nat)
    ∧ (res = Ok tt → SimpleScript.count SimpleScript.isFinalAlert evs = 0%nat →
         SimpleScript.remote w' = SimpleScript.remote w
         ∧ SimpleScript.count SimpleScript.isRemote evs = 0%nat)
    ∧ (SimpleScript.count SimpleScript.isFinalAlert evs = 1%nat →
         res = Ok tt
         ∧ last evs = Some (SimpleScript.EAlert SimpleScript.AlertAllCreated)
         ∧ SimpleScript.count SimpleScript.isPause evs
           = SimpleScript.count SimpleScript.isTaskInsert evs).
Proof.
  rewrite simple_run_spec. cbv zeta.
  set (m := SimpleExporter.headerMap _).
  destruct (getLastColumn sheet <? 1).
  { eexists _, _, []. split; [reflexivity|]. split; [done|].
    split; [vm_compute; lia|]. split; [done|]. split; [done|]. done. }
  assert (∃ res w' evs,
    (Ok tt, SimpleScript.mkWorld (SimpleScript.remote w)
              (SimpleScript.effects w
               ++ SimpleScript.EAlert (SimpleScript.AlertStarting (sheetName sheet))
                  :: SimpleScript.startLookups m)) = (res, w')
    ∧ SimpleScript.effects w'
      = SimpleScript.effects w
        ++ SimpleScript.EAlert (SimpleScript.AlertStarting (sheetName sheet)) :: evs
    ∧ (SimpleScript.count SimpleScript.isFinalAlert evs ≤ 1)%nat
    ∧ (res = Exn → SimpleScript.count SimpleScript.isFinalAlert evs = 0%nat)
    ∧ (res = Ok tt → SimpleScript.count SimpleScript.isFinalAlert evs = 0%nat →
         SimpleScript.remote w' = SimpleScript.remote w
         ∧ SimpleScript.count SimpleScript.isRemote evs = 0%nat)
    ∧ (SimpleScript.count SimpleScript.isFinalAlert evs = 1%nat →
         res = Ok tt
         ∧ last evs = Some (SimpleScript.EAlert SimpleScript.AlertAllCreated)
         ∧ SimpleScript.count SimpleScript.isPause evs
           = SimpleScript.count SimpleScript.isTaskInsert evs)) as Hsilent.
  { eexists _, _, _. split; [reflexivity|]. split; [reflexivity|].
    rewrite !startLookups_quiet; try done.
    split; [lia|]. split; [done|]. split; [done|]. done. }
  destruct (SimpleExporter.getCol m "title") as [tc|]; [|exact Hsilent].
  destruct (SimpleExporter.getCol m "list_title") as [lc|]; [|exact Hsilent].
  clear Hsilent.
  destruct (getLastRow sheet - 1 <? 1).
  { eexists _, _, _. split; [reflexivity|]. split; [reflexivity|].
    rewrite !startLookups_quiet; try done.
    split; [lia|]. split; [done|]. split; [done|]. done. }
  match goal with |- context [SimpleScript.forEachRow m tc lc ?data None ?w1] =>
    destruct (simple_loop_summary m tc lc data None w1)
      as (res & w2 & evs & -> & Heff & Hf & _ & _ & _ & _ & Hres) end.
  simpl in Heff. destruct res as [cur|].
  - eexists _, _, (SimpleScript.startLookups m ++ evs
                   ++ [SimpleScript.EAlert SimpleScript.AlertAllCreated]).
    split; [reflexivity|].
    split; [simpl; rewrite Heff; by rewrite <- !app_assoc|].
    rewrite !count_app, !startLookups_quiet, Hf; try done.
    change (SimpleScript.count SimpleScript.isFinalAlert [_]) with 1%nat.
    change (SimpleScript.count SimpleScript.isPause [_]) with 0%nat.
    change (SimpleScript.count SimpleScript.isTaskInsert [_]) with 0%nat.
    split; [lia|]. split; [done|]. split; [intros _ ?; lia|]. intros _.
    split; [done|]. split; [by rewrite !app_assoc, last_snoc|]. lia.
  - eexists _, _, (SimpleScript.startLookups m ++ evs).
    split; [reflexivity|]. split; [rewrite Heff; by rewrite <- !app_assoc|].
    rewrite !count_app, !startLookups_quiet, Hf; try done.
    split; [lia|]. split; [done|]. split; [done|]. intros ?; lia.
Qed.

Lemma headerMap_nil headerName :
  SimpleExporter.getCol (SimpleExporter.headerMap []) headerName = None.
Proof. reflexivity. Qed.

(** X17. On a sheet that has its header row, with both required
    headers, and no other row, the simple exporter raises: the range of
    the data rows has no row and is refused, after the start alert and
    before any call to the task service, and no final alert is shown. *)
Theorem X17_header_only_sheet_raises sheet headers (w : SimpleScript.World R) :
  values sheet = [headers] →
  SimpleExporter.getCol (SimpleExporter.headerMap headers) "title" ≠ None →
  SimpleExporter.getCol (SimpleExporter.headerMap headers) "list_title" ≠ None →
  ∃ evs,
    SimpleScript.createTasksFromSheet sheet w
    = (Exn, SimpleScript.mkWorld (SimpleScript.remote w)
              (SimpleScript.effects w
               ++ SimpleScript.EAlert (SimpleScript.AlertStarting (sheetName sheet))
                  :: evs))
    ∧ SimpleScript.count SimpleScript.isRemote evs = 0%nat
    ∧ SimpleScript.count SimpleScript.isFinalAlert evs = 0%nat.
Proof.
  intros Hvalues Htitle Hlist. rewrite simple_run_spec. cbv zeta.
  unfold getLastColumn, getLastRow. rewrite Hvalues.
  destruct headers as [|c headers]; [by rewrite headerMap_nil in Htitle|].
  simpl.
  destruct (SimpleExporter.getCol _ "title") as [tc|]; [|done].
  destruct (SimpleExporter.getCol _ "list_title") as [lc|]; [|done].
  assert ((Z.of_nat (S (length headers)) <? 1) = false) as -> by (apply Z.ltb_ge; lia).
  eexists. split; [reflexivity|].
  by rewrite !startLookups_quiet.
Qed.

(** X18. A row whose title, trimmed and in lower case, starts with the
    four letters "list" is never inserted as a task by the simple
    exporter, whatever follows those letters: with a list name in its
    [list_title] cell the iteration is the lookup of that list, and
    otherwise it does nothing at all. *)
Theorem X18_titles_starting_with_list_are_not_tasks m tc lc row s cur
    (w : SimpleScript.World R) :
  row !! (tc - 1)%nat = Some (CText s) →
  Str.startsWith (Str.toLowerCase (Str.trim s)) "list" = true →
  (∀ c, row !! (lc - 1)%nat = Some c → CellOps.truthy c = true →
     SimpleScript.processRow m tc lc row cur w
     = SimpleScript.getTaskListByName (Str.trim (CellOps.toString c)) w)
  ∧ (row !! (lc - 1)%nat = None
     ∨ (∃ c, row !! (lc - 1)%nat = Some c ∧ CellOps.truthy c = false) →
     SimpleScript.processRow m tc lc row cur w = (Ok cur, w))
  ∧ ∃ res w' evs,
      SimpleScript.processRow m tc lc row cur w = (res, w')
      ∧ SimpleScript.effects w' = SimpleScript.effects w ++ evs
      ∧ SimpleScript.count SimpleScript.isTaskInsert evs = 0%nat
      ∧ SimpleScript.count SimpleScript.isPause evs = 0%nat.
Proof.
  intros Htitle Hstarts.
  assert (SimpleScript.isListRow (row !! (tc - 1)%nat) = true) as Hlist
    by (by rewrite Htitle).
  split; [|split].
  - intros c Hc Htruthy. rewrite simple_list_row; [|done]. by rewrite Hc, Htruthy.
  - intros Hnone. rewrite simple_list_row; [|done].
    destruct Hnone as [->|(c & -> & ->)]; done.
  - destruct (simple_row_summary m tc lc row cur w)
      as (res & w' & evs & Hrow & Heff & _ & Hkind & _).
    rewrite Hlist in Hkind. destruct Hkind as (Ht & Hp & _).
    by exists res, w', evs.
Qed.

Lemma headerMapFrom_columns headers : ∀ index (m : gmap string nat),
  (∀ k c, m !! k = Some c → (c ≤ index)%nat) →
  (∀ k1 k2 c, m !! k1 = Some c → m !! k2 = Some c → k1 = k2) →
  (∀ k c, SimpleExporter.headerMapFrom index headers m !! k = Some c
     → (c ≤ index + length headers)%nat)
  ∧ (∀ k1 k2 c,
       SimpleExporter.headerMapFrom index headers m !! k1 = Some c →
       SimpleExporter.headerMapFrom index headers m !! k2 = Some c → k1 = k2).
Proof.
  induction headers as [|header headers IH]; intros index m Hbound Hinj; simpl.
  - split; [|done]. intros k c Hk. specialize (Hbound k c Hk). lia.
  - set (key := Str.toLowerCase (Str.trim (CellOps.toString header))).
    destruct (IH (S index) (<[key := S index]> m)) as [Hb Hi].
    + intros k c. destruct (decide (k = key)) as [->|Hne].
      * rewrite lookup_insert_eq. intros [= <-]. lia.
      * rewrite lookup_insert_ne; [|done]. intros Hk. specialize (Hbound k c Hk). lia.
    + intros k1 k2 c.
      destruct (decide (k1 = key)) as [->|Hne1], (decide (k2 = key)) as [->|Hne2];
        rewrite ?lookup_insert_eq; rewrite ?lookup_insert_ne by done.
      * done.
      * intros [= <-] Hk2. specialize (Hbound k2 _ Hk2). lia.
      * intros Hk1 [= <-]. specialize (Hbound k1 _ Hk1). lia.
      * apply Hinj.
    + split; [|exact Hi]. intros k c Hk. specialize (Hb k c Hk). lia.
Qed.

(** Two header names that differ once in lower case have different
    columns. *)
Lemma getCol_distinct headers name1 name2 col1 col2 :
  SimpleExporter.getCol (SimpleExporter.headerMap headers) name1 = Some col1 →
  SimpleExporter.getCol (SimpleExporter.headerMap headers) name2 = Some col2 →
  Str.toLowerCase name1 ≠ Str.toLowerCase name2 →
  col1 ≠ col2 ∧ (1 ≤ col1)%nat ∧ (1 ≤ col2)%nat.
Proof.
  unfold SimpleExporter.getCol, SimpleExporter.headerMap.
  destruct (headerMapFrom_columns headers 0 ∅) as [_ Hinj]; [done..|].
  destruct (SimpleExporter.headerMapFrom 0 headers ∅ !! Str.toLowerCase name1)
    as [[|c1]|] eqn:H1; try done.
  destruct (SimpleExporter.headerMapFrom 0 headers ∅ !! Str.toLowerCase name2)
    as [[|c2]|] eqn:H2; try done.
  intros [= <-] [= <-] Hne. split; [|lia].
  intros Heq. apply Hne. apply (Hinj _ _ (S c1)); [done|]. by rewrite Heq.
Qed.

Lemma field_insert_other headers name lc (v : Cell) row :
  SimpleExporter.getCol (SimpleExporter.headerMap headers) "list_title" = Some lc →
  Str.toLowerCase name ≠ "list_title" →
  SimpleExporter.field (SimpleExporter.headerMap headers) name (<[(lc - 1)%nat := v]> row)
  = SimpleExporter.field (SimpleExporter.headerMap headers) name row.
Proof.
  intros Hlc Hname. unfold SimpleExporter.field.
  destruct (SimpleExporter.getCol (SimpleExporter.headerMap headers) name)
    as [col|] eqn:Hcol; [|done].
  destruct (getCol_distinct headers name "list_title" col lc Hcol Hlc Hname)
    as (Hne & H1 & H2).
  apply list_lookup_insert_ne. lia.
Qed.

(** X19. The simple exporter takes the list of a task from the last row
    titled "list…" and from nowhere else: whatever stands in the
    [list_title] cell of a row that is not such a row, the iteration is
    the same, in what it answers and in what it does. *)
Theorem X19_task_rows_ignore_their_list_title headers tc lc row (v : Cell) cur
    (w : SimpleScript.World R) :
  SimpleExporter.getCol (SimpleExporter.headerMap headers) "title" = Some tc →
  SimpleExporter.getCol (SimpleExporter.headerMap headers) "list_title" = Some lc →
  SimpleScript.isListRow (row !! (tc - 1)%nat) = false →
  SimpleScript.processRow (SimpleExporter.headerMap headers) tc lc
    (<[(lc - 1)%nat := v]> row) cur w
  = SimpleScript.processRow (SimpleExporter.headerMap headers) tc lc row cur w.
Proof.
  intros Htc Hlc Hlist.
  destruct (getCol_distinct headers "title" "list_title" tc lc Htc Hlc)
    as (Hne & H1 & H2); [done|].
  unfold SimpleScript.processRow. unfold Row in *.
  rewrite list_lookup_insert_ne by lia. rewrite Hlist.
  destruct (row !! (tc - 1)%nat) as [taskTitle|]; [|done].
  destruct cur as [taskList|]; [|done].
  destruct (CellOps.truthy taskTitle); [|done].
  unfold SimpleExporter.taskOfRow.
  by rewrite !(field_insert_other headers _ lc v row) by done.
Qed.

Lemma headerMapFrom_snoc headers header : ∀ index (m : gmap string nat),
  SimpleExporter.headerMapFrom index (headers ++ [header]) m
  = <[headerKey header := S (index + length headers)]>
      (SimpleExporter.headerMapFrom index headers m).
Proof.
  induction headers as [|h headers IH]; intros index m; simpl.
  - by rewrite Nat.add_0_r.
  - rewrite IH. by rewrite Nat.add_succ_r.
Qed.

(** X20. The simple exporter finds a column by the name of its header
    once trimmed and put in lower case, and where several headers come to
    the same name it takes the last of them: [getCol] answers the
    position, counted from one, of the last header cell that comes to
    the name asked for, and [null] when there is none. *)
Theorem X20_simple_headers_normalised_last_wins headers name col :
  SimpleExporter.getCol (SimpleExporter.headerMap headers) name = Some col
  ↔ ∃ i, col = S i
      ∧ headerKey <$> headers !! i = Some (Str.toLowerCase name)
      ∧ ∀ j, (i < j)%nat → headerKey <$> headers !! j ≠ Some (Str.toLowerCase name).
Proof.
  unfold SimpleExporter.getCol, SimpleExporter.headerMap.
  set (key := Str.toLowerCase name).
  induction headers as [|header headers IH] using rev_ind.
  - simpl. rewrite lookup_empty. split; [done|]. by intros (i & _ & ? & _).
  - rewrite headerMapFrom_snoc. simpl.
    destruct (decide (headerKey header = key)) as [Hkey|Hkey].
    + rewrite Hkey, lookup_insert_eq. split.
      * intros [= <-]. exists (length headers). split; [done|]. split.
        -- rewrite lookup_app_r, Nat.sub_diag by lia. simpl. by rewrite Hkey.
        -- intros j Hj. rewrite lookup_ge_None_2; [done|].
           rewrite length_app. simpl. lia.
      * intros (i & -> & Hat & Hlast). f_equal. f_equal.
        destruct (lt_eq_lt_dec i (length headers)) as [[Hlt|Heq]|Hgt]; [|done|].
        -- exfalso. apply (Hlast (length headers) Hlt).
           rewrite lookup_app_r, Nat.sub_diag by lia. simpl. by rewrite Hkey.
        -- rewrite lookup_ge_None_2 in Hat; [done|]. rewrite length_app. simpl. lia.
    + rewrite lookup_insert_ne by done. rewrite IH. split.
      * intros (i & -> & Hat & Hlast). exists i. split; [done|].
        assert (i < length headers)%nat as Hi.
        { destruct (headers !! i) eqn:Hl; [|done]. by apply lookup_lt_Some in Hl. }
        split; [by rewrite lookup_app_l|].
        intros j Hj. destruct (lt_eq_lt_dec j (length headers)) as [[Hlt|Heq]|Hgt].
        -- rewrite lookup_app_l by done. by apply Hlast.
        -- subst j. rewrite lookup_app_r, Nat.sub_diag by lia. simpl. congruence.
        -- rewrite lookup_ge_None_2; [done|]. rewrite length_app. simpl. lia.
      * intros (i & -> & Hat & Hlast). exists i. split; [done|].
        assert (i < length headers)%nat as Hi.
        { destruct (lt_eq_lt_dec i (length headers)) as [[Hlt|Heq]|Hgt]; [done| |].
          - subst i. rewrite lookup_app_r, Nat.sub_diag in Hat by lia.
            simpl in Hat. congruence.
          - rewrite lookup_ge_None_2 in Hat; [done|]. rewrite length_app. simpl. lia. }
        rewrite lookup_app_l in Hat by done. split; [done|].
        intros j Hj. destruct (decide (j < length headers)%nat) as [Hlt|Hge].
        -- specialize (Hlast j Hj). by rewrite lookup_app_l in Hlast.
        -- rewrite lookup_ge_None_2; [done|]. lia.
Qed.

End SimpleRun.

Lemma X17_witness :
  values SimpleSamples.headerOnly = [Demo.headers]
  ∧ SimpleExporter.getCol (SimpleExporter.headerMap Demo.headers) "title" ≠ None
  ∧ SimpleExporter.getCol (SimpleExporter.headerMap Demo.headers) "list_title" ≠ None
  ∧ ∃ evs,
      SimpleScript.createTasksFromSheet (Srv := SimpleSamples.accepting)
        SimpleSamples.headerOnly SimpleSamples.start
      = (Exn, SimpleScript.mkWorld (SimpleScript.remote SimpleSamples.start)
                (SimpleScript.effects SimpleSamples.start
                 ++ SimpleScript.EAlert
                      (SimpleScript.AlertStarting (sheetName SimpleSamples.headerOnly))
                    :: evs))
      ∧ SimpleScript.count SimpleScript.isRemote evs = 0%nat
      ∧ SimpleScript.count SimpleScript.isFinalAlert evs = 0%nat.
Proof.
  split; [reflexivity|]. split; [by vm_compute|]. split; [by vm_compute|].
  apply (X17_header_only_sheet_raises (Srv := SimpleSamples.accepting)
           SimpleSamples.headerOnly Demo.headers SimpleSamples.start).
  - reflexivity.
  - by vm_compute.
  - by vm_compute.
Defined.

Lemma X18_witness :
  SimpleSamples.listenRow !! (3 - 1)%nat = Some (CText "Listen to the radio")
  ∧ Str.startsWith (Str.toLowerCase (Str.trim "Listen to the radio")) "list" = true
  ∧ (∀ c, SimpleSamples.listenRow !! (1 - 1)%nat = Some c → CellOps.truthy c = true →
       SimpleScript.processRow (Srv := SimpleSamples.accepting) Demo.simpleMap 3 1
         SimpleSamples.listenRow (Some SimpleSamples.work) SimpleSamples.start
       = SimpleScript.getTaskListByName (Srv := SimpleSamples.accepting)
           (Str.trim (CellOps.toString c)) SimpleSamples.start)
  ∧ (SimpleSamples.listenRow !! (1 - 1)%nat = None
     ∨ (∃ c, SimpleSamples.listenRow !! (1 - 1)%nat = Some c ∧ CellOps.truthy c = false) →
     SimpleScript.processRow (Srv := SimpleSamples.accepting) Demo.simpleMap 3 1
       SimpleSamples.listenRow (Some SimpleSamples.work) SimpleSamples.start
     = (Ok (Some SimpleSamples.work), SimpleSamples.start))
  ∧ ∃ res w' evs,
      SimpleScript.processRow (Srv := SimpleSamples.accepting) Demo.simpleMap 3 1
        SimpleSamples.listenRow (Some SimpleSamples.work) SimpleSamples.start
      = (res, w')
      ∧ SimpleScript.effects w' = SimpleScript.effects SimpleSamples.start ++ evs
      ∧ SimpleScript.count SimpleScript.isTaskInsert evs = 0%nat
      ∧ SimpleScript.count SimpleScript.isPause evs = 0%nat.
Proof.
  split; [reflexivity|]. split; [reflexivity|].
  apply (X18_titles_starting_with_list_are_not_tasks (Srv := SimpleSamples.accepting)
           Demo.simpleMap 3 1 SimpleSamples.listenRow "Listen to the radio"
           (Some SimpleSamples.work) SimpleSamples.start);
    reflexivity.
Defined.

Lemma X19_witness :
  SimpleExporter.getCol (SimpleExporter.headerMap Demo.headers) "title" = Some 3%nat
  ∧ SimpleExporter.getCol (SimpleExporter.headerMap Demo.headers) "list_title" = Some 1%nat
  ∧ SimpleScript.isListRow (SimpleSamples.taskRow !! (3 - 1)%nat) = false
  ∧ SimpleScript.processRow (Srv := SimpleSamples.accepting)
      (SimpleExporter.headerMap Demo.headers) 3 1
      (<[(1 - 1)%nat := CText "Home"]> SimpleSamples.taskRow)
      (Some SimpleSamples.work) SimpleSamples.start
    = SimpleScript.processRow (Srv := SimpleSamples.accepting)
        (SimpleExporter.headerMap Demo.headers) 3 1 SimpleSamples.taskRow
        (Some SimpleSamples.work) SimpleSamples.start.
Proof.
  split; [by vm_compute|]. split; [by vm_compute|]. split; [reflexivity|].
  apply (X19_task_rows_ignore_their_list_title (Srv := SimpleSamples.accepting)
           Demo.headers 3 1 SimpleSamples.taskRow (CText "Home")
           (Some SimpleSamples.work) SimpleSamples.start).
  - by vm_compute.
  - by vm_compute.
  - reflexivity.
Defined.

(** * Properties of the import *)

Section Importing.
Import JsonImport.

Lemma objectKeys_None v : objectKeys v = None ↔ v = JNull.
Proof. by destruct v. Qed.

Lemma getMember_None v key : getMember v key = None ↔ v = JNull.
Proof. by destruct v. Qed.

Lemma addKeys_None acc v : addKeys acc v = None ↔ v = JNull.
Proof. unfold addKeys. destruct v; simpl; split; done. Qed.

Lemma foldl_union_elem (keys : list string) : ∀ (acc : gset string) key,
  key ∈ foldl (fun acc key => acc ∪ {[key]}) acc keys ↔ key ∈ acc ∨ key ∈ keys.
Proof.
  induction keys as [|k keys IH]; intros acc key; simpl.
  - rewrite elem_of_nil. tauto.
  - rewrite IH, elem_of_union, elem_of_singleton, elem_of_cons. tauto.
Qed.

Lemma addKeys_elem acc v acc' key :
  addKeys acc v = Some acc' → key ∈ acc' ↔ key ∈ acc ∨ hasKey key v.
Proof.
  unfold addKeys, hasKey. destruct (objectKeys v) as [keys|]; simpl; [|done].
  intros [= <-]. rewrite foldl_union_elem. split.
  - intros [?|?]; [by left|right]. by exists keys.
  - intros [?|(keys' & [= <-] & ?)]; [by left|by right].
Qed.

Lemma collectTasks_None tasks : ∀ acc,
  foldThrowing addKeys acc tasks = None ↔ JNull ∈ tasks.
Proof.
  induction tasks as [|task tasks IH]; intros acc; simpl.
  - rewrite elem_of_nil. split; done.
  - rewrite elem_of_cons. destruct (addKeys acc task) as [acc'|] eqn:Hadd; simpl.
    + rewrite IH. split; [by right|]. intros [Hnull|?]; [|done].
      subst task. discriminate Hadd.
    + apply addKeys_None in Hadd as ->. split; [by left|done].
Qed.

Lemma collectTasks_elem tasks : ∀ acc acc' key,
  foldThrowing addKeys acc tasks = Some acc' →
  key ∈ acc' ↔ key ∈ acc ∨ ∃ task, task ∈ tasks ∧ hasKey key task.
Proof.
  induction tasks as [|task tasks IH]; intros acc acc' key; simpl.
  - intros [= <-]. split; [by left|]. intros [?|(task & Hin & _)]; [done|].
    by apply elem_of_nil in Hin.
  - destruct (addKeys acc task) as [acc1|] eqn:Hadd; simpl; [|done].
    intros Hrest. rewrite (IH _ _ _ Hrest), (addKeys_elem _ _ _ _ Hadd). split.
    + intros [[?|?]|(t & Hin & Hk)]; [by left|right..].
      * exists task. split; [by left|done].
      * exists t. split; [by right|done].
    + intros [?|(t & Hin & Hk)]; [by left; left|].
      apply elem_of_cons in Hin as [->|Hin]; [by left; right|].
      right. by exists t.
Qed.

Lemma collectItem_None acc item :
  collectItem acc item = None ↔ item = JNull ∨ JNull ∈ tasksOf item.
Proof.
  unfold collectItem, tasksOf.
  destruct (addKeys acc item) as [acc1|] eqn:Hadd; simpl.
  2:{ apply addKeys_None in Hadd as ->. split; [by left|done]. }
  destruct (getMember item "items") as [[items|]|] eqn:Hitems; simpl.
  - destruct items as [| | | |tasks|]; try (rewrite elem_of_nil; split;
      [done|intros [Hnull|?]; [subst item; discriminate Hadd|done]]).
    rewrite collectTasks_None. split; [by right|].
    intros [Hnull|?]; [subst item; discriminate Hitems|done].
  - rewrite elem_of_nil. split; [done|].
    intros [Hnull|?]; [subst item; discriminate Hitems|done].
  - apply getMember_None in Hitems as ->. discriminate Hadd.
Qed.

Lemma collectItem_elem acc item acc' key :
  collectItem acc item = Some acc' →
  key ∈ acc' ↔ key ∈ acc ∨ hasKey key item ∨ ∃ task, task ∈ tasksOf item ∧ hasKey key task.
Proof.
  unfold collectItem, tasksOf.
  destruct (addKeys acc item) as [acc1|] eqn:Hadd; simpl; [|done].
  pose proof (addKeys_elem _ _ _ key Hadd) as Hacc1.
  assert (Some acc1 = Some acc' →
          key ∈ acc' ↔ key ∈ acc ∨ hasKey key item
                        ∨ ∃ task : JValue, task ∈ ([] : list JValue) ∧ hasKey key task)
    as Hplain.
  { intros [= <-]. rewrite Hacc1. split; [tauto|].
    intros [?|[?|(t & Hin & _)]]; [tauto..|]. by apply elem_of_nil in Hin. }
  destruct (getMember item "items") as [[items|]|]; simpl; [|exact Hplain|done].
  destruct items as [| | | |tasks|]; try exact Hplain.
  intros Htasks. rewrite (collectTasks_elem _ _ _ _ Htasks), Hacc1. tauto.
Qed.

Lemma objectsOf_cons item data v :
  v ∈ objectsOf (item :: data) ↔ v = item ∨ v ∈ tasksOf item ∨ v ∈ objectsOf data.
Proof.
  unfold objectsOf. simpl. rewrite elem_of_cons, !elem_of_app. tauto.
Qed.

Lemma objectsOf_nil v : v ∈ objectsOf [] ↔ False.
Proof. unfold objectsOf. simpl. by rewrite elem_of_nil. Qed.

Lemma collect_None data : ∀ acc,
  foldThrowing collectItem acc data = None ↔ JNull ∈ objectsOf data.
Proof.
  induction data as [|item data IH]; intros acc; simpl.
  - rewrite objectsOf_nil. split; done.
  - rewrite objectsOf_cons.
    destruct (collectItem acc item) as [acc1|] eqn:Hitem; simpl.
    + rewrite IH. split; [tauto|]. intros [Hn|[Hn|Hn]]; [| |done].
      * assert (collectItem acc item = None) as Hnone
          by (apply collectItem_None; by left).
        congruence.
      * assert (collectItem acc item = None) as Hnone
          by (apply collectItem_None; by right).
        congruence.
    + apply collectItem_None in Hitem as [->|?]; split; tauto.
Qed.

Lemma collect_elem data : ∀ acc acc' key,
  foldThrowing collectItem acc data = Some acc' →
  key ∈ acc' ↔ key ∈ acc ∨ ∃ v, v ∈ objectsOf data ∧ hasKey key v.
Proof.
  induction data as [|item data IH]; intros acc acc' key; simpl.
  - intros [= <-]. split; [by left|]. intros [?|(v & Hin & _)]; [done|].
    by apply objectsOf_nil in Hin.
  - destruct (collectItem acc item) as [acc1|] eqn:Hitem; simpl; [|done].
    intros Hrest. rewrite (IH _ _ _ Hrest), (collectItem_elem _ _ _ key Hitem). split.
    + intros [[?|[?|(t & Hin & Hk)]]|(v & Hin & Hk)]; [by left|right..].
      * exists item. split; [|done]. apply objectsOf_cons. by left.
      * exists t. split; [|done]. apply objectsOf_cons. by right; left.
      * exists v. split; [|done]. apply objectsOf_cons. by right; right.
    + intros [?|(v & Hin & Hk)]; [by left; left|].
      apply objectsOf_cons in Hin as [->|[Hin|Hin]].
      * left. right. by left.
      * left. right. right. by exists v.
      * right. by exists v.
Qed.

Lemma cellFor_spec listTitle listId task header cell :
  cellFor listTitle listId task header = Some cell →
  cell = if String.eqb header "list_title" then listTitle
         else if String.eqb header "list_id" then listId
         else match task with
              | Some task => Some (default (JString "") (mjoin (getMember task header)))
              | None => Some (JString "")
              end.
Proof.
  unfold cellFor.
  destruct (String.eqb header "list_title"); [by intros [= <-]|].
  destruct (String.eqb header "list_id"); [by intros [= <-]|].
  destruct task as [task|]; [|by intros [= <-]].
  destruct (getMember task header) as [[v|]|]; simpl; by intros [= <-].
Qed.

Lemma cellFor_is_Some listTitle listId task header :
  task ≠ Some JNull → is_Some (cellFor listTitle listId task header).
Proof.
  intros Hnull. unfold cellFor.
  destruct (String.eqb header "list_title"); [done|].
  destruct (String.eqb header "list_id"); [done|].
  destruct task as [task|]; [|done].
  destruct (getMember task header) as [value|] eqn:Hm; [done|].
  apply getMember_None in Hm as ->. done.
Qed.

Lemma row_spec listTitle listId task finalHeaders (row : list JCell) :
  mapM (cellFor listTitle listId task) finalHeaders = Some row →
  length row = length finalHeaders
  ∧ ∀ i header, finalHeaders !! i = Some header →
      row !! i = Some (if String.eqb header "list_title" then listTitle
                       else if String.eqb header "list_id" then listId
                       else match task with
                            | Some task =>
                                Some (default (JString "") (mjoin (getMember task header)))
                            | None => Some (JString "")
                            end).
Proof.
  intros Hrow. apply mapM_Some in Hrow. split; [symmetry; by eapply Forall2_length|].
  intros i header Hi.
  destruct (Forall2_lookup_l _ _ _ _ _ Hrow Hi) as (cell & Hcell & Hfor).
  rewrite Hcell. f_equal. by apply cellFor_spec.
Qed.

Lemma rowsOfList_spec finalHeaders taskList rows :
  rowsOfList finalHeaders taskList = Some rows → RowsOf finalHeaders taskList rows.
Proof.
  unfold RowsOf, rowsOfList, tasksOf.
  destruct (getMember taskList "title") as [listTitle|]; cbn [mbind option_bind]; [|done].
  destruct (getMember taskList "id") as [listId|]; cbn [mbind option_bind]; [|done].
  destruct (getMember taskList "items") as [items|]; cbn [mbind option_bind]; [|done].
  assert (∀ tasks : list JValue, tasks = [] →
    (emptyRow ← mapM (cellFor listTitle listId None) finalHeaders; Some [emptyRow])
      = Some rows →
    ∃ listTitle0 listId0,
      Some listTitle = Some listTitle0 ∧ Some listId = Some listId0
      ∧ length rows = Nat.max 1 (length tasks)
      ∧ ∀ k row, rows !! k = Some row →
          length row = length finalHeaders
          ∧ ∀ i header, finalHeaders !! i = Some header →
              row !! i
              = Some (if String.eqb header "list_title" then listTitle0
                      else if String.eqb header "list_id" then listId0
                      else match tasks !! k with
                           | Some task =>
                               Some (default (JString "") (mjoin (getMember task header)))
                           | None => Some (JString "")
                           end)) as Hempty.
  { intros tasks -> Hrows.
    destruct (mapM (cellFor listTitle listId None) finalHeaders) as [emptyRow|] eqn:Hrow;
      simpl in Hrows; [|done].
    injection Hrows as <-. exists listTitle, listId.
    split; [done|]. split; [done|]. split; [done|].
    intros [|k] row; simpl; [|done]. intros [= <-].
    by apply row_spec in Hrow. }
  destruct items as [items|]; [|by apply Hempty].
  destruct items as [| | | |tasks|]; try (by apply Hempty).
  destruct tasks as [|task tasks]; [by apply Hempty|].
  clear Hempty. intros Hrows. cbv beta match in Hrows. apply mapM_Some in Hrows.
  exists listTitle, listId. split; [done|]. split; [done|].
  split; [by rewrite <- (Forall2_length _ _ _ Hrows)|].
  intros k row Hk.
  destruct (Forall2_lookup_r _ _ _ _ _ Hrows Hk) as (t & Ht & Hrow).
  rewrite Ht. by apply row_spec in Hrow.
Qed.

Lemma rowsOfList_is_Some finalHeaders taskList :
  taskList ≠ JNull → JNull ∉ tasksOf taskList →
  is_Some (rowsOfList finalHeaders taskList).
Proof.
  intros Hlist Htasks. unfold rowsOfList. unfold tasksOf in Htasks.
  destruct (getMember taskList "title") as [listTitle|] eqn:Ht; cbn [mbind option_bind];
    [|by apply getMember_None in Ht].
  destruct (getMember taskList "id") as [listId|] eqn:Hi; cbn [mbind option_bind];
    [|by apply getMember_None in Hi].
  destruct (getMember taskList "items") as [items|] eqn:Hitems; cbn [mbind option_bind];
    [|by apply getMember_None in Hitems].
  assert (is_Some (emptyRow ← mapM (cellFor listTitle listId None) finalHeaders;
                   Some [emptyRow])) as Hempty.
  { destruct (mapM_is_Some_2 (cellFor listTitle listId None) finalHeaders) as [row ->];
      [|done].
    apply Forall_forall. intros header _. by apply cellFor_is_Some. }
  destruct items as [items|]; [|done].
  destruct items as [| | | |tasks|]; try done.
  destruct tasks as [|task tasks]; [done|].
  cbv beta match.
  apply mapM_is_Some_2, Forall_forall. intros t Hin. simpl.
  apply mapM_is_Some_2, Forall_forall. intros header _. simpl.
  apply cellFor_is_Some. intros [= ->]. done.
Qed.

Lemma sublist_of_filter {A} (f : A → bool) (l : list A) : sublist (List.filter f l) l.
Proof.
  induction l as [|x l IH]; simpl; [constructor|].
  destruct (f x); by constructor.
Qed.

Lemma finalHeaders_elem allHeaders header :
  header ∈ finalHeadersOf allHeaders ↔ header ∈ orderedHeaders ∧ header ∈ allHeaders.
Proof.
  unfold finalHeadersOf. rewrite !list_elem_of_In, List.filter_In.
  by rewrite bool_decide_eq_true.
Qed.

(** What a call that reaches [setValues] has computed. *)
Lemma import_written parsed outputData :
  importJsonToSheet parsed = Written outputData →
  ∃ data allHeaders rows,
    parsed = Some (JArray data) ∧ data ≠ []
    ∧ foldThrowing collectItem ∅ data = Some allHeaders
    ∧ finalHeadersOf allHeaders ≠ []
    ∧ Forall2 (fun taskList rs => rowsOfList (finalHeadersOf allHeaders) taskList = Some rs)
              data rows
    ∧ outputData
      = ((fun header => Some (JString header)) <$> finalHeadersOf allHeaders) :: mjoin rows.
Proof.
  unfold importJsonToSheet.
  destruct parsed as [[| | | |[|item items]|]|]; try done.
  unfold buildOutput.
  destruct (foldThrowing collectItem ∅ (item :: items)) as [allHeaders|] eqn:Hall;
    cbn [mbind option_bind]; [|done].
  destruct (mapM (rowsOfList (finalHeadersOf allHeaders)) (item :: items))
    as [rows|] eqn:Hrows; cbn [mbind option_bind]; [|done].
  destruct (bool_decide (finalHeadersOf allHeaders = [])) eqn:Hempty; [done|].
  intros [= <-]. exists (item :: items), allHeaders, rows.
  apply bool_decide_eq_false in Hempty. apply mapM_Some in Hrows.
  by repeat split.
Qed.

(** X21. When the import reaches [setValues], what it writes is a
    rectangle: a header row of at least one of the twelve known names, in
    their fixed order, and below it rows of that same width, one for each
    task and one for each list that has no task. *)
Theorem X21_import_writes_a_rectangle parsed outputData :
  importJsonToSheet parsed = Written outputData →
  ∃ data finalHeaders rows,
    parsed = Some (JArray data)
    ∧ outputData = ((fun header => Some (JString header)) <$> finalHeaders) :: rows
    ∧ finalHeaders ≠ []
    ∧ sublist finalHeaders orderedHeaders
    ∧ Forall (fun row => length row = length finalHeaders) rows
    ∧ length rows = recordCount data
    ∧ (1 ≤ length rows)%nat.
Proof.
  intros Hrun.
  destruct (import_written _ _ Hrun)
    as (data & allHeaders & rowss & -> & Hdata & Hall & Hne & Hrows & ->).
  exists data, (finalHeadersOf allHeaders), (mjoin rowss).
  split; [done|]. split; [done|]. split; [done|].
  split; [apply sublist_of_filter|].
  assert (Forall (fun row => length row = length (finalHeadersOf allHeaders)) (mjoin rowss)
          ∧ length (mjoin rowss) = recordCount data) as [Hwidth Hcount].
  { unfold recordCount. clear Hdata Hall Hne Hrun.
    induction Hrows as [|taskList rs data rowss Hrs _ [IHw IHc]]; [by split|].
    destruct (rowsOfList_spec _ _ _ Hrs) as (listTitle & listId & _ & _ & Hlen & Hrow).
    simpl. split.
    - apply Forall_app. split; [|done]. apply Forall_lookup.
      intros k row Hk. by apply Hrow in Hk as [? _].
    - rewrite length_app. simpl in IHc. by rewrite IHc, Hlen. }
  split; [done|]. split; [done|].
  eapply Nat.le_trans; [|apply Nat.eq_le_incl; symmetry; exact Hcount].
  unfold recordCount. destruct data as [|taskList data]; [done|]. simpl. lia.
Qed.

(** X22. The columns of an import are the known names that occur as
    member names: one of the twelve names heads a column exactly when
    some list of the data, or some task in the [items] of a list, has a
    member of that name. *)
Theorem X22_columns_are_the_member_names_known parsed outputData :
  importJsonToSheet parsed = Written outputData →
  ∃ data finalHeaders,
    parsed = Some (JArray data)
    ∧ head outputData = Some ((fun header => Some (JString header)) <$> finalHeaders)
    ∧ ∀ header, header ∈ finalHeaders
        ↔ header ∈ orderedHeaders ∧ ∃ v, v ∈ objectsOf data ∧ hasKey header v.
Proof.
  intros Hrun.
  destruct (import_written _ _ Hrun)
    as (data & allHeaders & rowss & -> & Hdata & Hall & Hne & Hrows & ->).
  exists data, (finalHeadersOf allHeaders). split; [done|]. split; [done|].
  intros header. rewrite finalHeaders_elem, (collect_elem _ _ _ header Hall).
  rewrite elem_of_empty. tauto.
Qed.

(** X23. The import clears the sheet before it looks at the entries.
    For a non-empty array it ends in the [catch] block, with the sheet
    cleared and nothing written, exactly when a list or a task is
    [null], or when no list and no task has a member with one of the
    twelve known names; in every other case it reaches [setValues]. *)
Theorem X23_import_fails_after_clearing data :
  data ≠ [] →
  (importJsonToSheet (Some (JArray data)) = Caught true
   ↔ JNull ∈ objectsOf data
     ∨ ∀ header, header ∈ orderedHeaders → ¬ ∃ v, v ∈ objectsOf data ∧ hasKey header v)
  ∧ (importJsonToSheet (Some (JArray data)) ≠ Caught true
     → ∃ outputData, importJsonToSheet (Some (JArray data)) = Written outputData).
Proof.
  intros Hdata. destruct data as [|item items]; [done|].
  unfold importJsonToSheet, buildOutput.
  destruct (foldThrowing collectItem ∅ (item :: items)) as [allHeaders|] eqn:Hall.
  2:{ cbn [mbind option_bind]. apply collect_None in Hall.
      split; [|done]. split; [by left|done]. }
  assert (JNull ∉ objectsOf (item :: items)) as Hnonull.
  { intros Hnull. apply (collect_None _ ∅) in Hnull. congruence. }
  cbn [mbind option_bind].
  destruct (mapM_is_Some_2 (rowsOfList (finalHeadersOf allHeaders)) (item :: items))
    as [rows Hrows].
  { apply Forall_forall. intros taskList Hin. simpl. apply rowsOfList_is_Some.
    - intros ->. apply Hnonull. unfold objectsOf. apply elem_of_app. by left.
    - intros Hnull. apply Hnonull. unfold objectsOf. apply elem_of_app. right.
      apply list_elem_of_join. exists (tasksOf taskList). split; [done|].
      by apply list_elem_of_fmap_2. }
  rewrite Hrows. cbn [mbind option_bind].
  destruct (bool_decide (finalHeadersOf allHeaders = [])) eqn:Hempty.
  - apply bool_decide_eq_true in Hempty. split; [|done]. split; [|done].
    intros _. right. intros header Hknown Hkey.
    assert (header ∈ finalHeadersOf allHeaders) as Hin.
    { apply finalHeaders_elem. split; [done|].
      apply (collect_elem _ _ _ header Hall). by right. }
    rewrite Hempty in Hin. by apply elem_of_nil in Hin.
  - apply bool_decide_eq_false in Hempty. split; [|by eexists]. split; [done|].
    intros [Hnull|Hnone]; [done|]. exfalso.
    destruct (finalHeadersOf allHeaders) as [|header rest] eqn:Hfinal; [done|].
    assert (header ∈ finalHeadersOf allHeaders) as Hin by (rewrite Hfinal; by left).
    apply finalHeaders_elem in Hin as [Hknown Hall'].
    apply (collect_elem _ _ _ header Hall) in Hall' as [Hin|Hkey].
    + by apply elem_of_empty in Hin.
    + by apply (Hnone header).
Qed.

(** X24. The rows of an import carry their lists: what is written
    below the header row is, list after list in the order of the data,
    one row for each task of the list, or one row for a list with no
    task; in every such row the [title] of the list stands under
    [list_title] and its [id] under [list_id], whatever the task holds
    under those names, and under any other header stands the member of
    that name of the task, or the empty string when the task has none or
    when the list has no task. *)
Theorem X24_rows_carry_their_list parsed outputData :
  importJsonToSheet parsed = Written outputData →
  ∃ data finalHeaders rows,
    parsed = Some (JArray data)
    ∧ outputData = ((fun header => Some (JString header)) <$> finalHeaders) :: mjoin rows
    ∧ Forall2 (RowsOf finalHeaders) data rows.
Proof.
  intros Hrun.
  destruct (import_written _ _ Hrun)
    as (data & allHeaders & rowss & -> & Hdata & Hall & Hne & Hrows & ->).
  exists data, (finalHeadersOf allHeaders), rowss.
  split; [done|]. split; [done|].
  eapply Forall2_impl; [exact Hrows|].
  intros taskList rows. apply rowsOfList_spec.
Qed.

Lemma headerMap_lookup_Some headers key col :
  SimpleExporter.headerMap headers !! key = Some col →
  ∃ header, header ∈ headers ∧ headerKey header = key.
Proof.
  unfold SimpleExporter.headerMap.
  induction headers as [|header headers IH] using rev_ind; [done|].
  rewrite headerMapFrom_snoc.
  destruct (decide (headerKey header = key)) as [Hkey|Hkey].
  - intros _. exists header. split; [|done]. apply elem_of_app. right. by left.
  - rewrite lookup_insert_ne by done. intros Hin.
    destruct (IH Hin) as (h & Hh & Hk). exists h. split; [|done].
    apply elem_of_app. by left.
Qed.

Lemma known_header_key header :
  header ∈ orderedHeaders → headerKey (CText header) = "list_title" → header = "list_title".
Proof.
  unfold orderedHeaders. rewrite !elem_of_cons, elem_of_nil.
  intros [->|[->|[->|[->|[->|[->|[->|[->|[->|[->|[->|[->|[]]]]]]]]]]]]];
    by vm_compute.
Qed.

Lemma header_row_inj (l1 l2 : list string) :
  (fun header => Some (JString header)) <$> l1
  = (fun header => Some (JString header)) <$> l2 → l1 = l2.
Proof.
  revert l2. induction l1 as [|h hs IH]; intros [|h' hs']; simpl; try done.
  intros [= -> Hrest]. f_equal. by apply IH.
Qed.

(** X25. A sheet written by the import from data in which no list and
    no task has a member named [list_title] cannot be exported: its
    header row has no [list_title], so that the batch pipeline finds no
    columns for it, which makes [continueProcess] give up, and the
    simple exporter finds no list column either. The title of a list is
    written only under that header, which the import makes only for a
    member of that very name. *)
Theorem X25_import_without_list_title_is_not_exportable parsed finalHeaders rows sheet rest :
  importJsonToSheet parsed
  = Written (((fun header => Some (JString header)) <$> finalHeaders) :: rows) →
  (∀ data v, parsed = Some (JArray data) → v ∈ objectsOf data → ¬ hasKey "list_title" v) →
  values sheet = (CText <$> finalHeaders) :: rest →
  columnsOf sheet = None
  ∧ SimpleExporter.getCol (SimpleExporter.headerMap (CText <$> finalHeaders)) "list_title"
    = None.
Proof.
  intros Hrun Hnokey Hvalues.
  destruct (import_written _ _ Hrun)
    as (data & allHeaders & rowss & -> & Hdata & Hall & Hne & Hrows & Hout).
  injection Hout as Hheaders _.
  apply header_row_inj in Hheaders as ->.
  assert ("list_title" ∉ finalHeadersOf allHeaders) as Hnot.
  { rewrite finalHeaders_elem, (collect_elem _ _ _ "list_title" Hall).
    intros [_ [Hin|(v & Hv & Hkey)]]; [by apply elem_of_empty in Hin|].
    by apply (Hnokey data v). }
  split.
  - unfold columnsOf. rewrite Hvalues.
    assert (indexOf (CText <$> finalHeadersOf allHeaders) "list_title" = None) as ->.
    { apply indexOf_None. intros Hin. apply list_elem_of_fmap in Hin as (h & [= <-] & Hh).
      done. }
    by destruct (indexOf _ "title").
  - unfold SimpleExporter.getCol.
    destruct (SimpleExporter.headerMap _ !! Str.toLowerCase "list_title")
      as [[|col]|] eqn:Hlook; [done| |done].
    exfalso. apply headerMap_lookup_Some in Hlook as (header & Hin & Hkey).
    apply list_elem_of_fmap in Hin as (h & -> & Hh).
    pose proof Hh as Hknown. apply finalHeaders_elem in Hknown as [Hknown _].
    apply known_header_key in Hkey; [|done]. by subst h.
Qed.

End Importing.

Lemma X21_witness :
  JsonImport.importJsonToSheet (Some (JArray ImportSamples.takeout))
  = JsonImport.Written ImportSamples.output
  ∧ ∃ data finalHeaders rows,
      Some (JArray ImportSamples.takeout) = Some (JArray data)
      ∧ ImportSamples.output = ((fun header => Some (JString header)) <$> finalHeaders) :: rows
      ∧ finalHeaders ≠ []
      ∧ sublist finalHeaders JsonImport.orderedHeaders
      ∧ Forall (fun row => length row = length finalHeaders) rows
      ∧ length rows = JsonImport.recordCount data
      ∧ (1 ≤ length rows)%nat.
Proof.
  split; [by vm_compute|].
  apply (X21_import_writes_a_rectangle (Some (JArray ImportSamples.takeout))
           ImportSamples.output).
  by vm_compute.
Defined.

Lemma X22_witness :
  JsonImport.importJsonToSheet (Some (JArray ImportSamples.takeout))
  = JsonImport.Written ImportSamples.output
  ∧ ∃ data finalHeaders,
      Some (JArray ImportSamples.takeout) = Some (JArray data)
      ∧ head ImportSamples.output
        = Some ((fun header => Some (JString header)) <$> finalHeaders)
      ∧ ∀ header, header ∈ finalHeaders
          ↔ header ∈ JsonImport.orderedHeaders
            ∧ ∃ v, v ∈ JsonImport.objectsOf data ∧ JsonImport.hasKey header v.
Proof.
  split; [by vm_compute|].
  apply (X22_columns_are_the_member_names_known (Some (JArray ImportSamples.takeout))
           ImportSamples.output).
  by vm_compute.
Defined.

Lemma X23_witness :
  ImportSamples.broken ≠ []
  ∧ (JsonImport.importJsonToSheet (Some (JArray ImportSamples.broken)) = JsonImport.Caught true
     ↔ JNull ∈ JsonImport.objectsOf ImportSamples.broken
       ∨ ∀ header, header ∈ JsonImport.orderedHeaders →
           ¬ ∃ v, v ∈ JsonImport.objectsOf ImportSamples.broken
                  ∧ JsonImport.hasKey header v)
  ∧ (JsonImport.importJsonToSheet (Some (JArray ImportSamples.broken))
     ≠ JsonImport.Caught true
     → ∃ outputData,
         JsonImport.importJsonToSheet (Some (JArray ImportSamples.broken))
         = JsonImport.Written outputData).
Proof.
  split; [done|].
  apply (X23_import_fails_after_clearing ImportSamples.broken). done.
Defined.

Lemma X24_witness :
  JsonImport.importJsonToSheet (Some (JArray ImportSamples.takeout))
  = JsonImport.Written ImportSamples.output
  ∧ ∃ data finalHeaders rows,
      Some (JArray ImportSamples.takeout) = Some (JArray data)
      ∧ ImportSamples.output
        = ((fun header => Some (JString header)) <$> finalHeaders) :: mjoin rows
      ∧ Forall2 (JsonImport.RowsOf finalHeaders) data rows.
Proof.
  split; [by vm_compute|].
  apply (X24_rows_carry_their_list (Some (JArray ImportSamples.takeout))
           ImportSamples.output).
  by vm_compute.
Defined.

Lemma X25_witness :
  JsonImport.importJsonToSheet (Some (JArray ImportSamples.takeout))
  = JsonImport.Written
      (((fun header => Some (JString header)) <$> ImportSamples.written)
       :: ImportSamples.workRows)
  ∧ values ImportSamples.sheet
    = (CText <$> ImportSamples.written) :: List.tl (values ImportSamples.sheet)
  ∧ columnsOf ImportSamples.sheet = None
  ∧ SimpleExporter.getCol
      (SimpleExporter.headerMap (CText <$> ImportSamples.written)) "list_title"
    = None.
Proof.
  split; [by vm_compute|]. split; [reflexivity|].
  apply (X25_import_without_list_title_is_not_exportable
           (Some (JArray ImportSamples.takeout)) ImportSamples.written
           ImportSamples.workRows ImportSamples.sheet
           (List.tl (values ImportSamples.sheet))).
  - by vm_compute.
  - intros data v [= <-] Hin (keys & Hkeys & Hkey).
    unfold JsonImport.objectsOf in Hin. simpl in Hin.
    rewrite !elem_of_cons, elem_of_nil in Hin.
    destruct Hin as [->|[->|[]]]; injection Hkeys as <-; simpl in Hkey;
      rewrite !elem_of_cons, elem_of_nil in Hkey;
      repeat (destruct Hkey as [Hkey|Hkey]; [discriminate Hkey|]); done.
  - reflexivity.
Defined.

(** * Properties of the all-sheets pipeline *)

Section AllSheetsRun.
Context {R : Type} {Srv : Services R}.

Lemma all_deleteLoop_spec l : ∀ pre (w : AllSheets.World R),
  AllSheets.triggers w = pre ++ l →
  Forall (fun t => isJob t = false) pre →
  foldr (fun trigger rest =>
           Script.bind (if String.eqb (handlerFunction trigger) SCRIPT_TRIGGER_HANDLER
                        then AllSheets.setTriggers (removeTrigger trigger)
                        else Script.ret tt) (fun _ => rest))
        (Script.ret tt) l w
  = (Ok tt,
     AllSheets.mkWorld (AllSheets.properties w)
       (pre ++ List.filter (fun t => negb (isJob t)) l)
       (AllSheets.sheets w) (AllSheets.remote w) (AllSheets.trace w)).
Proof.
  induction l as [|t l IH]; intros pre w Hw Hpre; simpl.
  - unfold Script.ret. rewrite <- Hw. by destruct w.
  - fold (isJob t). destruct (isJob t) eqn:Ht; simpl.
    + erewrite script_bind_ok; [|reflexivity].
      rewrite (IH pre); [done| |done].
      simpl. rewrite Hw. by apply removeTrigger_skip.
    + erewrite script_bind_ok; [|reflexivity].
      rewrite (IH (pre ++ [t])).
      * by rewrite <- app_assoc.
      * by rewrite <- app_assoc.
      * apply Forall_app. split; [done|]. by constructor.
Qed.

Lemma all_deleteExistingTriggers_spec (w : AllSheets.World R) :
  AllSheets.deleteExistingTriggers w
  = (Ok tt,
     AllSheets.mkWorld (AllSheets.properties w) (AllSheets.foreignTriggers w)
       (AllSheets.sheets w) (AllSheets.remote w) (AllSheets.trace w)).
Proof.
  unfold AllSheets.deleteExistingTriggers. erewrite script_bind_ok; [|reflexivity].
  by rewrite (all_deleteLoop_spec (AllSheets.triggers w) [] w).
Qed.

Lemma all_createTrigger_spec (w : AllSheets.World R) :
  AllSheets.createTrigger w
  = (Ok tt,
     AllSheets.mkWorld (AllSheets.properties w)
       (AllSheets.foreignTriggers w ++ [AllSheets.job])
       (AllSheets.sheets w) (AllSheets.remote w) (AllSheets.trace w)).
Proof.
  unfold AllSheets.createTrigger.
  erewrite script_bind_ok; [|apply all_deleteExistingTriggers_spec]. reflexivity.
Qed.

Lemma Kept_refl (w : AllSheets.World R) : AllSheets.Kept w w.
Proof. repeat split. exists []. by rewrite app_nil_r. Qed.

Lemma Kept_trans (w1 w2 w3 : AllSheets.World R) :
  AllSheets.Kept w1 w2 → AllSheets.Kept w2 w3 → AllSheets.Kept w1 w3.
Proof.
  intros (Hp1 & Ht1 & Hs1 & evs1 & He1) (Hp2 & Ht2 & Hs2 & evs2 & He2).
  split; [congruence|]. split; [congruence|]. split; [congruence|].
  exists (evs1 ++ evs2). by rewrite He2, He1, <- app_assoc.
Qed.

Lemma Kept_step (w : AllSheets.World R) r evs :
  AllSheets.Kept w
    (AllSheets.mkWorld (AllSheets.properties w) (AllSheets.triggers w)
       (AllSheets.sheets w) r (AllSheets.trace w ++ evs)).
Proof. repeat split. by exists evs. Qed.

Lemma all_resolver_total name (cache : Cache) (w : AllSheets.World R) :
  ∃ lid cache' w',
    AllSheets.getTaskListIdByName name cache w = (Ok (lid, cache'), w')
    ∧ AllSheets.Kept w w'.
Proof.
  unfold AllSheets.getTaskListIdByName.
  destruct (truthyStr (cache !! name)).
  { eexists _, _, _. split; [reflexivity|]. apply Kept_refl. }
  unfold Script.try_catch, Script.bind, AllSheets.call, AllSheets.Logger_log,
    AllSheets.emit, Script.ret.
  destruct (remote_insertList name (AllSheets.remote w)) as [[[id|]|] r1]; simpl.
  - destruct (Str.nonEmpty id); simpl;
      (eexists _, _, _; split; [reflexivity|]; repeat split; eexists; simpl;
       by rewrite <- ?app_assoc).
  - eexists _, _, _. split; [reflexivity|]. repeat split. eexists. simpl.
    by rewrite <- ?app_assoc.
  - destruct (remote_list r1) as [[items|] r2]; simpl.
    + destruct (findByTitle name (default [] items)); simpl;
        (eexists _, _, _; split; [reflexivity|]; repeat split; eexists; simpl;
         by rewrite <- ?app_assoc).
    + eexists _, _, _. split; [reflexivity|]. repeat split. eexists. simpl.
      by rewrite <- ?app_assoc.
Qed.

Lemma all_row_total cols n row st (w : AllSheets.World R) :
  ∃ st' w',
    AllSheets.processRow cols n row st w = (Ok st', w')
    ∧ AllSheets.Kept w w'.
Proof.
  unfold AllSheets.processRow.
  destruct (truthyStr (nextListTitle cols row (AllSheets.lastKnownListTitle st))) eqn:Hlk.
  2:{ rewrite ifTruthy_no; [|done]. eexists _, _. split; [reflexivity|].
      repeat split. by eexists. }
  destruct (truthyStr_Some _ Hlk) as (name & Hname & Hne).
  rewrite (ifTruthy_yes _ _ _ name); [|done..].
  destruct (truthyStr (finalTaskTitleOf cols row)) eqn:Httl.
  2:{ rewrite ifTruthy_no; [|done]. eexists _, _. split; [reflexivity|].
      repeat split. by eexists. }
  destruct (truthyStr_Some _ Httl) as (ttl & Hfinal & Hte).
  rewrite (ifTruthy_yes _ _ _ ttl); [|done..].
  destruct (Str.startsWith (Str.toLowerCase ttl) "list:").
  { eexists _, _. split; [reflexivity|]. repeat split. by eexists. }
  destruct (all_resolver_total name (AllSheets.taskListCache st) w)
    as (lid & cache' & w1 & Hres & Hkept).
  erewrite script_bind_ok; [|exact Hres]. cbv beta iota.
  destruct (truthyStr lid) eqn:Hlid.
  2:{ rewrite ifTruthy_no; [|done]. eexists _, _. split; [reflexivity|].
      eapply Kept_trans; [exact Hkept|]. repeat split. by eexists. }
  destruct (truthyStr_Some _ Hlid) as (id & -> & Hide).
  rewrite (ifTruthy_yes _ _ _ id); [|done..].
  unfold Script.try_catch, Script.bind, AllSheets.call, AllSheets.Logger_log,
    AllSheets.emit, Script.ret.
  destruct (remote_insertTask _ id (AllSheets.remote w1)) as [[[]|] r2]; simpl;
    (eexists _, _; split; [reflexivity|]; eapply Kept_trans; [exact Hkept|];
     repeat split; eexists; simpl; by rewrite <- ?app_assoc).
Qed.

Lemma all_loop_total cols data : ∀ n st (w : AllSheets.World R),
  ∃ st' w',
    AllSheets.forEachRow cols n data st w = (Ok st', w')
    ∧ AllSheets.Kept w w'.
Proof.
  induction data as [|row data IH]; intros n st w; simpl.
  - eexists _, _. split; [reflexivity|]. apply Kept_refl.
  - destruct (all_row_total cols n row st w) as (st1 & w1 & Hrow & Hk1).
    destruct (IH (n + 1) st1 w1) as (st' & w' & Hloop & Hk).
    exists st', w'. split; [by erewrite script_bind_ok|]. by eapply Kept_trans.
Qed.

Lemma all_refresh_total (cache : Cache) (w : AllSheets.World R) :
  ∃ cache' r evs,
    AllSheets.refreshFromRemote cache w
    = (Ok cache',
       AllSheets.mkWorld (AllSheets.properties w) (AllSheets.triggers w)
         (AllSheets.sheets w) r (AllSheets.trace w ++ AllSheets.ETasklistsList :: evs))
    ∧ (evs = [] ∨ evs = [AllSheets.ELog AllSheets.LogCacheRefreshFailed]).
Proof.
  unfold AllSheets.refreshFromRemote, Script.try_catch, Script.bind, AllSheets.call,
    AllSheets.Logger_log, AllSheets.emit, Script.ret.
  destruct (remote_list (AllSheets.remote w)) as [[items|] r1]; simpl.
  - eexists _, _, []. split; [reflexivity|by left].
  - eexists _, _, [_]. rewrite <- app_assoc. split; [reflexivity|by right].
Qed.

(** What an invocation does, case by case. *)
Lemma all_continue_spec b (w : AllSheets.World R) :
  AllSheets.continueProcessWith b w
  = if Z.of_nat (length (AllSheets.sheets w)) <=? AllSheets.sheetIndex w then
      (Ok tt, AllSheets.leave AllSheets.noProps false AllSheets.LogAllDone w)
    else
      match AllSheets.currentSheet w with
      | None => (Exn, w)
      | Some sheet =>
          if AllSheets.cursor w >? getLastRow sheet then
            (Ok tt,
             AllSheets.leave
               (AllSheets.mkProps None (Some (AllSheets.sheetIndex w + 1))
                  (AllSheets.prop_CACHE (AllSheets.properties w)) None)
               true (AllSheets.LogSheetDone (sheetName sheet)) w)
          else
            match AllSheets.refreshFromRemote
                    (default ∅ (AllSheets.prop_CACHE (AllSheets.properties w)))
                    (AllSheets.logged
                       [AllSheets.ELog
                          (AllSheets.LogStarting (sheetName sheet) (AllSheets.cursor w))] w)
            with
            | (Exn, w1) => (Exn, w1)
            | (Ok cache0, w1) =>
                if getLastColumn sheet <? 1 then (Exn, w1)
                else
                  match columnsOf sheet with
                  | None =>
                      (Ok tt,
                       AllSheets.leave
                         (AllSheets.mkProps None (Some (AllSheets.sheetIndex w + 1))
                            (AllSheets.prop_CACHE (AllSheets.properties w1))
                            (AllSheets.prop_LIST (AllSheets.properties w1)))
                         true (AllSheets.LogMissingHeaders (sheetName sheet)) w1)
                  | Some cols =>
                      if (AllSheets.cursor w <? 1)
                         || (rowsToProcess sheet (AllSheets.cursor w) b <? 1)
                      then (Exn, w1)
                      else
                        match AllSheets.forEachRow cols (AllSheets.cursor w)
                                (batchData sheet (AllSheets.cursor w) b)
                                (AllSheets.mkLocals cache0 (AllSheets.loadedListTitle w))
                                w1 with
                        | (Exn, w2) => (Exn, w2)
                        | (Ok st, w2) =>
                            (Ok tt,
                             AllSheets.leave
                               (AllSheets.checkpointAfter
                                  (AllSheets.cursor w
                                   + rowsToProcess sheet (AllSheets.cursor w) b)
                                  (AllSheets.sheetIndex w) st (AllSheets.properties w2))
                               true
                               (AllSheets.LogBatchDone
                                  (AllSheets.cursor w
                                   + rowsToProcess sheet (AllSheets.cursor w) b))
                               w2)
                        end
                  end
            end
      end.
Proof.
  unfold AllSheets.continueProcessWith.
  do 3 (erewrite script_bind_ok; [|reflexivity]).
  fold (AllSheets.sheetIndex w). fold (AllSheets.cursor w).
  destruct (Z.of_nat (length (AllSheets.sheets w)) <=? AllSheets.sheetIndex w).
  { do 5 (erewrite script_bind_ok; [|reflexivity]).
    rewrite all_deleteExistingTriggers_spec. unfold AllSheets.leave. simpl.
    by rewrite app_nil_r. }
  fold (AllSheets.currentSheet w).
  destruct (AllSheets.currentSheet w) as [sheet|]; [|done].
  destruct (AllSheets.cursor w >? getLastRow sheet).
  { do 4 (erewrite script_bind_ok; [|reflexivity]).
    rewrite all_createTrigger_spec. reflexivity. }
  do 3 (erewrite script_bind_ok; [|reflexivity]).
  cbn [AllSheets.properties].
  fold (AllSheets.logged
          [AllSheets.ELog (AllSheets.LogStarting (sheetName sheet) (AllSheets.cursor w))] w).
  destruct (all_refresh_total (default ∅ (AllSheets.prop_CACHE (AllSheets.properties w)))
              (AllSheets.logged
                 [AllSheets.ELog
                    (AllSheets.LogStarting (sheetName sheet) (AllSheets.cursor w))] w))
    as (cache0 & r1 & evs & Hrefresh & _).
  rewrite Hrefresh. erewrite script_bind_ok; [|exact Hrefresh].
  destruct (getLastColumn sheet <? 1); [done|].
  unfold columnsOf.
  destruct (values sheet) as [|headers rest] eqn:Hvalues.
  { simpl. do 3 (erewrite script_bind_ok; [|reflexivity]).
    rewrite all_createTrigger_spec. reflexivity. }
  destruct (indexOf headers "title") as [titleIndex|].
  2:{ do 3 (erewrite script_bind_ok; [|reflexivity]).
      rewrite all_createTrigger_spec. reflexivity. }
  destruct (indexOf headers "list_title") as [listTitleIndex|].
  2:{ do 3 (erewrite script_bind_ok; [|reflexivity]).
      rewrite all_createTrigger_spec. reflexivity. }
  fold (rowsToProcess sheet (AllSheets.cursor w) b).
  destruct ((AllSheets.cursor w <? 1) || (rowsToProcess sheet (AllSheets.cursor w) b <? 1));
    [done|].
  rewrite <- Hvalues. fold (batchData sheet (AllSheets.cursor w) b).
  fold (AllSheets.loadedListTitle w).
  match goal with |- context [AllSheets.forEachRow ?cols ?n ?data ?st ?w1] =>
    destruct (all_loop_total cols data n st w1) as (st' & w2 & Hloop & _) end.
  erewrite script_bind_ok; [|exact Hloop]. rewrite Hloop.
  unfold AllSheets.persistBatch.
  do 3 (erewrite script_bind_ok; [|reflexivity]).
  unfold AllSheets.checkpointAfter, AllSheets.leave.
  destruct (AllSheets.lastKnownListTitle st') as [title|] eqn:Htitle; simpl.
  - destruct (Str.nonEmpty title) eqn:Hne.
    + do 1 (erewrite script_bind_ok; [|reflexivity]).
      erewrite script_bind_ok; [|apply all_createTrigger_spec]. reflexivity.
    + do 1 (erewrite script_bind_ok; [|reflexivity]).
      erewrite script_bind_ok; [|apply all_createTrigger_spec]. reflexivity.
  - do 1 (erewrite script_bind_ok; [|reflexivity]).
    erewrite script_bind_ok; [|apply all_createTrigger_spec]. reflexivity.
Qed.

Lemma currentSheet_in_range (w : AllSheets.World R) sheet :
  AllSheets.currentSheet w = Some sheet →
  (Z.of_nat (length (AllSheets.sheets w)) <=? AllSheets.sheetIndex w) = false.
Proof.
  unfold AllSheets.currentSheet, AllSheets.sheetAt.
  destruct (AllSheets.sheetIndex w <? 0) eqn:Hneg; [done|].
  intros Hat. apply lookup_lt_Some in Hat. apply Z.ltb_ge in Hneg.
  apply Z.leb_gt. lia.
Qed.

(** X26. In the all-sheets script, when the cursor is past the last row
    of the sheet at hand, an invocation moves to the next sheet and
    starts it afresh: the sheet index goes up by one, the cursor and the
    stored list title are deleted, so that the next invocation starts at
    row 2 with no list in effect, while the cache of list ids is kept;
    the handler is scheduled once more and the task service is not
    called. *)
Theorem X26_all_sheets_next_sheet_starts_afresh b (w : AllSheets.World R) sheet :
  AllSheets.currentSheet w = Some sheet →
  getLastRow sheet < AllSheets.cursor w →
  ∃ w',
    AllSheets.continueProcessWith b w = (Ok tt, w')
    ∧ AllSheets.properties w'
      = AllSheets.mkProps None (Some (AllSheets.sheetIndex w + 1))
          (AllSheets.prop_CACHE (AllSheets.properties w)) None
    ∧ AllSheets.sheetIndex w' = AllSheets.sheetIndex w + 1
    ∧ AllSheets.cursor w' = 2
    ∧ AllSheets.loadedListTitle w' = None
    ∧ AllSheets.triggers w' = AllSheets.foreignTriggers w ++ [AllSheets.job]
    ∧ AllSheets.sheets w' = AllSheets.sheets w
    ∧ AllSheets.remote w' = AllSheets.remote w
    ∧ AllSheets.trace w'
      = AllSheets.trace w ++ [AllSheets.ELog (AllSheets.LogSheetDone (sheetName sheet))].
Proof.
  intros Hsheet Hpast. rewrite all_continue_spec.
  rewrite (currentSheet_in_range _ _ Hsheet), Hsheet.
  assert ((AllSheets.cursor w >? getLastRow sheet) = true) as ->
    by (rewrite Z.gtb_ltb; apply Z.ltb_lt; lia).
  eexists. split; [reflexivity|]. by repeat split.
Qed.

(** X27. In the all-sheets script a sheet that has rows left but lacks
    a required header does not end the run, as it does in the
    single-sheet script: the invocation refreshes the cache, reads no
    data row and creates nothing, moves the sheet index up by one,
    deletes the cursor and schedules the handler once more. *)
Theorem X27_all_sheets_skip_sheet_without_headers b (w : AllSheets.World R) sheet :
  AllSheets.currentSheet w = Some sheet →
  AllSheets.cursor w ≤ getLastRow sheet →
  1 ≤ getLastColumn sheet →
  columnsOf sheet = None →
  ∃ w' mid,
    AllSheets.continueProcessWith b w = (Ok tt, w')
    ∧ AllSheets.properties w'
      = AllSheets.mkProps None (Some (AllSheets.sheetIndex w + 1))
          (AllSheets.prop_CACHE (AllSheets.properties w))
          (AllSheets.prop_LIST (AllSheets.properties w))
    ∧ AllSheets.triggers w' = AllSheets.foreignTriggers w ++ [AllSheets.job]
    ∧ AllSheets.sheets w' = AllSheets.sheets w
    ∧ AllSheets.trace w'
      = AllSheets.trace w
        ++ [AllSheets.ELog (AllSheets.LogStarting (sheetName sheet) (AllSheets.cursor w));
            AllSheets.ETasklistsList]
        ++ mid ++ [AllSheets.ELog (AllSheets.LogMissingHeaders (sheetName sheet))]
    ∧ (mid = [] ∨ mid = [AllSheets.ELog AllSheets.LogCacheRefreshFailed]).
Proof.
  intros Hsheet Hleft Hcolumn Hcols. rewrite all_continue_spec.
  rewrite (currentSheet_in_range _ _ Hsheet), Hsheet.
  assert ((AllSheets.cursor w >? getLastRow sheet) = false) as ->
    by (rewrite Z.gtb_ltb; apply Z.ltb_ge; lia).
  destruct (all_refresh_total (default ∅ (AllSheets.prop_CACHE (AllSheets.properties w)))
              (AllSheets.logged
                 [AllSheets.ELog
                    (AllSheets.LogStarting (sheetName sheet) (AllSheets.cursor w))] w))
    as (cache0 & r1 & mid & -> & Hmid).
  assert ((getLastColumn sheet <? 1) = false) as -> by (apply Z.ltb_ge; lia).
  rewrite Hcols. eexists _, mid. split; [reflexivity|].
  unfold AllSheets.leave, AllSheets.foreignTriggers. simpl.
  repeat split; try done. by rewrite <- !app_assoc.
Qed.

(** X28. In the all-sheets script, whatever the task service answers,
    a batch over a sheet that has its headers and rows left returns
    normally with its checkpoint written: the cursor has moved forward by
    the rows of the batch and is at most one past the last row, the
    sheet index is stored as it was, so that the next invocation works
    on the same sheet, and the handler is scheduled exactly once. *)
Theorem X28_all_sheets_batch_checkpoints b (w : AllSheets.World R) sheet cols :
  AllSheets.currentSheet w = Some sheet →
  columnsOf sheet = Some cols →
  1 ≤ AllSheets.cursor w ≤ getLastRow sheet →
  1 ≤ b →
  ∃ w',
    AllSheets.continueProcessWith b w = (Ok tt, w')
    ∧ AllSheets.prop_ROW (AllSheets.properties w')
      = Some (AllSheets.cursor w + rowsToProcess sheet (AllSheets.cursor w) b)
    ∧ AllSheets.cursor w < AllSheets.cursor w' ≤ getLastRow sheet + 1
    ∧ AllSheets.prop_SHEET (AllSheets.properties w') = Some (AllSheets.sheetIndex w)
    ∧ AllSheets.currentSheet w' = Some sheet
    ∧ AllSheets.triggers w' = AllSheets.foreignTriggers w ++ [AllSheets.job]
    ∧ AllSheets.sheets w' = AllSheets.sheets w.
Proof.
  intros Hsheet Hcols [Hlow Hhigh] Hb. rewrite all_continue_spec.
  rewrite (currentSheet_in_range _ _ Hsheet), Hsheet.
  assert ((AllSheets.cursor w >? getLastRow sheet) = false) as ->
    by (rewrite Z.gtb_ltb; apply Z.ltb_ge; lia).
  destruct (all_refresh_total (default ∅ (AllSheets.prop_CACHE (AllSheets.properties w)))
              (AllSheets.logged
                 [AllSheets.ELog
                    (AllSheets.LogStarting (sheetName sheet) (AllSheets.cursor w))] w))
    as (cache0 & r1 & mid & -> & Hmid).
  destruct (columnsOf_headers _ _ Hcols) as (headers & rest & _ & _ & _ & _ & ->).
  rewrite Hcols.
  assert (1 ≤ rowsToProcess sheet (AllSheets.cursor w) b
          ≤ getLastRow sheet - AllSheets.cursor w + 1) as [Hn1 Hn2]
    by (unfold rowsToProcess; lia).
  assert (((AllSheets.cursor w <? 1)
           || (rowsToProcess sheet (AllSheets.cursor w) b <? 1)) = false) as ->.
  { apply orb_false_iff. split; apply Z.ltb_ge; lia. }
  match goal with |- context [AllSheets.forEachRow ?cols ?n ?data ?st ?w1] =>
    destruct (all_loop_total cols data n st w1)
      as (st' & w2 & -> & Hp & Ht & Hs & _) end.
  eexists. split; [reflexivity|].
  unfold AllSheets.leave, AllSheets.foreignTriggers, AllSheets.currentSheet,
    AllSheets.sheetIndex, AllSheets.cursor. simpl.
  fold (AllSheets.cursor w). fold (AllSheets.sheetIndex w).
  split; [done|]. split.
  { destruct (AllSheets.cursor w + rowsToProcess sheet (AllSheets.cursor w) b =? 0) eqn:Hz;
      [apply Z.eqb_eq in Hz|]; lia. }
  split; [done|]. split; [by rewrite Hs|]. split; [by rewrite Ht|]. exact Hs.
Qed.

Lemma all_startRowOf_checkpointed (w : AllSheets.World R) :
  AllSheets.Checkpointed w → 2 ≤ AllSheets.cursor w.
Proof.
  unfold AllSheets.Checkpointed, AllSheets.cursor, startRowOf.
  destruct (AllSheets.prop_ROW (AllSheets.properties w)) as [row|]; [|lia].
  intros Hrow. destruct (Hrow row eq_refl) as [Hge _].
  destruct (row =? 0) eqn:Hz; [apply Z.eqb_eq in Hz|]; lia.
Qed.

Lemma all_invariant_ext (w w' : AllSheets.World R) :
  AllSheets.properties w' = AllSheets.properties w →
  AllSheets.sheets w' = AllSheets.sheets w →
  AllSheets.FreshAtTop w ∧ AllSheets.Checkpointed w →
  AllSheets.FreshAtTop w' ∧ AllSheets.Checkpointed w'.
Proof.
  unfold AllSheets.FreshAtTop, AllSheets.Checkpointed, AllSheets.currentSheet,
    AllSheets.sheetIndex.
  by intros -> ->.
Qed.

(** An invocation keeps the sheets, and the two facts about the stored
    cursor. *)
Lemma all_invariant_step b (w : AllSheets.World R) :
  AllSheets.FreshAtTop w ∧ AllSheets.Checkpointed w →
  AllSheets.FreshAtTop (snd (AllSheets.continueProcessWith b w))
  ∧ AllSheets.Checkpointed (snd (AllSheets.continueProcessWith b w)).
Proof.
  intros Hinv. pose proof Hinv as [Hfresh Hcheck].
  rewrite all_continue_spec.
  destruct (Z.of_nat (length (AllSheets.sheets w)) <=? AllSheets.sheetIndex w).
  { split; [done|]. by intros row. }
  destruct (AllSheets.currentSheet w) as [sheet|] eqn:Hsheet; [|done].
  destruct (AllSheets.cursor w >? getLastRow sheet).
  { split; [done|]. by intros row. }
  destruct (all_refresh_total (default ∅ (AllSheets.prop_CACHE (AllSheets.properties w)))
              (AllSheets.logged
                 [AllSheets.ELog
                    (AllSheets.LogStarting (sheetName sheet) (AllSheets.cursor w))] w))
    as (cache0 & r1 & mid & -> & _).
  set (w1 := AllSheets.mkWorld _ _ _ r1 _).
  assert (AllSheets.FreshAtTop w1 ∧ AllSheets.Checkpointed w1) as Hinv1
    by (by apply (all_invariant_ext w w1)).
  destruct (getLastColumn sheet <? 1); [exact Hinv1|].
  destruct (columnsOf sheet) as [cols|] eqn:Hcols.
  2:{ split; [|by intros row]. intros _. simpl.
      destruct (AllSheets.prop_ROW (AllSheets.properties w)) as [row|] eqn:Hrow.
      - destruct (Hcheck row Hrow) as (_ & sheet' & cols' & Hsheet' & Hcols').
        congruence.
      - by apply Hfresh. }
  destruct ((AllSheets.cursor w <? 1) || (rowsToProcess sheet (AllSheets.cursor w) b <? 1))
    eqn:Hguard; [exact Hinv1|].
  apply orb_false_iff in Hguard as [_ Hrows]. apply Z.ltb_ge in Hrows.
  pose proof (all_startRowOf_checkpointed w Hcheck) as Hcursor.
  match goal with |- context [AllSheets.forEachRow ?cols ?n ?data ?st ?w1] =>
    destruct (all_loop_total cols data n st w1)
      as (st' & w2 & -> & Hp & Ht & Hs & _) end.
  split; [done|]. intros row. simpl. intros [= <-]. split; [lia|].
  exists sheet, cols. split; [|done].
  unfold AllSheets.currentSheet, AllSheets.sheetIndex. simpl. by rewrite Hs.
Qed.

(** X29. In a run of the all-sheets script no list name is carried
    from one sheet into the next: after any number of invocations from
    the menu entry, with batches of any sizes and whatever the task
    service answers, a cursor at the top of a sheet goes with no stored
    list title, so that the rows of a sheet that come before its first
    [list_title] are skipped. *)
Theorem X29_all_sheets_no_list_carried_over sizes n (w : AllSheets.World R) :
  AllSheets.FreshAtTop (AllSheets.invocations sizes n (AllSheets.startedWorld w))
  ∧ (AllSheets.prop_ROW
       (AllSheets.properties (AllSheets.invocations sizes n (AllSheets.startedWorld w)))
     = None →
     AllSheets.cursor (AllSheets.invocations sizes n (AllSheets.startedWorld w)) = 2
     ∧ AllSheets.loadedListTitle
         (AllSheets.invocations sizes n (AllSheets.startedWorld w)) = None).
Proof.
  assert (AllSheets.FreshAtTop (AllSheets.invocations sizes n (AllSheets.startedWorld w))
          ∧ AllSheets.Checkpointed
              (AllSheets.invocations sizes n (AllSheets.startedWorld w))) as [Hfresh _].
  { induction n as [|n IH]; simpl.
    - split; [done|]. by intros row.
    - by apply all_invariant_step. }
  split; [done|]. intros Hrow.
  unfold AllSheets.cursor, AllSheets.loadedListTitle. by rewrite Hrow, (Hfresh Hrow).
Qed.

Lemma costFrom_at allSheets index sheet :
  0 ≤ index → allSheets !! Z.to_nat index = Some sheet →
  AllSheets.costFrom allSheets index
  = AllSheets.sheetCost sheet + AllSheets.costFrom allSheets (index + 1).
Proof.
  intros Hindex Hat. unfold AllSheets.costFrom.
  rewrite (drop_S _ _ _ Hat). simpl.
  by replace (Z.to_nat (index + 1)) with (S (Z.to_nat index)) by lia.
Qed.

Lemma costFrom_beyond allSheets index :
  Z.of_nat (length allSheets) ≤ index → AllSheets.costFrom allSheets index = 0.
Proof.
  intros Hge. unfold AllSheets.costFrom. rewrite drop_ge; [done|]. lia.
Qed.

Lemma costFrom_nonneg allSheets index : 0 ≤ AllSheets.costFrom allSheets index.
Proof.
  unfold AllSheets.costFrom. generalize (drop (Z.to_nat index) allSheets).
  intros l. induction l as [|sheet l IH]; simpl; [lia|].
  apply Z.add_nonneg_nonneg; [unfold AllSheets.sheetCost; lia|exact IH].
Qed.

Lemma foreign_of_rescheduled (l : list Trigger) :
  List.filter (fun t => negb (isJob t))
    (List.filter (fun t => negb (isJob t)) l ++ [AllSheets.job])
  = List.filter (fun t => negb (isJob t)) l.
Proof.
  rewrite foreign_app_jobs; [apply filter_foreign_idem|]. by repeat constructor.
Qed.

Lemma leave_foreign p m (w : AllSheets.World R) :
  AllSheets.foreignTriggers (AllSheets.leave p true m w) = AllSheets.foreignTriggers w.
Proof.
  unfold AllSheets.foreignTriggers, AllSheets.leave. simpl.
  apply foreign_of_rescheduled.
Qed.

Lemma currentSheet_Some_at (w : AllSheets.World R) sheet :
  AllSheets.currentSheet w = Some sheet →
  0 ≤ AllSheets.sheetIndex w
  ∧ AllSheets.sheets w !! Z.to_nat (AllSheets.sheetIndex w) = Some sheet.
Proof.
  unfold AllSheets.currentSheet, AllSheets.sheetAt.
  destruct (AllSheets.sheetIndex w <? 0) eqn:Hneg; [done|].
  apply Z.ltb_ge in Hneg. by split.
Qed.

(** One invocation of a run that is on track: it returns, and either
    the run is finished or it is on track with less left to do. *)
Lemma all_run_step b (w0 w : AllSheets.World R) :
  1 ≤ b →
  Forall AllSheets.WellFormed (AllSheets.sheets w0) →
  AllSheets.OnTrack w0 w →
  ∃ w',
    AllSheets.continueProcessWith b w = (Ok tt, w')
    ∧ 1 ≤ AllSheets.remaining w
    ∧ (AllSheets.Finished w0 w'
       ∨ (AllSheets.OnTrack w0 w'
          ∧ AllSheets.triggers w' = AllSheets.foreignTriggers w0 ++ [AllSheets.job]
          ∧ AllSheets.remaining w' < AllSheets.remaining w)).
Proof.
  intros Hb Hwf (Hsheets & Hforeign & Hindex & Hcursor & Hbound & Hend).
  rewrite all_continue_spec.
  destruct (Z.of_nat (length (AllSheets.sheets w)) <=? AllSheets.sheetIndex w) eqn:Hdone.
  { apply Z.leb_le in Hdone. eexists. split; [reflexivity|]. split.
    - unfold AllSheets.remaining. rewrite costFrom_beyond, (Hend Hdone); [lia|done].
    - left. unfold AllSheets.Finished, AllSheets.leave. simpl.
      rewrite app_nil_r, last_snoc. by rewrite <- Hforeign. }
  apply Z.leb_gt in Hdone.
  assert (is_Some (AllSheets.sheets w !! Z.to_nat (AllSheets.sheetIndex w))) as [sheet Hat].
  { apply lookup_lt_is_Some. lia. }
  assert (AllSheets.currentSheet w = Some sheet) as Hsheet.
  { unfold AllSheets.currentSheet, AllSheets.sheetAt.
    by assert ((AllSheets.sheetIndex w <? 0) = false) as -> by (apply Z.ltb_ge; lia). }
  rewrite Hsheet. specialize (Hbound sheet Hsheet).
  pose proof (costFrom_at _ _ _ Hindex Hat) as Hcost.
  pose proof (costFrom_nonneg (AllSheets.sheets w) (AllSheets.sheetIndex w + 1)) as Hnn.
  assert (1 ≤ AllSheets.remaining w) as Hleft.
  { unfold AllSheets.remaining. rewrite Hcost. unfold AllSheets.sheetCost. lia. }
  assert (∀ p m (w2 : AllSheets.World R),
    AllSheets.sheets w2 = AllSheets.sheets w →
    AllSheets.triggers w2 = AllSheets.triggers w →
    AllSheets.prop_ROW p = None →
    AllSheets.prop_SHEET p = Some (AllSheets.sheetIndex w + 1) →
    AllSheets.OnTrack w0 (AllSheets.leave p true m w2)
    ∧ AllSheets.triggers (AllSheets.leave p true m w2)
      = AllSheets.foreignTriggers w0 ++ [AllSheets.job]
    ∧ AllSheets.remaining (AllSheets.leave p true m w2) < AllSheets.remaining w) as Hnext.
  { intros p m w2 Hs2 Ht2 Hrow Hidx.
    assert (AllSheets.foreignTriggers w2 = AllSheets.foreignTriggers w0) as Hf2
      by (unfold AllSheets.foreignTriggers in *; by rewrite Ht2).
    unfold AllSheets.OnTrack, AllSheets.remaining,
      AllSheets.currentSheet, AllSheets.sheetIndex, AllSheets.cursor.
    rewrite leave_foreign. unfold AllSheets.leave.
    cbn [AllSheets.properties AllSheets.sheets AllSheets.triggers].
    rewrite Hrow, Hidx. simpl. fold (AllSheets.sheetIndex w).
    rewrite Hs2, Hf2. split; [|split; [done|]].
    - split; [done|]. split; [done|]. split; [lia|]. split; [lia|].
      split; [intros; lia|]. done.
    - fold (AllSheets.cursor w). rewrite Hcost. unfold AllSheets.sheetCost. lia. }
  destruct (AllSheets.cursor w >? getLastRow sheet) eqn:Hpast.
  { eexists. split; [reflexivity|]. split; [done|]. right. by apply Hnext. }
  rewrite Z.gtb_ltb in Hpast. apply Z.ltb_ge in Hpast.
  destruct (all_refresh_total (default ∅ (AllSheets.prop_CACHE (AllSheets.properties w)))
              (AllSheets.logged
                 [AllSheets.ELog
                    (AllSheets.LogStarting (sheetName sheet) (AllSheets.cursor w))] w))
    as (cache0 & r1 & mid & -> & _).
  assert ((getLastColumn sheet <? 1) = false) as ->.
  { apply Z.ltb_ge. rewrite Forall_forall in Hwf. apply Hwf; [|lia].
    rewrite <- Hsheets. by eapply list_elem_of_lookup_2. }
  destruct (columnsOf sheet) as [cols|] eqn:Hcols.
  2:{ eexists. split; [reflexivity|]. split; [done|]. right. by apply Hnext. }
  assert (1 ≤ rowsToProcess sheet (AllSheets.cursor w) b
          ≤ getLastRow sheet - AllSheets.cursor w + 1) as [Hn1 Hn2]
    by (unfold rowsToProcess; lia).
  assert (((AllSheets.cursor w <? 1)
           || (rowsToProcess sheet (AllSheets.cursor w) b <? 1)) = false) as ->.
  { apply orb_false_iff. split; apply Z.ltb_ge; lia. }
  match goal with |- context [AllSheets.forEachRow ?cols ?n ?data ?st ?w1] =>
    destruct (all_loop_total cols data n st w1)
      as (st' & w2 & -> & Hp & Ht & Hs & _) end.
  simpl in Hp, Ht, Hs.
  eexists. split; [reflexivity|]. split; [done|]. right.
  assert (AllSheets.foreignTriggers w2 = AllSheets.foreignTriggers w0) as Hf2
    by (unfold AllSheets.foreignTriggers in *; by rewrite Ht).
  set (next := AllSheets.cursor w + rowsToProcess sheet (AllSheets.cursor w) b).
  assert (startRowOf (Some next) = next) as Hnextrow.
  { unfold startRowOf. destruct (next =? 0) eqn:Hz; [apply Z.eqb_eq in Hz|]; [|done].
    unfold next in Hz. lia. }
  unfold AllSheets.OnTrack, AllSheets.remaining,
    AllSheets.currentSheet, AllSheets.sheetIndex, AllSheets.cursor.
  rewrite leave_foreign. unfold AllSheets.leave, AllSheets.checkpointAfter.
  cbn [AllSheets.properties AllSheets.sheets AllSheets.triggers
       AllSheets.prop_ROW AllSheets.prop_SHEET].
  fold next. rewrite Hnextrow. simpl AllSheets.sheetIndexOf.
  fold (AllSheets.sheetIndex w). fold (AllSheets.cursor w).
  rewrite Hs, Hf2. fold (AllSheets.currentSheet w). rewrite Hsheet.
  split; [|split; [done|unfold next; lia]].
  split; [done|]. split; [done|]. split; [done|]. split; [unfold next; lia|].
  split; [intros sheet' [= <-]; unfold next; lia|]. lia.
Qed.

Lemma all_fire_finishes sizes (w0 : AllSheets.World R) :
  (∀ j, 1 ≤ sizes j) →
  Forall AllSheets.WellFormed (AllSheets.sheets w0) →
  ∀ fuel i w,
    (AllSheets.Finished w0 w
     ∨ (AllSheets.OnTrack w0 w
        ∧ AllSheets.triggers w = AllSheets.foreignTriggers w0 ++ [AllSheets.job]
        ∧ AllSheets.remaining w ≤ Z.of_nat fuel)) →
    AllSheets.Finished w0 (AllSheets.fire fuel sizes i w).
Proof.
  intros Hsizes Hwf. induction fuel as [|fuel IH]; intros i w Hstate.
  - destruct Hstate as [Hfin|(Htrack & _ & Hleft)]; [done|].
    destruct (all_run_step (sizes i) w0 w (Hsizes i) Hwf Htrack) as (_ & _ & Hge & _).
    simpl in Hleft. lia.
  - simpl. destruct Hstate as [Hfin|(Htrack & Htrig & Hleft)].
    + destruct Hfin as (Hp & Ht & Hs & Hl). rewrite Ht.
      unfold AllSheets.foreignTriggers.
      assert (existsb isJob (List.filter (fun t => negb (isJob t)) (AllSheets.triggers w0))
              = false) as ->; [|done].
      induction (AllSheets.triggers w0) as [|t l IHl]; simpl; [done|].
      destruct (isJob t) eqn:Hjob; simpl; [done|]. by rewrite Hjob.
    + rewrite Htrig, existsb_app. simpl. rewrite orb_true_r.
      destruct (all_run_step (sizes i) w0 w (Hsizes i) Hwf Htrack)
        as (w' & -> & Hge & Hnext).
      apply IH. destruct Hnext as [Hfin|(Htrack' & Htrig' & Hless)]; [by left|].
      right. split; [done|]. split; [done|]. lia.
Qed.

(** X30. A run of the all-sheets script ends clean. From the menu
    entry, with batches of any positive sizes and whatever the task
    service answers, on a spreadsheet each of whose sheets with data rows
    has a column, the invocations walk through all the sheets, those
    without the required headers included, and after at most one
    invocation for each data row, one more for each sheet and a last one,
    the four properties are deleted, no trigger of the handler is left
    while those of other handlers are kept, the sheets are as they were
    and the last log line is the one of the clean-up. *)
Theorem X30_all_sheets_run_ends_clean sizes fuel (w : AllSheets.World R) :
  (∀ j, 1 ≤ sizes j) →
  Forall AllSheets.WellFormed (AllSheets.sheets w) →
  AllSheets.costFrom (AllSheets.sheets w) 0 ≤ Z.of_nat fuel →
  AllSheets.properties (AllSheets.exportRun fuel sizes w) = AllSheets.noProps
  ∧ AllSheets.triggers (AllSheets.exportRun fuel sizes w) = AllSheets.foreignTriggers w
  ∧ AllSheets.sheets (AllSheets.exportRun fuel sizes w) = AllSheets.sheets w
  ∧ last (AllSheets.trace (AllSheets.exportRun fuel sizes w))
    = Some (AllSheets.ELog AllSheets.LogAllDone).
Proof.
  intros Hsizes Hwf Hfuel.
  assert (AllSheets.createTasksFromAllSheetsWith (sizes 0%nat) w
          = AllSheets.continueProcessWith (sizes 0%nat) (AllSheets.startedWorld w))
    as Hstart.
  { unfold AllSheets.createTasksFromAllSheetsWith.
    do 4 (erewrite script_bind_ok; [|reflexivity]).
    erewrite script_bind_ok; [|apply all_deleteExistingTriggers_spec]. reflexivity. }
  assert (AllSheets.OnTrack w (AllSheets.startedWorld w)) as Htrack.
  { assert (AllSheets.sheetIndex (AllSheets.startedWorld w) = 0) as Hi0 by reflexivity.
    assert (AllSheets.cursor (AllSheets.startedWorld w) = 2) as Hc0 by reflexivity.
    unfold AllSheets.OnTrack. rewrite Hi0, Hc0. split; [reflexivity|].
    split; [unfold AllSheets.foreignTriggers, AllSheets.startedWorld; simpl;
            apply filter_foreign_idem|].
    split; [lia|]. split; [lia|]. split; [intros; lia|]. done. }
  destruct (all_run_step (sizes 0%nat) w (AllSheets.startedWorld w) (Hsizes 0%nat) Hwf Htrack)
    as (w1 & Hrun & _ & Hnext).
  unfold AllSheets.exportRun. rewrite Hstart, Hrun.
  apply (all_fire_finishes sizes w Hsizes Hwf fuel 1%nat w1).
  destruct Hnext as [Hfin|(Htrack1 & Htrig1 & Hless)]; [by left|].
  right. split; [done|]. split; [done|].
  assert (AllSheets.remaining (AllSheets.startedWorld w)
          = AllSheets.costFrom (AllSheets.sheets w) 0 + 1) as Hrem.
  { unfold AllSheets.remaining.
    change (AllSheets.sheetIndex (AllSheets.startedWorld w)) with 0.
    change (AllSheets.cursor (AllSheets.startedWorld w)) with 2.
    change (AllSheets.sheets (AllSheets.startedWorld w)) with (AllSheets.sheets w). lia. }
  lia.
Qed.

End AllSheetsRun.

Lemma X26_witness :
  AllSheets.currentSheet AllSamples.firstDone = Some Demo.sheet
  ∧ getLastRow Demo.sheet < AllSheets.cursor AllSamples.firstDone
  ∧ ∃ w',
      AllSheets.continueProcessWith (Srv := storeServices lenient) BATCH_SIZE
        AllSamples.firstDone = (Ok tt, w')
      ∧ AllSheets.properties w'
        = AllSheets.mkProps None (Some (AllSheets.sheetIndex AllSamples.firstDone + 1))
            (AllSheets.prop_CACHE (AllSheets.properties AllSamples.firstDone)) None
      ∧ AllSheets.sheetIndex w' = AllSheets.sheetIndex AllSamples.firstDone + 1
      ∧ AllSheets.cursor w' = 2
      ∧ AllSheets.loadedListTitle w' = None
      ∧ AllSheets.triggers w'
        = AllSheets.foreignTriggers AllSamples.firstDone ++ [AllSheets.job]
      ∧ AllSheets.sheets w' = AllSheets.sheets AllSamples.firstDone
      ∧ AllSheets.remote w' = AllSheets.remote AllSamples.firstDone
      ∧ AllSheets.trace w'
        = AllSheets.trace AllSamples.firstDone
          ++ [AllSheets.ELog (AllSheets.LogSheetDone (sheetName Demo.sheet))].
Proof.
  split; [reflexivity|]. split; [reflexivity|].
  apply (X26_all_sheets_next_sheet_starts_afresh (Srv := storeServices lenient)
           BATCH_SIZE AllSamples.firstDone Demo.sheet); reflexivity.
Defined.

Lemma X27_witness :
  AllSheets.currentSheet AllSamples.atPlain = Some Samples.plain
  ∧ AllSheets.cursor AllSamples.atPlain ≤ getLastRow Samples.plain
  ∧ 1 ≤ getLastColumn Samples.plain
  ∧ columnsOf Samples.plain = None
  ∧ ∃ w' mid,
      AllSheets.continueProcessWith (Srv := storeServices lenient) BATCH_SIZE
        AllSamples.atPlain = (Ok tt, w')
      ∧ AllSheets.properties w'
        = AllSheets.mkProps None (Some (AllSheets.sheetIndex AllSamples.atPlain + 1))
            (AllSheets.prop_CACHE (AllSheets.properties AllSamples.atPlain))
            (AllSheets.prop_LIST (AllSheets.properties AllSamples.atPlain))
      ∧ AllSheets.triggers w'
        = AllSheets.foreignTriggers AllSamples.atPlain ++ [AllSheets.job]
      ∧ AllSheets.sheets w' = AllSheets.sheets AllSamples.atPlain
      ∧ AllSheets.trace w'
        = AllSheets.trace AllSamples.atPlain
          ++ [AllSheets.ELog
                (AllSheets.LogStarting (sheetName Samples.plain)
                   (AllSheets.cursor AllSamples.atPlain));
              AllSheets.ETasklistsList]
          ++ mid ++ [AllSheets.ELog (AllSheets.LogMissingHeaders (sheetName Samples.plain))]
      ∧ (mid = [] ∨ mid = [AllSheets.ELog AllSheets.LogCacheRefreshFailed]).
Proof.
  split; [reflexivity|]. split; [apply Z.leb_le; reflexivity|].
  split; [apply Z.leb_le; reflexivity|]. split; [reflexivity|].
  apply (X27_all_sheets_skip_sheet_without_headers (Srv := storeServices lenient)
           BATCH_SIZE AllSamples.atPlain Samples.plain).
  - reflexivity.
  - apply Z.leb_le; reflexivity.
  - apply Z.leb_le; reflexivity.
  - reflexivity.
Defined.

Lemma X28_witness :
  AllSheets.currentSheet AllSamples.fresh = Some Demo.sheet
  ∧ columnsOf Demo.sheet = Some Demo.cols
  ∧ 1 ≤ AllSheets.cursor AllSamples.fresh ≤ getLastRow Demo.sheet
  ∧ ∃ w',
      AllSheets.continueProcessWith (Srv := storeServices lenient) 2 AllSamples.fresh
      = (Ok tt, w')
      ∧ AllSheets.prop_ROW (AllSheets.properties w')
        = Some (AllSheets.cursor AllSamples.fresh
                + rowsToProcess Demo.sheet (AllSheets.cursor AllSamples.fresh) 2)
      ∧ AllSheets.cursor AllSamples.fresh < AllSheets.cursor w' ≤ getLastRow Demo.sheet + 1
      ∧ AllSheets.prop_SHEET (AllSheets.properties w')
        = Some (AllSheets.sheetIndex AllSamples.fresh)
      ∧ AllSheets.currentSheet w' = Some Demo.sheet
      ∧ AllSheets.triggers w' = AllSheets.foreignTriggers AllSamples.fresh ++ [AllSheets.job]
      ∧ AllSheets.sheets w' = AllSheets.sheets AllSamples.fresh.
Proof.
  split; [reflexivity|]. split; [reflexivity|].
  split; [split; apply Z.leb_le; reflexivity|].
  apply (X28_all_sheets_batch_checkpoints (Srv := storeServices lenient)
           2 AllSamples.fresh Demo.sheet Demo.cols).
  - reflexivity.
  - reflexivity.
  - split; apply Z.leb_le; reflexivity.
  - lia.
Defined.

Lemma X30_witness :
  AllSheets.properties
    (AllSheets.exportRun (Srv := storeServices lenient) 20 Samples.pairs AllSamples.fresh)
  = AllSheets.noProps
  ∧ AllSheets.triggers
      (AllSheets.exportRun (Srv := storeServices lenient) 20 Samples.pairs AllSamples.fresh)
    = AllSheets.foreignTriggers AllSamples.fresh
  ∧ AllSheets.sheets
      (AllSheets.exportRun (Srv := storeServices lenient) 20 Samples.pairs AllSamples.fresh)
    = AllSheets.sheets AllSamples.fresh
  ∧ last (AllSheets.trace
            (AllSheets.exportRun (Srv := storeServices lenient) 20 Samples.pairs
               AllSamples.fresh))
    = Some (AllSheets.ELog AllSheets.LogAllDone).
Proof.
  apply (X30_all_sheets_run_ends_clean (Srv := storeServices lenient)
           Samples.pairs 20 AllSamples.fresh).
  - intros j. unfold Samples.pairs. lia.
  - repeat constructor; intros _; apply Z.leb_le; reflexivity.
  - apply Z.leb_le. reflexivity.
Defined.
